(** * Light-field disparity pipeline: container codec, fixed-point core,
      low-pass stage, EPI builder, confidence and disparity fusion.

    Shallow embedding of the two integer-only pipeline variants
    ([Python/No_Libraries] and [Python/Bit_Manipulation]).  Python integers
    are [Z]; [bytes]/[bytearray] values are [list byte]; exceptions are the
    [Raise] results of a small error monad. *)

From Stdlib Require Import ZArith Lia Bool String.
From coqutil Require Import Byte.
From stdpp Require Import base tactics option list list_numbers.

Local Open Scope Z_scope.

(** ** Python runtime primitives used by the program *)

Module Py.

Inductive exn : Type :=
| ValueError (msg : string)
| IndexError
| OverflowError
| ZeroDivisionError.

(** Outcome of running a piece of the program: a value, a raised
    exception, or [OutOfFuel] when a [while] loop was cut off by the fuel
    bound of the model. *)
Inductive result (A : Type) : Type :=
| Ok (a : A)
| Raise (e : exn)
| OutOfFuel.
Arguments Ok {A} a.
Arguments Raise {A} e.
Arguments OutOfFuel {A}.

Definition bind {A B} (m : result A) (k : A -> result B) : result B :=
  match m with
  | Ok a => k a
  | Raise e => Raise e
  | OutOfFuel => OutOfFuel
  end.

Definition is_ok {A} (m : result A) : Prop := exists a, m = Ok a.

(** [for i in l: s = body i s] *)
Fixpoint for_each {I S} (l : list I) (body : I -> S -> result S) (s : S)
  : result S :=
  match l with
  | [] => Ok s
  | i :: l' => bind (body i s) (for_each l' body)
  end.

(** [range(n)] *)
Definition range (n : Z) : list Z := seqZ 0 n.

Definition len {A} (l : list A) : Z := Z.of_nat (length l).

(** [l[i]], negative indices counting from the end. *)
Definition getitem {A} (l : list A) (i : Z) : result A :=
  let j := if i <? 0 then i + len l else i in
  if j <? 0 then Raise IndexError
  else match l !! Z.to_nat j with
       | Some a => Ok a
       | None => Raise IndexError
       end.

(** [l[i] = v] on a Python list. *)
Definition setitem {A} (l : list A) (i : Z) (v : A) : result (list A) :=
  let j := if i <? 0 then i + len l else i in
  if (j <? 0) || (len l <=? j) then Raise IndexError
  else Ok (<[Z.to_nat j := v]> l).

(** Slice bound normalisation of [l[lo:hi]]. *)
Definition norm_idx (n i : Z) : Z :=
  if i <? 0 then Z.max 0 (i + n) else Z.min i n.

(** [l[lo:hi]] *)
Definition slice {A} (l : list A) (lo hi : Z) : list A :=
  let lo' := norm_idx (len l) lo in
  let hi' := norm_idx (len l) hi in
  take (Z.to_nat (hi' - lo')) (drop (Z.to_nat lo') l).

(** [l[lo:]] *)
Definition slice_from {A} (l : list A) (lo : Z) : list A :=
  drop (Z.to_nat (norm_idx (len l) lo)) l.

(** [out[lo:hi] = s] on a bytearray: the slice is replaced by [s], whatever
    the length of [s]. *)
Definition slice_assign {A} (out : list A) (lo hi : Z) (s : list A) : list A :=
  let lo' := norm_idx (len out) lo in
  let hi' := Z.max lo' (norm_idx (len out) hi) in
  take (Z.to_nat lo') out ++ s ++ drop (Z.to_nat hi') out.

(** [bytearray(n)] *)
Definition bytearray (n : Z) : result (list byte) :=
  if n <? 0 then Raise (ValueError "negative count")
  else Ok (replicate (Z.to_nat n) Byte.x00).

(** [b[i]] on bytes: the item is an int in [0, 256). *)
Definition byte_at (b : list byte) (i : Z) : result Z :=
  bind (getitem b i) (fun x => Ok (byte.unsigned x)).

(** [out[i] = v] on a bytearray. *)
Definition bytearray_set (out : list byte) (i : Z) (v : Z)
  : result (list byte) :=
  let j := if i <? 0 then i + len out else i in
  if (j <? 0) || (len out <=? j) then Raise IndexError
  else if (v <? 0) || (256 <=? v) then Raise (ValueError "byte must be in range(0, 256)")
  else Ok (<[Z.to_nat j := byte.of_Z v]> out).

(** [int.from_bytes(bs, "little", signed=False)] *)
Fixpoint from_bytes_le (bs : list byte) : Z :=
  match bs with
  | [] => 0
  | b :: r => byte.unsigned b + 256 * from_bytes_le r
  end.

(** The [n] low bytes of [v], least significant first. *)
Fixpoint le_bytes (n : nat) (v : Z) : list byte :=
  match n with
  | O => []
  | S n' => byte.of_Z v :: le_bytes n' (v / 256)
  end.

(** [v.to_bytes(n, "little", signed=False)] *)
Definition to_bytes_le (n : nat) (v : Z) : result (list byte) :=
  if (v <? 0) || (2 ^ (8 * Z.of_nat n) <=? v) then Raise OverflowError
  else Ok (le_bytes n v).

(** [a // b] *)
Definition floordiv (a b : Z) : result Z :=
  if b =? 0 then Raise ZeroDivisionError else Ok (a / b).

(** [a << n] and [a >> n] *)
Definition lshift (a n : Z) : result Z :=
  if n <? 0 then Raise (ValueError "negative shift count") else Ok (Z.shiftl a n).
Definition rshift (a n : Z) : result Z :=
  if n <? 0 then Raise (ValueError "negative shift count") else Ok (Z.shiftr a n).

(** [[v] * n] *)
Definition list_repeat {A} (v : A) (n : Z) : list A := replicate (Z.to_nat n) v.

End Py.

Export Py.

Declare Scope py_scope.
Delimit Scope py_scope with py.
Notation "x <- m ; k" := (bind m (fun x => k))
  (at level 20, m at level 100, k at level 200, only parsing) : py_scope.
Notation "' p <- m ; k" := (bind m (fun p => k))
  (at level 20, p pattern, m at level 100, k at level 200, only parsing) : py_scope.
Open Scope py_scope.

#[global] Instance byte_eq_dec : EqDecision byte := Byte.byte_eq_dec.

(** ** [Python/No_Libraries] *)

Module No_Libraries.

(** *** utils.py *)

Definition _MAGIC : list byte := [Byte.x49; Byte.x4d; Byte.x47; Byte.x42].

Definition Q_FRAC : Z := 12.
Definition Q_SCALE : Z := Z.shiftl 1 Q_FRAC.
Definition BIAS_INT : Z := 2048 * Q_SCALE.
Definition U24_MAX : Z := Z.shiftl 1 24 - 1.

Definition _u32_le (b : list byte) (off : Z) : Z :=
  from_bytes_le (slice b off (off + 4)).

Definition _bytes_per_sample (dtype_code : Z) : result Z :=
  if dtype_code =? 1 then Ok 1
  else if dtype_code =? 2 then Ok 2
  else if dtype_code =? 3 then Ok 4
  else if dtype_code =? 4 then Ok 3
  else Raise (ValueError "Unsupported dtype_code").

Definition imgb_parse (buf : list byte) : result (Z * Z * Z * Z * list byte) :=
  if len buf <? 16 then Raise (ValueError "IMGB buffer too small")
  else if bool_decide (slice buf 0 4 <> _MAGIC) then Raise (ValueError "Bad IMGB magic")
  else
    let W := _u32_le buf 4 in
    let H := _u32_le buf 8 in
    C <- byte_at buf 12 ;
    dtype_code <- byte_at buf 13 ;
    let payload := slice_from buf 16 in
    bps <- _bytes_per_sample dtype_code ;
    let expected := W * H * C * bps in
    if negb (len payload =? expected)
    then Raise (ValueError "IMGB payload size mismatch")
    else Ok (W, H, C, dtype_code, payload).

Definition imbg_parse_payload (buf : list byte) : list byte :=
  slice_from buf 16.

Definition imgb_make (W H C dtype_code : Z) (payload : list byte)
  : result (list byte) :=
  bps <- _bytes_per_sample dtype_code ;
  let expected := W * H * C * bps in
  if negb (len payload =? expected)
  then Raise (ValueError "Payload size mismatch")
  else
    hdr <- bytearray 16 ;
    let hdr := slice_assign hdr 0 4 _MAGIC in
    w4 <- to_bytes_le 4 W ;
    let hdr := slice_assign hdr 4 8 w4 in
    h4 <- to_bytes_le 4 H ;
    let hdr := slice_assign hdr 8 12 h4 in
    hdr <- bytearray_set hdr 12 (Z.land C 255) ;
    hdr <- bytearray_set hdr 13 (Z.land dtype_code 255) ;
    z2 <- to_bytes_le 2 0 ;
    let hdr := slice_assign hdr 14 16 z2 in
    Ok (hdr ++ payload).

Definition _u24_read (payload : list byte) (byte_off : Z) : result Z :=
  b0 <- byte_at payload byte_off ;
  b1 <- byte_at payload (byte_off + 1) ;
  b2 <- byte_at payload (byte_off + 2) ;
  Ok (Z.lor (Z.lor b0 (Z.shiftl b1 8)) (Z.shiftl b2 16)).

Definition _u24_write (out : list byte) (byte_off : Z) (v : Z)
  : result (list byte) :=
  let v := Z.land v U24_MAX in
  out <- bytearray_set out byte_off (Z.land v 255) ;
  out <- bytearray_set out (byte_off + 1) (Z.land (Z.shiftr v 8) 255) ;
  bytearray_set out (byte_off + 2) (Z.land (Z.shiftr v 16) 255).

(** *** cross.py *)

Definition _KERNELS (kernel_size : Z) : option (list (list Z) * Z) :=
  if kernel_size =? 3 then
    Some ([ [1; 2; 1];
            [2; 4; 2];
            [1; 2; 1] ], 16)
  else if kernel_size =? 5 then
    Some ([ [1; 2; 2; 2; 1];
            [2; 4; 4; 4; 2];
            [2; 4; 4; 4; 2];
            [2; 4; 4; 4; 2];
            [1; 2; 2; 2; 1] ], 64)
  else if kernel_size =? 7 then
    Some ([ [1; 1; 2; 2; 2; 1; 1];
            [1; 2; 4; 4; 4; 2; 1];
            [2; 4; 4; 4; 4; 4; 2];
            [2; 4; 4; 4; 4; 4; 2];
            [2; 4; 4; 4; 4; 4; 2];
            [1; 2; 4; 4; 4; 2; 1];
            [1; 1; 2; 2; 2; 1; 1] ], 128)
  else None.

(** [while i < 0 or i >= n: ...]; one unit of fuel per test of the loop
    condition. *)
Fixpoint _reflect_index (fuel : nat) (i n : Z) : result Z :=
  match fuel with
  | O => OutOfFuel
  | S fuel' =>
      if (i <? 0) || (n <=? i) then
        if i <? 0 then _reflect_index fuel' (- i) n
        else _reflect_index fuel' ((2 * n - 2) - i) n
      else Ok i
  end.

(** The tap list [(dy, dx, weight)] of a kernel. *)
Definition kernel_taps (K : list (list Z)) : result (list (Z * Z * Z)) :=
  let k := len K in
  let p := k / 2 in
  for_each (range k) (fun dy taps =>
    row <- getitem K dy ;
    let ddy := dy - p in
    for_each (range k) (fun dx taps =>
      w <- getitem row dx ;
      Ok (taps ++ [(ddy, dx - p, w)])) taps) [].

(** The three channel accumulators of one output pixel. *)
Definition accumulate (fuel : nat) (raw : list byte) (W H : Z)
    (taps : list (Z * Z * Z)) (y x : Z) : result (Z * Z * Z) :=
  for_each taps (fun '(dy, dx, w) '(acc0, acc1, acc2) =>
    yy <- _reflect_index fuel (y + dy) H ;
    xx <- _reflect_index fuel (x + dx) W ;
    let base := (yy * W + xx) * 3 in
    px0 <- byte_at raw (base + 0) ;
    px1 <- byte_at raw (base + 1) ;
    px2 <- byte_at raw (base + 2) ;
    Ok (acc0 + px0 * w, acc1 + px1 * w, acc2 + px2 * w)) (0, 0, 0).

Definition clamp_u8 (v : Z) : Z :=
  let v := if 255 <? v then 255 else v in
  if v <? 0 then 0 else v.

Definition _convolve_u8_rgb (fuel : nat) (raw : list byte) (W H : Z)
    (K : list (list Z)) (kernel_sum : Z) : result (list byte) :=
  taps <- kernel_taps K ;
  out <- bytearray (H * W * 3) ;
  let half := kernel_sum / 2 in
  for_each (range H) (fun y out =>
    for_each (range W) (fun x out =>
      '(acc0, acc1, acc2) <- accumulate fuel raw W H taps y x ;
      v0 <- floordiv (acc0 + half) kernel_sum ;
      v1 <- floordiv (acc1 + half) kernel_sum ;
      v2 <- floordiv (acc2 + half) kernel_sum ;
      let v0 := clamp_u8 v0 in
      let v1 := clamp_u8 v1 in
      let v2 := clamp_u8 v2 in
      let base_o := (y * W + x) * 3 in
      out <- bytearray_set out (base_o + 0) v0 ;
      out <- bytearray_set out (base_o + 1) v1 ;
      bytearray_set out (base_o + 2) v2) out) out.

Definition _u8_rgb_to_q12_12_u24_payload (raw_u8_rgb : list byte) (W H : Z)
  : result (list byte) :=
  out <- bytearray (W * H * 3 * 3) ;
  '(out, _) <- for_each raw_u8_rgb (fun b '(out, o) =>
    let v_q := byte.unsigned b * Q_SCALE in
    let u := v_q + BIAS_INT in
    let u := if u <? 0 then 0 else if U24_MAX <? u then U24_MAX else u in
    out <- bytearray_set out o (Z.land u 255) ;
    out <- bytearray_set out (o + 1) (Z.land (Z.shiftr u 8) 255) ;
    out <- bytearray_set out (o + 2) (Z.land (Z.shiftr u 16) 255) ;
    Ok (out, o + 3)) (out, 0) ;
  Ok out.

(** The body of the loop of [multiply_and_accumulate_low_pass_filter] over
    the files of the input folder, from the blob read to the blob saved,
    for the kernel [(K, kernel_sum)] looked up in [_KERNELS]. *)
Definition low_pass_blob (fuel : nat) (blob : list byte)
    (K : list (list Z)) (kernel_sum : Z) : result (list byte) :=
  '(W, H, C, dtype_code, payload) <- imgb_parse blob ;
  if negb (dtype_code =? 1) || negb (C =? 3)
  then Raise (ValueError "cross expects input u8 RGB IMGB")
  else
    blurred_u8 <- _convolve_u8_rgb fuel payload W H K kernel_sum ;
    out_payload <- _u8_rgb_to_q12_12_u24_payload blurred_u8 W H ;
    imgb_make W H 3 4 out_payload.

(** *** EPIs.py *)

Definition build_epis_imgb_in_memory
    (h_stack v_stack : list (list byte)) (dims : Z * Z * Z * Z)
    (y_rows x_cols : list Z) : result (list (list byte) * list (list byte)) :=
  let '(H, W, U, V) := dims in
  let bytes_per_pixel := 3 * 3 in
  let row_bytes := W * bytes_per_pixel in
  epi_h_imgb <- for_each y_rows (fun y epi_h_imgb =>
    out <- bytearray (U * row_bytes) ;
    let out_i := 0 in
    let row_base := y * row_bytes in
    '(out, out_i) <- for_each (range U) (fun u '(out, out_i) =>
      frame <- getitem h_stack u ;
      let out := slice_assign out out_i (out_i + row_bytes)
                   (slice frame row_base (row_base + row_bytes)) in
      Ok (out, out_i + row_bytes)) (out, out_i) ;
    blob <- imgb_make W U 3 4 out ;
    Ok (epi_h_imgb ++ [blob])) [] ;
  epi_v_imgb <- for_each x_cols (fun x epi_v_imgb =>
    out <- bytearray (V * H * bytes_per_pixel) ;
    let out_i := 0 in
    let col_off := x * bytes_per_pixel in
    '(out, out_i) <- for_each (range V) (fun v '(out, out_i) =>
      frame <- getitem v_stack v ;
      let src := col_off in
      '(out, out_i, src) <- for_each (range H) (fun _ '(out, out_i, src) =>
        let out := slice_assign out out_i (out_i + bytes_per_pixel)
                     (slice frame src (src + bytes_per_pixel)) in
        Ok (out, out_i + bytes_per_pixel, src + row_bytes)) (out, out_i, src) ;
      Ok (out, out_i)) (out, out_i) ;
    blob <- imgb_make H V 3 4 out ;
    Ok (epi_v_imgb ++ [blob])) [] ;
  Ok (epi_h_imgb, epi_v_imgb).

(** *** confidence.py *)

Definition _bias_from_q12_12 (q : Z) : Z :=
  let u := q + BIAS_INT in
  if u <? 0 then 0
  else if 16777215 <? u then 16777215
  else u.

Definition _abs_i32 (x : Z) : Z := if x <? 0 then - x else x.

Definition _round_div2 (x : Z) : Z :=
  if 0 <=? x then Z.shiftr (x + 1) 1
  else - Z.shiftr ((- x) + 1) 1.

(** The [A < 3] branch for one EPI: a volume of [A * n] samples, all set
    to the bias. *)
Definition zero_diff_volume (A n : Z) : result (list byte) :=
  out_diff <- bytearray (A * n * 3) ;
  for_each (range (A * n)) (fun i out_diff =>
    _u24_write out_diff (i * 3) BIAS_INT) out_diff.

(** The [A >= 3] branch for one EPI payload [pay] of [A] angular rows by
    [n] pixels: the angular central differences and, per pixel, the sum of
    their absolute values.  The horizontal loop runs it with [n = W], the
    vertical loop with [n = H]. *)
Definition diff_volume (pay : list byte) (A n ch : Z)
  : result (list byte * list Z) :=
  let BYTES_PER_PIXEL_RGB := 9 in
  out_diff <- bytearray (A * n * 3) ;
  let sum_abs := list_repeat 0 n in
  for_each (range A) (fun a '(out_diff, sum_abs) =>
    let base_out := (a * n) * 3 in
    if (a =? 0) || (a =? A - 1) then
      out_diff <- for_each (range n) (fun x out_diff =>
        _u24_write out_diff (base_out + x * 3) BIAS_INT) out_diff ;
      Ok (out_diff, sum_abs)
    else
      let a_m := a - 1 in
      let a_p := a + 1 in
      for_each (range n) (fun x '(out_diff, sum_abs) =>
        let idx_m := ((a_m * n + x) * BYTES_PER_PIXEL_RGB) + ch * 3 in
        let idx_p := ((a_p * n + x) * BYTES_PER_PIXEL_RGB) + ch * 3 in
        um <- _u24_read pay idx_m ;
        let Lm := um - BIAS_INT in
        up <- _u24_read pay idx_p ;
        let Lp := up - BIAS_INT in
        let d := _round_div2 (Lp - Lm) in
        out_diff <- _u24_write out_diff (base_out + x * 3) (_bias_from_q12_12 d) ;
        s <- getitem sum_abs x ;
        sum_abs <- setitem sum_abs x (s + _abs_i32 d) ;
        Ok (out_diff, sum_abs)) (out_diff, sum_abs)) (out_diff, sum_abs).

(** Packing of a signed Q12.12 map into a biased u24 payload. *)
Definition pack_q (C_q : list Z) (n : Z) : result (list byte) :=
  payload <- bytearray (n * 3) ;
  for_each (range n) (fun i payload =>
    q <- getitem C_q i ;
    _u24_write payload (i * 3) (_bias_from_q12_12 q)) payload.

Definition compute_from_epis_with_diffs
    (epi_h_imgb epi_v_imgb : list (list byte)) (channel : option Z)
  : result (list byte * list byte * list (list byte) * list (list byte)) :=
  let ch := match channel with None => 0 | Some c => c end in
  let H_img := len epi_h_imgb in
  let W_img := len epi_v_imgb in
  if (H_img =? 0) || (W_img =? 0) then Raise (ValueError "Empty epi lists")
  else
    eh0 <- getitem epi_h_imgb 0 ;
    '(W_h, A_h, C_hc, dt_h, _) <- imgb_parse eh0 ;
    ev0 <- getitem epi_v_imgb 0 ;
    '(W_v, A_v, C_vc, dt_v, _) <- imgb_parse ev0 ;
    if negb (dt_h =? 4) || negb (dt_v =? 4)
    then Raise (ValueError "EPIs must be dtype_code=4 (u24 Q12.12 biased)")
    else if negb (C_hc =? 3) || negb (C_vc =? 3)
    then Raise (ValueError "EPIs must be RGB (C=3)")
    else
      let W := W_h in
      let A := A_h in
      let H := H_img in
      if negb (W_img =? W)
      then Raise (ValueError "epi_v_imgb length must equal image width W")
      else if negb (W_v =? H)
      then Raise (ValueError "vertical EPI width must equal image height H")
      else if negb (A_v =? A)
      then Raise (ValueError "horizontal/vertical angular counts must match")
      else
        (* Horizontal diffs + C_h *)
        let C_h_q := list_repeat 0 (H * W) in
        '(dL_du_h, C_h_q) <-
          (if A <? 3 then
             dL_du_h <- for_each (range H) (fun y dL_du_h =>
               out_diff <- zero_diff_volume A W ;
               blob <- imgb_make W A 1 4 out_diff ;
               Ok (dL_du_h ++ [blob])) [] ;
             Ok (dL_du_h, C_h_q)
           else
             let denom := A - 2 in
             for_each (range H) (fun y '(dL_du_h, C_h_q) =>
               epi <- getitem epi_h_imgb y ;
               let pay := imbg_parse_payload epi in
               '(out_diff, sum_abs) <- diff_volume pay A W ch ;
               let row_base := y * W in
               let half := denom / 2 in
               C_h_q <- for_each (range W) (fun x C_h_q =>
                 s <- getitem sum_abs x ;
                 m <- floordiv (s + half) denom ;
                 setitem C_h_q (row_base + x) m) C_h_q ;
               blob <- imgb_make W A 1 4 out_diff ;
               Ok (dL_du_h ++ [blob], C_h_q)) ([], C_h_q)) ;
        C_h_payload <- pack_q C_h_q (H * W) ;
        C_h_imgb <- imgb_make W H 1 4 C_h_payload ;
        (* Vertical diffs + C_v *)
        let C_v_q := list_repeat 0 (H * W) in
        '(dL_dv_v, C_v_q) <-
          (if A <? 3 then
             dL_dv_v <- for_each (range W) (fun x dL_dv_v =>
               out_diff <- zero_diff_volume A H ;
               blob <- imgb_make H A 1 4 out_diff ;
               Ok (dL_dv_v ++ [blob])) [] ;
             Ok (dL_dv_v, C_v_q)
           else
             let denom := A - 2 in
             for_each (range W) (fun x '(dL_dv_v, C_v_q) =>
               epi <- getitem epi_v_imgb x ;
               let pay := imbg_parse_payload epi in
               '(out_diff, sum_abs) <- diff_volume pay A H ch ;
               let half := denom / 2 in
               C_v_q <- for_each (range H) (fun y C_v_q =>
                 s <- getitem sum_abs y ;
                 m <- floordiv (s + half) denom ;
                 setitem C_v_q (y * W + x) m) C_v_q ;
               blob <- imgb_make H A 1 4 out_diff ;
               Ok (dL_dv_v ++ [blob], C_v_q)) ([], C_v_q)) ;
        C_v_payload <- pack_q C_v_q (H * W) ;
        C_v_imgb <- imgb_make W H 1 4 C_v_payload ;
        Ok (C_h_imgb, C_v_imgb, dL_du_h, dL_dv_v).

Definition fuse_avg (C_h_imgb C_v_imgb : list byte) : result (list byte) :=
  '(W1, H1, C1, dt1, p1) <- imgb_parse C_h_imgb ;
  '(W2, H2, C2, dt2, p2) <- imgb_parse C_v_imgb ;
  if negb (W1 =? W2) || negb (H1 =? H2) || negb (C1 =? 1) || negb (C2 =? 1)
     || negb (dt1 =? 4) || negb (dt2 =? 4)
  then Raise (ValueError "fuse_avg expects both inputs as IMGB dtype_code=4, C=1, same dims")
  else
    let n := W1 * H1 in
    out <- bytearray (n * 3) ;
    out <- for_each (range n) (fun i out =>
      ua <- _u24_read p1 (i * 3) ;
      let a := ua - BIAS_INT in
      ub <- _u24_read p2 (i * 3) ;
      let b := ub - BIAS_INT in
      let s := a + b in
      let avg := _round_div2 s in
      _u24_write out (i * 3) (_bias_from_q12_12 avg)) out ;
    imgb_make W1 H1 1 4 out.

(** *** disparity.py *)

Definition _bias_q (q : Z) : Z :=
  let u := q + BIAS_INT in
  if u <? 0 then 0
  else if U24_MAX <? u then U24_MAX
  else u.

(** Box sum over a 2D plane through an integral image.  [ia1] and [ia0]
    of the source are references to rows of [integ]: writes through [ia1]
    are writes to row [a + 1] of [integ]. *)
Definition _box_sum_2d_int (plane : list (list Z)) (win : Z)
  : result (list (list Z)) :=
  if win <=? 1 then Ok plane
  else
    let r := win / 2 in
    let A := len plane in
    W <- (if 0 <? A then p0 <- getitem plane 0 ; Ok (len p0) else Ok 0) ;
    let integ := (fun _ => list_repeat 0 (W + 1)) <$> range (A + 1) in
    integ <- for_each (range A) (fun a integ =>
      let row_sum := 0 in
      prow <- getitem plane a ;
      '(row_sum, integ) <- for_each (range W) (fun x '(row_sum, integ) =>
        p <- getitem prow x ;
        let row_sum := row_sum + p in
        ia0 <- getitem integ a ;
        v <- getitem ia0 (x + 1) ;
        ia1 <- getitem integ (a + 1) ;
        ia1 <- setitem ia1 (x + 1) (v + row_sum) ;
        integ <- setitem integ (a + 1) ia1 ;
        Ok (row_sum, integ)) (row_sum, integ) ;
      Ok integ) integ ;
    let out := (fun _ => list_repeat 0 W) <$> range A in
    for_each (range A) (fun a out =>
      let a0 := a - r in
      let a1 := a + r in
      let a0 := if a0 <? 0 then 0 else a0 in
      let a1 := if A <=? a1 then A - 1 else a1 in
      ia0 <- getitem integ a0 ;
      ia1 <- getitem integ (a1 + 1) ;
      for_each (range W) (fun x out =>
        let x0 := x - r in
        let x1 := x + r in
        let x0 := if x0 <? 0 then 0 else x0 in
        let x1 := if W <=? x1 then W - 1 else x1 in
        s11 <- getitem ia1 (x1 + 1) ;
        s01 <- getitem ia0 (x1 + 1) ;
        s10 <- getitem ia1 x0 ;
        s00 <- getitem ia0 x0 ;
        let s := s11 - s01 - s10 + s00 in
        orow <- getitem out a ;
        orow <- setitem orow x s ;
        setitem out a orow) out) out.

End No_Libraries.

(** ** [Python/Bit_Manipulation]: the variant specialised to 512 x 512
    images and 9 angular samples *)

Module Bit_Manipulation.

(** *** utils.py *)

Definition _MAGIC : list byte := [Byte.x49; Byte.x4d; Byte.x47; Byte.x42].

Definition Q_FRAC : Z := 12.
Definition Q_SCALE : Z := 4096.
Definition BIAS_INT : Z := 8388608.
Definition U24_MAX : Z := 16777215.
Definition WH_SHIFT : Z := 9.
Definition WH_SIZE : Z := 512.
Definition EPI_UV : Z := 9.

Definition _u32_le (b : list byte) (off : Z) : Z :=
  from_bytes_le (slice b off (off + 4)).

Definition imgb_parse (buf : list byte) : result (Z * Z * Z * Z * list byte) :=
  let W := _u32_le buf 4 in
  let H := _u32_le buf 8 in
  C <- byte_at buf 12 ;
  dtype_code <- byte_at buf 13 ;
  let payload := slice_from buf 16 in
  Ok (W, H, C, dtype_code, payload).

Definition imgb_parse_wh_payload (buf : list byte) : Z * Z * list byte :=
  let W := _u32_le buf 4 in
  let H := _u32_le buf 8 in
  let payload := slice_from buf 16 in
  (W, H, payload).

Definition imbg_parse_payload (buf : list byte) : list byte :=
  slice_from buf 16.

Definition imgb_make (W H C dtype_code : Z) (payload : list byte)
  : result (list byte) :=
  hdr <- bytearray 16 ;
  let hdr := slice_assign hdr 0 4 _MAGIC in
  w4 <- to_bytes_le 4 W ;
  let hdr := slice_assign hdr 4 8 w4 in
  h4 <- to_bytes_le 4 H ;
  let hdr := slice_assign hdr 8 12 h4 in
  hdr <- bytearray_set hdr 12 (Z.land C 255) ;
  hdr <- bytearray_set hdr 13 (Z.land dtype_code 255) ;
  z2 <- to_bytes_le 2 0 ;
  let hdr := slice_assign hdr 14 16 z2 in
  Ok (hdr ++ payload).

Definition _u24_read (payload : list byte) (byte_off : Z) : result Z :=
  b0 <- byte_at payload byte_off ;
  b1 <- byte_at payload (byte_off + 1) ;
  b2 <- byte_at payload (byte_off + 2) ;
  Ok (Z.lor (Z.lor b0 (Z.shiftl b1 8)) (Z.shiftl b2 16)).

Definition _u24_write (out : list byte) (byte_off : Z) (v : Z)
  : result (list byte) :=
  let v := Z.land v U24_MAX in
  out <- bytearray_set out byte_off (Z.land v 255) ;
  out <- bytearray_set out (byte_off + 1) (Z.land (Z.shiftr v 8) 255) ;
  bytearray_set out (byte_off + 2) (Z.land (Z.shiftr v 16) 255).

(** *** cross.py *)

Definition HW_X3 : Z := 786432.
Definition WH_X9 : Z := 2359296.

(** Kernels as exponent maps: weight [2^E_ij], normalisation by a right
    shift. *)
Definition _KERNELS (kernel_size : Z) : option (list (list Z) * Z) :=
  if kernel_size =? 3 then
    Some ([ [0; 1; 0];
            [1; 2; 1];
            [0; 1; 0] ], 4)
  else if kernel_size =? 5 then
    Some ([ [0; 1; 1; 1; 0];
            [1; 2; 2; 2; 1];
            [1; 2; 2; 2; 1];
            [1; 2; 2; 2; 1];
            [0; 1; 1; 1; 0] ], 6)
  else if kernel_size =? 7 then
    Some ([ [0; 0; 1; 1; 1; 0; 0];
            [0; 1; 2; 2; 2; 1; 0];
            [1; 2; 2; 2; 2; 2; 1];
            [1; 2; 2; 2; 2; 2; 1];
            [1; 2; 2; 2; 2; 2; 1];
            [0; 1; 2; 2; 2; 1; 0];
            [0; 0; 1; 1; 1; 0; 0] ], 7)
  else None.

Fixpoint _reflect_index (fuel : nat) (i n : Z) : result Z :=
  match fuel with
  | O => OutOfFuel
  | S fuel' =>
      if (i <? 0) || (n <=? i) then
        if i <? 0 then _reflect_index fuel' (- i) n
        else _reflect_index fuel' ((Z.shiftl n 1 - 2) - i) n
      else Ok i
  end.

Definition kernel_taps (E : list (list Z)) : result (list (Z * Z * Z)) :=
  let k := len E in
  let p := Z.shiftr k 1 in
  for_each (range k) (fun dy taps =>
    row <- getitem E dy ;
    let ddy := dy - p in
    for_each (range k) (fun dx taps =>
      e <- getitem row dx ;
      Ok (taps ++ [(ddy, dx - p, e)])) taps) [].

Definition accumulate (fuel : nat) (raw : list byte) (W H : Z)
    (taps : list (Z * Z * Z)) (y x : Z) : result (Z * Z * Z) :=
  for_each taps (fun '(dy, dx, e) '(acc0, acc1, acc2) =>
    yy <- _reflect_index fuel (y + dy) H ;
    xx <- _reflect_index fuel (x + dx) W ;
    let idx := Z.shiftl yy WH_SHIFT + xx in
    let base := Z.shiftl idx 1 + idx in
    px0 <- byte_at raw (base + 0) ;
    t0 <- lshift px0 e ;
    px1 <- byte_at raw (base + 1) ;
    t1 <- lshift px1 e ;
    px2 <- byte_at raw (base + 2) ;
    t2 <- lshift px2 e ;
    Ok (acc0 + t0, acc1 + t1, acc2 + t2)) (0, 0, 0).

Definition _convolve_u8_rgb (fuel : nat) (raw : list byte) (W H : Z)
    (E : list (list Z)) (norm_shift : Z) : result (list byte) :=
  taps <- kernel_taps E ;
  out <- bytearray HW_X3 ;
  for_each (range H) (fun y out =>
    for_each (range W) (fun x out =>
      '(acc0, acc1, acc2) <- accumulate fuel raw W H taps y x ;
      v0 <- rshift acc0 norm_shift ;
      v1 <- rshift acc1 norm_shift ;
      v2 <- rshift acc2 norm_shift ;
      let v0 := if 255 <? v0 then 255 else v0 in
      let v1 := if 255 <? v1 then 255 else v1 in
      let v2 := if 255 <? v2 then 255 else v2 in
      let idx_o := Z.shiftl y WH_SHIFT + x in
      let base_o := Z.shiftl idx_o 1 + idx_o in
      out <- bytearray_set out (base_o + 0) v0 ;
      out <- bytearray_set out (base_o + 1) v1 ;
      bytearray_set out (base_o + 2) v2) out) out.

Definition _u8_rgb_to_q12_12_u24_payload (raw_u8_rgb : list byte) (W H : Z)
  : result (list byte) :=
  out <- bytearray WH_X9 ;
  '(out, _) <- for_each raw_u8_rgb (fun b '(out, o) =>
    let v_q := Z.shiftl (byte.unsigned b) Q_FRAC in
    let u := v_q + BIAS_INT in
    let u := if u <? 0 then 0 else if U24_MAX <? u then U24_MAX else u in
    out <- bytearray_set out o (Z.land u 255) ;
    out <- bytearray_set out (o + 1) (Z.land (Z.shiftr u 8) 255) ;
    out <- bytearray_set out (o + 2) (Z.land (Z.shiftr u 16) 255) ;
    Ok (out, o + 3)) (out, 0) ;
  Ok out.

(** The body of the loop of [bit_shift_low_pass_filter] over the files of
    the input folder, from the blob read to the blob saved, for the kernel
    [(E, norm_shift)] looked up in [_KERNELS]. *)
Definition low_pass_blob (fuel : nat) (blob : list byte)
    (E : list (list Z)) (norm_shift : Z) : result (list byte) :=
  let '(W, H, payload) := imgb_parse_wh_payload blob in
  blurred_u8 <- _convolve_u8_rgb fuel payload W H E norm_shift ;
  out_payload <- _u8_rgb_to_q12_12_u24_payload blurred_u8 W H ;
  imgb_make W H 3 4 out_payload.

(** *** EPIs.py *)

Definition BYTES_PER_SAMPLE : Z := 3.
Definition BYTES_PER_PIXEL_RGB : Z := 9.
Definition EPI_ROW_BYTES : Z := 4608.
Definition ROW_BYTES_X3 : Z := 13824.
Definition ROW_BYTES_X9 : Z := 41472.

Definition build_epis_imgb_in_memory
    (h_stack v_stack : list (list byte)) (dims : Z * Z * Z * Z)
    (y_rows x_cols : list Z) : result (list (list byte) * list (list byte)) :=
  let '(cross_h, cross_w, U, V) := dims in
  let EPI_W_H := cross_w in
  let EPI_H_H := U in
  let EPI_W_V := cross_h in
  let EPI_H_V := V in
  epi_h_imgb <- for_each y_rows (fun y epi_h_imgb =>
    out <- bytearray ROW_BYTES_X9 ;
    let out_i := 0 in
    let row_base := y * EPI_ROW_BYTES in
    '(out, out_i) <- for_each (range EPI_H_H) (fun u '(out, out_i) =>
      frame <- getitem h_stack u ;
      let out := slice_assign out out_i (out_i + EPI_ROW_BYTES)
                   (slice frame row_base (row_base + EPI_ROW_BYTES)) in
      Ok (out, out_i + EPI_ROW_BYTES)) (out, out_i) ;
    blob <- imgb_make EPI_W_H EPI_H_H 3 4 out ;
    Ok (epi_h_imgb ++ [blob])) [] ;
  epi_v_imgb <- for_each x_cols (fun x epi_v_imgb =>
    out <- bytearray ROW_BYTES_X9 ;
    let out_i := 0 in
    let col_off := Z.shiftl x 3 + x in
    '(out, out_i) <- for_each (range EPI_H_V) (fun v '(out, out_i) =>
      frame <- getitem v_stack v ;
      let src := col_off in
      '(out, out_i, src) <- for_each (range EPI_W_V) (fun _ '(out, out_i, src) =>
        let out := slice_assign out out_i (out_i + BYTES_PER_PIXEL_RGB)
                     (slice frame src (src + BYTES_PER_PIXEL_RGB)) in
        Ok (out, out_i + BYTES_PER_PIXEL_RGB, src + EPI_ROW_BYTES)) (out, out_i, src) ;
      Ok (out, out_i)) (out, out_i) ;
    blob <- imgb_make EPI_W_V EPI_H_V 3 4 out ;
    Ok (epi_v_imgb ++ [blob])) [] ;
  Ok (epi_h_imgb, epi_v_imgb).

(** *** confidence.py *)

Definition N_IMG : Z := 262144.
Definition OUT_IMG_BYTES : Z := 786432.
Definition DIFF_ROW_BYTES : Z := 1536.
Definition DEMONINATOR : Z := 7.
Definition DEMONINATOR_HALF : Z := 3.
Definition DIFF_PAY_BYTES : Z := ROW_BYTES_X3.

Definition _bias_from_q12_12 (q : Z) : Z :=
  let u := q + BIAS_INT in
  if u <? 0 then 0
  else if U24_MAX <? u then U24_MAX
  else u.

Definition _abs_i32 (x : Z) : Z := if x <? 0 then - x else x.

Definition _round_div2 (x : Z) : Z :=
  if 0 <=? x then Z.shiftr (x + 1) 1
  else - Z.shiftr ((- x) + 1) 1.

(** The body shared, up to the names of its variables, by the horizontal
    loop over [y] and the vertical loop over [x]: the angular differences
    of one EPI payload and the per-pixel sums of their absolute values.
    The [while] loops count [xi] from 0 to [WH_SIZE]. *)
Definition diff_volume (pay : list byte) (CH_OFF : Z)
  : result (list byte * list Z) :=
  out_diff <- bytearray DIFF_PAY_BYTES ;
  let sum_abs := list_repeat 0 WH_SIZE in
  let out_row_base := 0 in
  '(out_diff, sum_abs, _) <-
    for_each (range EPI_UV) (fun a '(out_diff, sum_abs, out_row_base) =>
      '(out_diff, sum_abs) <-
        (if (a =? 0) || (a =? EPI_UV - 1) then
           let o := out_row_base in
           '(out_diff, _) <- for_each (range WH_SIZE) (fun _x '(out_diff, o) =>
             out_diff <- _u24_write out_diff o BIAS_INT ;
             Ok (out_diff, o + BYTES_PER_SAMPLE)) (out_diff, o) ;
           Ok (out_diff, sum_abs)
         else
           let a_m := a - 1 in
           let a_p := a + 1 in
           let pay_row_base_m := a_m * EPI_ROW_BYTES in
           let pay_row_base_p := a_p * EPI_ROW_BYTES in
           let x9 := 0 in
           let o := out_row_base in
           '(out_diff, sum_abs, _, _) <-
             for_each (range WH_SIZE) (fun xi '(out_diff, sum_abs, x9, o) =>
               let idx_m := pay_row_base_m + x9 + CH_OFF in
               let idx_p := pay_row_base_p + x9 + CH_OFF in
               um <- _u24_read pay idx_m ;
               let Lm := um - BIAS_INT in
               up <- _u24_read pay idx_p ;
               let Lp := up - BIAS_INT in
               let d := _round_div2 (Lp - Lm) in
               out_diff <- _u24_write out_diff o (_bias_from_q12_12 d) ;
               s <- getitem sum_abs xi ;
               sum_abs <- setitem sum_abs xi (s + _abs_i32 d) ;
               Ok (out_diff, sum_abs, x9 + BYTES_PER_PIXEL_RGB, o + BYTES_PER_SAMPLE))
               (out_diff, sum_abs, x9, o) ;
           Ok (out_diff, sum_abs)) ;
      Ok (out_diff, sum_abs, out_row_base + DIFF_ROW_BYTES))
    (out_diff, sum_abs, out_row_base) ;
  Ok (out_diff, sum_abs).

Definition pack_q (C_q : list Z) : result (list byte) :=
  payload <- bytearray OUT_IMG_BYTES ;
  '(payload, _) <- for_each (range N_IMG) (fun i '(payload, o) =>
    q <- getitem C_q i ;
    payload <- _u24_write payload o (_bias_from_q12_12 q) ;
    Ok (payload, o + BYTES_PER_SAMPLE)) (payload, 0) ;
  Ok payload.

Definition compute_from_epis_with_diffs
    (epi_h_imgb epi_v_imgb : list (list byte)) (channel : option Z)
  : result (list byte * list byte * list (list byte) * list (list byte)) :=
  let ch := match channel with None => 0 | Some c => c end in
  let CH_OFF := Z.shiftl ch 1 + ch in
  (* Horizontal diffs + C_h *)
  let C_h_q := (fun _ => 0) <$> range N_IMG in
  '(dL_du_h, C_h_q) <-
    for_each (range WH_SIZE) (fun y '(dL_du_h, C_h_q) =>
      epi <- getitem epi_h_imgb y ;
      let pay := imbg_parse_payload epi in
      '(out_diff, sum_abs) <- diff_volume pay CH_OFF ;
      let row_base := Z.shiftl y WH_SHIFT in
      C_h_q <- for_each (range WH_SIZE) (fun x C_h_q =>
        s <- getitem sum_abs x ;
        m <- floordiv (s + DEMONINATOR_HALF) DEMONINATOR ;
        setitem C_h_q (row_base + x) m) C_h_q ;
      blob <- imgb_make WH_SIZE EPI_UV 1 4 out_diff ;
      Ok (dL_du_h ++ [blob], C_h_q)) ([], C_h_q) ;
  C_h_payload <- pack_q C_h_q ;
  C_h_imgb <- imgb_make WH_SIZE WH_SIZE 1 4 C_h_payload ;
  (* Vertical diffs + C_v *)
  let C_v_q := (fun _ => 0) <$> range N_IMG in
  '(dL_dv_v, C_v_q) <-
    for_each (range WH_SIZE) (fun x '(dL_dv_v, C_v_q) =>
      epi <- getitem epi_v_imgb x ;
      let pay := imbg_parse_payload epi in
      '(out_diff, sum_abs) <- diff_volume pay CH_OFF ;
      C_v_q <- for_each (range WH_SIZE) (fun y C_v_q =>
        s <- getitem sum_abs y ;
        m <- floordiv (s + DEMONINATOR_HALF) DEMONINATOR ;
        setitem C_v_q (Z.shiftl y WH_SHIFT + x) m) C_v_q ;
      blob <- imgb_make WH_SIZE EPI_UV 1 4 out_diff ;
      Ok (dL_dv_v ++ [blob], C_v_q)) ([], C_v_q) ;
  C_v_payload <- pack_q C_v_q ;
  C_v_imgb <- imgb_make WH_SIZE WH_SIZE 1 4 C_v_payload ;
  Ok (C_h_imgb, C_v_imgb, dL_du_h, dL_dv_v).

Definition fuse_avg (C_h_imgb C_v_imgb : list byte) : result (list byte) :=
  let p1 := imbg_parse_payload C_h_imgb in
  let p2 := imbg_parse_payload C_v_imgb in
  out <- bytearray OUT_IMG_BYTES ;
  '(out, _, _) <- for_each (range N_IMG) (fun k '(out, o, i3) =>
    ua <- _u24_read p1 i3 ;
    let a := ua - BIAS_INT in
    ub <- _u24_read p2 i3 ;
    let b := ub - BIAS_INT in
    let avg := _round_div2 (a + b) in
    out <- _u24_write out o (_bias_from_q12_12 avg) ;
    Ok (out, o + 3, i3 + 3)) (out, 0, 0) ;
  imgb_make WH_SIZE WH_SIZE 1 4 out.

(** *** disparity.py *)

Definition Q_ONE : Z := Z.shiftl 1 Q_FRAC.

Definition _bias_q (q : Z) : Z :=
  let u := q + BIAS_INT in
  if u <? 0 then 0
  else if U24_MAX <? u then U24_MAX
  else u.

Definition _abs_i (x : Z) : Z := if x <? 0 then - x else x.

Definition _div_q12 (num_q12 den_q12 : Z) : Z :=
  if den_q12 =? 0 then 0
  else if 0 <=? num_q12
       then (Z.shiftl num_q12 Q_FRAC + Z.shiftr den_q12 1) / den_q12
       else - ((Z.shiftl (- num_q12) Q_FRAC + Z.shiftr den_q12 1) / den_q12).

Definition _inv_q12 (den_q12 : Z) : Z :=
  if den_q12 =? 0 then 0
  else
    let num := Z.shiftl Q_ONE Q_FRAC in
    if 0 <? den_q12 then (num + Z.shiftr den_q12 1) / den_q12
    else - ((num + Z.shiftr (- den_q12) 1) / (- den_q12)).

Definition _mul_q12 (a_q12 b_q12 : Z) : Z :=
  let prod := a_q12 * b_q12 in
  if 0 <=? prod then Z.shiftr (prod + Z.shiftl 1 (Q_FRAC - 1)) Q_FRAC
  else - Z.shiftr ((- prod) + Z.shiftl 1 (Q_FRAC - 1)) Q_FRAC.

(** The [while e > 0] loop of [_pow_q12_int], by recursion on the binary
    digits of [e]: [e & 1] is the low digit and [e >>= 1] drops it; after
    the last digit [e] is 0 and [b] is not squared again. *)
Fixpoint pow_loop (e : positive) (result b : Z) : Z :=
  match e with
  | xH => _mul_q12 result b
  | xO e' => pow_loop e' result (_mul_q12 b b)
  | xI e' => pow_loop e' (_mul_q12 result b) (_mul_q12 b b)
  end.

Definition _pow_q12_int (base_q12 exp : Z) : Z :=
  if exp <=? 0 then Q_ONE
  else if exp =? 1 then base_q12
  else match exp with
       | Zpos e => pow_loop e Q_ONE base_q12
       | _ => Q_ONE
       end.

Definition _clamp_q12 (x_q12 lo_q12 hi_q12 : Z) : Z :=
  if x_q12 <? lo_q12 then lo_q12
  else if hi_q12 <? x_q12 then hi_q12
  else x_q12.

Definition _box_sum_2d_int (plane : list (list Z)) (win : Z)
  : result (list (list Z)) :=
  if win <=? 1 then Ok plane
  else
    let r := Z.shiftr win 1 in
    let A0 := len plane in
    if A0 <=? 0 then Ok plane
    else
      p0 <- getitem plane 0 ;
      let W0 := len p0 in
      let integ := (fun _ => list_repeat 0 (W0 + 1)) <$> range (A0 + 1) in
      integ <- for_each (range A0) (fun a integ =>
        let row_sum := 0 in
        prow <- getitem plane a ;
        '(row_sum, integ) <- for_each (range W0) (fun x '(row_sum, integ) =>
          p <- getitem prow x ;
          let row_sum := row_sum + p in
          ia0 <- getitem integ a ;
          v <- getitem ia0 (x + 1) ;
          ia1 <- getitem integ (a + 1) ;
          ia1 <- setitem ia1 (x + 1) (v + row_sum) ;
          integ <- setitem integ (a + 1) ia1 ;
          Ok (row_sum, integ)) (row_sum, integ) ;
        Ok integ) integ ;
      let out := (fun _ => list_repeat 0 W0) <$> range A0 in
      for_each (range A0) (fun a out =>
        let a0 := a - r in
        let a1 := a + r in
        let a0 := if a0 <? 0 then 0 else a0 in
        let a1 := if A0 <=? a1 then A0 - 1 else a1 in
        ia0 <- getitem integ a0 ;
        ia1 <- getitem integ (a1 + 1) ;
        for_each (range W0) (fun x out =>
          let x0 := x - r in
          let x1 := x + r in
          let x0 := if x0 <? 0 then 0 else x0 in
          let x1 := if W0 <=? x1 then W0 - 1 else x1 in
          s11 <- getitem ia1 (x1 + 1) ;
          s01 <- getitem ia0 (x1 + 1) ;
          s10 <- getitem ia1 x0 ;
          s00 <- getitem ia0 x0 ;
          orow <- getitem out a ;
          orow <- setitem orow x (s11 - s01 - s10 + s00) ;
          setitem out a orow) out) out.

(** The part of [compute_horizontal_from_epis] and
    [compute_vertical_from_epis] that is the same, up to the names of its
    variables, in the loop over the EPIs of either axis: from the payloads
    of one EPI and of its angular differences to the three box-summed
    planes.  The [while] loops count up to [EPI_UV] and [WH_SIZE]; [row] is
    a reference to a row of the plane being filled, so the row is put back
    once filled. *)
Definition structure_sums (epi_pay d_pay : list byte) (win : Z)
  : result (list (list Z) * list (list Z) * list (list Z)) :=
  let dL_du := (fun _ => list_repeat 0 WH_SIZE) <$> range EPI_UV in
  let dL_ds := (fun _ => list_repeat 0 WH_SIZE) <$> range EPI_UV in
  (* fill dL_du *)
  '(dL_du, _) <- for_each (range EPI_UV) (fun a '(dL_du, base) =>
    row <- getitem dL_du a ;
    '(row, _) <- for_each (range WH_SIZE) (fun x '(row, o) =>
      u <- _u24_read d_pay o ;
      row <- setitem row x (u - BIAS_INT) ;
      Ok (row, o + BYTES_PER_SAMPLE)) (row, base) ;
    dL_du <- setitem dL_du a row ;
    Ok (dL_du, base + DIFF_ROW_BYTES)) (dL_du, 0) ;
  (* dL_ds from the EPI: central difference along the row, channel 0 *)
  '(dL_ds, _) <- for_each (range EPI_UV) (fun a '(dL_ds, epi_row_base) =>
    row <- getitem dL_ds a ;
    row <- setitem row 0 0 ;
    row <- setitem row (WH_SIZE - 1) 0 ;
    '(row, _, _) <- for_each (seqZ 1 (WH_SIZE - 2)) (fun x '(row, o_m, o_p) =>
      um <- _u24_read epi_pay o_m ;
      let Lm := um - BIAS_INT in
      up <- _u24_read epi_pay o_p ;
      let Lp := up - BIAS_INT in
      row <- setitem row x (_round_div2 (Lp - Lm)) ;
      Ok (row, o_m + BYTES_PER_PIXEL_RGB, o_p + BYTES_PER_PIXEL_RGB))
      (row, epi_row_base, epi_row_base + Z.shiftl BYTES_PER_PIXEL_RGB 1) ;
    dL_ds <- setitem dL_ds a row ;
    Ok (dL_ds, epi_row_base + EPI_ROW_BYTES)) (dL_ds, 0) ;
  (* planes *)
  let P_uv := (fun _ => list_repeat 0 WH_SIZE) <$> range EPI_UV in
  let P_uu := (fun _ => list_repeat 0 WH_SIZE) <$> range EPI_UV in
  let W_u := (fun _ => list_repeat 0 WH_SIZE) <$> range EPI_UV in
  '(P_uv, P_uu, W_u) <- for_each (range EPI_UV) (fun a '(P_uv, P_uu, W_u) =>
    row_du <- getitem dL_du a ;
    row_ds <- getitem dL_ds a ;
    row_uv <- getitem P_uv a ;
    row_uu <- getitem P_uu a ;
    row_w <- getitem W_u a ;
    '(row_uv, row_uu, row_w) <-
      for_each (range WH_SIZE) (fun x '(row_uv, row_uu, row_w) =>
        duq <- getitem row_du x ;
        dsq <- getitem row_ds x ;
        row_uv <- setitem row_uv x (duq * dsq) ;
        row_uu <- setitem row_uu x (duq * duq) ;
        row_w <- setitem row_w x (_abs_i duq) ;
        Ok (row_uv, row_uu, row_w)) (row_uv, row_uu, row_w) ;
    P_uv <- setitem P_uv a row_uv ;
    P_uu <- setitem P_uu a row_uu ;
    W_u <- setitem W_u a row_w ;
    Ok (P_uv, P_uu, W_u)) (P_uv, P_uu, W_u) ;
  S_uv <- _box_sum_2d_int P_uv win ;
  S_uu <- _box_sum_2d_int P_uu win ;
  W_b <- _box_sum_2d_int W_u win ;
  Ok (S_uv, S_uu, W_b).

(** [D_q12] of one pixel: the loop over the angular rows and the final
    quotient.  The divisions are guarded by [suu_q24 > 0] and
    [den_acc_q12 > 0]. *)
Definition disparity_pixel (S_uv S_uu W_b : list (list Z)) (x : Z)
    (du_over_ds_q12 inv_d_q12 : Z) : result Z :=
  '(num_acc_q24, den_acc_q12) <-
    for_each (range EPI_UV) (fun a '(num_acc_q24, den_acc_q12) =>
      wrow <- getitem W_b a ;
      w_q12 <- getitem wrow x ;
      if 0 <? w_q12 then
        urow <- getitem S_uu a ;
        suu_q24 <- getitem urow x ;
        if 0 <? suu_q24 then
          vrow <- getitem S_uv a ;
          suv_q24 <- getitem vrow x ;
          let k_hat_q12 := Z.shiftl suv_q24 Q_FRAC / suu_q24 in
          let ratio_q12 := Z.shiftr (du_over_ds_q12 * k_hat_q12) Q_FRAC in
          Ok (num_acc_q24 + ratio_q12 * w_q12, den_acc_q12 + w_q12)
        else Ok (num_acc_q24, den_acc_q12)
      else Ok (num_acc_q24, den_acc_q12)) (0, 0) ;
  if den_acc_q12 <=? 0 then Ok 0
  else
    let ratio_s_q12 :=
      if 0 <=? num_acc_q24
      then (num_acc_q24 + Z.shiftl den_acc_q12 (Q_FRAC - 1)) / den_acc_q12
      else - (((- num_acc_q24) + Z.shiftl den_acc_q12 (Q_FRAC - 1)) / den_acc_q12) in
    Ok (Z.shiftr ((Q_ONE + ratio_s_q12) * inv_d_q12) Q_FRAC).

(** The packing of the disparity map that ends both functions. *)
Definition pack_disparity (out_q : list Z) : result (list byte) :=
  out_pay <- bytearray OUT_IMG_BYTES ;
  '(out_pay, _) <- for_each (range N_IMG) (fun i '(out_pay, o) =>
    q <- getitem out_q i ;
    out_pay <- _u24_write out_pay o (_bias_q q) ;
    Ok (out_pay, o + BYTES_PER_SAMPLE)) (out_pay, 0) ;
  imgb_make WH_SIZE WH_SIZE 1 4 out_pay.

Definition compute_horizontal_from_epis (epi_h_imgb dL_du_h : list (list byte))
    (d ds du win : Z) : result (list byte) :=
  let du_over_ds_q12 := _div_q12 du ds in
  let inv_d_q12 := _inv_q12 d in
  let out_q := (fun _ => 0) <$> range N_IMG in
  out_q <- for_each (range WH_SIZE) (fun y out_q =>
    eh <- getitem epi_h_imgb y ;
    let epi_pay := imbg_parse_payload eh in
    dh <- getitem dL_du_h y ;
    let d_pay := imbg_parse_payload dh in
    '(S_uv, S_uu, W_b) <- structure_sums epi_pay d_pay win ;
    let row_base := Z.shiftl y WH_SHIFT in
    for_each (range WH_SIZE) (fun x out_q =>
      D_q12 <- disparity_pixel S_uv S_uu W_b x du_over_ds_q12 inv_d_q12 ;
      setitem out_q (row_base + x) D_q12) out_q) out_q ;
  pack_disparity out_q.

Definition compute_vertical_from_epis (epi_v_imgb dL_dv_v : list (list byte))
    (d dt dv win : Z) : result (list byte) :=
  let dv_over_dt_q12 := _div_q12 dv dt in
  let inv_d_q12 := _inv_q12 d in
  let out_q := (fun _ => 0) <$> range N_IMG in
  out_q <- for_each (range WH_SIZE) (fun x out_q =>
    ev <- getitem epi_v_imgb x ;
    let epi_pay := imbg_parse_payload ev in
    dv_blob <- getitem dL_dv_v x ;
    let d_pay := imbg_parse_payload dv_blob in
    '(S_vt, S_vv, W_b) <- structure_sums epi_pay d_pay win ;
    for_each (range WH_SIZE) (fun y out_q =>
      D_q12 <- disparity_pixel S_vt S_vv W_b y dv_over_dt_q12 inv_d_q12 ;
      setitem out_q (Z.shiftl y WH_SHIFT + x) D_q12) out_q) out_q ;
  pack_disparity out_q.

(** The blend numerator (Q24.24) and denominator (Q12.12) of one pixel of
    [fuse_disparity_precision], from the decoded samples. *)
Definition fuse_weights (zh_q12 zv_q12 ch_q12 cv_q12 : Z)
    (temperature floor cap eps : Z) : Z * Z :=
  let ch_q12 := if ch_q12 <? 0 then 0 else ch_q12 in
  let cv_q12 := if cv_q12 <? 0 then 0 else cv_q12 in
  let ch_q12 := _clamp_q12 ch_q12 floor cap in
  let cv_q12 := _clamp_q12 cv_q12 floor cap in
  let p_h_q12 := _pow_q12_int ch_q12 temperature in
  let p_v_q12 := _pow_q12_int cv_q12 temperature in
  let num_q24 := (p_h_q12 * zh_q12) + (p_v_q12 * zv_q12) in
  let den_q12 := p_h_q12 + p_v_q12 + eps in
  (num_q24, den_q12).

(** [z_q12] of one pixel.  The divisions are guarded by [den_q12 > 0]. *)
Definition fuse_pixel (zh_q12 zv_q12 ch_q12 cv_q12 : Z)
    (temperature floor cap eps : Z) : Z :=
  let '(num_q24, den_q12) :=
    fuse_weights zh_q12 zv_q12 ch_q12 cv_q12 temperature floor cap eps in
  if den_q12 <=? 0 then 0
  else if 0 <=? num_q24
       then (num_q24 + Z.shiftl den_q12 (Q_FRAC - 1)) / den_q12
       else - (((- num_q24) + Z.shiftl den_q12 (Q_FRAC - 1)) / den_q12).

Definition fuse_disparity_precision
    (Z_h_imgb Z_v_imgb C_h_imgb C_v_imgb : list byte)
    (temperature floor cap eps : Z) : result (list byte) :=
  let pZh := imbg_parse_payload Z_h_imgb in
  let pZv := imbg_parse_payload Z_v_imgb in
  let pCh := imbg_parse_payload C_h_imgb in
  let pCv := imbg_parse_payload C_v_imgb in
  out_pay <- bytearray OUT_IMG_BYTES ;
  '(out_pay, _, _) <- for_each (range N_IMG) (fun k '(out_pay, o, i3) =>
    uzh <- _u24_read pZh i3 ;
    let zh_q12 := uzh - BIAS_INT in
    uzv <- _u24_read pZv i3 ;
    let zv_q12 := uzv - BIAS_INT in
    uch <- _u24_read pCh i3 ;
    let ch_q12 := uch - BIAS_INT in
    ucv <- _u24_read pCv i3 ;
    let cv_q12 := ucv - BIAS_INT in
    let z_q12 := fuse_pixel zh_q12 zv_q12 ch_q12 cv_q12 temperature floor cap eps in
    out_pay <- _u24_write out_pay o (_bias_q z_q12) ;
    Ok (out_pay, o + BYTES_PER_SAMPLE, i3 + BYTES_PER_SAMPLE)) (out_pay, 0, 0) ;
  imgb_make WH_SIZE WH_SIZE 1 4 out_pay.

End Bit_Manipulation.

(** ** Notions used to state the properties *)

(** What the specification asks of the biased encode operation. *)
Definition saturating_bias (enc : Z -> Z) : Prop :=
  forall q : Z,
    (q < -8388608 -> enc q = 0) /\
    (q > 16777215 - 8388608 -> enc q = 16777215) /\
    (-8388608 <= q <= 16777215 - 8388608 -> enc q = q + 8388608) /\
    0 <= enc q <= 16777215.

(** The 16 header bytes written by [imgb_make]. *)
Definition imgb_header (W H C dtype_code : Z) : list byte :=
  No_Libraries._MAGIC ++ le_bytes 4 W ++ le_bytes 4 H ++
  [byte.of_Z (Z.land C 255); byte.of_Z (Z.land dtype_code 255); Byte.x00; Byte.x00].

(** A buffer the specification calls malformed: its first four bytes are
    not the magic, or the number of bytes past offset 16 is not
    [width * height * channels * bytes_per_sample(encoding)] for the fields
    of its header (in particular when the encoding has no sample width). *)
Definition bad_buffer (buf : list byte) : Prop :=
  slice buf 0 4 <> No_Libraries._MAGIC \/
  (forall C dtype_code bps : Z,
     byte_at buf 12 = Ok C -> byte_at buf 13 = Ok dtype_code ->
     No_Libraries._bytes_per_sample dtype_code = Ok bps ->
     len (slice_from buf 16) <>
       No_Libraries._u32_le buf 4 * No_Libraries._u32_le buf 8 * C * bps).

(** The parse operation rejects every malformed buffer with the format
    error of the code base, [ValueError]. *)
Definition rejects_bad_buffers
    (parse : list byte -> result (Z * Z * Z * Z * list byte)) : Prop :=
  forall buf, bad_buffer buf -> exists msg, parse buf = Raise (ValueError msg).

(** Sums over integer planes, and what a plane's box sum is. *)
Definition sum_list (l : list Z) : Z := foldr Z.add 0 l.

Definition plane_total (plane : list (list Z)) : Z :=
  sum_list (sum_list <$> plane).

(** Sum of the entries of the first [i] rows, first [j] columns. *)
Definition prefix_sum (plane : list (list Z)) (i j : Z) : Z :=
  sum_list ((fun row => sum_list (take (Z.to_nat j) row)) <$> take (Z.to_nat i) plane).

(** Entry [(i, j)] of a list of rows. *)
Definition cell (g : list (list Z)) (i j : Z) : option Z :=
  match g !! Z.to_nat i with
  | Some row => row !! Z.to_nat j
  | None => None
  end.

(** [g] has [R] rows of [C] entries each. *)
Definition grid_shape (g : list (list Z)) (R C : Z) : Prop :=
  len g = R /\ forall i row, g !! i = Some row -> len row = C.

(** The window of radius [r] around [(a, x)], clamped to the plane, summed
    through prefix sums. *)
Definition window_sum (plane : list (list Z)) (A W r a x : Z) : Z :=
  let a0 := Z.max 0 (a - r) in
  let a1 := Z.min (A - 1) (a + r) in
  let x0 := Z.max 0 (x - r) in
  let x1 := Z.min (W - 1) (x + r) in
  prefix_sum plane (a1 + 1) (x1 + 1) - prefix_sum plane a0 (x1 + 1)
  - prefix_sum plane (a1 + 1) x0 + prefix_sum plane a0 x0.

(** [payload] is the horizontal EPI of image row [y]: [U] angular rows of
    [W] pixels of 9 bytes (3 channels of 3 bytes), row [u] being row [y] of
    frame [u] of the stack. *)
Definition is_row_epi (h_stack : list (list byte)) (W U y : Z)
    (payload : list byte) : Prop :=
  len payload = U * W * 9 /\
  forall u x c frame, 0 <= u < U -> 0 <= x < W -> 0 <= c < 9 ->
    h_stack !! Z.to_nat u = Some frame ->
    exists b, frame !! Z.to_nat ((y * W + x) * 9 + c) = Some b /\
              payload !! Z.to_nat ((u * W + x) * 9 + c) = Some b.

(** A frame stack: payloads of [H * W] RGB pixels in the 3-byte fixed-point
    encoding. *)
Definition frame_stack (stack : list (list byte)) (H W : Z) : Prop :=
  Forall (fun frame => len frame = H * W * 9) stack.

(** [epi_h] holds, for each row [y] of [y_rows] in order, a container of
    width [W], height [U], 3 channels, encoding 4, whose payload is the
    horizontal EPI of row [y]. *)
Definition horizontal_epis
    (parse : list byte -> result (Z * Z * Z * Z * list byte))
    (h_stack : list (list byte)) (W U : Z) (y_rows : list Z)
    (epi_h : list (list byte)) : Prop :=
  length epi_h = length y_rows /\
  forall k y, y_rows !! k = Some y ->
    exists blob payload,
      epi_h !! k = Some blob /\
      parse blob = Ok (W, U, 3, 4, payload) /\
      is_row_epi h_stack W U y payload.

(** Channel [c] of the three accumulators of a pixel. *)
Definition channel (acc : Z * Z * Z) (c : Z) : Z :=
  let '(acc0, acc1, acc2) := acc in
  if c =? 0 then acc0 else if c =? 1 then acc1 else acc2.

(** [q] is the integer nearest to [acc / ks], a tie going up. *)
Definition is_nearest_quotient (acc ks q : Z) : Prop :=
  2 * acc - ks < 2 * ks * q <= 2 * acc + ks.

Definition clamp_0_255 (q : Z) : Z := Z.max 0 (Z.min 255 q).

(** A [k] by [k] kernel. *)
Definition square_kernel (K : list (list Z)) : Prop :=
  Forall (fun row => len row = len K) K.

(** A 512 x 512 RGB test image: black, except for the red sample of pixel
    (row 5, column 5), which is 255. *)
Definition impulse_image : list byte :=
  replicate (Z.to_nat 7695) Byte.x00 ++ [Byte.xff] ++
  replicate (Z.to_nat 778736) Byte.x00.

(** EPI containers as the EPI builder makes them: width [n], height [A]
    (the angular count), 3 channels, encoding 4. *)
Definition epi_volumes (epis : list (list byte)) (n A : Z) : Prop :=
  Forall (fun blob => exists payload,
            blob = imgb_header n A 3 4 ++ payload /\ len payload = n * A * 9) epis.

(** Sample [i] of a single-channel fixed-point payload holds the stored
    bias 8388608, that is, it decodes to the signed value zero. *)
Definition sample_is_zero (payload : list byte) (i : Z) : Prop :=
  No_Libraries._u24_read payload (i * 3) = Ok 8388608.

Definition all_zero (count : Z) (payload : list byte) : Prop :=
  forall i, 0 <= i < count -> sample_is_zero payload i.

(** The samples of angular rows [0] and [A - 1] of a volume of [A] rows by
    [n] pixels. *)
Definition borders_zero (n A : Z) (payload : list byte) : Prop :=
  forall a x, a = 0 \/ a = A - 1 -> 0 <= x < n -> sample_is_zero payload (a * n + x).

(** [dL] is a list of [count] single-channel containers of width [n] and
    height [A] whose payloads satisfy [P]. *)
Definition diff_volumes
    (parse : list byte -> result (Z * Z * Z * Z * list byte))
    (dL : list (list byte)) (count n A : Z) (P : list byte -> Prop) : Prop :=
  len dL = count /\
  forall k blob, dL !! k = Some blob ->
    exists payload, parse blob = Ok (n, A, 1, 4, payload) /\ P payload.

(** [blob] is a single-channel [W] by [H] map whose payload satisfies [P]. *)
Definition scalar_map
    (parse : list byte -> result (Z * Z * Z * Z * list byte))
    (blob : list byte) (W H : Z) (P : list byte -> Prop) : Prop :=
  exists payload, parse blob = Ok (W, H, 1, 4, payload) /\ P payload.

(** The [channel] argument selects one of the three channels. *)
Definition channel_ok (channel : option Z) : Prop :=
  match channel with
  | None => True
  | Some c => 0 <= c < 3
  end.

(** Sample [k] of a single-channel fixed-point payload decodes to the
    signed Q12.12 value [z]. *)
Definition decoded (payload : list byte) (k z : Z) : Prop :=
  No_Libraries._u24_read payload (k * 3) = Ok (z + 8388608).

(** A 512 x 512 single-channel fixed-point container. *)
Definition fusion_input (blob payload : list byte) : Prop :=
  blob = imgb_header 512 512 1 4 ++ payload /\ len payload = 786432.

(** The 512 x 512 single-channel container whose samples all have the
    three bytes [b0 b1 b2]. *)
Definition constant_payload (b0 b1 b2 : byte) : list byte :=
  concat (replicate (Z.to_nat 262144) [b0; b1; b2]).

Definition constant_map (b0 b1 b2 : byte) : list byte :=
  imgb_header 512 512 1 4 ++ constant_payload b0 b1 b2.

(** The weights of a tap list, and the taps of an exponent map read as
    multiplicative weights [2^e]. *)
Definition tap_weight_sum (taps : list (Z * Z * Z)) : Z :=
  sum_list ((fun t => t.2) <$> taps).

Definition pow2_taps (taps : list (Z * Z * Z)) : list (Z * Z * Z) :=
  (fun '(dy, dx, e) => (dy, dx, 2 ^ e)) <$> taps.

(** An RGB image of [n] pixels, all of colour [(r, g, b)]. *)
Definition constant_image (n : Z) (r g b : byte) : list byte :=
  concat (replicate (Z.to_nat n) [r; g; b]).

(** [payload] is the vertical EPI of image column [x]: [V] angular rows of
    [H] pixels of 9 bytes, pixel [y] of row [v] being pixel [(y, x)] of
    frame [v] of the stack. *)
Definition is_col_epi (v_stack : list (list byte)) (H W V x : Z)
    (payload : list byte) : Prop :=
  len payload = V * H * 9 /\
  forall v y c frame, 0 <= v < V -> 0 <= y < H -> 0 <= c < 9 ->
    v_stack !! Z.to_nat v = Some frame ->
    exists b, frame !! Z.to_nat ((y * W + x) * 9 + c) = Some b /\
              payload !! Z.to_nat ((v * H + y) * 9 + c) = Some b.

(** [epi_v] holds, for each column [x] of [x_cols] in order, a container of
    width [H], height [V], 3 channels, encoding 4, whose payload is the
    vertical EPI of column [x]. *)
Definition vertical_epis
    (parse : list byte -> result (Z * Z * Z * Z * list byte))
    (v_stack : list (list byte)) (H W V : Z) (x_cols : list Z)
    (epi_v : list (list byte)) : Prop :=
  length epi_v = length x_cols /\
  forall k x, x_cols !! k = Some x ->
    exists blob payload,
      epi_v !! k = Some blob /\
      parse blob = Ok (H, V, 3, 4, payload) /\
      is_col_epi v_stack H W V x payload.

(** The three bytes at offset [off] of a payload as the unsigned 24-bit
    integer they hold (0 when they do not all lie in the payload). *)
Definition u24_at (payload : list byte) (off : Z) : Z :=
  match No_Libraries._u24_read payload off with
  | Ok u => u
  | _ => 0
  end.

(** Channel [ch] of pixel [x] of angular row [a] of an EPI payload with [n]
    pixels per row, as a signed Q12.12 value. *)
Definition epi_value (pay : list byte) (n ch a x : Z) : Z :=
  u24_at pay ((a * n + x) * 9 + ch * 3) - 8388608.

(** The angular central difference at [(a, x)], halved with rounding. *)
Definition central_diff (pay : list byte) (n ch a x : Z) : Z :=
  No_Libraries._round_div2 (epi_value pay n ch (a + 1) x - epi_value pay n ch (a - 1) x).

(** The sum of the absolute central differences of pixel [x] over the
    interior angular rows [1 .. k]. *)
Definition abs_diff_sum (pay : list byte) (n ch k x : Z) : Z :=
  sum_list ((fun a => Z.abs (central_diff pay n ch a x)) <$> seqZ 1 k).

(** The interior rows of a difference volume hold the biased central
    differences of the EPI payload [pay]. *)
Definition interior_diffs (pay : list byte) (n A ch : Z) (out : list byte) : Prop :=
  forall a x, 0 < a < A - 1 -> 0 <= x < n ->
    No_Libraries._u24_read out ((a * n + x) * 3) =
      Ok (No_Libraries._bias_from_q12_12 (central_diff pay n ch a x)).

(** [dL] holds, for each EPI of [epis] in order, a single-channel container
    of width [n] and height [A] with the central differences of that EPI in
    its interior rows and zero in its two border rows. *)
Definition axis_differences
    (parse : list byte -> result (Z * Z * Z * Z * list byte))
    (epis dL : list (list byte)) (n A ch : Z) : Prop :=
  len dL = len epis /\
  forall k epi, epis !! k = Some epi ->
    exists blob payload,
      dL !! k = Some blob /\ parse blob = Ok (n, A, 1, 4, payload) /\
      borders_zero n A payload /\
      interior_diffs (No_Libraries.imbg_parse_payload epi) n A ch payload.

(** Sample [idx k j] of the confidence payload [C] is the mean, over the
    [A - 2] interior angular rows, of the absolute central differences of
    pixel [j] of EPI [k], rounded to nearest and stored biased. *)
Definition axis_confidence (epis : list (list byte)) (n A ch : Z)
    (idx : Z -> Z -> Z) (C : list byte) : Prop :=
  forall k j epi, 0 <= k -> 0 <= j < n -> epis !! Z.to_nat k = Some epi ->
    exists q,
      is_nearest_quotient
        (abs_diff_sum (No_Libraries.imbg_parse_payload epi) n ch (A - 2) j) (A - 2) q /\
      No_Libraries._u24_read C (idx k j * 3) = Ok (No_Libraries._bias_from_q12_12 q).

(** The selected channel of every EPI of [epis] does not vary along the
    angular axis. *)
Definition angularly_constant (epis : list (list byte)) (n A ch : Z) : Prop :=
  forall k epi a x, epis !! k = Some epi -> 0 <= a < A -> 0 <= x < n ->
    epi_value (No_Libraries.imbg_parse_payload epi) n ch a x =
    epi_value (No_Libraries.imbg_parse_payload epi) n ch 0 x.

(** Every sample of a payload of [count] samples decodes to a value
    [>= 0]. *)
Definition all_nonneg (count : Z) (payload : list byte) : Prop :=
  forall i, 0 <= i < count ->
    exists u, No_Libraries._u24_read payload (i * 3) = Ok u /\ 8388608 <= u.

(** Sample [i] of the payload [out] is the rounded mean of samples [i] of
    [p1] and [p2], and lies between them. *)
Definition mean_of_samples (p1 p2 out : list byte) (i : Z) : Prop :=
  exists a b,
    decoded p1 i a /\ decoded p2 i b /\
    decoded out i (No_Libraries._round_div2 (a + b)) /\
    Z.min a b <= No_Libraries._round_div2 (a + b) <= Z.max a b.

(** The window of radius [r] around [(a, x)], clamped to the plane, summed
    entry by entry. *)
Definition window_direct_sum (plane : list (list Z)) (A W r a x : Z) : Z :=
  let a0 := Z.max 0 (a - r) in
  let a1 := Z.min (A - 1) (a + r) in
  let x0 := Z.max 0 (x - r) in
  let x1 := Z.min (W - 1) (x + r) in
  sum_list ((fun row => sum_list (slice row x0 (x1 + 1))) <$> slice plane a0 (a1 + 1)).

(** A list of [n] entries being filled in index order: entries [lo .. k-1]
    already hold [F i], the others still hold [G i]. *)
Definition filled {E} (n lo k : Z) (F G : Z -> E) : list E :=
  (fun i => if (lo <=? i) && (i <? k) then F i else G i) <$> range n.

(** The plane of [A] rows by [W] columns with entries [val a x]. *)
Definition grid_of (A W : Z) (val : Z -> Z -> Z) : list (list Z) :=
  (fun a => (fun x => val a x) <$> range W) <$> range A.

(** Sample [(a, x)] of a 9 x 512 single-channel difference payload, as a
    signed Q12.12 value. *)
Definition diff_value (d_pay : list byte) (a x : Z) : Z :=
  u24_at d_pay ((a * 512 + x) * 3) - 8388608.

(** The central difference of channel 0 along the row of a 9 x 512 EPI
    payload, zero in the first and last column. *)
Definition spatial_diff (epi_pay : list byte) (a x : Z) : Z :=
  if (1 <=? x) && (x <? 511)
  then No_Libraries._round_div2
         (epi_value epi_pay 512 0 a (x + 1) - epi_value epi_pay 512 0 a (x - 1))
  else 0.

(** The three box-summed planes of one EPI: the sums over the window of
    [du * ds], of [du * du] and of [|du|]. *)
Definition epi_structure_sums (epi_pay d_pay : list byte) (win : Z)
  : result (list (list Z) * list (list Z) * list (list Z)) :=
  S_uv <- Bit_Manipulation._box_sum_2d_int
            (grid_of 9 512 (fun a x => diff_value d_pay a x * spatial_diff epi_pay a x)) win ;
  S_uu <- Bit_Manipulation._box_sum_2d_int
            (grid_of 9 512 (fun a x => diff_value d_pay a x * diff_value d_pay a x)) win ;
  W_b <- Bit_Manipulation._box_sum_2d_int
           (grid_of 9 512 (fun a x => Z.abs (diff_value d_pay a x))) win ;
  Ok (S_uv, S_uu, W_b).

(** Difference containers as the confidence stage makes them: width [n],
    height [A], one channel, encoding 4. *)
Definition diff_containers (dLs : list (list byte)) (n A : Z) : Prop :=
  Forall (fun blob => exists payload,
            blob = imgb_header n A 1 4 ++ payload /\ len payload = n * A * 3) dLs.

(** Entry [(a, x)] of the box sum of the 9 x 512 plane with entries
    [val a x]: the plane itself for [win <= 1], the clamped window sum
    otherwise. *)
Definition box_value (val : Z -> Z -> Z) (win a x : Z) : Z :=
  if win <=? 1 then val a x
  else window_direct_sum (grid_of 9 512 val) 9 512 (win / 2) a x.

(** Sample [i] of the disparity payload [out] is the biased disparity of
    pixel [j] of EPI [k], computed from the structure sums of that EPI. *)
Definition disparity_sample (epis dLs : list (list byte))
    (win ratio_q12 inv_d_q12 k j : Z) (out : list byte) (i : Z) : Prop :=
  exists epi dl S_uv S_uu W_b D,
    epis !! Z.to_nat k = Some epi /\ dLs !! Z.to_nat k = Some dl /\
    epi_structure_sums (Bit_Manipulation.imbg_parse_payload epi)
      (Bit_Manipulation.imbg_parse_payload dl) win = Ok (S_uv, S_uu, W_b) /\
    Bit_Manipulation.disparity_pixel S_uv S_uu W_b j ratio_q12 inv_d_q12 = Ok D /\
    No_Libraries._u24_read out (i * 3) = Ok (Bit_Manipulation._bias_q D).

(** * Properties *)

(** ** Biased Q12.12 encoding *)

Ltac bias_cases :=
  repeat match goal with
         | |- context [?a <? ?b] => destruct (Z.ltb_spec a b)
         | |- context [?a <=? ?b] => destruct (Z.leb_spec a b)
         end; try lia.

Lemma NL_bias_from_q12_12_saturating : saturating_bias No_Libraries._bias_from_q12_12.
Proof.
  intros q. unfold No_Libraries._bias_from_q12_12.
  change No_Libraries.BIAS_INT with 8388608. cbv zeta.
  repeat split; intros; bias_cases.
Qed.

Lemma NL_bias_q_saturating : saturating_bias No_Libraries._bias_q.
Proof.
  intros q. unfold No_Libraries._bias_q.
  change No_Libraries.BIAS_INT with 8388608. change No_Libraries.U24_MAX with 16777215. cbv zeta.
  repeat split; intros; bias_cases.
Qed.

Lemma BM_bias_q_saturating : saturating_bias Bit_Manipulation._bias_q.
Proof.
  intros q. unfold Bit_Manipulation._bias_q.
  change Bit_Manipulation.BIAS_INT with 8388608. change Bit_Manipulation.U24_MAX with 16777215. cbv zeta.
  repeat split; intros; bias_cases.
Qed.

Lemma BM_bias_from_q12_12_saturating : saturating_bias Bit_Manipulation._bias_from_q12_12.
Proof.
  intros q. unfold Bit_Manipulation._bias_from_q12_12.
  change Bit_Manipulation.BIAS_INT with 8388608. change Bit_Manipulation.U24_MAX with 16777215. cbv zeta.
  repeat split; intros; bias_cases.
Qed.

(** C5.  Saturation of the biased encode: a signed value below [-8388608]
    is stored as 0, one above [16777215 - 8388608] as 16777215, any other as
    [signed + 8388608]; the stored value never leaves [0, 16777215].  Holds
    for [_bias_from_q12_12] of No_Libraries/confidence.py and for [_bias_q]
    of Bit_Manipulation/disparity.py. *)
Theorem bias_encode_saturates (q : Z) :
  ((q < -8388608 -> No_Libraries._bias_from_q12_12 q = 0) /\
   (q > 16777215 - 8388608 -> No_Libraries._bias_from_q12_12 q = 16777215) /\
   (-8388608 <= q <= 16777215 - 8388608 -> No_Libraries._bias_from_q12_12 q = q + 8388608) /\
   0 <= No_Libraries._bias_from_q12_12 q <= 16777215) /\
  ((q < -8388608 -> Bit_Manipulation._bias_q q = 0) /\
   (q > 16777215 - 8388608 -> Bit_Manipulation._bias_q q = 16777215) /\
   (-8388608 <= q <= 16777215 - 8388608 -> Bit_Manipulation._bias_q q = q + 8388608) /\
   0 <= Bit_Manipulation._bias_q q <= 16777215).
Proof.
  split.
  - apply NL_bias_from_q12_12_saturating.
  - apply BM_bias_q_saturating.
Qed.

Lemma bias_encode_saturates_witness :
  No_Libraries._bias_from_q12_12 (-9000000) = 0 /\
  No_Libraries._bias_from_q12_12 9000000 = 16777215 /\
  No_Libraries._bias_from_q12_12 (-4096) = 8384512 /\
  Bit_Manipulation._bias_q (-9000000) = 0 /\
  Bit_Manipulation._bias_q 9000000 = 16777215 /\
  Bit_Manipulation._bias_q (-4096) = 8384512.
Proof.
  pose proof (bias_encode_saturates (-9000000)) as [(Hlo & _) (Hlo' & _)].
  pose proof (bias_encode_saturates 9000000) as [(_ & Hhi & _) (_ & Hhi' & _)].
  pose proof (bias_encode_saturates (-4096)) as [(_ & _ & Hin & _) (_ & _ & Hin' & _)].
  repeat apply conj.
  - apply Hlo; lia.
  - apply Hhi; lia.
  - apply Hin; lia.
  - apply Hlo'; lia.
  - apply Hhi'; lia.
  - apply Hin'; lia.
Defined.

(** ** Reflection indexing *)

Lemma BM_reflect_index_eq fuel : forall i n,
  Bit_Manipulation._reflect_index fuel i n = No_Libraries._reflect_index fuel i n.
Proof.
  induction fuel as [|fuel IH]; intros i n; simpl; [reflexivity|].
  rewrite !IH. rewrite Z.shiftl_mul_pow2 by lia.
  replace (n * 2 ^ 1) with (2 * n) by lia. reflexivity.
Qed.

Lemma reflect_index_in_range i n fuel :
  0 <= i < n -> (1 <= fuel)%nat -> No_Libraries._reflect_index fuel i n = Ok i.
Proof.
  intros Hi Hf. destruct fuel as [|fuel]; [lia|]. simpl.
  destruct (Z.ltb_spec i 0); [lia|]. destruct (Z.leb_spec n i); [lia|]. reflexivity.
Qed.

Lemma reflect_index_nonneg n : 2 <= n -> forall i, 0 <= i ->
  exists r, 0 <= r < n /\
    forall fuel, (Z.to_nat i + 1 <= fuel)%nat -> No_Libraries._reflect_index fuel i n = Ok r.
Proof.
  intros Hn i. induction i as [i IH] using (well_founded_induction (Z.lt_wf 0)).
  intros Hi.
  destruct (Z.lt_ge_cases i n) as [Hlt|Hge].
  - exists i. split; [lia|]. intros fuel Hf. apply reflect_index_in_range; lia.
  - destruct (Z.lt_ge_cases (2 * n - 2 - i) 0) as [Hneg|Hpos].
    + destruct (IH (i - (2 * n - 2))) as (r & Hr & Hrun); [lia|lia|].
      exists r. split; [exact Hr|]. intros fuel Hf.
      destruct fuel as [|[|fuel]]; [lia|lia|].
      cbn [No_Libraries._reflect_index].
      destruct (Z.ltb_spec i 0); [lia|]. destruct (Z.leb_spec n i); [|lia].
      cbn [orb].
      destruct (Z.ltb_spec (2 * n - 2 - i) 0); [|lia]. cbn [orb].
      replace (- (2 * n - 2 - i)) with (i - (2 * n - 2)) by lia.
      apply Hrun. lia.
    + exists (2 * n - 2 - i). split; [lia|]. intros fuel Hf.
      destruct fuel as [|fuel]; [lia|]. cbn [No_Libraries._reflect_index].
      destruct (Z.ltb_spec i 0); [lia|]. destruct (Z.leb_spec n i); [|lia].
      cbn [orb]. apply reflect_index_in_range; lia.
Qed.

Lemma reflect_index_any n i : 2 <= n ->
  exists r, 0 <= r < n /\
    forall fuel, (Z.to_nat (Z.abs i) + 2 <= fuel)%nat ->
      No_Libraries._reflect_index fuel i n = Ok r.
Proof.
  intros Hn. destruct (Z.lt_ge_cases i 0) as [Hneg|Hpos].
  - destruct (reflect_index_nonneg n Hn (- i)) as (r & Hr & Hrun); [lia|].
    exists r. split; [exact Hr|]. intros fuel Hf.
    destruct fuel as [|fuel]; [lia|]. cbn [No_Libraries._reflect_index].
    destruct (Z.ltb_spec i 0); [|lia]. cbn [orb]. apply Hrun. lia.
  - destruct (reflect_index_nonneg n Hn i Hpos) as (r & Hr & Hrun).
    exists r. split; [exact Hr|]. intros fuel Hf. apply Hrun. lia.
Qed.

Lemma reflect_index_diverges_nonpos n : n <= 0 -> forall fuel i,
  No_Libraries._reflect_index fuel i n = OutOfFuel.
Proof.
  intros Hn fuel. induction fuel as [|fuel IH]; intros i; simpl; [reflexivity|].
  destruct (Z.ltb_spec i 0); cbn [orb]; [apply IH|].
  destruct (Z.leb_spec n i); [apply IH|lia].
Qed.

Lemma reflect_index_diverges_one fuel : forall i, i = 1 \/ i = -1 ->
  No_Libraries._reflect_index fuel i 1 = OutOfFuel.
Proof.
  induction fuel as [|fuel IH]; intros i Hi; simpl; [reflexivity|].
  destruct Hi as [-> | ->]; simpl; apply IH; lia.
Qed.

(** C10.  For every dimension [n >= 2] and every integer index [i] the
    reflection-indexing helper terminates (it returns with any fuel of at
    least [|i| + 2] loop tests) and its value lies in [0, n); this holds for
    the helper of both variants.  The precondition cannot be dropped: for
    every [n < 2] there is an index on which the loop never ends. *)
Theorem reflect_index_terminates_in_range :
  (forall n i : Z, 2 <= n ->
     exists r, 0 <= r < n /\
       forall fuel, (Z.to_nat (Z.abs i) + 2 <= fuel)%nat ->
         No_Libraries._reflect_index fuel i n = Ok r /\
         Bit_Manipulation._reflect_index fuel i n = Ok r) /\
  (forall n : Z, n < 2 ->
     exists i, forall fuel,
       No_Libraries._reflect_index fuel i n = OutOfFuel /\
       Bit_Manipulation._reflect_index fuel i n = OutOfFuel).
Proof.
  split.
  - intros n i Hn. destruct (reflect_index_any n i Hn) as (r & Hr & Hrun).
    exists r. split; [exact Hr|]. intros fuel Hf.
    rewrite (BM_reflect_index_eq fuel i n). split; apply Hrun; exact Hf.
  - intros n Hn. destruct (Z.le_gt_cases n 0) as [Hle|Hgt].
    + exists 0. intros fuel. rewrite (BM_reflect_index_eq fuel 0 n).
      split; apply reflect_index_diverges_nonpos; exact Hle.
    + assert (n = 1) as -> by lia. exists 1. intros fuel.
      rewrite (BM_reflect_index_eq fuel 1 1).
      split; apply reflect_index_diverges_one; left; reflexivity.
Qed.

Lemma reflect_index_terminates_in_range_witness :
  exists r, 0 <= r < 4 /\
    forall fuel, (Z.to_nat (Z.abs (-9)) + 2 <= fuel)%nat ->
      No_Libraries._reflect_index fuel (-9) 4 = Ok r /\
      Bit_Manipulation._reflect_index fuel (-9) 4 = Ok r.
Proof.
  apply (proj1 reflect_index_terminates_in_range 4 (-9)). lia.
Defined.

Example reflect_index_example :
  No_Libraries._reflect_index 11 (-9) 4 = Ok 3 /\
  Bit_Manipulation._reflect_index 11 7 4 = Ok 1.
Proof. split; reflexivity. Qed.

(** ** Python primitives: basic facts *)

(** Decide the integer tests of the goal by linear arithmetic. *)
Ltac zbool_step :=
  match goal with
  | |- context [?a <? ?b] =>
      first [ rewrite (proj2 (Z.ltb_lt a b)) by lia
            | rewrite (proj2 (Z.ltb_ge a b)) by lia ]
  | |- context [?a <=? ?b] =>
      first [ rewrite (proj2 (Z.leb_le a b)) by lia
            | rewrite (proj2 (Z.leb_gt a b)) by lia ]
  | |- context [?a =? ?b] =>
      first [ rewrite (proj2 (Z.eqb_eq a b)) by lia
            | rewrite (proj2 (Z.eqb_neq a b)) by lia ]
  end.
Ltac zbool := repeat (zbool_step; cbn [orb andb negb]; cbv iota).

Lemma len_nonneg {A} (l : list A) : 0 <= len l.
Proof. unfold len. lia. Qed.

Lemma len_app {A} (l1 l2 : list A) : len (l1 ++ l2) = len l1 + len l2.
Proof. unfold len. rewrite length_app. lia. Qed.

Lemma len_replicate {A} (n : nat) (x : A) : len (replicate n x) = Z.of_nat n.
Proof. unfold len. rewrite length_replicate. reflexivity. Qed.

Lemma len_list_repeat {A} (x : A) (n : Z) : 0 <= n -> len (list_repeat x n) = n.
Proof. intros Hn. unfold list_repeat. rewrite len_replicate. lia. Qed.

Lemma norm_idx_in_range n i : 0 <= i <= n -> norm_idx n i = i.
Proof.
  intros Hi. unfold norm_idx. destruct (Z.ltb_spec i 0); lia.
Qed.

Lemma norm_idx_beyond n i : 0 <= n <= i -> norm_idx n i = n.
Proof.
  intros Hi. unfold norm_idx. destruct (Z.ltb_spec i 0); lia.
Qed.

Lemma slice_in_range {A} (l : list A) lo hi :
  0 <= lo <= hi -> hi <= len l ->
  slice l lo hi = take (Z.to_nat (hi - lo)) (drop (Z.to_nat lo) l).
Proof.
  intros Hlo Hhi. unfold slice. rewrite !norm_idx_in_range by lia. reflexivity.
Qed.

Lemma slice_from_in_range {A} (l : list A) lo :
  0 <= lo <= len l -> slice_from l lo = drop (Z.to_nat lo) l.
Proof.
  intros Hlo. unfold slice_from. rewrite norm_idx_in_range by lia. reflexivity.
Qed.

Lemma slice_assign_in_range {A} (out : list A) lo hi s :
  0 <= lo <= hi -> hi <= len out ->
  slice_assign out lo hi s = take (Z.to_nat lo) out ++ s ++ drop (Z.to_nat hi) out.
Proof.
  intros Hlo Hhi. unfold slice_assign. rewrite !norm_idx_in_range by lia.
  rewrite Z.max_r by lia. reflexivity.
Qed.

Lemma getitem_lookup {A} (l : list A) (i : Z) (x : A) :
  0 <= i -> l !! Z.to_nat i = Some x -> getitem l i = Ok x.
Proof.
  intros Hi Hx. unfold getitem. cbv zeta. zbool. rewrite Hx. reflexivity.
Qed.

Lemma getitem_Ok_inv {A} (l : list A) (i : Z) (x : A) :
  0 <= i -> getitem l i = Ok x -> l !! Z.to_nat i = Some x /\ i < len l.
Proof.
  intros Hi. unfold getitem. cbv zeta. zbool.
  destruct (l !! Z.to_nat i) eqn:E; [|discriminate].
  intros [= ->]. split; [reflexivity|].
  apply lookup_lt_Some in E. unfold len. lia.
Qed.

Lemma getitem_in_range {A} (l : list A) (i : Z) :
  0 <= i < len l -> exists x, l !! Z.to_nat i = Some x /\ getitem l i = Ok x.
Proof.
  intros Hi. destruct (lookup_lt_is_Some_2 l (Z.to_nat i)) as [x Hx].
  { unfold len in Hi. lia. }
  exists x. split; [exact Hx|]. apply getitem_lookup; [lia|exact Hx].
Qed.

Lemma setitem_in_range {A} (l : list A) (i : Z) (v : A) :
  0 <= i < len l -> setitem l i v = Ok (<[Z.to_nat i := v]> l).
Proof.
  intros Hi. unfold setitem. cbv zeta. zbool. reflexivity.
Qed.

Lemma byte_at_lookup (b : list byte) (i : Z) (x : byte) :
  0 <= i -> b !! Z.to_nat i = Some x -> byte_at b i = Ok (byte.unsigned x).
Proof.
  intros Hi Hx. unfold byte_at. rewrite (getitem_lookup b i x Hi Hx). reflexivity.
Qed.

Lemma bytearray_set_in_range (out : list byte) (i v : Z) :
  0 <= i < len out -> 0 <= v < 256 ->
  bytearray_set out i v = Ok (<[Z.to_nat i := byte.of_Z v]> out).
Proof.
  intros Hi Hv. unfold bytearray_set. cbv zeta. zbool. reflexivity.
Qed.

Lemma bytearray_ok (n : Z) :
  0 <= n -> bytearray n = Ok (replicate (Z.to_nat n) Byte.x00).
Proof.
  intros Hn. unfold bytearray. destruct (Z.ltb_spec n 0); [lia|]. reflexivity.
Qed.

Lemma land_255_range (v : Z) : 0 <= Z.land v 255 < 256.
Proof.
  change 255 with (Z.ones 8). rewrite Z.land_ones by lia.
  apply Z.mod_pos_bound. lia.
Qed.

Lemma land_255_small (v : Z) : 0 <= v < 256 -> Z.land v 255 = v.
Proof.
  intros Hv. change 255 with (Z.ones 8). rewrite Z.land_ones by lia.
  apply Z.mod_small. exact Hv.
Qed.

Lemma unsigned_of_Z_small (v : Z) : 0 <= v < 256 -> byte.unsigned (byte.of_Z v) = v.
Proof.
  intros Hv. rewrite byte.unsigned_of_Z. unfold byte.wrap.
  apply Z.mod_small. exact Hv.
Qed.

Lemma from_bytes_le_bytes (n : nat) : forall v,
  0 <= v < 2 ^ (8 * Z.of_nat n) -> from_bytes_le (le_bytes n v) = v.
Proof.
  induction n as [|n IH]; intros v Hv.
  - simpl in *. lia.
  - cbn [le_bytes from_bytes_le]. rewrite byte.unsigned_of_Z. unfold byte.wrap.
    rewrite IH.
    + change (2 ^ 8) with 256. pose proof (Z.div_mod v 256). lia.
    + replace (8 * Z.of_nat (S n)) with (8 + 8 * Z.of_nat n) in Hv by lia.
      rewrite Z.pow_add_r in Hv by lia. change (2 ^ 8) with 256 in Hv.
      split; [apply Z.div_pos; lia|].
      apply Z.div_lt_upper_bound; lia.
Qed.

Lemma to_bytes_le_ok (n : nat) (v : Z) :
  0 <= v < 2 ^ (8 * Z.of_nat n) -> to_bytes_le n v = Ok (le_bytes n v).
Proof.
  intros Hv. unfold to_bytes_le. destruct (Z.ltb_spec v 0); [lia|].
  destruct (Z.leb_spec (2 ^ (8 * Z.of_nat n)) v); [lia|]. reflexivity.
Qed.

(** ** Container codec *)

Lemma imgb_header_length W H C d : length (imgb_header W H C d) = 16%nat.
Proof. reflexivity. Qed.

Lemma header_assembly {B} (k : list byte -> result B)
    (b0 b1 b2 b3 c0 c1 c2 c3 : byte) (C d : Z) :
  0 <= C < 256 -> 0 <= d < 256 ->
  (hdr <- bytearray 16 ;
   let hdr := slice_assign hdr 0 4 No_Libraries._MAGIC in
   let hdr := slice_assign hdr 4 8 [b0; b1; b2; b3] in
   let hdr := slice_assign hdr 8 12 [c0; c1; c2; c3] in
   hdr <- bytearray_set hdr 12 C ;
   hdr <- bytearray_set hdr 13 d ;
   z2 <- to_bytes_le 2 0 ;
   let hdr := slice_assign hdr 14 16 z2 in
   k hdr) =
  k (No_Libraries._MAGIC ++ [b0; b1; b2; b3] ++ [c0; c1; c2; c3] ++
     [byte.of_Z C; byte.of_Z d; Byte.x00; Byte.x00]).
Proof.
  intros HC Hd.
  change (bytearray 16) with (Ok (replicate 16 Byte.x00)).
  change (to_bytes_le 2 0) with (Ok [Byte.x00; Byte.x00]).
  cbn [bind]. cbv zeta.
  change (slice_assign (replicate 16 Byte.x00) 0 4 No_Libraries._MAGIC)
    with (No_Libraries._MAGIC ++ replicate 12 Byte.x00).
  change (slice_assign (No_Libraries._MAGIC ++ replicate 12 Byte.x00) 4 8 [b0; b1; b2; b3])
    with (No_Libraries._MAGIC ++ [b0; b1; b2; b3] ++ replicate 8 Byte.x00).
  change (slice_assign (No_Libraries._MAGIC ++ [b0; b1; b2; b3] ++ replicate 8 Byte.x00)
            8 12 [c0; c1; c2; c3])
    with (No_Libraries._MAGIC ++ [b0; b1; b2; b3] ++ [c0; c1; c2; c3] ++
          replicate 4 Byte.x00).
  rewrite bytearray_set_in_range; [|split; [lia|reflexivity]|exact HC].
  cbn [bind].
  rewrite bytearray_set_in_range; [|split; [lia|reflexivity]|exact Hd].
  cbn [bind]. reflexivity.
Qed.

Lemma NL_imgb_make_ok (W H C d bps : Z) (payload : list byte) :
  No_Libraries._bytes_per_sample d = Ok bps ->
  len payload = W * H * C * bps ->
  0 <= W < 2 ^ 32 -> 0 <= H < 2 ^ 32 ->
  No_Libraries.imgb_make W H C d payload = Ok (imgb_header W H C d ++ payload).
Proof.
  intros Hbps Hlen HW HH. unfold No_Libraries.imgb_make.
  rewrite Hbps. cbn [bind]. cbv zeta. zbool.
  rewrite (to_bytes_le_ok 4 W) by exact HW.
  rewrite (to_bytes_le_ok 4 H) by exact HH.
  cbn [bind le_bytes].
  rewrite (header_assembly (fun hdr => Ok (hdr ++ payload)))
    by apply land_255_range.
  unfold imgb_header. cbn [le_bytes]. reflexivity.
Qed.

Lemma BM_imgb_make_ok (W H C d : Z) (payload : list byte) :
  0 <= W < 2 ^ 32 -> 0 <= H < 2 ^ 32 ->
  Bit_Manipulation.imgb_make W H C d payload = Ok (imgb_header W H C d ++ payload).
Proof.
  intros HW HH. unfold Bit_Manipulation.imgb_make.
  rewrite (to_bytes_le_ok 4 W) by exact HW.
  rewrite (to_bytes_le_ok 4 H) by exact HH.
  cbn [bind le_bytes].
  change Bit_Manipulation._MAGIC with No_Libraries._MAGIC.
  rewrite (header_assembly (fun hdr => Ok (hdr ++ payload)))
    by apply land_255_range.
  unfold imgb_header. cbn [le_bytes]. reflexivity.
Qed.

(** Reading back the fields of a header followed by a payload. *)
Lemma header_fields (W H C d : Z) (payload : list byte) :
  0 <= W < 2 ^ 32 -> 0 <= H < 2 ^ 32 ->
  let buf := imgb_header W H C d ++ payload in
  len buf = 16 + len payload /\
  slice buf 0 4 = No_Libraries._MAGIC /\
  No_Libraries._u32_le buf 4 = W /\
  No_Libraries._u32_le buf 8 = H /\
  byte_at buf 12 = Ok (Z.land C 255) /\
  byte_at buf 13 = Ok (Z.land d 255) /\
  slice_from buf 16 = payload.
Proof.
  intros HW HH buf.
  assert (Hlen : len buf = 16 + len payload).
  { unfold buf. rewrite len_app. reflexivity. }
  pose proof (len_nonneg payload) as Hp.
  split; [exact Hlen|].
  split. { rewrite slice_in_range by lia. reflexivity. }
  split.
  { unfold No_Libraries._u32_le. rewrite slice_in_range by lia.
    change (take (Z.to_nat (4 + 4 - 4)) (drop (Z.to_nat 4) buf)) with (le_bytes 4 W).
    apply (from_bytes_le_bytes 4). exact HW. }
  split.
  { unfold No_Libraries._u32_le. rewrite slice_in_range by lia.
    change (take (Z.to_nat (8 + 4 - 8)) (drop (Z.to_nat 8) buf)) with (le_bytes 4 H).
    apply (from_bytes_le_bytes 4). exact HH. }
  split.
  { rewrite (byte_at_lookup buf 12 (byte.of_Z (Z.land C 255))); [|lia|reflexivity].
    rewrite unsigned_of_Z_small by apply land_255_range. reflexivity. }
  split.
  { rewrite (byte_at_lookup buf 13 (byte.of_Z (Z.land d 255))); [|lia|reflexivity].
    rewrite unsigned_of_Z_small by apply land_255_range. reflexivity. }
  rewrite slice_from_in_range by lia. reflexivity.
Qed.

Lemma NL_imgb_parse_header (W H C d bps : Z) (payload : list byte) :
  0 <= W < 2 ^ 32 -> 0 <= H < 2 ^ 32 -> 0 <= C < 256 -> 0 <= d < 256 ->
  No_Libraries._bytes_per_sample d = Ok bps ->
  len payload = W * H * C * bps ->
  No_Libraries.imgb_parse (imgb_header W H C d ++ payload) = Ok (W, H, C, d, payload).
Proof.
  intros HW HH HC Hd Hbps Hlen.
  destruct (header_fields W H C d payload HW HH)
    as (Hl & Hmagic & HrW & HrH & HrC & Hrd & Hpay).
  pose proof (len_nonneg payload) as Hp.
  unfold No_Libraries.imgb_parse. rewrite Hl. zbool.
  rewrite Hmagic. rewrite bool_decide_eq_false_2 by (intros Hne; apply Hne; reflexivity).
  rewrite HrC, Hrd. cbn [bind]. rewrite !land_255_small by assumption.
  rewrite Hbps. cbn [bind]. cbv zeta. rewrite Hpay, HrW, HrH. zbool.
  reflexivity.
Qed.



Lemma NL_imgb_parse_rejects : rejects_bad_buffers No_Libraries.imgb_parse.
Proof.
  intros buf Hbad. unfold No_Libraries.imgb_parse.
  destruct (Z.ltb_spec (len buf) 16) as [Hshort|Hlong]; [eauto|].
  case_bool_decide as Hmagic; [eauto|].
  destruct (byte_at buf 12) as [C| |] eqn:HC; cbn [bind].
  2: { unfold byte_at in HC. destruct (getitem_in_range buf 12) as (x & _ & Hx); [lia|].
       rewrite Hx in HC. discriminate. }
  2: { unfold byte_at in HC. destruct (getitem_in_range buf 12) as (x & _ & Hx); [lia|].
       rewrite Hx in HC. discriminate. }
  destruct (byte_at buf 13) as [d| |] eqn:Hd; cbn [bind].
  2: { unfold byte_at in Hd. destruct (getitem_in_range buf 13) as (x & _ & Hx); [lia|].
       rewrite Hx in Hd. discriminate. }
  2: { unfold byte_at in Hd. destruct (getitem_in_range buf 13) as (x & _ & Hx); [lia|].
       rewrite Hx in Hd. discriminate. }
  destruct (No_Libraries._bytes_per_sample d) as [bps|e|] eqn:Hbps; cbn [bind].
  - cbv zeta. destruct (Z.eqb_spec (len (slice_from buf 16))
        (No_Libraries._u32_le buf 4 * No_Libraries._u32_le buf 8 * C * bps)) as [Heq|Hne];
      cbn [negb]; [|eauto].
    destruct Hbad as [Hbad|Hbad]; [contradiction|].
    exfalso. exact (Hbad C d bps HC Hd Hbps Heq).
  - unfold No_Libraries._bytes_per_sample in Hbps.
    repeat match type of Hbps with
           | (if ?c then _ else _) = _ => destruct c; [discriminate|]
           end.
    injection Hbps as <-. eauto.
  - unfold No_Libraries._bytes_per_sample in Hbps.
    repeat match type of Hbps with
           | (if ?c then _ else _) = _ => destruct c; [discriminate|]
           end.
    discriminate.
Qed.

Lemma BM_imgb_parse_total (buf : list byte) :
  14 <= len buf ->
  exists C dtype_code,
    byte_at buf 12 = Ok C /\ byte_at buf 13 = Ok dtype_code /\
    Bit_Manipulation.imgb_parse buf =
      Ok (Bit_Manipulation._u32_le buf 4, Bit_Manipulation._u32_le buf 8,
          C, dtype_code, slice_from buf 16).
Proof.
  intros Hlen. unfold Bit_Manipulation.imgb_parse.
  destruct (getitem_in_range buf 12) as (c & _ & Hc); [lia|].
  destruct (getitem_in_range buf 13) as (d & _ & Hd); [lia|].
  exists (byte.unsigned c), (byte.unsigned d).
  unfold byte_at. rewrite Hc, Hd. cbn [bind]. auto.
Qed.

(** C1 (as amended).  The parse operation of No_Libraries/utils.py rejects
    every malformed buffer with [ValueError], the format error of the code
    base: when the first four bytes are not the magic, and when the payload
    length differs from [width * height * channels * bytes_per_sample];
    it never returns a parsed result on such a buffer.  The parse operation
    of Bit_Manipulation/utils.py validates nothing: on every buffer of at
    least 14 bytes it returns the header fields and the bytes past offset
    16. *)
Theorem imgb_parse_validation :
  (forall buf, bad_buffer buf ->
     exists msg, No_Libraries.imgb_parse buf = Raise (ValueError msg)) /\
  (forall buf, 14 <= len buf ->
     exists C dtype_code,
       Bit_Manipulation.imgb_parse buf =
         Ok (Bit_Manipulation._u32_le buf 4, Bit_Manipulation._u32_le buf 8,
             C, dtype_code, slice_from buf 16)).
Proof.
  split.
  - exact NL_imgb_parse_rejects.
  - intros buf Hlen.
    destruct (BM_imgb_parse_total buf Hlen) as (C & d & _ & _ & Hparse).
    exists C, d. exact Hparse.
Qed.

Lemma imgb_parse_validation_witness :
  (exists msg,
     No_Libraries.imgb_parse
       [Byte.x58; Byte.x4d; Byte.x47; Byte.x42; Byte.x01; Byte.x00; Byte.x00; Byte.x00;
        Byte.x01; Byte.x00; Byte.x00; Byte.x00; Byte.x01; Byte.x01; Byte.x00; Byte.x00;
        Byte.x07] = Raise (ValueError msg)) /\
  (exists C dtype_code,
     Bit_Manipulation.imgb_parse
       [Byte.x58; Byte.x4d; Byte.x47; Byte.x42; Byte.x01; Byte.x00; Byte.x00; Byte.x00;
        Byte.x01; Byte.x00; Byte.x00; Byte.x00; Byte.x01; Byte.x01; Byte.x00; Byte.x00;
        Byte.x07] = Ok (1, 1, C, dtype_code, [Byte.x07])).
Proof.
  split.
  - apply (proj1 imgb_parse_validation). left. discriminate.
  - apply (proj2 imgb_parse_validation
             [Byte.x58; Byte.x4d; Byte.x47; Byte.x42; Byte.x01; Byte.x00; Byte.x00; Byte.x00;
              Byte.x01; Byte.x00; Byte.x00; Byte.x00; Byte.x01; Byte.x01; Byte.x00; Byte.x00;
              Byte.x07]).
    unfold len. simpl. lia.
Defined.

(** C1 as stated fails on Bit_Manipulation/utils.py: its parse returns a
    result on a buffer whose magic is "XMGB", and on a buffer with the right
    magic whose payload has two bytes where the header announces one. *)
Lemma imgb_parse_bit_manipulation_accepts_bad_buffers :
  (bad_buffer
     [Byte.x58; Byte.x4d; Byte.x47; Byte.x42; Byte.x01; Byte.x00; Byte.x00; Byte.x00;
      Byte.x01; Byte.x00; Byte.x00; Byte.x00; Byte.x01; Byte.x01; Byte.x00; Byte.x00;
      Byte.x07] /\
   Bit_Manipulation.imgb_parse
     [Byte.x58; Byte.x4d; Byte.x47; Byte.x42; Byte.x01; Byte.x00; Byte.x00; Byte.x00;
      Byte.x01; Byte.x00; Byte.x00; Byte.x00; Byte.x01; Byte.x01; Byte.x00; Byte.x00;
      Byte.x07] = Ok (1, 1, 1, 1, [Byte.x07])) /\
  (bad_buffer
     [Byte.x49; Byte.x4d; Byte.x47; Byte.x42; Byte.x01; Byte.x00; Byte.x00; Byte.x00;
      Byte.x01; Byte.x00; Byte.x00; Byte.x00; Byte.x01; Byte.x01; Byte.x00; Byte.x00;
      Byte.x07; Byte.x08] /\
   Bit_Manipulation.imgb_parse
     [Byte.x49; Byte.x4d; Byte.x47; Byte.x42; Byte.x01; Byte.x00; Byte.x00; Byte.x00;
      Byte.x01; Byte.x00; Byte.x00; Byte.x00; Byte.x01; Byte.x01; Byte.x00; Byte.x00;
      Byte.x07; Byte.x08] = Ok (1, 1, 1, 1, [Byte.x07; Byte.x08])) /\
  ~ rejects_bad_buffers Bit_Manipulation.imgb_parse.
Proof.
  assert (Hbad1 : bad_buffer
     [Byte.x58; Byte.x4d; Byte.x47; Byte.x42; Byte.x01; Byte.x00; Byte.x00; Byte.x00;
      Byte.x01; Byte.x00; Byte.x00; Byte.x00; Byte.x01; Byte.x01; Byte.x00; Byte.x00;
      Byte.x07]).
  { left. discriminate. }
  split; [split; [exact Hbad1|reflexivity]|].
  split.
  - split; [|reflexivity]. right. intros C d bps HC Hd Hbps.
    injection HC as <-. injection Hd as <-. injection Hbps as <-.
    discriminate.
  - intros Hrej. destruct (Hrej _ Hbad1) as [msg Hmsg]. discriminate.
Qed.

(** ** Loops *)

Lemma for_each_app {I St} (l1 l2 : list I) (body : I -> St -> result St) (s : St) :
  for_each (l1 ++ l2) body s = bind (for_each l1 body s) (for_each l2 body).
Proof.
  revert s. induction l1 as [|i l1 IH]; intros s; cbn [for_each app bind].
  - reflexivity.
  - destruct (body i s); cbn [bind]; [apply IH|reflexivity|reflexivity].
Qed.

(** Invariant rule for [for i in l]. *)
Lemma for_each_inv {I St} (l : list I) (body : I -> St -> result St)
    (Inv : nat -> St -> Prop) (s0 : St) :
  Inv 0%nat s0 ->
  (forall k i s, l !! k = Some i -> Inv k s ->
     exists s', body i s = Ok s' /\ Inv (S k) s') ->
  exists s', for_each l body s0 = Ok s' /\ Inv (length l) s'.
Proof.
  revert Inv s0. induction l as [|i l IH]; intros Inv s0 H0 Hstep.
  - exists s0. split; [reflexivity|exact H0].
  - destruct (Hstep 0%nat i s0 eq_refl H0) as (s1 & Hb & H1).
    destruct (IH (fun k => Inv (S k)) s1 H1) as (s' & Hrun & Hend).
    { intros k j s Hk Hs. apply (Hstep (S k) j s Hk Hs). }
    exists s'. split; [|exact Hend].
    cbn [for_each]. rewrite Hb. exact Hrun.
Qed.

(** Invariant rule for [for k in range(n)]. *)
Lemma for_range_inv {St} (n : Z) (body : Z -> St -> result St)
    (Inv : Z -> St -> Prop) (s0 : St) :
  Inv 0 s0 ->
  (forall k s, 0 <= k < n -> Inv k s ->
     exists s', body k s = Ok s' /\ Inv (k + 1) s') ->
  exists s', for_each (range n) body s0 = Ok s' /\ Inv (Z.max 0 n) s'.
Proof.
  intros H0 Hstep.
  destruct (for_each_inv (range n) body (fun k => Inv (Z.of_nat k)) s0 H0)
    as (s' & Hrun & Hend).
  - intros k i s Hk Hs. unfold range in Hk. apply lookup_seqZ in Hk as [-> Hlt].
    destruct (Hstep (Z.of_nat k) s) as (s' & Hb & Hs'); [lia|exact Hs|].
    exists s'. split; [exact Hb|].
    replace (Z.of_nat (S k)) with (Z.of_nat k + 1) by lia. exact Hs'.
  - exists s'. split; [exact Hrun|].
    unfold range in Hend. rewrite length_seqZ in Hend.
    replace (Z.max 0 n) with (Z.of_nat (Z.to_nat n)) by lia. exact Hend.
Qed.

Lemma range_nonpos n : n <= 0 -> range n = [].
Proof. intros Hn. unfold range. apply seqZ_nil. exact Hn. Qed.

(** ** Grids *)

Lemma cell_Some (g : list (list Z)) (i j : Z) (row : list Z) (v : Z) :
  g !! Z.to_nat i = Some row -> row !! Z.to_nat j = Some v -> cell g i j = Some v.
Proof. intros Hr Hv. unfold cell. rewrite Hr. exact Hv. Qed.

Lemma grid_shape_row (g : list (list Z)) (R C i : Z) :
  grid_shape g R C -> 0 <= i < R ->
  exists row, g !! Z.to_nat i = Some row /\ len row = C.
Proof.
  intros [HR HC] Hi.
  destruct (lookup_lt_is_Some_2 g (Z.to_nat i)) as [row Hrow].
  { unfold len in HR. lia. }
  exists row. split; [exact Hrow|]. apply (HC _ _ Hrow).
Qed.

Lemma grid_shape_cell (g : list (list Z)) (R C i j : Z) :
  grid_shape g R C -> 0 <= i < R -> 0 <= j < C -> exists v, cell g i j = Some v.
Proof.
  intros Hg Hi Hj. destruct (grid_shape_row g R C i Hg Hi) as (row & Hrow & Hlen).
  destruct (lookup_lt_is_Some_2 row (Z.to_nat j)) as [v Hv].
  { unfold len in Hlen. lia. }
  exists v. apply (cell_Some g i j row v Hrow Hv).
Qed.

Lemma grid_shape_const (R C v : Z) :
  0 <= R -> 0 <= C ->
  grid_shape ((fun _ => list_repeat v C) <$> range R) R C /\
  forall i j, 0 <= i < R -> 0 <= j < C ->
    cell ((fun _ => list_repeat v C) <$> range R) i j = Some v.
Proof.
  intros HR HC. split; [split|].
  - unfold len, range. rewrite length_fmap, length_seqZ. lia.
  - intros i row Hrow. rewrite list_lookup_fmap in Hrow.
    destruct (range R !! i); [|discriminate]. injection Hrow as <-.
    apply len_list_repeat. exact HC.
  - intros i j Hi Hj. unfold cell. rewrite list_lookup_fmap.
    unfold range. rewrite lookup_seqZ_lt by lia. cbn [fmap option_fmap option_map].
    unfold list_repeat. apply lookup_replicate_2. lia.
Qed.

(** [g[i][j] = v] through a reference to row [i]. *)
Lemma grid_write (g : list (list Z)) (R C i j v : Z) :
  grid_shape g R C -> 0 <= i < R -> 0 <= j < C ->
  exists g',
    (row <- getitem g i ; row <- setitem row j v ; setitem g i row) = Ok g' /\
    grid_shape g' R C /\
    cell g' i j = Some v /\
    forall i' j', (i', j') <> (i, j) -> 0 <= i' -> 0 <= j' -> cell g' i' j' = cell g i' j'.
Proof.
  intros Hg Hi Hj. destruct (grid_shape_row g R C i Hg Hi) as (row & Hrow & Hlen).
  exists (<[Z.to_nat i := <[Z.to_nat j := v]> row]> g).
  destruct Hg as [HR HC].
  split; [|split; [|split]].
  - rewrite (getitem_lookup g i row) by (lia || assumption). cbn [bind].
    rewrite setitem_in_range by lia. cbn [bind].
    rewrite setitem_in_range by lia. reflexivity.
  - split.
    + unfold len. rewrite length_insert. exact HR.
    + intros k r Hr. destruct (decide (k = Z.to_nat i)) as [->|Hne].
      * rewrite list_lookup_insert_eq in Hr by (unfold len in HR; lia).
        injection Hr as <-. unfold len. rewrite length_insert. exact Hlen.
      * rewrite list_lookup_insert_ne in Hr by congruence. apply (HC _ _ Hr).
  - unfold cell. rewrite list_lookup_insert_eq by (unfold len in HR; lia).
    apply list_lookup_insert_eq. unfold len in Hlen. lia.
  - intros i' j' Hne Hi' Hj'. unfold cell.
    destruct (decide (Z.to_nat i' = Z.to_nat i)) as [Heq|Hneq].
    + rewrite Heq. rewrite list_lookup_insert_eq by (unfold len in HR; lia).
      rewrite Hrow. apply list_lookup_insert_ne.
      intros Hj''. apply Hne. f_equal; lia.
    + rewrite list_lookup_insert_ne by congruence. reflexivity.
Qed.

Lemma getitem_cell (g : list (list Z)) (R C i j : Z) :
  grid_shape g R C -> 0 <= i < R -> 0 <= j < C ->
  exists row v, getitem g i = Ok row /\ getitem row j = Ok v /\ cell g i j = Some v.
Proof.
  intros Hg Hi Hj. destruct (grid_shape_row g R C i Hg Hi) as (row & Hrow & Hlen).
  destruct (getitem_in_range row j) as (v & Hv & Hget); [lia|].
  exists row, v. split; [apply getitem_lookup; (lia || assumption)|].
  split; [exact Hget|]. apply (cell_Some g i j row v Hrow Hv).
Qed.

(** ** Prefix sums *)

Lemma sum_list_app (l1 l2 : list Z) : sum_list (l1 ++ l2) = sum_list l1 + sum_list l2.
Proof.
  unfold sum_list. induction l1 as [|a l1 IH]; cbn [foldr app]; lia.
Qed.

Lemma sum_list_take_S (l : list Z) (j : nat) (v : Z) :
  l !! j = Some v -> sum_list (take (S j) l) = sum_list (take j l) + v.
Proof.
  intros Hv. rewrite (take_S_r l j v Hv). rewrite sum_list_app.
  unfold sum_list. cbn [foldr]. lia.
Qed.

Lemma prefix_sum_row0 plane j : prefix_sum plane 0 j = 0.
Proof. reflexivity. Qed.

Lemma prefix_sum_col0 plane i : prefix_sum plane i 0 = 0.
Proof.
  unfold prefix_sum. change (Z.to_nat 0) with 0%nat.
  induction (take (Z.to_nat i) plane) as [|r l IH]; [reflexivity|].
  cbn [fmap list_fmap]. unfold sum_list in *. cbn [foldr take]. cbn [foldr].
  rewrite IH. reflexivity.
Qed.

Lemma prefix_sum_succ_row plane i j row :
  0 <= i -> plane !! Z.to_nat i = Some row ->
  prefix_sum plane (i + 1) j = prefix_sum plane i j + sum_list (take (Z.to_nat j) row).
Proof.
  intros Hi Hrow. unfold prefix_sum.
  replace (Z.to_nat (i + 1)) with (S (Z.to_nat i)) by lia.
  rewrite (take_S_r plane _ row Hrow). rewrite fmap_app, sum_list_app.
  cbn [fmap list_fmap]. unfold sum_list at 3. cbn [foldr]. lia.
Qed.

Lemma prefix_sum_total plane A W :
  len plane = A -> (forall i row, plane !! i = Some row -> len row = W) ->
  prefix_sum plane A W = plane_total plane.
Proof.
  intros HA HW. unfold prefix_sum, plane_total.
  rewrite firstn_all2 by (unfold len in HA; lia).
  f_equal. apply list_eq. intros k. rewrite !list_lookup_fmap.
  destruct (plane !! k) as [row|] eqn:Hrow; [|reflexivity].
  cbn [fmap option_fmap option_map]. f_equal. f_equal.
  apply firstn_all2. specialize (HW _ _ Hrow). unfold len in HW. lia.
Qed.

Lemma grid_write_then {B} (g : list (list Z)) (R C i j v : Z) :
  grid_shape g R C -> 0 <= i < R -> 0 <= j < C ->
  exists g',
    (forall k : list (list Z) -> result B,
       (row <- getitem g i ; row <- setitem row j v ; g'' <- setitem g i row ; k g'') = k g') /\
    grid_shape g' R C /\
    cell g' i j = Some v /\
    forall i' j', (i', j') <> (i, j) -> 0 <= i' -> 0 <= j' -> cell g' i' j' = cell g i' j'.
Proof.
  intros Hg Hi Hj.
  destruct (grid_write g R C i j v Hg Hi Hj) as (g' & Hrun & Hshape & Hnew & Hold).
  exists g'. split; [|auto].
  intros k. destruct (getitem g i) as [row| |]; cbn [bind] in *; try discriminate.
  destruct (setitem row j v) as [row'| |]; cbn [bind] in *; try discriminate.
  rewrite Hrun. reflexivity.
Qed.

(** ** The integral image of the box sum *)

Lemma integral_image_correct (plane : list (list Z)) (A W : Z) :
  grid_shape plane A W -> 0 <= W ->
  exists integ,
    for_each (range A) (fun a integ =>
      prow <- getitem plane a ;
      '(row_sum, integ) <- for_each (range W) (fun x '(row_sum, integ) =>
        p <- getitem prow x ;
        ia0 <- getitem integ a ;
        v <- getitem ia0 (x + 1) ;
        ia1 <- getitem integ (a + 1) ;
        ia1 <- setitem ia1 (x + 1) (v + (row_sum + p)) ;
        integ <- setitem integ (a + 1) ia1 ;
        Ok (row_sum + p, integ)) (0, integ) ;
      Ok integ) ((fun _ => list_repeat 0 (W + 1)) <$> range (A + 1)) = Ok integ /\
    grid_shape integ (A + 1) (W + 1) /\
    forall i j, 0 <= i <= A -> 0 <= j <= W ->
      cell integ i j = Some (prefix_sum plane i j).
Proof.
  intros Hplane HW.
  assert (HA : 0 <= A) by (destruct Hplane as [<- _]; apply len_nonneg).
  destruct (grid_shape_const (A + 1) (W + 1) 0) as [Hshape0 Hcell0]; [lia|lia|].
  match goal with
  | |- exists integ, for_each _ ?body ?s0 = _ /\ _ =>
      destruct (for_range_inv A body
        (fun a g => grid_shape g (A + 1) (W + 1) /\
           forall i j, 0 <= i <= A -> 0 <= j <= W -> i = 0 \/ j = 0 \/ i <= a ->
             cell g i j = Some (prefix_sum plane i j)) s0)
        as (integ & Hrun & Hshape & Hcells)
  end.
  - split; [exact Hshape0|]. intros i j Hi Hj Hdone.
    rewrite Hcell0 by lia. f_equal.
    destruct Hdone as [->| [->| Hle]].
    + reflexivity.
    + symmetry. apply prefix_sum_col0.
    + replace i with 0 by lia. reflexivity.
  - intros a g Ha [Hg Hcells].
    destruct (grid_shape_row plane A W a Hplane Ha) as (prow & Hprow & Hlen).
    rewrite (getitem_lookup plane a prow) by (lia || assumption). cbn [bind].
    match goal with
    | |- exists s', bind (for_each _ ?body ?s0) _ = _ /\ _ =>
        destruct (for_range_inv W body
          (fun x '(rs, g') => grid_shape g' (A + 1) (W + 1) /\
             rs = sum_list (take (Z.to_nat x) prow) /\
             forall i j, 0 <= i <= A -> 0 <= j <= W ->
               i = 0 \/ j = 0 \/ i <= a \/ (i = a + 1 /\ j <= x) ->
               cell g' i j = Some (prefix_sum plane i j)) s0)
          as ([rs g'] & Hrun' & Hg' & Hrs & Hcells')
    end.
    + split; [exact Hg|]. split; [reflexivity|].
      intros i j Hi Hj Hdone. apply Hcells; [lia|lia|]. lia.
    + intros x [rs g'] Hx (Hg' & Hrs & Hcells').
      destruct (getitem_in_range prow x) as (p & Hp & Hgetp); [lia|].
      rewrite Hgetp. cbn [bind].
      destruct (getitem_cell g' (A + 1) (W + 1) a (x + 1) Hg') as (ia0 & v & Hia0 & Hv & Hcell);
        [lia|lia|].
      rewrite Hia0. cbn [bind]. rewrite Hv. cbn [bind].
      destruct (grid_write_then (B := Z * list (list Z)) g' (A + 1) (W + 1) (a + 1) (x + 1)
                  (v + (rs + p)) Hg') as (g'' & Hw & Hg'' & Hnew & Hold); [lia|lia|].
      rewrite (Hw (fun integ => Ok (rs + p, integ))).
      eexists. split; [reflexivity|]. cbv beta iota.
      split; [exact Hg''|]. split.
      * replace (Z.to_nat (x + 1)) with (S (Z.to_nat x)) by lia.
        rewrite (sum_list_take_S prow _ p Hp). lia.
      * intros i j Hi Hj Hdone.
        destruct (decide ((i, j) = (a + 1, x + 1))) as [Heq|Hne].
        -- injection Heq as -> ->. rewrite Hnew. f_equal.
           rewrite (prefix_sum_succ_row plane a (x + 1) prow) by (lia || assumption).
           rewrite Hcells' in Hcell by lia. injection Hcell as <-.
           replace (Z.to_nat (x + 1)) with (S (Z.to_nat x)) by lia.
           rewrite (sum_list_take_S prow _ p Hp). lia.
        -- rewrite Hold by (assumption || lia). apply Hcells'; [lia|lia|].
           destruct Hdone as [?| [?| [?| [? ?]]]]; [lia|lia|lia|].
           right; right; right. split; [assumption|].
           assert (j <> x + 1) by (intros ->; apply Hne; f_equal; assumption). lia.
    + rewrite Hrun'. cbn [bind]. exists g'. split; [reflexivity|].
      split; [exact Hg'|]. intros i j Hi Hj Hdone. apply Hcells'; [lia|lia|]. lia.
  - exists integ. split; [exact Hrun|]. split; [exact Hshape|].
    intros i j Hi Hj. apply Hcells; [lia|lia|]. lia.
Qed.

Lemma cell_in_row (g : list (list Z)) (i j : Z) (row : list Z) (v : Z) :
  cell g i j = Some v -> g !! Z.to_nat i = Some row -> 0 <= j -> getitem row j = Ok v.
Proof.
  intros Hcell Hrow Hj. unfold cell in Hcell. rewrite Hrow in Hcell.
  apply getitem_lookup; assumption.
Qed.

(** ** The output loop of the box sum *)

Lemma box_output_correct (plane integ : list (list Z)) (A W r : Z) :
  0 <= A -> 0 <= W -> 0 <= r ->
  grid_shape integ (A + 1) (W + 1) ->
  (forall i j, 0 <= i <= A -> 0 <= j <= W ->
     cell integ i j = Some (prefix_sum plane i j)) ->
  exists out,
    for_each (range A) (fun a out =>
      ia0 <- getitem integ (if a - r <? 0 then 0 else a - r) ;
      ia1 <- getitem integ ((if A <=? a + r then A - 1 else a + r) + 1) ;
      for_each (range W) (fun x out =>
        s11 <- getitem ia1 ((if W <=? x + r then W - 1 else x + r) + 1) ;
        s01 <- getitem ia0 ((if W <=? x + r then W - 1 else x + r) + 1) ;
        s10 <- getitem ia1 (if x - r <? 0 then 0 else x - r) ;
        s00 <- getitem ia0 (if x - r <? 0 then 0 else x - r) ;
        orow <- getitem out a ;
        orow <- setitem orow x (s11 - s01 - s10 + s00) ;
        setitem out a orow) out) ((fun _ => list_repeat 0 W) <$> range A) = Ok out /\
    grid_shape out A W /\
    forall a x, 0 <= a < A -> 0 <= x < W ->
      cell out a x = Some (window_sum plane A W r a x).
Proof.
  intros HA HW Hr Hinteg Hcells.
  destruct (grid_shape_const A W 0 HA HW) as [Hshape0 _].
  match goal with
  | |- exists out, for_each _ ?body ?s0 = _ /\ _ =>
      destruct (for_range_inv A body
        (fun a g => grid_shape g A W /\
           forall i j, 0 <= i < a -> 0 <= j < W ->
             cell g i j = Some (window_sum plane A W r i j)) s0)
        as (out & Hrun & Hshape & Hout)
  end.
  - split; [exact Hshape0|]. intros i j Hi Hj. lia.
  - intros a g Ha [Hg Hdone].
    assert (Ha0 : (if a - r <? 0 then 0 else a - r) = Z.max 0 (a - r)).
    { destruct (Z.ltb_spec (a - r) 0); lia. }
    assert (Ha1 : (if A <=? a + r then A - 1 else a + r) = Z.min (A - 1) (a + r)).
    { destruct (Z.leb_spec A (a + r)); lia. }
    rewrite Ha0, Ha1.
    destruct (grid_shape_row integ (A + 1) (W + 1) (Z.max 0 (a - r)) Hinteg)
      as (ia0 & Hia0 & Hlen0); [lia|].
    destruct (grid_shape_row integ (A + 1) (W + 1) (Z.min (A - 1) (a + r) + 1) Hinteg)
      as (ia1 & Hia1 & Hlen1); [lia|].
    rewrite (getitem_lookup integ _ ia0) by (lia || assumption). cbn [bind].
    rewrite (getitem_lookup integ _ ia1) by (lia || assumption). cbn [bind].
    match goal with
    | |- exists s', for_each _ ?body ?s0 = _ /\ _ =>
        destruct (for_range_inv W body
          (fun x g' => grid_shape g' A W /\
             forall i j, 0 <= i < A -> 0 <= j < W -> i < a \/ (i = a /\ j < x) ->
               cell g' i j = Some (window_sum plane A W r i j)) s0)
          as (g' & Hrun' & Hg' & Hdone')
    end.
    + split; [exact Hg|]. intros i j Hi Hj Hd. apply Hdone; lia.
    + intros x g' Hx [Hg' Hdone'].
      assert (Hx0 : (if x - r <? 0 then 0 else x - r) = Z.max 0 (x - r)).
      { destruct (Z.ltb_spec (x - r) 0); lia. }
      assert (Hx1 : (if W <=? x + r then W - 1 else x + r) = Z.min (W - 1) (x + r)).
      { destruct (Z.leb_spec W (x + r)); lia. }
      rewrite Hx0, Hx1.
      assert (H11 := Hcells (Z.min (A - 1) (a + r) + 1) (Z.min (W - 1) (x + r) + 1)
                       ltac:(lia) ltac:(lia)).
      assert (H01 := Hcells (Z.max 0 (a - r)) (Z.min (W - 1) (x + r) + 1)
                       ltac:(lia) ltac:(lia)).
      assert (H10 := Hcells (Z.min (A - 1) (a + r) + 1) (Z.max 0 (x - r))
                       ltac:(lia) ltac:(lia)).
      assert (H00 := Hcells (Z.max 0 (a - r)) (Z.max 0 (x - r))
                       ltac:(lia) ltac:(lia)).
      eapply cell_in_row in H11; [|exact Hia1|lia].
      eapply cell_in_row in H01; [|exact Hia0|lia].
      eapply cell_in_row in H10; [|exact Hia1|lia].
      eapply cell_in_row in H00; [|exact Hia0|lia].
      rewrite H11. cbn [bind]. rewrite H01. cbn [bind].
      rewrite H10. cbn [bind]. rewrite H00. cbn [bind].
      destruct (grid_write g' A W a x
                  (prefix_sum plane (Z.min (A - 1) (a + r) + 1) (Z.min (W - 1) (x + r) + 1)
                   - prefix_sum plane (Z.max 0 (a - r)) (Z.min (W - 1) (x + r) + 1)
                   - prefix_sum plane (Z.min (A - 1) (a + r) + 1) (Z.max 0 (x - r))
                   + prefix_sum plane (Z.max 0 (a - r)) (Z.max 0 (x - r))) Hg')
        as (g'' & Hw & Hg'' & Hnew & Hold); [lia|lia|].
      exists g''. split; [exact Hw|]. split; [exact Hg''|].
      intros i j Hi Hj Hd.
      destruct (decide ((i, j) = (a, x))) as [Heq|Hne].
      * injection Heq as -> ->. rewrite Hnew. reflexivity.
      * rewrite Hold by (assumption || lia). apply Hdone'; [lia|lia|].
        destruct Hd as [?| [? ?]]; [lia|]. right. split; [assumption|].
        assert (j <> x) by (intros ->; apply Hne; f_equal; assumption). lia.
    + exists g'. split; [exact Hrun'|]. split; [exact Hg'|].
      intros i j Hi Hj. apply Hdone'; lia.
  - exists out. split; [exact Hrun|]. split; [exact Hshape|].
    intros a x Ha Hx. apply Hout; lia.
Qed.

(** ** The box sum *)

Lemma NL_box_sum_spec (plane : list (list Z)) (A W win : Z) :
  grid_shape plane A W -> 0 <= W -> (A = 0 -> W = 0) -> 1 < win ->
  exists out,
    No_Libraries._box_sum_2d_int plane win = Ok out /\
    grid_shape out A W /\
    forall a x, 0 <= a < A -> 0 <= x < W ->
      cell out a x = Some (window_sum plane A W (win / 2) a x).
Proof.
  intros Hplane HW HA0 Hwin.
  assert (HA : 0 <= A) by (destruct Hplane as [<- _]; apply len_nonneg).
  assert (Hr : 0 <= win / 2) by (apply Z.div_pos; lia).
  unfold No_Libraries._box_sum_2d_int. zbool. cbv zeta.
  assert (HlenA : len plane = A) by apply Hplane. rewrite HlenA.
  assert (HW' : (if 0 <? A then p0 <- getitem plane 0 ; Ok (len p0) else Ok 0) = Ok W).
  { destruct (Z.ltb_spec 0 A) as [Hpos|Hzero].
    - destruct (grid_shape_row plane A W 0 Hplane) as (p0 & Hp0 & Hlen0); [lia|].
      rewrite (getitem_lookup plane 0 p0) by (lia || assumption). cbn [bind].
      rewrite Hlen0. reflexivity.
    - rewrite HA0 by lia. reflexivity. }
  rewrite HW'. cbn [bind].
  destruct (integral_image_correct plane A W Hplane HW) as (integ & Hrun & Hinteg & Hcells).
  rewrite Hrun. cbn [bind].
  destruct (box_output_correct plane integ A W (win / 2) HA HW Hr Hinteg Hcells)
    as (out & Hout & Hshape & Hval).
  exists out. split; [exact Hout|]. split; [exact Hshape|exact Hval].
Qed.

Lemma BM_box_sum_eq (plane : list (list Z)) (win : Z) :
  Bit_Manipulation._box_sum_2d_int plane win = No_Libraries._box_sum_2d_int plane win.
Proof.
  unfold Bit_Manipulation._box_sum_2d_int, No_Libraries._box_sum_2d_int.
  destruct (win <=? 1); [reflexivity|]. cbv zeta.
  rewrite Z.shiftr_div_pow2 by lia. change (2 ^ 1) with 2.
  destruct (Z.leb_spec (len plane) 0) as [Hle|Hgt].
  - destruct plane as [|row plane]; [reflexivity|].
    unfold len in Hle. cbn [length] in Hle. lia.
  - rewrite (proj2 (Z.ltb_lt 0 (len plane)) Hgt).
    destruct (getitem plane 0) as [p0| |]; reflexivity.
Qed.

Lemma window_covers_plane (plane : list (list Z)) (A W r a x : Z) :
  grid_shape plane A W -> 0 <= a < A -> 0 <= x < W ->
  Z.max A W - 1 <= r ->
  window_sum plane A W r a x = plane_total plane.
Proof.
  intros [HA HW] Ha Hx Hr. unfold window_sum. cbv zeta.
  rewrite (Z.max_l 0 (a - r)) by lia. rewrite (Z.min_l (A - 1) (a + r)) by lia.
  rewrite (Z.max_l 0 (x - r)) by lia. rewrite (Z.min_l (W - 1) (x + r)) by lia.
  replace (A - 1 + 1) with A by lia. replace (W - 1 + 1) with W by lia.
  rewrite prefix_sum_row0, prefix_sum_col0, (prefix_sum_total plane A W HA HW).
  change (prefix_sum plane 0 0) with 0. lia.
Qed.

Lemma single_cell_total (plane : list (list Z)) (v : Z) :
  grid_shape plane 1 1 -> cell plane 0 0 = Some v -> plane_total plane = v.
Proof.
  intros [HA HW] Hcell. destruct plane as [|row [|row' plane]];
    unfold len in HA; cbn [length] in HA; try lia.
  specialize (HW 0%nat row eq_refl).
  destruct row as [|w [|w' row]]; unfold len in HW; cbn [length] in HW; try lia.
  injection Hcell as <-. unfold plane_total, sum_list. cbn. lia.
Qed.

(** C9.  Box sum of an integer plane of [A] rows by [W] columns, in both
    variants: with window size 1 the operation returns the plane unchanged;
    with a window whose half-width [win / 2] is at least [max(A, W) - 1]
    (so that the clamped window covers the whole plane at every position)
    it returns a plane of the same shape in which every entry is the sum
    of all [A * W] entries of the input. *)
Theorem box_sum_identity_and_total (plane : list (list Z)) (A W win : Z) :
  grid_shape plane A W ->
  (No_Libraries._box_sum_2d_int plane 1 = Ok plane /\
   Bit_Manipulation._box_sum_2d_int plane 1 = Ok plane) /\
  (Z.max A W - 1 <= win / 2 ->
   exists out,
     No_Libraries._box_sum_2d_int plane win = Ok out /\
     Bit_Manipulation._box_sum_2d_int plane win = Ok out /\
     len out = A /\
     forall a x, 0 <= a < A -> 0 <= x < W ->
       cell out a x = Some (plane_total plane)).
Proof.
  intros Hplane. split; [split; reflexivity|].
  intros Hr. rewrite BM_box_sum_eq.
  assert (HA : 0 <= A) by (destruct Hplane as [<- _]; apply len_nonneg).
  destruct (Z.le_gt_cases win 1) as [Hsmall|Hbig].
  - exists plane. unfold No_Libraries._box_sum_2d_int. zbool.
    split; [reflexivity|]. split; [reflexivity|]. split; [apply Hplane|].
    intros a x Ha Hx.
    assert (win / 2 <= 1 / 2) as Hhalf by (apply Z.div_le_mono; lia).
    change (1 / 2) with 0 in Hhalf.
    assert (A = 1) as -> by lia. assert (W = 1) as -> by lia.
    assert (a = 0) as -> by lia. assert (x = 0) as -> by lia.
    destruct (grid_shape_cell plane 1 1 0 0 Hplane) as [v Hv]; [lia|lia|].
    rewrite Hv. f_equal. symmetry. apply single_cell_total; assumption.
  - destruct (Z.eq_dec A 0) as [->|HAne].
    + assert (Hplane0 : grid_shape plane 0 0).
      { destruct Hplane as [Hlen _]. split; [exact Hlen|].
        intros i row Hrow. apply lookup_lt_Some in Hrow. unfold len in Hlen. lia. }
      destruct (NL_box_sum_spec plane 0 0 win Hplane0) as (out & Hout & Hshape & _);
        [lia|lia|lia|].
      exists out. split; [exact Hout|]. split; [exact Hout|].
      split; [apply Hshape|]. intros a x Ha Hx. lia.
    + destruct (Z.lt_ge_cases W 0) as [Hneg|HW].
      { destruct (grid_shape_row plane A W 0 Hplane) as (row & _ & Hlen); [lia|].
        pose proof (len_nonneg row). lia. }
      destruct (NL_box_sum_spec plane A W win Hplane HW) as (out & Hout & Hshape & Hval);
        [lia|lia|].
      exists out. split; [exact Hout|]. split; [exact Hout|].
      split; [apply Hshape|]. intros a x Ha Hx.
      rewrite (Hval a x Ha Hx). f_equal.
      apply window_covers_plane; assumption.
Qed.

Lemma box_sum_identity_and_total_witness :
  (No_Libraries._box_sum_2d_int [[1; 2; 3]; [4; 5; 6]] 1 = Ok [[1; 2; 3]; [4; 5; 6]] /\
   Bit_Manipulation._box_sum_2d_int [[1; 2; 3]; [4; 5; 6]] 1 = Ok [[1; 2; 3]; [4; 5; 6]]) /\
  exists out,
    No_Libraries._box_sum_2d_int [[1; 2; 3]; [4; 5; 6]] 5 = Ok out /\
    Bit_Manipulation._box_sum_2d_int [[1; 2; 3]; [4; 5; 6]] 5 = Ok out /\
    len out = 2 /\
    forall a x, 0 <= a < 2 -> 0 <= x < 3 ->
      cell out a x = Some (plane_total [[1; 2; 3]; [4; 5; 6]]).
Proof.
  assert (Hshape : grid_shape [[1; 2; 3]; [4; 5; 6]] 2 3).
  { split; [reflexivity|]. intros [|[|i]] row Hrow; try discriminate;
      injection Hrow as <-; reflexivity. }
  destruct (box_sum_identity_and_total [[1; 2; 3]; [4; 5; 6]] 2 3 5 Hshape) as [Hid Htot].
  split; [exact Hid|]. apply Htot. reflexivity.
Defined.

Example box_sum_example :
  No_Libraries._box_sum_2d_int [[1; 2; 3]; [4; 5; 6]] 5 =
    Ok [[21; 21; 21]; [21; 21; 21]] /\
  Bit_Manipulation._box_sum_2d_int [[1; 2; 3]; [4; 5; 6]] 3 =
    Ok [[12; 21; 16]; [12; 21; 16]].
Proof. split; reflexivity. Qed.

(** ** Slices *)

Lemma slice_len {A} (l : list A) (lo hi : Z) :
  0 <= lo <= hi -> hi <= len l -> len (slice l lo hi) = hi - lo.
Proof.
  intros Hlo Hhi. rewrite slice_in_range by assumption.
  unfold len in *. rewrite length_take, length_drop. lia.
Qed.

Lemma slice_lookup {A} (l : list A) (lo hi j : Z) :
  0 <= lo <= hi -> hi <= len l -> 0 <= j < hi - lo ->
  slice l lo hi !! Z.to_nat j = l !! Z.to_nat (lo + j).
Proof.
  intros Hlo Hhi Hj. rewrite slice_in_range by assumption.
  rewrite lookup_take_lt by lia. rewrite lookup_drop. f_equal. lia.
Qed.

Lemma slice_assign_len {A} (out : list A) (lo hi : Z) (s : list A) :
  0 <= lo <= hi -> hi <= len out -> len s = hi - lo ->
  len (slice_assign out lo hi s) = len out.
Proof.
  intros Hlo Hhi Hs. rewrite slice_assign_in_range by assumption.
  unfold len in *. rewrite !length_app, length_take, length_drop. lia.
Qed.

Lemma slice_assign_lookup_in {A} (out : list A) (lo hi i : Z) (s : list A) :
  0 <= lo <= hi -> hi <= len out -> len s = hi - lo -> lo <= i < hi ->
  slice_assign out lo hi s !! Z.to_nat i = s !! Z.to_nat (i - lo).
Proof.
  intros Hlo Hhi Hs Hi. rewrite slice_assign_in_range by assumption.
  unfold len in *.
  rewrite lookup_app_r by (rewrite length_take; lia).
  rewrite length_take. rewrite lookup_app_l by lia. f_equal. lia.
Qed.

Lemma slice_assign_lookup_out {A} (out : list A) (lo hi i : Z) (s : list A) :
  0 <= lo <= hi -> hi <= len out -> len s = hi - lo -> 0 <= i -> i < lo \/ hi <= i ->
  slice_assign out lo hi s !! Z.to_nat i = out !! Z.to_nat i.
Proof.
  intros Hlo Hhi Hs Hi0 Hi. rewrite slice_assign_in_range by assumption.
  unfold len in *. destruct Hi as [Hlt|Hge].
  - rewrite lookup_app_l by (rewrite length_take; lia).
    apply lookup_take_lt. lia.
  - rewrite lookup_app_r by (rewrite length_take; lia).
    rewrite length_take. rewrite lookup_app_r by lia.
    rewrite lookup_drop. f_equal. lia.
Qed.

(** ** EPI assembly *)

Lemma gather_rows (h_stack : list (list byte)) (U rb row_base : Z) (out0 : list byte) :
  0 <= rb -> 0 <= row_base -> U = len h_stack -> len out0 = U * rb ->
  (forall u frame, h_stack !! u = Some frame -> row_base + rb <= len frame) ->
  exists out,
    for_each (range U) (fun u '(out, out_i) =>
      frame <- getitem h_stack u ;
      Ok (slice_assign out out_i (out_i + rb) (slice frame row_base (row_base + rb)),
          out_i + rb)) (out0, 0) = Ok (out, U * rb) /\
    len out = U * rb /\
    forall u j frame, 0 <= u < U -> 0 <= j < rb ->
      h_stack !! Z.to_nat u = Some frame ->
      out !! Z.to_nat (u * rb + j) = frame !! Z.to_nat (row_base + j).
Proof.
  intros Hrb Hbase HU Hlen Hframes.
  assert (HU0 : 0 <= U) by (rewrite HU; apply len_nonneg).
  match goal with
  | |- exists out, for_each _ ?body ?s0 = _ /\ _ =>
      destruct (for_range_inv U body
        (fun u '(out, out_i) => out_i = u * rb /\ len out = U * rb /\
           forall u' j frame, 0 <= u' < u -> 0 <= j < rb ->
             h_stack !! Z.to_nat u' = Some frame ->
             out !! Z.to_nat (u' * rb + j) = frame !! Z.to_nat (row_base + j)) s0)
        as ([out out_i] & Hrun & Hi & Hl & Hc)
  end.
  - split; [lia|]. split; [exact Hlen|]. intros u' j frame Hu'. lia.
  - intros u [out out_i] Hu (Hi & Hl & Hc). subst out_i.
    destruct (getitem_in_range h_stack u) as (frame & Hframe & Hget); [lia|].
    rewrite Hget. cbn [bind]. eexists. split; [reflexivity|]. cbv beta iota.
    pose proof (Hframes _ _ Hframe) as Hfl.
    assert (Hsl : len (slice frame row_base (row_base + rb)) = u * rb + rb - u * rb).
    { rewrite slice_len by lia. lia. }
    assert (Hhi : u * rb + rb <= len out) by nia.
    split; [lia|]. split.
    + rewrite slice_assign_len by (assumption || nia). exact Hl.
    + intros u' j frame' Hu' Hj Hframe'.
      destruct (Z.eq_dec u' u) as [->|Hne].
      * assert (frame' = frame) as -> by congruence.
        rewrite slice_assign_lookup_in by (assumption || nia).
        replace (u * rb + j - u * rb) with j by lia.
        apply slice_lookup; lia.
      * rewrite slice_assign_lookup_out by (assumption || nia).
        apply Hc; [lia|assumption|assumption].
  - rewrite Z.max_r in Hi, Hc by lia. subst out_i.
    exists out. split; [exact Hrun|]. split; [exact Hl|exact Hc].
Qed.

Lemma gather_cols_ok (v_stack : list (list byte)) (V Hn rb col_off : Z)
    (out0 : list byte) :
  0 <= Hn -> 0 <= rb -> 0 <= col_off -> col_off + 9 <= rb ->
  V = len v_stack -> len out0 = V * Hn * 9 ->
  (forall v frame, v_stack !! v = Some frame -> Hn * rb <= len frame) ->
  exists out,
    for_each (range V) (fun v '(out, out_i) =>
      frame <- getitem v_stack v ;
      '(out, out_i, src) <- for_each (range Hn) (fun _ '(out, out_i, src) =>
        Ok (slice_assign out out_i (out_i + 9) (slice frame src (src + 9)),
            out_i + 9, src + rb)) (out, out_i, col_off) ;
      Ok (out, out_i)) (out0, 0) = Ok (out, V * Hn * 9) /\
    len out = V * Hn * 9.
Proof.
  intros HHn Hrb Hcol Hfit HV Hlen Hframes.
  assert (HV0 : 0 <= V) by (rewrite HV; apply len_nonneg).
  match goal with
  | |- exists out, for_each _ ?body ?s0 = _ /\ _ =>
      destruct (for_range_inv V body
        (fun v '(out, out_i) => out_i = v * Hn * 9 /\ len out = V * Hn * 9) s0)
        as ([out out_i] & Hrun & Hi & Hl)
  end.
  - split; [lia|exact Hlen].
  - intros v [out out_i] Hv (Hi & Hl). subst out_i.
    destruct (getitem_in_range v_stack v) as (frame & Hframe & Hget); [lia|].
    rewrite Hget. cbn [bind]. pose proof (Hframes _ _ Hframe) as Hfl.
    match goal with
    | |- exists s', bind (for_each _ ?body ?s0) _ = _ /\ _ =>
        destruct (for_range_inv Hn body
          (fun k '(out, out_i, src) => out_i = v * Hn * 9 + k * 9 /\
             src = col_off + k * rb /\ len out = V * Hn * 9) s0)
          as ([[out' out_i'] src'] & Hrun' & Hi' & Hs' & Hl')
    end.
    + split; [lia|]. split; [lia|exact Hl].
    + intros k [[out' out_i'] src'] Hk (Hi' & Hs' & Hl'). subst out_i' src'.
      eexists. split; [reflexivity|]. cbv beta iota.
      split; [lia|]. split; [lia|].
      rewrite slice_assign_len; [exact Hl'|nia|nia|].
      rewrite slice_len by nia. lia.
    + rewrite Hrun'. cbn [bind]. eexists. split; [reflexivity|]. cbv beta iota.
      rewrite Z.max_r in Hi' by lia. split; [lia|exact Hl'].
  - rewrite Z.max_r in Hi by lia. subst out_i.
    exists out. split; [exact Hrun|exact Hl].
Qed.

Lemma BM_imgb_parse_header (W H C d : Z) (payload : list byte) :
  0 <= W < 2 ^ 32 -> 0 <= H < 2 ^ 32 -> 0 <= C < 256 -> 0 <= d < 256 ->
  Bit_Manipulation.imgb_parse (imgb_header W H C d ++ payload) = Ok (W, H, C, d, payload).
Proof.
  intros HW HH HC Hd.
  destruct (header_fields W H C d payload HW HH)
    as (Hl & Hmagic & HrW & HrH & HrC & Hrd & Hpay).
  unfold Bit_Manipulation.imgb_parse.
  rewrite HrC, Hrd. cbn [bind]. rewrite !land_255_small by assumption.
  rewrite Hpay. change Bit_Manipulation._u32_le with No_Libraries._u32_le.
  rewrite HrW, HrH. reflexivity.
Qed.

Lemma row_epi_of_gather (h_stack : list (list byte)) (H W U y : Z) (out : list byte) :
  frame_stack h_stack H W -> 0 <= W -> 0 <= y < H ->
  len out = U * (W * 9) ->
  (forall u j frame, 0 <= u < U -> 0 <= j < W * 9 ->
     h_stack !! Z.to_nat u = Some frame ->
     out !! Z.to_nat (u * (W * 9) + j) = frame !! Z.to_nat (y * (W * 9) + j)) ->
  is_row_epi h_stack W U y out.
Proof.
  intros Hstack HW Hy Hlen Hc. split; [lia|].
  intros u x c frame Hu Hx Hcc Hframe.
  assert (Hfl : len frame = H * W * 9).
  { unfold frame_stack in Hstack. rewrite Forall_forall in Hstack.
    apply Hstack. apply (list_elem_of_lookup_2 _ _ _ Hframe). }
  destruct (lookup_lt_is_Some_2 frame (Z.to_nat ((y * W + x) * 9 + c))) as [b Hb].
  { unfold len in Hfl. nia. }
  exists b. split; [exact Hb|].
  replace ((u * W + x) * 9 + c) with (u * (W * 9) + (x * 9 + c)) by lia.
  rewrite (Hc u (x * 9 + c) frame) by (assumption || lia).
  rewrite <- Hb. f_equal. lia.
Qed.

Lemma frame_stack_lookup (stack : list (list byte)) (H W : Z) (u : nat) frame :
  frame_stack stack H W -> stack !! u = Some frame -> len frame = H * W * 9.
Proof.
  intros Hstack Hframe. unfold frame_stack in Hstack.
  rewrite Forall_forall in Hstack. apply Hstack.
  apply (list_elem_of_lookup_2 _ _ _ Hframe).
Qed.

Lemma NL_build_epis (h_stack v_stack : list (list byte)) (H W : Z)
    (y_rows x_cols : list Z) :
  0 <= H < 2 ^ 32 -> 0 <= W < 2 ^ 32 ->
  len h_stack < 2 ^ 32 -> len v_stack < 2 ^ 32 ->
  frame_stack h_stack H W -> frame_stack v_stack H W ->
  Forall (fun y => 0 <= y < H) y_rows -> Forall (fun x => 0 <= x < W) x_cols ->
  exists epi_h epi_v,
    No_Libraries.build_epis_imgb_in_memory h_stack v_stack
      (H, W, len h_stack, len v_stack) y_rows x_cols = Ok (epi_h, epi_v) /\
    horizontal_epis No_Libraries.imgb_parse h_stack W (len h_stack) y_rows epi_h.
Proof.
  intros HH HW HU HV Hhs Hvs Hys Hxs.
  pose proof (len_nonneg h_stack) as HU0. pose proof (len_nonneg v_stack) as HV0.
  rewrite Forall_forall in Hys. rewrite Forall_forall in Hxs.
  unfold No_Libraries.build_epis_imgb_in_memory. cbv beta iota zeta.
  change (3 * 3) with 9.
  match goal with
  | |- exists epi_h epi_v, bind (for_each y_rows ?body []) _ = _ /\ _ =>
      destruct (for_each_inv y_rows body
        (fun k epi => length epi = k /\
           forall k' y, (k' < k)%nat -> y_rows !! k' = Some y ->
             exists payload,
               epi !! k' = Some (imgb_header W (len h_stack) 3 4 ++ payload) /\
               is_row_epi h_stack W (len h_stack) y payload) [])
        as (epi_h & Hrun & Hlen & Hrows)
  end.
  - split; [reflexivity|]. intros k' y Hk'. lia.
  - intros k y epi Hy [Hl Hr].
    assert (Hyr : 0 <= y < H) by (apply Hys; apply (list_elem_of_lookup_2 _ _ _ Hy)).
    rewrite bytearray_ok by nia. cbn [bind].
    destruct (gather_rows h_stack (len h_stack) (W * 9) (y * (W * 9))
                (replicate (Z.to_nat (len h_stack * (W * 9))) Byte.x00))
      as (out & Hg & Hol & Hoc); [lia|nia|reflexivity|rewrite len_replicate; nia| |].
    { intros u frame Hframe. rewrite (frame_stack_lookup _ _ _ _ _ Hhs Hframe). nia. }
    rewrite Hg. cbn [bind].
    rewrite (NL_imgb_make_ok W (len h_stack) 3 4 3 out) by (reflexivity || lia).
    cbn [bind]. eexists. split; [reflexivity|]. split.
    + rewrite length_app. cbn [length]. lia.
    + intros k' y' Hk' Hy'. destruct (decide (k' = k)) as [->|Hne].
      * assert (y' = y) as -> by congruence. exists out. split.
        -- rewrite lookup_app_r by lia. rewrite Hl, Nat.sub_diag. reflexivity.
        -- apply (row_epi_of_gather h_stack H W (len h_stack) y out); (assumption || lia).
      * destruct (Hr k' y') as (payload & Hp & Hepi); [lia|assumption|].
        exists payload. split; [|exact Hepi].
        rewrite lookup_app_l by lia. exact Hp.
  - rewrite Hrun. cbn [bind].
    match goal with
    | |- exists epi_h epi_v, bind (for_each x_cols ?body []) _ = _ /\ _ =>
        destruct (for_each_inv x_cols body (fun _ _ => True) [])
          as (epi_v & Hrunv & _)
    end.
    + exact I.
    + intros k x epi Hx _.
      assert (Hxr : 0 <= x < W) by (apply Hxs; apply (list_elem_of_lookup_2 _ _ _ Hx)).
      rewrite bytearray_ok by nia. cbn [bind].
      destruct (gather_cols_ok v_stack (len v_stack) H (W * 9) (x * 9)
                  (replicate (Z.to_nat (len v_stack * H * 9)) Byte.x00))
        as (out & Hg & Hol); [lia|lia|lia|lia|reflexivity|rewrite len_replicate; nia| |].
      { intros v frame Hframe. rewrite (frame_stack_lookup _ _ _ _ _ Hvs Hframe). nia. }
      rewrite Hg. cbn [bind].
      rewrite (NL_imgb_make_ok H (len v_stack) 3 4 3 out) by (reflexivity || lia).
      cbn [bind]. eexists. split; [reflexivity|exact I].
    + rewrite Hrunv. cbn [bind]. exists epi_h, epi_v. split; [reflexivity|].
      split; [exact Hlen|]. intros k y Hy.
      destruct (Hrows k y) as (payload & Hp & Hepi);
        [apply lookup_lt_Some in Hy; lia|assumption|].
      exists (imgb_header W (len h_stack) 3 4 ++ payload), payload.
      split; [exact Hp|]. split; [|exact Hepi].
      apply (NL_imgb_parse_header W (len h_stack) 3 4 3);
        try (reflexivity || lia). destruct Hepi as [Hpl _]. lia.
Qed.

Lemma BM_build_epis (h_stack v_stack : list (list byte)) (y_rows x_cols : list Z) :
  len h_stack = 9 -> len v_stack = 9 ->
  frame_stack h_stack 512 512 -> frame_stack v_stack 512 512 ->
  Forall (fun y => 0 <= y < 512) y_rows -> Forall (fun x => 0 <= x < 512) x_cols ->
  exists epi_h epi_v,
    Bit_Manipulation.build_epis_imgb_in_memory h_stack v_stack
      (512, 512, 9, 9) y_rows x_cols = Ok (epi_h, epi_v) /\
    horizontal_epis Bit_Manipulation.imgb_parse h_stack 512 9 y_rows epi_h.
Proof.
  intros HU HV Hhs Hvs Hys Hxs.
  rewrite Forall_forall in Hys. rewrite Forall_forall in Hxs.
  unfold Bit_Manipulation.build_epis_imgb_in_memory. cbv beta iota zeta.
  change Bit_Manipulation.BYTES_PER_PIXEL_RGB with 9.
  change Bit_Manipulation.ROW_BYTES_X9 with 41472.
  change Bit_Manipulation.EPI_ROW_BYTES with (512 * 9).
  match goal with
  | |- exists epi_h epi_v, bind (for_each y_rows ?body []) _ = _ /\ _ =>
      destruct (for_each_inv y_rows body
        (fun k epi => length epi = k /\
           forall k' y, (k' < k)%nat -> y_rows !! k' = Some y ->
             exists payload,
               epi !! k' = Some (imgb_header 512 9 3 4 ++ payload) /\
               is_row_epi h_stack 512 9 y payload) [])
        as (epi_h & Hrun & Hlen & Hrows)
  end.
  - split; [reflexivity|]. intros k' y Hk'. lia.
  - intros k y epi Hy [Hl Hr].
    assert (Hyr : 0 <= y < 512) by (apply Hys; apply (list_elem_of_lookup_2 _ _ _ Hy)).
    rewrite bytearray_ok by lia. cbn [bind].
    destruct (gather_rows h_stack 9 (512 * 9) (y * (512 * 9))
                (replicate (Z.to_nat 41472) Byte.x00))
      as (out & Hg & Hol & Hoc); [lia|lia|lia|rewrite len_replicate; lia| |].
    { intros u frame Hframe. rewrite (frame_stack_lookup _ _ _ _ _ Hhs Hframe). lia. }
    rewrite Hg. cbn [bind].
    rewrite (BM_imgb_make_ok 512 9 3 4 out) by lia.
    cbn [bind]. eexists. split; [reflexivity|]. split.
    + rewrite length_app. cbn [length]. lia.
    + intros k' y' Hk' Hy'. destruct (decide (k' = k)) as [->|Hne].
      * assert (y' = y) as -> by congruence. exists out. split.
        -- rewrite lookup_app_r by lia. rewrite Hl, Nat.sub_diag. reflexivity.
        -- apply (row_epi_of_gather h_stack 512 512 9 y out); (assumption || lia).
      * destruct (Hr k' y') as (payload & Hp & Hepi); [lia|assumption|].
        exists payload. split; [|exact Hepi].
        rewrite lookup_app_l by lia. exact Hp.
  - rewrite Hrun. cbn [bind].
    match goal with
    | |- exists epi_h epi_v, bind (for_each x_cols ?body []) _ = _ /\ _ =>
        destruct (for_each_inv x_cols body (fun _ _ => True) [])
          as (epi_v & Hrunv & _)
    end.
    + exact I.
    + intros k x epi Hx _.
      assert (Hxr : 0 <= x < 512) by (apply Hxs; apply (list_elem_of_lookup_2 _ _ _ Hx)).
      rewrite bytearray_ok by lia. cbn [bind].
      assert (Hcol : Z.shiftl x 3 + x = x * 9).
      { rewrite Z.shiftl_mul_pow2 by lia. change (2 ^ 3) with 8. lia. }
      destruct (gather_cols_ok v_stack 9 512 (512 * 9) (Z.shiftl x 3 + x)
                  (replicate (Z.to_nat 41472) Byte.x00))
        as (out & Hg & Hol); [lia|lia|lia|lia|lia|rewrite len_replicate; lia| |].
      { intros v frame Hframe. rewrite (frame_stack_lookup _ _ _ _ _ Hvs Hframe). lia. }
      rewrite Hg. cbn [bind].
      rewrite (BM_imgb_make_ok 512 9 3 4 out) by lia.
      cbn [bind]. eexists. split; [reflexivity|exact I].
    + rewrite Hrunv. cbn [bind]. exists epi_h, epi_v. split; [reflexivity|].
      split; [exact Hlen|]. intros k y Hy.
      destruct (Hrows k y) as (payload & Hp & Hepi);
        [apply lookup_lt_Some in Hy; lia|assumption|].
      exists (imgb_header 512 9 3 4 ++ payload), payload.
      split; [exact Hp|]. split; [|exact Hepi].
      apply (BM_imgb_parse_header 512 9 3 4); lia.
Qed.



(** ** Writing bytes into a bytearray *)

Lemma write3 (out : list byte) (b v0 v1 v2 : Z) :
  0 <= b -> b + 3 <= len out ->
  0 <= v0 < 256 -> 0 <= v1 < 256 -> 0 <= v2 < 256 ->
  exists out',
    (o1 <- bytearray_set out b v0 ;
     o2 <- bytearray_set o1 (b + 1) v1 ;
     bytearray_set o2 (b + 2) v2) = Ok out' /\
    len out' = len out /\
    out' !! Z.to_nat b = Some (byte.of_Z v0) /\
    out' !! Z.to_nat (b + 1) = Some (byte.of_Z v1) /\
    out' !! Z.to_nat (b + 2) = Some (byte.of_Z v2) /\
    forall i, 0 <= i -> i < b \/ b + 3 <= i -> out' !! Z.to_nat i = out !! Z.to_nat i.
Proof.
  intros Hb Hlen H0 H1 H2.
  exists (<[Z.to_nat (b + 2) := byte.of_Z v2]>
            (<[Z.to_nat (b + 1) := byte.of_Z v1]>
               (<[Z.to_nat b := byte.of_Z v0]> out))).
  assert (Hl1 : len (<[Z.to_nat b := byte.of_Z v0]> out) = len out).
  { unfold len. rewrite length_insert. reflexivity. }
  assert (Hl2 : len (<[Z.to_nat (b + 1) := byte.of_Z v1]>
                       (<[Z.to_nat b := byte.of_Z v0]> out)) = len out).
  { unfold len. rewrite !length_insert. reflexivity. }
  split.
  { rewrite bytearray_set_in_range by lia. cbn [bind].
    rewrite bytearray_set_in_range by lia. cbn [bind].
    rewrite bytearray_set_in_range by lia. reflexivity. }
  unfold len in *. split; [rewrite !length_insert; reflexivity|].
  split.
  { rewrite list_lookup_insert_ne by lia. rewrite list_lookup_insert_ne by lia.
    apply list_lookup_insert_eq. lia. }
  split.
  { rewrite list_lookup_insert_ne by lia.
    apply list_lookup_insert_eq. rewrite length_insert. lia. }
  split.
  { apply list_lookup_insert_eq. rewrite !length_insert. lia. }
  intros i Hi0 Hi. rewrite !list_lookup_insert_ne by lia. reflexivity.
Qed.

(** Invariant rule for a raster scan that writes three bytes per pixel. *)
Lemma raster_loop (H W L : Z) (body : Z -> Z -> list byte -> result (list byte))
    (val : Z -> Z -> Z -> byte) (out0 : list byte) :
  0 <= W -> len out0 = L ->
  (forall y x out, 0 <= y < H -> 0 <= x < W -> len out = L ->
     exists out',
       body y x out = Ok out' /\ len out' = L /\
       (forall c, 0 <= c < 3 ->
          out' !! Z.to_nat ((y * W + x) * 3 + c) = Some (val y x c)) /\
       (forall i, 0 <= i -> i < (y * W + x) * 3 \/ (y * W + x) * 3 + 3 <= i ->
          out' !! Z.to_nat i = out !! Z.to_nat i)) ->
  exists out,
    for_each (range H) (fun y out =>
      for_each (range W) (fun x out => body y x out) out) out0 = Ok out /\
    len out = L /\
    forall y x c, 0 <= y < H -> 0 <= x < W -> 0 <= c < 3 ->
      out !! Z.to_nat ((y * W + x) * 3 + c) = Some (val y x c).
Proof.
  intros HW Hlen Hbody.
  destruct (for_range_inv H
    (fun y out => for_each (range W) (fun x out => body y x out) out)
    (fun y out => len out = L /\
       forall y' x c, 0 <= y' < y -> 0 <= x < W -> 0 <= c < 3 ->
         out !! Z.to_nat ((y' * W + x) * 3 + c) = Some (val y' x c)) out0)
    as (out & Hrun & Hl & Hv).
  - split; [exact Hlen|]. intros y' x c Hy'. lia.
  - intros y out Hy [Hl Hv].
    destruct (for_range_inv W (fun x out => body y x out)
      (fun x out => len out = L /\
         forall y' x' c, 0 <= y' <= y -> 0 <= x' < W -> 0 <= c < 3 ->
           y' < y \/ x' < x ->
           out !! Z.to_nat ((y' * W + x') * 3 + c) = Some (val y' x' c)) out)
      as (out' & Hrun' & Hl' & Hv').
    + split; [exact Hl|]. intros y' x' c Hy' Hx' Hc Hd. apply Hv; lia.
    + intros x o Hx [Hlo Hvo].
      destruct (Hbody y x o Hy Hx Hlo) as (o' & Hb & Hlo' & Hnew & Hold).
      exists o'. split; [exact Hb|]. split; [exact Hlo'|].
      intros y' x' c Hy' Hx' Hc Hd.
      destruct (decide (y' = y /\ x' = x)) as [[-> ->]|Hne].
      * apply Hnew. exact Hc.
      * rewrite Hold by nia. apply Hvo; [lia|lia|lia|]. lia.
    + exists out'. split; [exact Hrun'|]. split; [exact Hl'|].
      intros y' x c Hy' Hx Hc. apply Hv'; [lia|lia|lia|]. lia.
  - exists out. split; [exact Hrun|]. split; [exact Hl|].
    intros y x c Hy Hx Hc. apply Hv; lia.
Qed.

(** ** Low-pass stage *)

Lemma round_half_up_nearest (acc ks : Z) :
  0 < ks -> is_nearest_quotient acc ks ((acc + ks / 2) / ks).
Proof.
  intros Hks. unfold is_nearest_quotient.
  pose proof (Z.div_mod (acc + ks / 2) ks ltac:(lia)) as Hq.
  pose proof (Z.mod_pos_bound (acc + ks / 2) ks Hks) as Hr.
  pose proof (Z.div_mod ks 2 ltac:(lia)) as Hh.
  pose proof (Z.mod_pos_bound ks 2 ltac:(lia)) as Hh'.
  nia.
Qed.

Lemma clamp_u8_spec (v : Z) : No_Libraries.clamp_u8 v = clamp_0_255 v.
Proof.
  unfold No_Libraries.clamp_u8, clamp_0_255. cbv zeta.
  destruct (Z.ltb_spec 255 v); destruct (Z.ltb_spec v 0); try lia;
    destruct (Z.ltb_spec 255 0); lia.
Qed.

Lemma clamp_0_255_range (v : Z) : 0 <= clamp_0_255 v < 256.
Proof. unfold clamp_0_255. lia. Qed.

Lemma kernel_taps_ok (K : list (list Z)) (P : Z -> Prop) :
  square_kernel K -> Forall (Forall P) K ->
  exists taps,
    No_Libraries.kernel_taps K = Ok taps /\
    Forall (fun '(dy, dx, w) =>
              - len K <= dy <= len K /\ - len K <= dx <= len K /\ P w) taps.
Proof.
  intros Hsq HP. unfold square_kernel in Hsq.
  rewrite Forall_forall in Hsq. rewrite Forall_forall in HP.
  pose proof (len_nonneg K) as Hk.
  assert (Hp : 0 <= len K / 2 <= len K).
  { split; [apply Z.div_pos; lia|]. apply Z.div_le_upper_bound; lia. }
  unfold No_Libraries.kernel_taps. cbv zeta.
  match goal with
  | |- exists taps, for_each _ ?body ?s0 = _ /\ Forall ?Q _ =>
      destruct (for_range_inv (len K) body (fun _ taps => Forall Q taps) s0)
        as (taps & Hrun & Htaps)
  end.
  - constructor.
  - intros dy taps Hdy Htaps.
    destruct (getitem_in_range K dy Hdy) as (row & Hrow & Hget).
    rewrite Hget. cbn [bind].
    pose proof (Hsq row (list_elem_of_lookup_2 _ _ _ Hrow)) as Hlen.
    pose proof (HP row (list_elem_of_lookup_2 _ _ _ Hrow)) as HProw.
    rewrite Forall_forall in HProw.
    match goal with
    | |- exists s', for_each _ ?body ?s0 = _ /\ Forall ?Q _ =>
        destruct (for_range_inv (len K) body (fun _ taps => Forall Q taps) s0)
          as (taps' & Hrun' & Htaps')
    end.
    + exact Htaps.
    + intros dx taps' Hdx Htaps'.
      destruct (getitem_in_range row dx) as (w & Hw & Hgetw); [lia|].
      rewrite Hgetw. cbn [bind]. eexists. split; [reflexivity|].
      apply Forall_app. split; [exact Htaps'|].
      constructor; [|constructor]. split; [lia|]. split; [lia|].
      apply HProw. apply (list_elem_of_lookup_2 _ _ _ Hw).
    + exists taps'. split; [exact Hrun'|exact Htaps'].
  - exists taps. split; [exact Hrun|exact Htaps].
Qed.

Lemma BM_kernel_taps_eq (E : list (list Z)) :
  Bit_Manipulation.kernel_taps E = No_Libraries.kernel_taps E.
Proof.
  unfold Bit_Manipulation.kernel_taps, No_Libraries.kernel_taps.
  rewrite Z.shiftr_div_pow2 by lia. reflexivity.
Qed.

Lemma reflect_index_enough (fuel : nat) (i n bound : Z) :
  2 <= n -> Z.abs i <= bound -> (Z.to_nat bound + 2 <= fuel)%nat ->
  exists r, 0 <= r < n /\ No_Libraries._reflect_index fuel i n = Ok r.
Proof.
  intros Hn Hi Hf. destruct (reflect_index_any n i Hn) as (r & Hr & Hrun).
  exists r. split; [exact Hr|]. apply Hrun. lia.
Qed.

Lemma NL_accumulate_ok (fuel : nat) (raw : list byte) (W H k : Z)
    (taps : list (Z * Z * Z)) (y x : Z) :
  2 <= W -> 2 <= H -> len raw = H * W * 3 -> 0 <= k ->
  0 <= y < H -> 0 <= x < W ->
  Forall (fun '(dy, dx, w) => - k <= dy <= k /\ - k <= dx <= k /\ True) taps ->
  (Z.to_nat (Z.max H W + k) + 2 <= fuel)%nat ->
  exists acc, No_Libraries.accumulate fuel raw W H taps y x = Ok acc.
Proof.
  intros HW HH Hraw Hk Hy Hx Htaps Hfuel.
  rewrite Forall_forall in Htaps.
  unfold No_Libraries.accumulate.
  match goal with
  | |- exists acc, for_each _ ?body ?s0 = _ =>
      destruct (for_each_inv taps body (fun _ _ => True) s0) as (acc & Hrun & _)
  end.
  - exact I.
  - intros j [[dy dx] w] [[a0 a1] a2] Hj _.
    pose proof (Htaps _ (list_elem_of_lookup_2 _ _ _ Hj)) as (Hdy & Hdx & _).
    destruct (reflect_index_enough fuel (y + dy) H (Z.max H W + k)) as (yy & Hyy & Hry);
      [lia|lia|lia|].
    destruct (reflect_index_enough fuel (x + dx) W (Z.max H W + k)) as (xx & Hxx & Hrx);
      [lia|lia|lia|].
    rewrite Hry, Hrx. cbn [bind]. cbv zeta.
    destruct (getitem_in_range raw ((yy * W + xx) * 3 + 0)) as (p0 & _ & Hp0); [nia|].
    destruct (getitem_in_range raw ((yy * W + xx) * 3 + 1)) as (p1 & _ & Hp1); [nia|].
    destruct (getitem_in_range raw ((yy * W + xx) * 3 + 2)) as (p2 & _ & Hp2); [nia|].
    unfold byte_at. rewrite Hp0, Hp1, Hp2. cbn [bind].
    eexists. split; [reflexivity|exact I].
  - exists acc. exact Hrun.
Qed.

Lemma floordiv_ok (a b : Z) : b <> 0 -> floordiv a b = Ok (a / b).
Proof. intros Hb. unfold floordiv. zbool. reflexivity. Qed.

Lemma NL_convolve_rounds (fuel : nat) (raw : list byte) (W H : Z)
    (K : list (list Z)) (kernel_sum : Z) :
  2 <= W -> 2 <= H -> len raw = H * W * 3 ->
  square_kernel K -> 0 < kernel_sum ->
  (Z.to_nat (Z.max H W + len K) + 2 <= fuel)%nat ->
  exists taps out,
    No_Libraries.kernel_taps K = Ok taps /\
    No_Libraries._convolve_u8_rgb fuel raw W H K kernel_sum = Ok out /\
    len out = H * W * 3 /\
    forall y x c, 0 <= y < H -> 0 <= x < W -> 0 <= c < 3 ->
      exists acc q,
        No_Libraries.accumulate fuel raw W H taps y x = Ok acc /\
        is_nearest_quotient (channel acc c) kernel_sum q /\
        out !! Z.to_nat ((y * W + x) * 3 + c) = Some (byte.of_Z (clamp_0_255 q)).
Proof.
  intros HW HH Hraw Hsq Hks Hfuel.
  destruct (kernel_taps_ok K (fun _ => True) Hsq) as (taps & Htaps & Hbound).
  { apply Forall_forall. intros row _. apply Forall_forall. intros w _. exact I. }
  exists taps.
  unfold No_Libraries._convolve_u8_rgb. rewrite Htaps. cbn [bind].
  rewrite bytearray_ok by nia. cbn [bind]. cbv zeta.
  match goal with
  | |- exists out, _ /\ for_each _ (fun y o => for_each _ (fun x o' => @?body y x o') o) ?s0 = _ /\ _ =>
      destruct (raster_loop H W (H * W * 3) body
        (fun y x c =>
           match No_Libraries.accumulate fuel raw W H taps y x with
           | Ok acc => byte.of_Z (clamp_0_255 ((channel acc c + kernel_sum / 2) / kernel_sum))
           | _ => Byte.x00
           end) s0) as (out & Hrun & Hlen & Hval)
  end.
  - lia.
  - rewrite len_replicate. nia.
  - intros y x out Hy Hx Hlen. cbv beta.
    destruct (NL_accumulate_ok fuel raw W H (len K) taps y x) as ([[a0 a1] a2] & Hacc);
      try assumption; [apply len_nonneg|].
    rewrite Hacc. cbn [bind].
    rewrite !floordiv_ok by lia. cbn [bind].
    rewrite !clamp_u8_spec. rewrite Z.add_0_r.
    destruct (write3 out ((y * W + x) * 3)
                (clamp_0_255 ((a0 + kernel_sum / 2) / kernel_sum))
                (clamp_0_255 ((a1 + kernel_sum / 2) / kernel_sum))
                (clamp_0_255 ((a2 + kernel_sum / 2) / kernel_sum)))
      as (out' & Hw & Hl' & H0 & H1 & H2 & Hold);
      [nia|nia|apply clamp_0_255_range|apply clamp_0_255_range|apply clamp_0_255_range|].
    exists out'. split; [exact Hw|]. split; [lia|]. split; [|exact Hold].
    intros c Hc. unfold channel.
    destruct (Z.eq_dec c 0) as [->|Hc0]; [rewrite Z.add_0_r; exact H0|].
    destruct (Z.eq_dec c 1) as [->|Hc1]; [exact H1|].
    assert (c = 2) as -> by lia. exact H2.
  - exists out. split; [reflexivity|]. split; [exact Hrun|]. split; [exact Hlen|].
    intros y x c Hy Hx Hc. specialize (Hval y x c Hy Hx Hc).
    destruct (NL_accumulate_ok fuel raw W H (len K) taps y x) as (acc & Hacc);
      try assumption; [apply len_nonneg|].
    rewrite Hacc in Hval.
    exists acc, ((channel acc c + kernel_sum / 2) / kernel_sum).
    split; [exact Hacc|]. split; [|exact Hval].
    apply round_half_up_nearest. exact Hks.
Qed.

Lemma BM_pixel_base (y x : Z) :
  Z.shiftl (Z.shiftl y Bit_Manipulation.WH_SHIFT + x) 1
    + (Z.shiftl y Bit_Manipulation.WH_SHIFT + x) = (y * 512 + x) * 3.
Proof.
  unfold Bit_Manipulation.WH_SHIFT. rewrite !Z.shiftl_mul_pow2 by lia.
  change (2 ^ 9) with 512. change (2 ^ 1) with 2. lia.
Qed.

Lemma lshift_ok (a n : Z) : 0 <= n -> lshift a n = Ok (Z.shiftl a n).
Proof. intros Hn. unfold lshift. zbool. reflexivity. Qed.

Lemma rshift_ok (a n : Z) : 0 <= n -> rshift a n = Ok (Z.shiftr a n).
Proof. intros Hn. unfold rshift. zbool. reflexivity. Qed.

Lemma BM_accumulate_ok (fuel : nat) (raw : list byte) (k : Z)
    (taps : list (Z * Z * Z)) (y x : Z) :
  len raw = 786432 -> 0 <= k ->
  0 <= y < 512 -> 0 <= x < 512 ->
  Forall (fun '(dy, dx, e) => - k <= dy <= k /\ - k <= dx <= k /\ 0 <= e) taps ->
  (Z.to_nat (512 + k) + 2 <= fuel)%nat ->
  exists acc,
    Bit_Manipulation.accumulate fuel raw 512 512 taps y x = Ok acc /\
    forall c, 0 <= channel acc c.
Proof.
  intros Hraw Hk Hy Hx Htaps Hfuel.
  rewrite Forall_forall in Htaps.
  unfold Bit_Manipulation.accumulate.
  match goal with
  | |- exists acc, for_each _ ?body ?s0 = _ /\ _ =>
      destruct (for_each_inv taps body
                  (fun _ '(a0, a1, a2) => 0 <= a0 /\ 0 <= a1 /\ 0 <= a2) s0)
        as ([[a0 a1] a2] & Hrun & Hpos)
  end.
  - lia.
  - intros j [[dy dx] e] [[a0 a1] a2] Hj (H0 & H1 & H2).
    pose proof (Htaps _ (list_elem_of_lookup_2 _ _ _ Hj)) as (Hdy & Hdx & He).
    destruct (reflect_index_enough fuel (y + dy) 512 (512 + k)) as (yy & Hyy & Hry);
      [lia|lia|lia|].
    destruct (reflect_index_enough fuel (x + dx) 512 (512 + k)) as (xx & Hxx & Hrx);
      [lia|lia|lia|].
    change Bit_Manipulation._reflect_index with No_Libraries._reflect_index.
    rewrite Hry, Hrx. cbn [bind]. cbv zeta.
    rewrite BM_pixel_base.
    destruct (getitem_in_range raw ((yy * 512 + xx) * 3 + 0)) as (p0 & _ & Hp0); [lia|].
    destruct (getitem_in_range raw ((yy * 512 + xx) * 3 + 1)) as (p1 & _ & Hp1); [lia|].
    destruct (getitem_in_range raw ((yy * 512 + xx) * 3 + 2)) as (p2 & _ & Hp2); [lia|].
    unfold byte_at. rewrite Hp0, Hp1, Hp2. cbn [bind].
    rewrite !lshift_ok by exact He. cbn [bind].
    eexists. split; [reflexivity|]. cbv beta iota.
    pose proof (byte.unsigned_range p0). pose proof (byte.unsigned_range p1).
    pose proof (byte.unsigned_range p2).
    repeat split; apply Z.add_nonneg_nonneg; try assumption;
      apply Z.shiftl_nonneg; lia.
  - exists (a0, a1, a2). split; [exact Hrun|].
    intros c. unfold channel. destruct (c =? 0); [lia|]. destruct (c =? 1); lia.
Qed.

Lemma BM_convolve_truncates (fuel : nat) (raw : list byte)
    (E : list (list Z)) (norm_shift : Z) :
  len raw = 786432 ->
  square_kernel E -> Forall (Forall (fun e => 0 <= e)) E -> 0 <= norm_shift ->
  (Z.to_nat (512 + len E) + 2 <= fuel)%nat ->
  exists taps out,
    Bit_Manipulation.kernel_taps E = Ok taps /\
    Bit_Manipulation._convolve_u8_rgb fuel raw 512 512 E norm_shift = Ok out /\
    len out = 786432 /\
    forall y x c, 0 <= y < 512 -> 0 <= x < 512 -> 0 <= c < 3 ->
      exists acc,
        Bit_Manipulation.accumulate fuel raw 512 512 taps y x = Ok acc /\
        out !! Z.to_nat ((y * 512 + x) * 3 + c) =
          Some (byte.of_Z (Z.min 255 (Z.shiftr (channel acc c) norm_shift))).
Proof.
  intros Hraw Hsq Hpos Hns Hfuel.
  destruct (kernel_taps_ok E (fun e => 0 <= e) Hsq Hpos) as (taps & Htaps & Hbound).
  exists taps.
  unfold Bit_Manipulation._convolve_u8_rgb. rewrite BM_kernel_taps_eq, Htaps.
  cbn [bind]. change Bit_Manipulation.HW_X3 with 786432.
  rewrite bytearray_ok by lia. cbn [bind]. cbv zeta.
  match goal with
  | |- exists out, _ /\ for_each _ (fun y o => for_each _ (fun x o' => @?body y x o') o) ?s0 = _ /\ _ =>
      destruct (raster_loop 512 512 786432 body
        (fun y x c =>
           match Bit_Manipulation.accumulate fuel raw 512 512 taps y x with
           | Ok acc => byte.of_Z (Z.min 255 (Z.shiftr (channel acc c) norm_shift))
           | _ => Byte.x00
           end) s0) as (out & Hrun & Hlen & Hval)
  end.
  - lia.
  - rewrite len_replicate. lia.
  - intros y x out Hy Hx Hlen. cbv beta.
    destruct (BM_accumulate_ok fuel raw (len E) taps y x) as ([[a0 a1] a2] & Hacc & Hnn);
      try assumption; [apply len_nonneg|].
    rewrite Hacc. cbn [bind].
    rewrite !rshift_ok by exact Hns. cbn [bind].
    rewrite BM_pixel_base. rewrite Z.add_0_r.
    pose proof (Hnn 0) as Hn0. pose proof (Hnn 1) as Hn1. pose proof (Hnn 2) as Hn2.
    cbn in Hn0, Hn1, Hn2.
    assert (Hmin : forall v, (if 255 <? v then 255 else v) = Z.min 255 v).
    { intros v. destruct (Z.ltb_spec 255 v); lia. }
    rewrite !Hmin.
    destruct (write3 out ((y * 512 + x) * 3)
                (Z.min 255 (Z.shiftr a0 norm_shift))
                (Z.min 255 (Z.shiftr a1 norm_shift))
                (Z.min 255 (Z.shiftr a2 norm_shift)))
      as (out' & Hw & Hl' & H0 & H1 & H2 & Hold); [lia|lia| | | |].
    1-3: split; [apply Z.min_glb; [lia|apply Z.shiftr_nonneg; assumption]|lia].
    exists out'. split; [exact Hw|]. split; [lia|]. split; [|exact Hold].
    intros c Hc. unfold channel.
    destruct (Z.eq_dec c 0) as [->|Hc0]; [rewrite Z.add_0_r; exact H0|].
    destruct (Z.eq_dec c 1) as [->|Hc1]; [exact H1|].
    assert (c = 2) as -> by lia. exact H2.
  - exists out. split; [reflexivity|].
    split; [exact Hrun|].
    split; [exact Hlen|].
    intros y x c Hy Hx Hc. specialize (Hval y x c Hy Hx Hc).
    destruct (BM_accumulate_ok fuel raw (len E) taps y x) as (acc & Hacc & _);
      try assumption; [apply len_nonneg|].
    rewrite Hacc in Hval. exists acc. split; [exact Hacc|exact Hval].
Qed.

Lemma impulse_image_len : len impulse_image = 786432.
Proof.
  unfold impulse_image. rewrite !len_app, !len_replicate. reflexivity.
Qed.

(** C2 on the failing input.  On the 512 x 512 image that is black except
    for a red sample of 255 at pixel (5, 5), with the 3 x 3 kernel, the
    weighted sum of the red channel at that pixel is 1020 and the
    normalisation constant is 16: the quotient 63.75 rounds to 64.
    No_Libraries/cross.py stores 64; Bit_Manipulation/cross.py shifts the
    sum right by 4 and stores the truncated 63. *)
Theorem convolve_impulse_rounding :
  is_nearest_quotient 1020 16 64 /\
  No_Libraries._KERNELS 3 = Some ([[1; 2; 1]; [2; 4; 2]; [1; 2; 1]], 16) /\
  Bit_Manipulation._KERNELS 3 = Some ([[0; 1; 0]; [1; 2; 1]; [0; 1; 0]], 4) /\
  (exists taps out,
     No_Libraries.kernel_taps [[1; 2; 1]; [2; 4; 2]; [1; 2; 1]] = Ok taps /\
     No_Libraries.accumulate 600 impulse_image 512 512 taps 5 5 = Ok (1020, 0, 0) /\
     No_Libraries._convolve_u8_rgb 600 impulse_image 512 512
       [[1; 2; 1]; [2; 4; 2]; [1; 2; 1]] 16 = Ok out /\
     out !! Z.to_nat ((5 * 512 + 5) * 3) = Some (byte.of_Z 64)) /\
  (exists taps out,
     Bit_Manipulation.kernel_taps [[0; 1; 0]; [1; 2; 1]; [0; 1; 0]] = Ok taps /\
     Bit_Manipulation.accumulate 600 impulse_image 512 512 taps 5 5 = Ok (1020, 0, 0) /\
     Bit_Manipulation._convolve_u8_rgb 600 impulse_image 512 512
       [[0; 1; 0]; [1; 2; 1]; [0; 1; 0]] 4 = Ok out /\
     out !! Z.to_nat ((5 * 512 + 5) * 3) = Some (byte.of_Z 63)).
Proof.
  split; [unfold is_nearest_quotient; lia|].
  split; [reflexivity|]. split; [reflexivity|]. split.
  - destruct (NL_convolve_rounds 600 impulse_image 512 512
                [[1; 2; 1]; [2; 4; 2]; [1; 2; 1]] 16)
      as (taps & out & Htaps & Hrun & _ & Hval);
      [lia|lia|apply impulse_image_len|repeat constructor|lia|vm_compute; lia|].
    exists taps, out.
    destruct (Hval 5 5 0) as (acc & q & Hacc & Hq & Hout); [lia|lia|lia|].
    vm_compute in Htaps. injection Htaps as <-.
    assert (Hacc' : No_Libraries.accumulate 600 impulse_image 512 512
              [(-1, -1, 1); (-1, 0, 2); (-1, 1, 1); (0, -1, 2); (0, 0, 4);
               (0, 1, 2); (1, -1, 1); (1, 0, 2); (1, 1, 1)] 5 5 = Ok (1020, 0, 0))
      by (vm_compute; reflexivity).
    rewrite Hacc' in Hacc. injection Hacc as <-.
    unfold is_nearest_quotient, channel in Hq. cbn in Hq.
    assert (q = 64) as -> by lia.
    split; [reflexivity|]. split; [exact Hacc'|]. split; [exact Hrun|].
    rewrite Z.add_0_r in Hout. exact Hout.
  - destruct (BM_convolve_truncates 600 impulse_image
                [[0; 1; 0]; [1; 2; 1]; [0; 1; 0]] 4)
      as (taps & out & Htaps & Hrun & _ & Hval);
      [apply impulse_image_len|repeat constructor|repeat constructor; lia|lia
      |vm_compute; lia|].
    exists taps, out.
    destruct (Hval 5 5 0) as (acc & Hacc & Hout); [lia|lia|lia|].
    vm_compute in Htaps. injection Htaps as <-.
    assert (Hacc' : Bit_Manipulation.accumulate 600 impulse_image 512 512
              [(-1, -1, 0); (-1, 0, 1); (-1, 1, 0); (0, -1, 1); (0, 0, 2);
               (0, 1, 1); (1, -1, 0); (1, 0, 1); (1, 1, 0)] 5 5 = Ok (1020, 0, 0))
      by (vm_compute; reflexivity).
    rewrite Hacc' in Hacc. injection Hacc as <-.
    split; [reflexivity|]. split; [exact Hacc'|]. split; [exact Hrun|].
    rewrite Z.add_0_r in Hout. exact Hout.
Qed.

(** ** Packed 24-bit samples *)

Lemma u24_recompose (v : Z) :
  0 <= v < 2 ^ 24 ->
  Z.lor (Z.lor (Z.land v 255) (Z.shiftl (Z.land (Z.shiftr v 8) 255) 8))
        (Z.shiftl (Z.land (Z.shiftr v 16) 255) 16) = v.
Proof.
  intros Hv. apply Z.bits_inj'. intros n Hn.
  rewrite !Z.lor_spec. rewrite !Z.shiftl_spec by lia.
  change 255 with (Z.ones 8).
  destruct (Z.lt_ge_cases n 8) as [H8|H8].
  - rewrite Z.land_spec, Z.testbit_ones_nonneg by lia.
    rewrite (Z.testbit_neg_r _ (n - 8)) by lia.
    rewrite (Z.testbit_neg_r _ (n - 16)) by lia.
    rewrite (proj2 (Z.ltb_lt n 8)) by lia.
    rewrite andb_true_r, !orb_false_r. reflexivity.
  - rewrite (Z.land_spec v), (Z.testbit_ones_nonneg 8 n) by lia.
    rewrite (proj2 (Z.ltb_ge n 8)) by lia. rewrite andb_false_r, orb_false_l.
    destruct (Z.lt_ge_cases n 16) as [H16|H16].
    + rewrite (Z.testbit_neg_r _ (n - 16)) by lia. rewrite orb_false_r.
      rewrite Z.land_spec, Z.shiftr_spec, Z.testbit_ones_nonneg by lia.
      rewrite (proj2 (Z.ltb_lt (n - 8) 8)) by lia. rewrite andb_true_r.
      f_equal. lia.
    + rewrite !Z.land_spec, !Z.shiftr_spec, !Z.testbit_ones_nonneg by lia.
      rewrite (proj2 (Z.ltb_ge (n - 8) 8)) by lia. rewrite andb_false_r, orb_false_l.
      replace (n - 16 + 16) with n by lia.
      destruct (Z.lt_ge_cases n 24) as [H24|H24].
      * rewrite (proj2 (Z.ltb_lt (n - 16) 8)) by lia. apply andb_true_r.
      * rewrite (proj2 (Z.ltb_ge (n - 16) 8)) by lia. rewrite andb_false_r.
        symmetry. apply (Z.bits_above_log2 v n); [lia|].
        destruct (Z.eq_dec v 0) as [->|Hv0]; [cbn; lia|].
        apply Z.log2_lt_pow2; [lia|].
        apply Z.lt_le_trans with (2 ^ 24); [lia|].
        apply Z.pow_le_mono_r; lia.
Qed.

Lemma land_u24_range (v : Z) : 0 <= Z.land v 16777215 < 2 ^ 24.
Proof.
  change 16777215 with (Z.ones 24). rewrite Z.land_ones by lia.
  apply Z.mod_pos_bound. lia.
Qed.

Lemma land_u24_small (v : Z) : 0 <= v < 2 ^ 24 -> Z.land v 16777215 = v.
Proof.
  intros Hv. change 16777215 with (Z.ones 24). rewrite Z.land_ones by lia.
  apply Z.mod_small. exact Hv.
Qed.

Lemma u24_read_bytes (payload : list byte) (o : Z) (b0 b1 b2 : byte) :
  0 <= o ->
  payload !! Z.to_nat o = Some b0 ->
  payload !! Z.to_nat (o + 1) = Some b1 ->
  payload !! Z.to_nat (o + 2) = Some b2 ->
  No_Libraries._u24_read payload o =
    Ok (Z.lor (Z.lor (byte.unsigned b0) (Z.shiftl (byte.unsigned b1) 8))
              (Z.shiftl (byte.unsigned b2) 16)).
Proof.
  intros Ho H0 H1 H2. unfold No_Libraries._u24_read.
  rewrite (byte_at_lookup payload o b0) by assumption. cbn [bind].
  rewrite (byte_at_lookup payload (o + 1) b1) by (lia || assumption). cbn [bind].
  rewrite (byte_at_lookup payload (o + 2) b2) by (lia || assumption). reflexivity.
Qed.

Lemma u24_read_frame (out out' : list byte) (o : Z) :
  0 <= o -> o + 3 <= len out ->
  (forall i, o <= i < o + 3 -> out' !! Z.to_nat i = out !! Z.to_nat i) ->
  No_Libraries._u24_read out' o = No_Libraries._u24_read out o.
Proof.
  intros Ho Hlen Hsame.
  destruct (lookup_lt_is_Some_2 out (Z.to_nat o)) as [b0 H0]; [unfold len in Hlen; lia|].
  destruct (lookup_lt_is_Some_2 out (Z.to_nat (o + 1))) as [b1 H1];
    [unfold len in Hlen; lia|].
  destruct (lookup_lt_is_Some_2 out (Z.to_nat (o + 2))) as [b2 H2];
    [unfold len in Hlen; lia|].
  rewrite (u24_read_bytes out o b0 b1 b2) by assumption.
  apply u24_read_bytes; [assumption| | |].
  - rewrite Hsame by lia. exact H0.
  - rewrite Hsame by lia. exact H1.
  - rewrite Hsame by lia. exact H2.
Qed.

Lemma u24_read_in_range (payload : list byte) (o : Z) :
  0 <= o -> o + 3 <= len payload ->
  exists u, No_Libraries._u24_read payload o = Ok u /\ 0 <= u < 2 ^ 24.
Proof.
  intros Ho Hlen.
  destruct (lookup_lt_is_Some_2 payload (Z.to_nat o)) as [b0 H0];
    [unfold len in Hlen; lia|].
  destruct (lookup_lt_is_Some_2 payload (Z.to_nat (o + 1))) as [b1 H1];
    [unfold len in Hlen; lia|].
  destruct (lookup_lt_is_Some_2 payload (Z.to_nat (o + 2))) as [b2 H2];
    [unfold len in Hlen; lia|].
  eexists. split; [apply (u24_read_bytes payload o b0 b1 b2); assumption|].
  pose proof (byte.unsigned_range b0) as R0.
  pose proof (byte.unsigned_range b1) as R1.
  pose proof (byte.unsigned_range b2) as R2.
  change (2 ^ 8) with 256 in *.
  split.
  - apply Z.lor_nonneg. split; [apply Z.lor_nonneg; split; [lia|]|];
      apply Z.shiftl_nonneg; lia.
  - destruct (Z.eq_dec (Z.lor (Z.lor (byte.unsigned b0) (Z.shiftl (byte.unsigned b1) 8))
                 (Z.shiftl (byte.unsigned b2) 16)) 0) as [->|Hne]; [lia|].
    apply Z.log2_lt_pow2.
    { assert (0 <= Z.lor (Z.lor (byte.unsigned b0) (Z.shiftl (byte.unsigned b1) 8))
                 (Z.shiftl (byte.unsigned b2) 16)); [|lia].
      apply Z.lor_nonneg. split; [apply Z.lor_nonneg; split; [lia|]|];
        apply Z.shiftl_nonneg; lia. }
    assert (Hb : forall b k, 0 <= b < 256 -> 0 <= k <= 16 -> Z.log2 (Z.shiftl b k) < 24).
    { intros b k Hbr Hk. destruct (Z.eq_dec b 0) as [->|Hb0].
      - rewrite Z.shiftl_0_l. cbn. lia.
      - rewrite Z.log2_shiftl by lia.
        assert (Z.log2 b < 8) by (apply Z.log2_lt_pow2; lia). lia. }
    rewrite !Z.log2_lor.
    + pose proof (Hb (byte.unsigned b0) 0 R0 ltac:(lia)) as L0.
      rewrite Z.shiftl_0_r in L0.
      pose proof (Hb (byte.unsigned b1) 8 R1 ltac:(lia)).
      pose proof (Hb (byte.unsigned b2) 16 R2 ltac:(lia)). lia.
    + lia.
    + apply Z.shiftl_nonneg; lia.
    + apply Z.lor_nonneg. split; [lia|apply Z.shiftl_nonneg; lia].
    + apply Z.shiftl_nonneg; lia.
Qed.

Lemma u24_write_spec (out : list byte) (o v : Z) :
  0 <= o -> o + 3 <= len out ->
  exists out',
    No_Libraries._u24_write out o v = Ok out' /\
    len out' = len out /\
    No_Libraries._u24_read out' o = Ok (Z.land v 16777215) /\
    forall i, 0 <= i -> i < o \/ o + 3 <= i -> out' !! Z.to_nat i = out !! Z.to_nat i.
Proof.
  intros Ho Hlen. unfold No_Libraries._u24_write. cbv zeta.
  change No_Libraries.U24_MAX with 16777215.
  destruct (write3 out o (Z.land (Z.land v 16777215) 255)
              (Z.land (Z.shiftr (Z.land v 16777215) 8) 255)
              (Z.land (Z.shiftr (Z.land v 16777215) 16) 255))
    as (out' & Hw & Hl & H0 & H1 & H2 & Hold);
    [lia|lia|apply land_255_range|apply land_255_range|apply land_255_range|].
  exists out'. split; [exact Hw|]. split; [exact Hl|]. split; [|exact Hold].
  rewrite (u24_read_bytes out' o _ _ _ Ho H0 H1 H2).
  rewrite !unsigned_of_Z_small by apply land_255_range.
  rewrite u24_recompose by apply land_u24_range. reflexivity.
Qed.

(** A loop writing one packed sample per index into consecutive slots. *)
Lemma u24_fill (n base L : Z) (f : Z -> Z)
    (body : Z -> list byte -> result (list byte)) (out0 : list byte) :
  0 <= base -> 0 <= n -> base + n * 3 <= L -> len out0 = L ->
  (forall i out, 0 <= i < n -> len out = L ->
     body i out = No_Libraries._u24_write out (base + i * 3) (f i)) ->
  exists out,
    for_each (range n) body out0 = Ok out /\
    len out = L /\
    (forall i, 0 <= i < n ->
       No_Libraries._u24_read out (base + i * 3) = Ok (Z.land (f i) 16777215)) /\
    (forall j, 0 <= j -> j < base \/ base + n * 3 <= j ->
       out !! Z.to_nat j = out0 !! Z.to_nat j).
Proof.
  intros Hbase Hn Hfit Hlen Hbody.
  destruct (for_range_inv n body
    (fun k out => len out = L /\
       (forall i, 0 <= i < k ->
          No_Libraries._u24_read out (base + i * 3) = Ok (Z.land (f i) 16777215)) /\
       (forall j, 0 <= j -> j < base \/ base + k * 3 <= j ->
          out !! Z.to_nat j = out0 !! Z.to_nat j)) out0)
    as (out & Hrun & Hl & Hread & Hframe).
  - split; [exact Hlen|]. split; [intros i Hi; lia|]. intros j _ _. reflexivity.
  - intros k out Hk (Hl & Hread & Hframe).
    rewrite (Hbody k out Hk Hl).
    destruct (u24_write_spec out (base + k * 3) (f k)) as (out' & Hw & Hl' & Hnew & Hold);
      [lia|lia|].
    exists out'. split; [exact Hw|]. split; [lia|]. split.
    + intros i Hi. destruct (Z.eq_dec i k) as [->|Hne]; [exact Hnew|].
      rewrite (u24_read_frame out out') by (lia || (intros j Hj; apply Hold; lia)).
      apply Hread. lia.
    + intros j Hj0 Hj. rewrite Hold by lia. apply Hframe; lia.
  - rewrite Z.max_r in Hread, Hframe by lia.
    exists out. split; [exact Hrun|]. split; [exact Hl|]. split; assumption.
Qed.

Lemma NL_bias_zero : No_Libraries._bias_from_q12_12 0 = 8388608.
Proof. reflexivity. Qed.

Lemma NL_bias_range (q : Z) : 0 <= No_Libraries._bias_from_q12_12 q < 2 ^ 24.
Proof.
  pose proof (NL_bias_from_q12_12_saturating q) as (_ & _ & _ & Hr). lia.
Qed.

(** The interior rows of the angular-difference volume: the loop over the
    pixels of angular row [a] succeeds and writes only inside row [a]. *)
Lemma NL_diff_interior_row (pay : list byte) (A n ch a : Z)
    (out0 : list byte) (sum0 : list Z) :
  0 <= n -> 0 < a < A - 1 -> 0 <= ch < 3 ->
  len pay = A * n * 9 -> len out0 = A * n * 3 -> len sum0 = n ->
  exists out sum_abs,
    for_each (range n) (fun x '(out_diff, sum_abs) =>
      um <- No_Libraries._u24_read pay (((a - 1) * n + x) * 9 + ch * 3) ;
      up <- No_Libraries._u24_read pay (((a + 1) * n + x) * 9 + ch * 3) ;
      out_diff <- No_Libraries._u24_write out_diff (a * n * 3 + x * 3)
        (No_Libraries._bias_from_q12_12
           (No_Libraries._round_div2
              (up - No_Libraries.BIAS_INT - (um - No_Libraries.BIAS_INT)))) ;
      s <- getitem sum_abs x ;
      sum_abs <- setitem sum_abs x
        (s + No_Libraries._abs_i32
               (No_Libraries._round_div2
                  (up - No_Libraries.BIAS_INT - (um - No_Libraries.BIAS_INT)))) ;
      Ok (out_diff, sum_abs)) (out0, sum0) = Ok (out, sum_abs) /\
    len out = A * n * 3 /\ len sum_abs = n /\
    forall j, 0 <= j -> j < a * n * 3 \/ (a + 1) * n * 3 <= j ->
      out !! Z.to_nat j = out0 !! Z.to_nat j.
Proof.
  intros Hn Ha Hch Hpay Hout Hsum.
  match goal with
  | |- exists out sum_abs, for_each _ ?body ?s0 = _ /\ _ =>
      destruct (for_range_inv n body
        (fun _ '(out, sum_abs) => len out = A * n * 3 /\ len sum_abs = n /\
           forall j, 0 <= j -> j < a * n * 3 \/ (a + 1) * n * 3 <= j ->
             out !! Z.to_nat j = out0 !! Z.to_nat j) s0)
        as ([out sum_abs] & Hrun & Hl & Hs & Hframe)
  end.
  - split; [exact Hout|]. split; [exact Hsum|]. intros j _ _. reflexivity.
  - intros x [out sum_abs] Hx (Hl & Hs & Hframe).
    destruct (u24_read_in_range pay (((a - 1) * n + x) * 9 + ch * 3)) as (um & Hum & _);
      [nia|nia|].
    destruct (u24_read_in_range pay (((a + 1) * n + x) * 9 + ch * 3)) as (up & Hup & _);
      [nia|nia|].
    rewrite Hum. cbn [bind]. rewrite Hup. cbn [bind].
    destruct (u24_write_spec out (a * n * 3 + x * 3)
                (No_Libraries._bias_from_q12_12
                   (No_Libraries._round_div2
                      (up - No_Libraries.BIAS_INT - (um - No_Libraries.BIAS_INT)))))
      as (out' & Hw & Hl' & _ & Hold); [nia|nia|].
    rewrite Hw. cbn [bind].
    destruct (getitem_in_range sum_abs x) as (s & _ & Hgs); [lia|].
    rewrite Hgs. cbn [bind]. rewrite setitem_in_range by lia. cbn [bind].
    eexists. split; [reflexivity|]. cbv beta iota.
    split; [lia|]. split; [unfold len; rewrite length_insert; exact Hs|].
    intros j Hj0 Hj. rewrite Hold by nia. apply Hframe; assumption.
  - exists out, sum_abs. split; [exact Hrun|]. split; [exact Hl|].
    split; [exact Hs|exact Hframe].
Qed.

Lemma NL_zero_diff_volume (A n : Z) :
  0 <= A -> 0 <= n ->
  exists out,
    No_Libraries.zero_diff_volume A n = Ok out /\
    len out = A * n * 3 /\
    forall i, 0 <= i < A * n -> No_Libraries._u24_read out (i * 3) = Ok 8388608.
Proof.
  intros HA Hn. unfold No_Libraries.zero_diff_volume.
  rewrite bytearray_ok by nia. cbn [bind].
  match goal with
  | |- exists out, for_each _ ?body ?s0 = _ /\ _ =>
      destruct (u24_fill (A * n) 0 (A * n * 3) (fun _ => No_Libraries.BIAS_INT) body s0)
        as (out & Hrun & Hl & Hread & _)
  end.
  - lia.
  - nia.
  - lia.
  - rewrite len_replicate. nia.
  - intros i out Hi Hl. reflexivity.
  - exists out. split; [exact Hrun|]. split; [exact Hl|].
    intros i Hi. apply (Hread i Hi).
Qed.

Lemma NL_pack_q (C_q : list Z) (n : Z) :
  0 <= n -> len C_q = n ->
  exists payload,
    No_Libraries.pack_q C_q n = Ok payload /\
    len payload = n * 3 /\
    forall i q, 0 <= i < n -> C_q !! Z.to_nat i = Some q ->
      No_Libraries._u24_read payload (i * 3) = Ok (No_Libraries._bias_from_q12_12 q).
Proof.
  intros Hn Hlen. unfold No_Libraries.pack_q.
  rewrite bytearray_ok by lia. cbn [bind].
  match goal with
  | |- exists payload, for_each _ ?body ?s0 = _ /\ _ =>
      destruct (u24_fill n 0 (n * 3)
        (fun i => match C_q !! Z.to_nat i with
                  | Some q => No_Libraries._bias_from_q12_12 q
                  | None => 0
                  end) body s0)
        as (pl & Hrun & Hl & Hread & _)
  end.
  - lia.
  - lia.
  - lia.
  - rewrite len_replicate. lia.
  - intros i out Hi Hl. cbv beta.
    destruct (getitem_in_range C_q i) as (q & Hq & Hget); [lia|].
    rewrite Hget, Hq. reflexivity.
  - exists pl. split; [exact Hrun|]. split; [exact Hl|].
    intros i q Hi Hq. specialize (Hread i Hi). cbn beta in Hread.
    rewrite Hq in Hread. change (0 + i * 3) with (i * 3) in Hread.
    rewrite Hread. f_equal. apply land_u24_small. apply NL_bias_range.
Qed.

Lemma NL_diff_volume_borders (pay : list byte) (A n ch : Z) :
  3 <= A -> 0 <= n -> 0 <= ch < 3 -> len pay = A * n * 9 ->
  exists out sum_abs,
    No_Libraries.diff_volume pay A n ch = Ok (out, sum_abs) /\
    len out = A * n * 3 /\ len sum_abs = n /\
    forall a x, a = 0 \/ a = A - 1 -> 0 <= x < n ->
      No_Libraries._u24_read out ((a * n + x) * 3) = Ok 8388608.
Proof.
  intros HA Hn Hch Hpay. unfold No_Libraries.diff_volume. cbv zeta.
  rewrite bytearray_ok by nia. cbn [bind].
  match goal with
  | |- exists out sum_abs, for_each _ ?body ?s0 = _ /\ _ =>
      destruct (for_range_inv A body
        (fun a '(out, sum_abs) => len out = A * n * 3 /\ len sum_abs = n /\
           forall a' x, 0 <= a' < a -> a' = 0 \/ a' = A - 1 -> 0 <= x < n ->
             No_Libraries._u24_read out ((a' * n + x) * 3) = Ok 8388608) s0)
        as ([out sum_abs] & Hrun & Hl & Hs & Hb)
  end.
  - split; [rewrite len_replicate; nia|]. split; [apply len_list_repeat; lia|].
    intros a' x Ha'. lia.
  - intros a [out sum_abs] Ha (Hl & Hs & Hb).
    destruct ((a =? 0) || (a =? A - 1)) eqn:Hborder.
    + match goal with
      | |- exists s', bind (for_each _ ?body ?s0) _ = _ /\ _ =>
          destruct (u24_fill n (a * n * 3) (A * n * 3)
                      (fun _ => No_Libraries.BIAS_INT) body s0)
            as (out' & Hrun' & Hl' & Hread & Hframe)
      end.
      * nia.
      * lia.
      * nia.
      * exact Hl.
      * intros i o Hi Hlo. reflexivity.
      * rewrite Hrun'. cbn [bind]. eexists. split; [reflexivity|]. cbv beta iota.
        split; [exact Hl'|]. split; [exact Hs|].
        intros a' x Ha' Hbd Hx. destruct (Z.eq_dec a' a) as [->|Hne].
        -- replace ((a * n + x) * 3) with (a * n * 3 + x * 3) by lia.
           apply (Hread x Hx).
        -- rewrite (u24_read_frame out out'); [apply Hb; (lia || assumption)|nia|nia|].
           intros j Hj. apply Hframe; nia.
    + apply orb_false_iff in Hborder as [H0 H1].
      apply Z.eqb_neq in H0. apply Z.eqb_neq in H1.
      destruct (NL_diff_interior_row pay A n ch a out sum_abs)
        as (out' & sum' & Hrun' & Hl' & Hs' & Hframe); try assumption; [lia|].
      rewrite Hrun'. eexists. split; [reflexivity|]. cbv beta iota.
      split; [exact Hl'|]. split; [exact Hs'|].
      intros a' x Ha' Hbd Hx.
      rewrite (u24_read_frame out out'); [apply Hb; (lia || assumption)|nia|nia|].
      intros j Hj. apply Hframe; nia.
  - rewrite Z.max_r in Hb by lia.
    exists out, sum_abs. split; [exact Hrun|]. split; [exact Hl|]. split; [exact Hs|].
    intros a x Ha Hx. apply Hb; [lia|exact Ha|exact Hx].
Qed.

(** ** Confidence estimator *)

Lemma epi_volume_payload (epis : list (list byte)) (n A k : Z) :
  epi_volumes epis n A -> 0 <= n < 2 ^ 32 -> 0 <= A < 2 ^ 32 -> 0 <= k < len epis ->
  exists epi payload,
    getitem epis k = Ok epi /\
    epi = imgb_header n A 3 4 ++ payload /\
    len payload = n * A * 9 /\
    No_Libraries.imbg_parse_payload epi = payload.
Proof.
  intros Hepis Hn HA Hk.
  destruct (getitem_in_range epis k Hk) as (epi & Hepi & Hget).
  unfold epi_volumes in Hepis. rewrite Forall_forall in Hepis.
  destruct (Hepis epi (list_elem_of_lookup_2 _ _ _ Hepi)) as (payload & -> & Hlen).
  exists (imgb_header n A 3 4 ++ payload), payload.
  split; [exact Hget|]. split; [reflexivity|]. split; [exact Hlen|].
  unfold No_Libraries.imbg_parse_payload.
  apply (header_fields n A 3 4 payload Hn HA).
Qed.

(** The loop over the EPIs of one axis when [A >= 3]. *)
Lemma NL_axis_loop (epis : list (list byte)) (count n A ch : Z)
    (idx : Z -> Z -> Z) (C_q0 : list Z) :
  3 <= A < 2 ^ 32 -> 0 <= n < 2 ^ 32 -> 0 <= ch < 3 ->
  len epis = count -> epi_volumes epis n A ->
  (forall k j, 0 <= k < count -> 0 <= j < n -> 0 <= idx k j < len C_q0) ->
  exists dL C_q,
    for_each (range count) (fun k '(dL, C_q) =>
      epi <- getitem epis k ;
      '(out_diff, sum_abs) <-
        No_Libraries.diff_volume (No_Libraries.imbg_parse_payload epi) A n ch ;
      C_q <- for_each (range n) (fun j C_q =>
        s <- getitem sum_abs j ;
        m <- floordiv (s + (A - 2) / 2) (A - 2) ;
        setitem C_q (idx k j) m) C_q ;
      blob <- No_Libraries.imgb_make n A 1 4 out_diff ;
      Ok (dL ++ [blob], C_q)) ([], C_q0) = Ok (dL, C_q) /\
    len C_q = len C_q0 /\
    diff_volumes No_Libraries.imgb_parse dL count n A (borders_zero n A).
Proof.
  intros HA Hn Hch Hcount Hepis Hidx.
  assert (Hc0 : 0 <= count) by (rewrite <- Hcount; apply len_nonneg).
  match goal with
  | |- exists dL C_q, for_each _ ?body ?s0 = _ /\ _ =>
      destruct (for_range_inv count body
        (fun k '(dL, C_q) => len C_q = len C_q0 /\
           diff_volumes No_Libraries.imgb_parse dL k n A (borders_zero n A)) s0)
        as ([dL C_q] & Hrun & Hl & Hd)
  end.
  - split; [reflexivity|]. split; [reflexivity|]. intros k blob Hk. discriminate.
  - intros k [dL C_q] Hk (Hl & Hlen & Hd).
    destruct (epi_volume_payload epis n A k Hepis) as (epi & pay & Hget & _ & Hpl & Hpay);
      [lia|lia|lia|].
    rewrite Hget. cbn [bind]. rewrite Hpay.
    destruct (NL_diff_volume_borders pay A n ch) as (out & sum_abs & Hdv & Hol & Hsl & Hb);
      [lia|lia|lia|lia|].
    rewrite Hdv. cbn [bind].
    match goal with
    | |- exists s', bind (for_each _ ?body ?s0) _ = _ /\ _ =>
        destruct (for_range_inv n body (fun _ C => len C = len C_q0) s0)
          as (C_q' & Hrun' & Hl')
    end.
    + exact Hl.
    + intros j C Hj HlC.
      destruct (getitem_in_range sum_abs j) as (s & _ & Hgs); [lia|].
      rewrite Hgs. cbn [bind]. rewrite floordiv_ok by lia. cbn [bind].
      rewrite setitem_in_range by (rewrite HlC; apply Hidx; lia).
      eexists. split; [reflexivity|]. unfold len. rewrite length_insert. exact HlC.
    + rewrite Hrun'. cbn [bind].
      rewrite (NL_imgb_make_ok n A 1 4 3 out) by (reflexivity || lia).
      cbn [bind]. eexists. split; [reflexivity|]. cbv beta iota.
      split; [exact Hl'|]. split.
      * rewrite len_app. unfold len at 2. cbn [length]. lia.
      * intros i blob Hblob.
        destruct (decide (i = length dL)) as [->|Hne].
        -- rewrite lookup_app_r in Hblob by lia. rewrite Nat.sub_diag in Hblob.
           injection Hblob as <-. exists out. split.
           ++ apply (NL_imgb_parse_header n A 1 4 3); try (reflexivity || lia).
           ++ intros a x Ha Hx. apply (Hb a x Ha Hx).
        -- apply (Hd i). rewrite lookup_app_l in Hblob; [exact Hblob|].
           apply lookup_lt_Some in Hblob. rewrite length_app in Hblob.
           cbn [length] in Hblob. lia.
  - rewrite Z.max_r in Hd by lia.
    exists dL, C_q. split; [exact Hrun|]. split; [exact Hl|exact Hd].
Qed.

(** The loop over the EPIs of one axis when [A < 3]. *)
Lemma NL_zero_axis_loop (count n A : Z) :
  0 <= A < 2 ^ 32 -> 0 <= n < 2 ^ 32 -> 0 <= count ->
  exists dL,
    for_each (range count) (fun _ dL =>
      out_diff <- No_Libraries.zero_diff_volume A n ;
      blob <- No_Libraries.imgb_make n A 1 4 out_diff ;
      Ok (dL ++ [blob])) [] = Ok dL /\
    diff_volumes No_Libraries.imgb_parse dL count n A (all_zero (A * n)).
Proof.
  intros HA Hn Hc0.
  match goal with
  | |- exists dL, for_each _ ?body ?s0 = _ /\ _ =>
      destruct (for_range_inv count body
        (fun k dL => diff_volumes No_Libraries.imgb_parse dL k n A (all_zero (A * n))) s0)
        as (dL & Hrun & Hd)
  end.
  - split; [reflexivity|]. intros k blob Hk. discriminate.
  - intros k dL Hk (Hlen & Hd).
    destruct (NL_zero_diff_volume A n) as (out & Hz & Hol & Hzero); [lia|lia|].
    rewrite Hz. cbn [bind].
    rewrite (NL_imgb_make_ok n A 1 4 3 out) by (reflexivity || lia).
    cbn [bind]. eexists. split; [reflexivity|]. split.
    + rewrite len_app. unfold len at 2. cbn [length]. lia.
    + intros i blob Hblob.
      destruct (decide (i = length dL)) as [->|Hne].
      * rewrite lookup_app_r in Hblob by lia. rewrite Nat.sub_diag in Hblob.
        injection Hblob as <-. exists out. split.
        -- apply (NL_imgb_parse_header n A 1 4 3); try (reflexivity || lia).
        -- intros j Hj. apply (Hzero j Hj).
      * apply (Hd i). rewrite lookup_app_l in Hblob; [exact Hblob|].
        apply lookup_lt_Some in Hblob. rewrite length_app in Hblob.
        cbn [length] in Hblob. lia.
  - rewrite Z.max_r in Hd by lia. exists dL. split; [exact Hrun|exact Hd].
Qed.

Lemma list_repeat_lookup {A} (v : A) (n i : Z) :
  0 <= i < n -> list_repeat v n !! Z.to_nat i = Some v.
Proof. intros Hi. unfold list_repeat. apply lookup_replicate_2. lia. Qed.

Lemma NL_confidence_spec (epi_h_imgb epi_v_imgb : list (list byte))
    (channel : option Z) (W H A : Z) :
  0 < H < 2 ^ 32 -> 0 < W < 2 ^ 32 -> 0 <= A < 2 ^ 32 ->
  len epi_h_imgb = H -> len epi_v_imgb = W ->
  epi_volumes epi_h_imgb W A -> epi_volumes epi_v_imgb H A ->
  channel_ok channel ->
  exists C_h C_v dL_du_h dL_dv_v,
    No_Libraries.compute_from_epis_with_diffs epi_h_imgb epi_v_imgb channel =
      Ok (C_h, C_v, dL_du_h, dL_dv_v) /\
    diff_volumes No_Libraries.imgb_parse dL_du_h H W A
      (fun p => (3 <= A -> borders_zero W A p) /\ (A < 3 -> all_zero (A * W) p)) /\
    diff_volumes No_Libraries.imgb_parse dL_dv_v W H A
      (fun p => (3 <= A -> borders_zero H A p) /\ (A < 3 -> all_zero (A * H) p)) /\
    (A < 3 ->
     scalar_map No_Libraries.imgb_parse C_h W H (all_zero (H * W)) /\
     scalar_map No_Libraries.imgb_parse C_v W H (all_zero (H * W))).
Proof.
  intros HH HW HA HlenH HlenW Hepih Hepiv Hchan. subst H.
  assert (Hch : 0 <= match channel with None => 0 | Some c => c end < 3).
  { destruct channel as [c|]; [exact Hchan|lia]. }
  unfold No_Libraries.compute_from_epis_with_diffs. cbv zeta.
  rewrite HlenW. zbool.
  destruct (epi_volume_payload epi_h_imgb W A 0 Hepih)
    as (eh0 & ph0 & Hgeth & -> & Hplh & _); [lia|lia|lia|].
  destruct (epi_volume_payload epi_v_imgb (len epi_h_imgb) A 0 Hepiv)
    as (ev0 & pv0 & Hgetv & -> & Hplv & _); [lia|lia|lia|].
  rewrite Hgeth. cbn [bind].
  rewrite (NL_imgb_parse_header W A 3 4 3 ph0) by (reflexivity || lia).
  cbn [bind]. rewrite Hgetv. cbn [bind].
  rewrite (NL_imgb_parse_header (len epi_h_imgb) A 3 4 3 pv0) by (reflexivity || lia).
  cbn [bind]. zbool.
  destruct (NL_pack_q (list_repeat 0 (len epi_h_imgb * W)) (len epi_h_imgb * W))
    as (zero_map & Hpackz & Hzl & Hzread); [nia|apply len_list_repeat; nia|].
  assert (Hzmap : all_zero (len epi_h_imgb * W) zero_map).
  { intros i Hi. unfold sample_is_zero.
    rewrite (Hzread i 0 Hi (list_repeat_lookup 0 _ i Hi)). reflexivity. }
  assert (Hmakez : No_Libraries.imgb_make W (len epi_h_imgb) 1 4 zero_map =
                   Ok (imgb_header W (len epi_h_imgb) 1 4 ++ zero_map)).
  { apply (NL_imgb_make_ok W (len epi_h_imgb) 1 4 3); try (reflexivity || lia). }
  assert (Hparsez : No_Libraries.imgb_parse (imgb_header W (len epi_h_imgb) 1 4 ++ zero_map) =
                    Ok (W, len epi_h_imgb, 1, 4, zero_map)).
  { apply (NL_imgb_parse_header W (len epi_h_imgb) 1 4 3); try (reflexivity || lia). }
  destruct (Z.ltb_spec A 3) as [Hsmall|Hbig].
  - destruct (NL_zero_axis_loop (len epi_h_imgb) W A) as (dLh & Hrunh & Hdh); [lia|lia|lia|].
    destruct (NL_zero_axis_loop W (len epi_h_imgb) A) as (dLv & Hrunv & Hdv); [lia|lia|lia|].
    rewrite Hrunh. cbn [bind]. rewrite Hpackz. cbn [bind]. rewrite Hmakez. cbn [bind].
    rewrite Hrunv. cbn [bind]. rewrite Hpackz. cbn [bind]. rewrite Hmakez. cbn [bind].
    eexists _, _, dLh, dLv. split; [reflexivity|].
    split; [|split].
    + destruct Hdh as [Hl Hd]. split; [exact Hl|]. intros k blob Hk.
      destruct (Hd k blob Hk) as (p & Hp & Hz). exists p. split; [exact Hp|].
      split; [lia|intros _; exact Hz].
    + destruct Hdv as [Hl Hd]. split; [exact Hl|]. intros k blob Hk.
      destruct (Hd k blob Hk) as (p & Hp & Hz). exists p. split; [exact Hp|].
      split; [lia|intros _; exact Hz].
    + intros _. split; exists zero_map; (split; [exact Hparsez|exact Hzmap]).
  - destruct (NL_axis_loop epi_h_imgb (len epi_h_imgb) W A
                (match channel with None => 0 | Some c => c end)
                (fun y x => y * W + x) (list_repeat 0 (len epi_h_imgb * W)))
      as (dLh & Chq & Hrunh & Hlh & Hdh); [lia|lia|lia|reflexivity|exact Hepih| |].
    { intros k j Hk Hj. rewrite len_list_repeat by nia. nia. }
    destruct (NL_axis_loop epi_v_imgb W (len epi_h_imgb) A
                (match channel with None => 0 | Some c => c end)
                (fun x y => y * W + x) (list_repeat 0 (len epi_h_imgb * W)))
      as (dLv & Cvq & Hrunv & Hlv & Hdv); [lia|lia|lia|exact HlenW|exact Hepiv| |].
    { intros k j Hk Hj. rewrite len_list_repeat by nia. nia. }
    cbv beta in Hrunh, Hrunv.
    rewrite len_list_repeat in Hlh, Hlv by nia.
    destruct (NL_pack_q Chq (len epi_h_imgb * W)) as (ph & Hpackh & Hphl & _); [nia|exact Hlh|].
    destruct (NL_pack_q Cvq (len epi_h_imgb * W)) as (pv & Hpackv & Hpvl & _); [nia|exact Hlv|].
    rewrite Hrunh. cbn [bind]. rewrite Hpackh. cbn [bind].
    rewrite (NL_imgb_make_ok W (len epi_h_imgb) 1 4 3 ph) by (reflexivity || lia).
    cbn [bind]. rewrite Hrunv. cbn [bind]. rewrite Hpackv. cbn [bind].
    rewrite (NL_imgb_make_ok W (len epi_h_imgb) 1 4 3 pv) by (reflexivity || lia).
    cbn [bind].
    eexists _, _, dLh, dLv. split; [reflexivity|].
    split; [|split].
    + destruct Hdh as [Hl Hd]. split; [exact Hl|]. intros k blob Hk.
      destruct (Hd k blob Hk) as (p & Hp & Hz). exists p. split; [exact Hp|].
      split; [intros _; exact Hz|lia].
    + destruct Hdv as [Hl Hd]. split; [exact Hl|]. intros k blob Hk.
      destruct (Hd k blob Hk) as (p & Hp & Hz). exists p. split; [exact Hp|].
      split; [intros _; exact Hz|lia].
    + intros Hlt. lia.
Qed.

(** The same loop when the state carries running offsets or other
    variables besides the output buffer. *)
Lemma u24_fill_st {St} (n base L : Z) (f : Z -> Z) (proj : St -> list byte)
    (aux : Z -> St -> Prop) (body : Z -> St -> result St) (s0 : St) :
  0 <= base -> 0 <= n -> base + n * 3 <= L -> len (proj s0) = L -> aux 0 s0 ->
  (forall i st, 0 <= i < n -> len (proj st) = L -> aux i st ->
     exists st', body i st = Ok st' /\ aux (i + 1) st' /\
       No_Libraries._u24_write (proj st) (base + i * 3) (f i) = Ok (proj st')) ->
  exists st,
    for_each (range n) body s0 = Ok st /\
    aux n st /\
    len (proj st) = L /\
    (forall i, 0 <= i < n ->
       No_Libraries._u24_read (proj st) (base + i * 3) = Ok (Z.land (f i) 16777215)) /\
    (forall j, 0 <= j -> j < base \/ base + n * 3 <= j ->
       proj st !! Z.to_nat j = proj s0 !! Z.to_nat j).
Proof.
  intros Hbase Hn Hfit Hlen Haux Hbody.
  destruct (for_range_inv n body
    (fun k st => aux k st /\ len (proj st) = L /\
       (forall i, 0 <= i < k ->
          No_Libraries._u24_read (proj st) (base + i * 3) = Ok (Z.land (f i) 16777215)) /\
       (forall j, 0 <= j -> j < base \/ base + k * 3 <= j ->
          proj st !! Z.to_nat j = proj s0 !! Z.to_nat j)) s0)
    as (st & Hrun & Ha & Hl & Hread & Hframe).
  - split; [exact Haux|]. split; [exact Hlen|].
    split; [intros i Hi; lia|]. intros j _ _. reflexivity.
  - intros k st Hk (Ha & Hl & Hread & Hframe).
    destruct (Hbody k st Hk Hl Ha) as (st' & Hb & Ha' & Hw).
    destruct (u24_write_spec (proj st) (base + k * 3) (f k))
      as (out' & Hw' & Hl' & Hnew & Hold); [lia|lia|].
    rewrite Hw in Hw'. injection Hw' as <-.
    exists st'. split; [exact Hb|]. split; [exact Ha'|]. split; [lia|]. split.
    + intros i Hi. destruct (Z.eq_dec i k) as [->|Hne]; [exact Hnew|].
      rewrite (u24_read_frame (proj st) (proj st'))
        by (lia || (intros j Hj; apply Hold; lia)).
      apply Hread. lia.
    + intros j Hj0 Hj. rewrite Hold by lia. apply Hframe; lia.
  - rewrite Z.max_r in Ha, Hread, Hframe by lia.
    exists st. split; [exact Hrun|]. split; [exact Ha|]. split; [exact Hl|].
    split; assumption.
Qed.

Lemma BM_diff_volume_borders (pay : list byte) (CH_OFF : Z) :
  0 <= CH_OFF <= 6 -> len pay = 41472 ->
  exists out sum_abs,
    Bit_Manipulation.diff_volume pay CH_OFF = Ok (out, sum_abs) /\
    len out = 13824 /\ len sum_abs = 512 /\
    borders_zero 512 9 out.
Proof.
  intros Hch Hpay. unfold Bit_Manipulation.diff_volume. cbv zeta.
  change Bit_Manipulation.DIFF_PAY_BYTES with 13824.
  change Bit_Manipulation.WH_SIZE with 512.
  change Bit_Manipulation.EPI_UV with 9.
  change Bit_Manipulation.BYTES_PER_SAMPLE with 3.
  change Bit_Manipulation.BYTES_PER_PIXEL_RGB with 9.
  change Bit_Manipulation.EPI_ROW_BYTES with 4608.
  change Bit_Manipulation.DIFF_ROW_BYTES with 1536.
  change Bit_Manipulation._u24_write with No_Libraries._u24_write.
  change Bit_Manipulation._u24_read with No_Libraries._u24_read.
  rewrite bytearray_ok by lia. cbn [bind].
  match goal with
  | |- exists out sum_abs, bind (for_each _ ?body ?s0) _ = _ /\ _ =>
      destruct (for_range_inv 9 body
        (fun a '(out, sum_abs, orb) => orb = a * 1536 /\
           len out = 13824 /\ len sum_abs = 512 /\
           forall a' x, 0 <= a' < a -> a' = 0 \/ a' = 9 - 1 -> 0 <= x < 512 ->
             No_Libraries._u24_read out ((a' * 512 + x) * 3) = Ok 8388608) s0)
        as ([[out sum_abs] orb] & Hrun & Horb & Hl & Hs & Hb)
  end.
  - split; [reflexivity|]. split; [rewrite len_replicate; lia|].
    split; [apply len_list_repeat; lia|]. intros a' x Ha'. lia.
  - intros a [[out sum_abs] orb] Ha (Horb & Hl & Hs & Hb). subst orb.
    destruct ((a =? 0) || (a =? 9 - 1)) eqn:Hborder.
    + match goal with
      | |- exists s', bind (bind (for_each _ ?body ?s0) _) _ = _ /\ _ =>
          destruct (u24_fill_st 512 (a * 1536) 13824
                      (fun _ => Bit_Manipulation.BIAS_INT) fst
                      (fun i st => snd st = a * 1536 + i * 3) body s0)
            as ([out' o'] & Hrun' & _ & Hl' & Hread & Hframe)
      end.
      * lia.
      * lia.
      * lia.
      * exact Hl.
      * cbn [snd]. lia.
      * intros i [o_d o] Hi Hlo Haux. cbn [fst snd] in *. subst o.
        destruct (u24_write_spec o_d (a * 1536 + i * 3) Bit_Manipulation.BIAS_INT)
          as (o_d' & Hw & _); [lia|lia|].
        rewrite Hw. cbn [bind]. eexists. split; [reflexivity|].
        cbn [fst snd]. split; [lia|reflexivity].
      * cbn [fst] in *. rewrite Hrun'. cbn [bind].
        eexists. split; [reflexivity|]. cbv beta iota.
        split; [lia|]. split; [exact Hl'|]. split; [exact Hs|].
        intros a' x Ha' Hbd Hx. destruct (Z.eq_dec a' a) as [->|Hne].
        -- replace ((a * 512 + x) * 3) with (a * 1536 + x * 3) by lia.
           apply (Hread x Hx).
        -- rewrite (u24_read_frame out out'); [apply Hb; (lia || assumption)|lia|lia|].
           intros j Hj. apply Hframe; lia.
    + apply orb_false_iff in Hborder as [H0 H1].
      apply Z.eqb_neq in H0. apply Z.eqb_neq in H1.
      match goal with
      | |- exists s', bind (bind (for_each _ ?body ?s0) _) _ = _ /\ _ =>
          destruct (u24_fill_st 512 (a * 1536) 13824
            (fun i =>
               match No_Libraries._u24_read pay ((a - 1) * 4608 + i * 9 + CH_OFF),
                     No_Libraries._u24_read pay ((a + 1) * 4608 + i * 9 + CH_OFF) with
               | Ok um, Ok up =>
                   Bit_Manipulation._bias_from_q12_12
                     (Bit_Manipulation._round_div2
                        (up - Bit_Manipulation.BIAS_INT - (um - Bit_Manipulation.BIAS_INT)))
               | _, _ => 0
               end)
            (fun st => fst (fst (fst st)))
            (fun i '(_, sum, x9, o) => len sum = 512 /\ x9 = i * 9 /\ o = a * 1536 + i * 3)
            body s0)
            as ([[[out' sum'] x9'] o'] & Hrun' & (Hs' & _) & Hl' & _ & Hframe)
      end.
      * lia.
      * lia.
      * lia.
      * exact Hl.
      * split; [exact Hs|]. lia.
      * intros i [[[o_d sum] x9] o] Hi Hlo (Hsum & Hx9 & Ho). cbn [fst] in *.
        subst x9 o.
        destruct (u24_read_in_range pay ((a - 1) * 4608 + i * 9 + CH_OFF))
          as (um & Hum & _); [lia|lia|].
        destruct (u24_read_in_range pay ((a + 1) * 4608 + i * 9 + CH_OFF))
          as (up & Hup & _); [lia|lia|].
        rewrite Hum, Hup. cbn [bind].
        destruct (u24_write_spec o_d (a * 1536 + i * 3)
                    (Bit_Manipulation._bias_from_q12_12
                       (Bit_Manipulation._round_div2
                          (up - Bit_Manipulation.BIAS_INT - (um - Bit_Manipulation.BIAS_INT)))))
          as (o_d' & Hw & _); [lia|lia|].
        rewrite Hw. cbn [bind].
        destruct (getitem_in_range sum i) as (sv & _ & Hgs); [lia|].
        rewrite Hgs. cbn [bind]. rewrite setitem_in_range by lia. cbn [bind].
        eexists. split; [reflexivity|]. cbn [fst].
        split; [|reflexivity].
        split; [unfold len; rewrite length_insert; exact Hsum|]. lia.
      * cbn [fst] in *. rewrite Hrun'. cbn [bind].
        eexists. split; [reflexivity|]. cbv beta iota.
        split; [lia|]. split; [exact Hl'|]. split; [exact Hs'|].
        intros a' x Ha' Hbd Hx.
        rewrite (u24_read_frame out out'); [apply Hb; (lia || assumption)|lia|lia|].
        intros j Hj. apply Hframe; lia.
  - rewrite Hrun. cbn [bind]. exists out, sum_abs.
    split; [reflexivity|]. split; [exact Hl|]. split; [exact Hs|].
    intros a x Ha Hx. apply Hb; [lia|exact Ha|exact Hx].
Qed.

Lemma BM_axis_loop (epis : list (list byte)) (CH_OFF : Z)
    (idx : Z -> Z -> Z) (C_q0 : list Z) :
  0 <= CH_OFF <= 6 -> len epis = 512 -> epi_volumes epis 512 9 ->
  (forall k j, 0 <= k < 512 -> 0 <= j < 512 -> 0 <= idx k j < len C_q0) ->
  exists dL C_q,
    for_each (range 512) (fun k '(dL, C_q) =>
      epi <- getitem epis k ;
      '(out_diff, sum_abs) <-
        Bit_Manipulation.diff_volume (Bit_Manipulation.imbg_parse_payload epi) CH_OFF ;
      C_q <- for_each (range 512) (fun j C_q =>
        s <- getitem sum_abs j ;
        m <- floordiv (s + 3) 7 ;
        setitem C_q (idx k j) m) C_q ;
      blob <- Bit_Manipulation.imgb_make 512 9 1 4 out_diff ;
      Ok (dL ++ [blob], C_q)) ([], C_q0) = Ok (dL, C_q) /\
    len C_q = len C_q0 /\
    diff_volumes Bit_Manipulation.imgb_parse dL 512 512 9 (borders_zero 512 9).
Proof.
  intros Hch Hcount Hepis Hidx.
  match goal with
  | |- exists dL C_q, for_each _ ?body ?s0 = _ /\ _ =>
      destruct (for_range_inv 512 body
        (fun k '(dL, C_q) => len C_q = len C_q0 /\
           diff_volumes Bit_Manipulation.imgb_parse dL k 512 9 (borders_zero 512 9)) s0)
        as ([dL C_q] & Hrun & Hl & Hd)
  end.
  - split; [reflexivity|]. split; [reflexivity|]. intros k blob Hk. discriminate.
  - intros k [dL C_q] Hk (Hl & Hlen & Hd).
    destruct (epi_volume_payload epis 512 9 k Hepis) as (epi & pay & Hget & _ & Hpl & Hpay);
      [lia|lia|lia|].
    rewrite Hget. cbn [bind].
    change Bit_Manipulation.imbg_parse_payload with No_Libraries.imbg_parse_payload.
    rewrite Hpay.
    destruct (BM_diff_volume_borders pay CH_OFF) as (out & sum_abs & Hdv & Hol & Hsl & Hb);
      [lia|lia|].
    rewrite Hdv. cbn [bind].
    match goal with
    | |- exists s', bind (for_each _ ?body ?s0) _ = _ /\ _ =>
        destruct (for_range_inv 512 body (fun _ C => len C = len C_q0) s0)
          as (C_q' & Hrun' & Hl')
    end.
    + exact Hl.
    + intros j C Hj HlC.
      destruct (getitem_in_range sum_abs j) as (s & _ & Hgs); [lia|].
      rewrite Hgs. cbn [bind]. rewrite floordiv_ok by lia. cbn [bind].
      rewrite setitem_in_range by (rewrite HlC; apply Hidx; lia).
      eexists. split; [reflexivity|]. unfold len. rewrite length_insert. exact HlC.
    + rewrite Hrun'. cbn [bind].
      rewrite (BM_imgb_make_ok 512 9 1 4 out) by lia.
      cbn [bind]. eexists. split; [reflexivity|]. cbv beta iota.
      split; [exact Hl'|]. split.
      * rewrite len_app. unfold len at 2. cbn [length]. lia.
      * intros i blob Hblob.
        destruct (decide (i = length dL)) as [->|Hne].
        -- rewrite lookup_app_r in Hblob by lia. rewrite Nat.sub_diag in Hblob.
           injection Hblob as <-. exists out. split.
           ++ apply (BM_imgb_parse_header 512 9 1 4); lia.
           ++ exact Hb.
        -- apply (Hd i). rewrite lookup_app_l in Hblob; [exact Hblob|].
           apply lookup_lt_Some in Hblob. rewrite length_app in Hblob.
           cbn [length] in Hblob. lia.
  - exists dL, C_q. split; [exact Hrun|]. split; [exact Hl|exact Hd].
Qed.

Lemma BM_pack_q_ok (C_q : list Z) :
  len C_q = 262144 ->
  exists payload, Bit_Manipulation.pack_q C_q = Ok payload /\ len payload = 786432.
Proof.
  intros Hlen. unfold Bit_Manipulation.pack_q.
  change Bit_Manipulation.OUT_IMG_BYTES with 786432.
  change Bit_Manipulation.N_IMG with 262144.
  change Bit_Manipulation.BYTES_PER_SAMPLE with 3.
  change Bit_Manipulation._u24_write with No_Libraries._u24_write.
  rewrite bytearray_ok by lia. cbn [bind].
  match goal with
  | |- exists payload, bind (for_each _ ?body ?s0) _ = _ /\ _ =>
      destruct (u24_fill_st 262144 0 786432
        (fun i => match C_q !! Z.to_nat i with
                  | Some q => Bit_Manipulation._bias_from_q12_12 q
                  | None => 0
                  end) fst (fun i st => snd st = i * 3) body s0)
        as ([pl o] & Hrun & _ & Hl & _)
  end.
  - lia.
  - lia.
  - lia.
  - cbn [fst]. rewrite len_replicate. lia.
  - reflexivity.
  - intros i [pl o] Hi Hlp Haux. cbn [fst snd] in *. subst o.
    destruct (getitem_in_range C_q i) as (q & Hq & Hget); [lia|].
    rewrite Hget, Hq. cbn [bind].
    destruct (u24_write_spec pl (i * 3) (Bit_Manipulation._bias_from_q12_12 q))
      as (pl' & Hw & _); [lia|lia|].
    rewrite Hw. cbn [bind]. eexists. split; [reflexivity|]. cbn [fst snd].
    split; [lia|]. exact Hw.
  - rewrite Hrun. cbn [bind]. exists pl. split; [reflexivity|exact Hl].
Qed.

Lemma BM_confidence_spec (epi_h_imgb epi_v_imgb : list (list byte))
    (channel : option Z) :
  len epi_h_imgb = 512 -> len epi_v_imgb = 512 ->
  epi_volumes epi_h_imgb 512 9 -> epi_volumes epi_v_imgb 512 9 ->
  channel_ok channel ->
  exists C_h C_v dL_du_h dL_dv_v,
    Bit_Manipulation.compute_from_epis_with_diffs epi_h_imgb epi_v_imgb channel =
      Ok (C_h, C_v, dL_du_h, dL_dv_v) /\
    diff_volumes Bit_Manipulation.imgb_parse dL_du_h 512 512 9 (borders_zero 512 9) /\
    diff_volumes Bit_Manipulation.imgb_parse dL_dv_v 512 512 9 (borders_zero 512 9).
Proof.
  intros HlenH HlenW Hepih Hepiv Hchan.
  assert (Hch : 0 <= match channel with None => 0 | Some c => c end < 3).
  { destruct channel as [c|]; [exact Hchan|lia]. }
  assert (Hoff : 0 <= Z.shiftl (match channel with None => 0 | Some c => c end) 1
                      + match channel with None => 0 | Some c => c end <= 6).
  { rewrite Z.shiftl_mul_pow2 by lia. change (2 ^ 1) with 2. lia. }
  assert (Hshift : forall k, Z.shiftl k Bit_Manipulation.WH_SHIFT = k * 512).
  { intros k. unfold Bit_Manipulation.WH_SHIFT. rewrite Z.shiftl_mul_pow2 by lia.
    reflexivity. }
  assert (Hlen0 : len ((fun _ : Z => 0) <$> range Bit_Manipulation.N_IMG) = 262144).
  { unfold len, range. rewrite length_fmap, length_seqZ. reflexivity. }
  unfold Bit_Manipulation.compute_from_epis_with_diffs. cbv zeta.
  change Bit_Manipulation.WH_SIZE with 512.
  change Bit_Manipulation.EPI_UV with 9.
  change Bit_Manipulation.DEMONINATOR with 7.
  change Bit_Manipulation.DEMONINATOR_HALF with 3.
  destruct (BM_axis_loop epi_h_imgb _ (fun y x => Z.shiftl y Bit_Manipulation.WH_SHIFT + x)
              ((fun _ : Z => 0) <$> range Bit_Manipulation.N_IMG) Hoff HlenH Hepih)
    as (dLh & Chq & Hrunh & Hlh & Hdh).
  { intros k j Hk Hj. rewrite Hshift, Hlen0. lia. }
  destruct (BM_axis_loop epi_v_imgb _ (fun x y => Z.shiftl y Bit_Manipulation.WH_SHIFT + x)
              ((fun _ : Z => 0) <$> range Bit_Manipulation.N_IMG) Hoff HlenW Hepiv)
    as (dLv & Cvq & Hrunv & Hlv & Hdv).
  { intros k j Hk Hj. rewrite Hshift, Hlen0. lia. }
  cbv beta in Hrunh, Hrunv.
  destruct (BM_pack_q_ok Chq) as (ph & Hpackh & Hphl); [lia|].
  destruct (BM_pack_q_ok Cvq) as (pv & Hpackv & Hpvl); [lia|].
  rewrite Hrunh. cbn [bind]. rewrite Hpackh. cbn [bind].
  rewrite (BM_imgb_make_ok 512 512 1 4 ph) by lia. cbn [bind].
  rewrite Hrunv. cbn [bind]. rewrite Hpackv. cbn [bind].
  rewrite (BM_imgb_make_ok 512 512 1 4 pv) by lia. cbn [bind].
  eexists _, _, dLh, dLv. split; [reflexivity|]. split; assumption.
Qed.

(** C7.  Border zero.  For EPI volumes with angular count [A >= 3] the
    Confidence Estimator returns, and in each angular-difference volume it
    returns (one per image row, one per image column) every sample of
    angular row [0] and of angular row [A - 1] holds the stored bias
    8388608, that is, decodes to the signed value zero.  Proved for
    No_Libraries/confidence.py at every geometry, and for
    Bit_Manipulation/confidence.py at the 512 x 512, 9-sample geometry it
    is written for. *)
Theorem confidence_border_differences_zero
    (epi_h_imgb epi_v_imgb : list (list byte)) (channel : option Z) :
  (forall W H A : Z,
     0 < H < 2 ^ 32 -> 0 < W < 2 ^ 32 -> 3 <= A < 2 ^ 32 ->
     len epi_h_imgb = H -> len epi_v_imgb = W ->
     epi_volumes epi_h_imgb W A -> epi_volumes epi_v_imgb H A ->
     channel_ok channel ->
     exists C_h C_v dL_du_h dL_dv_v,
       No_Libraries.compute_from_epis_with_diffs epi_h_imgb epi_v_imgb channel =
         Ok (C_h, C_v, dL_du_h, dL_dv_v) /\
       diff_volumes No_Libraries.imgb_parse dL_du_h H W A (borders_zero W A) /\
       diff_volumes No_Libraries.imgb_parse dL_dv_v W H A (borders_zero H A)) /\
  (len epi_h_imgb = 512 -> len epi_v_imgb = 512 ->
   epi_volumes epi_h_imgb 512 9 -> epi_volumes epi_v_imgb 512 9 ->
   channel_ok channel ->
   exists C_h C_v dL_du_h dL_dv_v,
     Bit_Manipulation.compute_from_epis_with_diffs epi_h_imgb epi_v_imgb channel =
       Ok (C_h, C_v, dL_du_h, dL_dv_v) /\
     diff_volumes Bit_Manipulation.imgb_parse dL_du_h 512 512 9 (borders_zero 512 9) /\
     diff_volumes Bit_Manipulation.imgb_parse dL_dv_v 512 512 9 (borders_zero 512 9)).
Proof.
  split.
  - intros W H A HH HW HA HlenH HlenW Hepih Hepiv Hchan.
    destruct (NL_confidence_spec epi_h_imgb epi_v_imgb channel W H A)
      as (C_h & C_v & dLh & dLv & Hrun & [Hlh Hdh] & [Hlv Hdv] & _);
      try assumption; [lia|].
    exists C_h, C_v, dLh, dLv. split; [exact Hrun|]. split.
    + split; [exact Hlh|]. intros k blob Hk.
      destruct (Hdh k blob Hk) as (p & Hp & Hb & _).
      exists p. split; [exact Hp|]. apply Hb. lia.
    + split; [exact Hlv|]. intros k blob Hk.
      destruct (Hdv k blob Hk) as (p & Hp & Hb & _).
      exists p. split; [exact Hp|]. apply Hb. lia.
  - apply BM_confidence_spec.
Qed.

Lemma confidence_border_differences_zero_witness :
  (exists C_h C_v dL_du_h dL_dv_v,
     No_Libraries.compute_from_epis_with_diffs
       [imgb_header 2 3 3 4 ++ replicate 54 Byte.x2a]
       [imgb_header 1 3 3 4 ++ replicate 27 Byte.x2a;
        imgb_header 1 3 3 4 ++ replicate 27 Byte.x2a] None =
       Ok (C_h, C_v, dL_du_h, dL_dv_v) /\
     diff_volumes No_Libraries.imgb_parse dL_du_h 1 2 3 (borders_zero 2 3) /\
     diff_volumes No_Libraries.imgb_parse dL_dv_v 2 1 3 (borders_zero 1 3)) /\
  (exists C_h C_v dL_du_h dL_dv_v,
     Bit_Manipulation.compute_from_epis_with_diffs
       (replicate 512 (imgb_header 512 9 3 4 ++ replicate (Z.to_nat 41472) Byte.x2a))
       (replicate 512 (imgb_header 512 9 3 4 ++ replicate (Z.to_nat 41472) Byte.x2a))
       (Some 1) =
       Ok (C_h, C_v, dL_du_h, dL_dv_v) /\
     diff_volumes Bit_Manipulation.imgb_parse dL_du_h 512 512 9 (borders_zero 512 9) /\
     diff_volumes Bit_Manipulation.imgb_parse dL_dv_v 512 512 9 (borders_zero 512 9)).
Proof.
  split.
  - apply (proj1 (confidence_border_differences_zero
                    [imgb_header 2 3 3 4 ++ replicate 54 Byte.x2a]
                    [imgb_header 1 3 3 4 ++ replicate 27 Byte.x2a;
                     imgb_header 1 3 3 4 ++ replicate 27 Byte.x2a] None) 2 1 3).
    + lia.
    + lia.
    + lia.
    + reflexivity.
    + reflexivity.
    + constructor; [|constructor].
      exists (replicate 54 Byte.x2a). split; reflexivity.
    + constructor; [|constructor; [|constructor]];
        exists (replicate 27 Byte.x2a); split; reflexivity.
    + exact I.
  - apply (proj2 (confidence_border_differences_zero
                    (replicate 512 (imgb_header 512 9 3 4 ++ replicate (Z.to_nat 41472) Byte.x2a))
                    (replicate 512 (imgb_header 512 9 3 4 ++ replicate (Z.to_nat 41472) Byte.x2a))
                    (Some 1))).
    + reflexivity.
    + reflexivity.
    + apply Forall_replicate. exists (replicate (Z.to_nat 41472) Byte.x2a).
      split; [reflexivity|]. rewrite len_replicate. lia.
    + apply Forall_replicate. exists (replicate (Z.to_nat 41472) Byte.x2a).
      split; [reflexivity|]. rewrite len_replicate. lia.
    + cbn. lia.
Defined.

(** C8.  Degenerate safety.  For EPI volumes with angular count 1 or 2 the
    Confidence Estimator of No_Libraries/confidence.py returns (no
    exception, in particular no division by zero): the confidence maps
    [C_h] and [C_v] are [W] by [H] maps in which every sample decodes to
    zero, and every sample of every angular-difference volume decodes to
    zero. *)
Theorem confidence_degenerate_all_zero
    (epi_h_imgb epi_v_imgb : list (list byte)) (channel : option Z) (W H A : Z) :
  0 < H < 2 ^ 32 -> 0 < W < 2 ^ 32 -> A = 1 \/ A = 2 ->
  len epi_h_imgb = H -> len epi_v_imgb = W ->
  epi_volumes epi_h_imgb W A -> epi_volumes epi_v_imgb H A ->
  channel_ok channel ->
  exists C_h C_v dL_du_h dL_dv_v,
    No_Libraries.compute_from_epis_with_diffs epi_h_imgb epi_v_imgb channel =
      Ok (C_h, C_v, dL_du_h, dL_dv_v) /\
    scalar_map No_Libraries.imgb_parse C_h W H (all_zero (H * W)) /\
    scalar_map No_Libraries.imgb_parse C_v W H (all_zero (H * W)) /\
    diff_volumes No_Libraries.imgb_parse dL_du_h H W A (all_zero (A * W)) /\
    diff_volumes No_Libraries.imgb_parse dL_dv_v W H A (all_zero (A * H)).
Proof.
  intros HH HW HA HlenH HlenW Hepih Hepiv Hchan.
  destruct (NL_confidence_spec epi_h_imgb epi_v_imgb channel W H A)
    as (C_h & C_v & dLh & dLv & Hrun & [Hlh Hdh] & [Hlv Hdv] & Hmaps);
    try assumption; [lia|].
  destruct Hmaps as [HCh HCv]; [lia|].
  exists C_h, C_v, dLh, dLv. split; [exact Hrun|].
  split; [exact HCh|]. split; [exact HCv|]. split.
  - split; [exact Hlh|]. intros k blob Hk.
    destruct (Hdh k blob Hk) as (p & Hp & _ & Hz).
    exists p. split; [exact Hp|]. apply Hz. lia.
  - split; [exact Hlv|]. intros k blob Hk.
    destruct (Hdv k blob Hk) as (p & Hp & _ & Hz).
    exists p. split; [exact Hp|]. apply Hz. lia.
Qed.

Lemma confidence_degenerate_all_zero_witness :
  exists C_h C_v dL_du_h dL_dv_v,
    No_Libraries.compute_from_epis_with_diffs
      [imgb_header 2 2 3 4 ++ replicate 36 Byte.x2a]
      [imgb_header 1 2 3 4 ++ replicate 18 Byte.x2a;
       imgb_header 1 2 3 4 ++ replicate 18 Byte.x2a] None =
      Ok (C_h, C_v, dL_du_h, dL_dv_v) /\
    scalar_map No_Libraries.imgb_parse C_h 2 1 (all_zero (1 * 2)) /\
    scalar_map No_Libraries.imgb_parse C_v 2 1 (all_zero (1 * 2)) /\
    diff_volumes No_Libraries.imgb_parse dL_du_h 1 2 2 (all_zero (2 * 2)) /\
    diff_volumes No_Libraries.imgb_parse dL_dv_v 2 1 2 (all_zero (2 * 1)).
Proof.
  apply (confidence_degenerate_all_zero
           [imgb_header 2 2 3 4 ++ replicate 36 Byte.x2a]
           [imgb_header 1 2 3 4 ++ replicate 18 Byte.x2a;
            imgb_header 1 2 3 4 ++ replicate 18 Byte.x2a] None 2 1 2).
  - lia.
  - lia.
  - right. reflexivity.
  - reflexivity.
  - reflexivity.
  - constructor; [|constructor].
    exists (replicate 36 Byte.x2a). split; reflexivity.
  - constructor; [|constructor; [|constructor]];
      exists (replicate 18 Byte.x2a); split; reflexivity.
  - exact I.
Defined.

Example confidence_degenerate_example :
  exists dL_du_h dL_dv_v,
    No_Libraries.compute_from_epis_with_diffs
      [imgb_header 1 1 3 4 ++ replicate 9 Byte.x2a]
      [imgb_header 1 1 3 4 ++ replicate 9 Byte.x2a] None =
      Ok (imgb_header 1 1 1 4 ++ [Byte.x00; Byte.x00; Byte.x80],
          imgb_header 1 1 1 4 ++ [Byte.x00; Byte.x00; Byte.x80],
          dL_du_h, dL_dv_v).
Proof. eexists _, _. vm_compute. reflexivity. Qed.

(** ** Disparity fusion *)

Lemma mul_q12_nonneg (a b : Z) :
  0 <= a -> 0 <= b -> 0 <= Bit_Manipulation._mul_q12 a b.
Proof.
  intros Ha Hb. unfold Bit_Manipulation._mul_q12. cbv zeta.
  assert (0 <= a * b) by nia. zbool.
  apply Z.shiftr_nonneg.
  change (Z.shiftl 1 (Bit_Manipulation.Q_FRAC - 1)) with 2048. lia.
Qed.

Lemma pow_loop_nonneg (e : positive) : forall r b,
  0 <= r -> 0 <= b -> 0 <= Bit_Manipulation.pow_loop e r b.
Proof.
  induction e as [e IH|e IH|]; intros r b Hr Hb; cbn [Bit_Manipulation.pow_loop].
  - apply IH; apply mul_q12_nonneg; assumption.
  - apply IH; [assumption|apply mul_q12_nonneg; assumption].
  - apply mul_q12_nonneg; assumption.
Qed.

Lemma pow_q12_int_nonneg (b T : Z) : 0 <= b -> 0 <= Bit_Manipulation._pow_q12_int b T.
Proof.
  intros Hb. unfold Bit_Manipulation._pow_q12_int.
  destruct (T <=? 0); [cbv; discriminate|].
  destruct (T =? 1); [exact Hb|].
  destruct T as [|e|e]; try (cbv; discriminate).
  apply pow_loop_nonneg; [cbv; discriminate|exact Hb].
Qed.

Lemma clamped_confidence_nonneg (c fl cap : Z) :
  0 <= cap ->
  0 <= Bit_Manipulation._clamp_q12 (if c <? 0 then 0 else c) fl cap.
Proof.
  intros Hcap. unfold Bit_Manipulation._clamp_q12.
  destruct (Z.ltb_spec c 0);
    repeat match goal with
           | |- context [?a <? ?b] => destruct (Z.ltb_spec a b)
           end; lia.
Qed.

(** The blend is a weighted mean of [z_h], [z_v] and 0, with weights
    [p_h], [p_v] and [eps]. *)
Lemma fuse_weights_hull (zh zv ch cv T fl cap eps : Z) :
  0 <= cap -> 0 <= eps ->
  forall num den,
    Bit_Manipulation.fuse_weights zh zv ch cv T fl cap eps = (num, den) ->
    0 <= den /\
    den * Z.min (Z.min zh zv) 0 <= num <= den * Z.max (Z.max zh zv) 0.
Proof.
  intros Hcap Heps num den. unfold Bit_Manipulation.fuse_weights. cbv zeta.
  pose proof (pow_q12_int_nonneg _ T (clamped_confidence_nonneg ch fl cap Hcap)) as Hph.
  pose proof (pow_q12_int_nonneg _ T (clamped_confidence_nonneg cv fl cap Hcap)) as Hpv.
  intros [= <- <-].
  set (ph := Bit_Manipulation._pow_q12_int _ T) in *.
  set (pv := Bit_Manipulation._pow_q12_int
               (Bit_Manipulation._clamp_q12 (if cv <? 0 then 0 else cv) fl cap) T) in *.
  split; [lia|]. nia.
Qed.

Lemma fuse_pixel_degenerate (zh zv ch cv T fl cap eps num den : Z) :
  Bit_Manipulation.fuse_weights zh zv ch cv T fl cap eps = (num, den) ->
  den <= 0 ->
  Bit_Manipulation.fuse_pixel zh zv ch cv T fl cap eps = 0.
Proof.
  intros Hw Hden. unfold Bit_Manipulation.fuse_pixel. rewrite Hw. zbool. reflexivity.
Qed.

Lemma BM_bias_q_range (q : Z) : 0 <= Bit_Manipulation._bias_q q < 2 ^ 24.
Proof.
  pose proof (BM_bias_q_saturating q) as (_ & _ & _ & Hr). lia.
Qed.

Lemma decoded_exists (payload : list byte) (k : Z) :
  0 <= k -> k * 3 + 3 <= len payload -> exists z, decoded payload k z.
Proof.
  intros Hk Hlen. destruct (u24_read_in_range payload (k * 3)) as (u & Hu & _); [lia|lia|].
  exists (u - 8388608). unfold decoded. rewrite Hu. f_equal. lia.
Qed.

Lemma fusion_input_payload (blob payload : list byte) :
  fusion_input blob payload -> Bit_Manipulation.imbg_parse_payload blob = payload.
Proof.
  intros [-> Hlen]. unfold Bit_Manipulation.imbg_parse_payload.
  apply (header_fields 512 512 1 4 payload); lia.
Qed.

Lemma BM_fuse_spec (Z_h_imgb Z_v_imgb C_h_imgb C_v_imgb pZh pZv pCh pCv : list byte)
    (T fl cap eps : Z) :
  fusion_input Z_h_imgb pZh -> fusion_input Z_v_imgb pZv ->
  fusion_input C_h_imgb pCh -> fusion_input C_v_imgb pCv ->
  exists out,
    Bit_Manipulation.fuse_disparity_precision Z_h_imgb Z_v_imgb C_h_imgb C_v_imgb
      T fl cap eps = Ok (imgb_header 512 512 1 4 ++ out) /\
    len out = 786432 /\
    forall k, 0 <= k < 262144 ->
      exists zh zv ch cv,
        decoded pZh k zh /\ decoded pZv k zv /\ decoded pCh k ch /\ decoded pCv k cv /\
        No_Libraries._u24_read out (k * 3) =
          Ok (Bit_Manipulation._bias_q
                (Bit_Manipulation.fuse_pixel zh zv ch cv T fl cap eps)).
Proof.
  intros HZh HZv HCh HCv.
  unfold Bit_Manipulation.fuse_disparity_precision. cbv zeta.
  rewrite (fusion_input_payload _ _ HZh), (fusion_input_payload _ _ HZv),
    (fusion_input_payload _ _ HCh), (fusion_input_payload _ _ HCv).
  destruct HZh as [_ HlZh]. destruct HZv as [_ HlZv].
  destruct HCh as [_ HlCh]. destruct HCv as [_ HlCv].
  change Bit_Manipulation.OUT_IMG_BYTES with 786432.
  change Bit_Manipulation.N_IMG with 262144.
  change Bit_Manipulation.BYTES_PER_SAMPLE with 3.
  change Bit_Manipulation.WH_SIZE with 512.
  change Bit_Manipulation.BIAS_INT with 8388608.
  change Bit_Manipulation._u24_write with No_Libraries._u24_write.
  change Bit_Manipulation._u24_read with No_Libraries._u24_read.
  rewrite bytearray_ok by lia. cbn [bind].
  match goal with
  | |- exists out, bind (for_each _ ?body ?s0) _ = _ /\ _ =>
      destruct (u24_fill_st 262144 0 786432
        (fun k =>
           match No_Libraries._u24_read pZh (k * 3), No_Libraries._u24_read pZv (k * 3),
                 No_Libraries._u24_read pCh (k * 3), No_Libraries._u24_read pCv (k * 3) with
           | Ok uzh, Ok uzv, Ok uch, Ok ucv =>
               Bit_Manipulation._bias_q
                 (Bit_Manipulation.fuse_pixel (uzh - 8388608) (uzv - 8388608)
                    (uch - 8388608) (ucv - 8388608) T fl cap eps)
           | _, _, _, _ => 0
           end)
        (fun st => fst (fst st))
        (fun k '(_, o, i3) => o = k * 3 /\ i3 = k * 3) body s0)
        as ([[out o] i3] & Hrun & _ & Hl & Hread & _)
  end.
  - lia.
  - lia.
  - lia.
  - cbn [fst]. rewrite len_replicate. lia.
  - split; reflexivity.
  - intros k [[o_p o] i3] Hk Hlo [Ho Hi3]. cbn [fst] in *. subst o i3.
    destruct (u24_read_in_range pZh (k * 3)) as (uzh & Huzh & _); [lia|lia|].
    destruct (u24_read_in_range pZv (k * 3)) as (uzv & Huzv & _); [lia|lia|].
    destruct (u24_read_in_range pCh (k * 3)) as (uch & Huch & _); [lia|lia|].
    destruct (u24_read_in_range pCv (k * 3)) as (ucv & Hucv & _); [lia|lia|].
    rewrite Huzh, Huzv, Huch, Hucv. cbn [bind].
    destruct (u24_write_spec o_p (k * 3)
                (Bit_Manipulation._bias_q
                   (Bit_Manipulation.fuse_pixel (uzh - 8388608) (uzv - 8388608)
                      (uch - 8388608) (ucv - 8388608) T fl cap eps)))
      as (o_p' & Hw & _); [lia|lia|].
    rewrite Hw. cbn [bind]. eexists. split; [reflexivity|]. cbn [fst].
    split; [lia|]. exact Hw.
  - cbn [fst] in *. rewrite Hrun. cbn [bind].
    rewrite (BM_imgb_make_ok 512 512 1 4 out) by lia.
    exists out. split; [reflexivity|]. split; [exact Hl|].
    intros k Hk. specialize (Hread k Hk). cbn beta in Hread.
    change (0 + k * 3) with (k * 3) in Hread.
    destruct (u24_read_in_range pZh (k * 3)) as (uzh & Huzh & _); [lia|lia|].
    destruct (u24_read_in_range pZv (k * 3)) as (uzv & Huzv & _); [lia|lia|].
    destruct (u24_read_in_range pCh (k * 3)) as (uch & Huch & _); [lia|lia|].
    destruct (u24_read_in_range pCv (k * 3)) as (ucv & Hucv & _); [lia|lia|].
    rewrite Huzh, Huzv, Huch, Hucv in Hread.
    exists (uzh - 8388608), (uzv - 8388608), (uch - 8388608), (ucv - 8388608).
    unfold decoded. rewrite Huzh, Huzv, Huch, Hucv.
    repeat (split; [f_equal; lia|]).
    rewrite Hread. f_equal. apply land_u24_small. apply BM_bias_q_range.
Qed.

(** C3 (as amended).  Fusion bounds.  For 512 x 512 inputs and
    non-negative [cap] and [eps], [fuse_disparity_precision] returns a
    512 x 512 single-channel container, and at every pixel the blend it
    forms from the decoded [z_h], [z_v], [c_h], [c_v] -- numerator
    [p_h * z_h + p_v * z_v] over denominator [p_h + p_v + eps] -- has a
    non-negative denominator and lies between [min(z_h, z_v, 0)] and
    [max(z_h, z_v, 0)]: [eps] is the weight of the value 0.  The stored
    sample is the saturated encoding of the pixel value computed from that
    blend, and it decodes to 0 when the denominator is 0. *)
Theorem fusion_blend_between_axes_and_zero
    (Z_h_imgb Z_v_imgb C_h_imgb C_v_imgb pZh pZv pCh pCv : list byte)
    (temperature floor cap eps : Z) :
  fusion_input Z_h_imgb pZh -> fusion_input Z_v_imgb pZv ->
  fusion_input C_h_imgb pCh -> fusion_input C_v_imgb pCv ->
  0 <= cap -> 0 <= eps ->
  exists out,
    Bit_Manipulation.fuse_disparity_precision Z_h_imgb Z_v_imgb C_h_imgb C_v_imgb
      temperature floor cap eps = Ok (imgb_header 512 512 1 4 ++ out) /\
    len out = 786432 /\
    forall k, 0 <= k < 262144 ->
      exists zh zv ch cv num den,
        decoded pZh k zh /\ decoded pZv k zv /\ decoded pCh k ch /\ decoded pCv k cv /\
        Bit_Manipulation.fuse_weights zh zv ch cv temperature floor cap eps = (num, den) /\
        0 <= den /\
        den * Z.min (Z.min zh zv) 0 <= num <= den * Z.max (Z.max zh zv) 0 /\
        No_Libraries._u24_read out (k * 3) =
          Ok (Bit_Manipulation._bias_q
                (Bit_Manipulation.fuse_pixel zh zv ch cv temperature floor cap eps)) /\
        (den = 0 -> decoded out k 0).
Proof.
  intros HZh HZv HCh HCv Hcap Heps.
  destruct (BM_fuse_spec Z_h_imgb Z_v_imgb C_h_imgb C_v_imgb pZh pZv pCh pCv
              temperature floor cap eps HZh HZv HCh HCv) as (out & Hrun & Hlen & Hpix).
  exists out. split; [exact Hrun|]. split; [exact Hlen|].
  intros k Hk. destruct (Hpix k Hk) as (zh & zv & ch & cv & Hzh & Hzv & Hch & Hcv & Hout).
  destruct (Bit_Manipulation.fuse_weights zh zv ch cv temperature floor cap eps)
    as [num den] eqn:Hw.
  destruct (fuse_weights_hull zh zv ch cv temperature floor cap eps Hcap Heps num den Hw)
    as [Hden Hhull].
  exists zh, zv, ch, cv, num, den.
  repeat (split; [assumption|]).
  intros Hzero. unfold decoded. rewrite Hout.
  rewrite (fuse_pixel_degenerate zh zv ch cv temperature floor cap eps num den Hw)
    by lia.
  reflexivity.
Qed.

Lemma constant_payload_len (b0 b1 b2 : byte) : len (constant_payload b0 b1 b2) = 786432.
Proof.
  unfold constant_payload, len.
  assert (Hn : forall n : nat,
            length (concat (replicate n [b0; b1; b2])) = (3 * n)%nat).
  { induction n as [|n IH]; [reflexivity|].
    cbn [replicate concat]. rewrite length_app, IH. cbn [length]. lia. }
  rewrite Hn. lia.
Qed.

Lemma constant_map_input (b0 b1 b2 : byte) :
  fusion_input (constant_map b0 b1 b2) (constant_payload b0 b1 b2).
Proof. split; [reflexivity|apply constant_payload_len]. Qed.

Lemma decoded_functional (payload : list byte) (k z z' : Z) :
  decoded payload k z -> decoded payload k z' -> z = z'.
Proof. unfold decoded. intros H H'. rewrite H in H'. injection H' as H'. lia. Qed.

Lemma fusion_blend_between_axes_and_zero_witness :
  exists out,
    Bit_Manipulation.fuse_disparity_precision
      (constant_map Byte.x00 Byte.x40 Byte.x86) (constant_map Byte.x00 Byte.x40 Byte.x86)
      (constant_map Byte.x00 Byte.x00 Byte.x80) (constant_map Byte.x00 Byte.x00 Byte.x80)
      4 1 4096 1 = Ok (imgb_header 512 512 1 4 ++ out) /\
    len out = 786432 /\
    forall k, 0 <= k < 262144 ->
      exists zh zv ch cv num den,
        decoded (constant_payload Byte.x00 Byte.x40 Byte.x86) k zh /\
        decoded (constant_payload Byte.x00 Byte.x40 Byte.x86) k zv /\
        decoded (constant_payload Byte.x00 Byte.x00 Byte.x80) k ch /\
        decoded (constant_payload Byte.x00 Byte.x00 Byte.x80) k cv /\
        Bit_Manipulation.fuse_weights zh zv ch cv 4 1 4096 1 = (num, den) /\
        0 <= den /\
        den * Z.min (Z.min zh zv) 0 <= num <= den * Z.max (Z.max zh zv) 0 /\
        No_Libraries._u24_read out (k * 3) =
          Ok (Bit_Manipulation._bias_q
                (Bit_Manipulation.fuse_pixel zh zv ch cv 4 1 4096 1)) /\
        (den = 0 -> decoded out k 0).
Proof.
  apply (fusion_blend_between_axes_and_zero
           (constant_map Byte.x00 Byte.x40 Byte.x86) (constant_map Byte.x00 Byte.x40 Byte.x86)
           (constant_map Byte.x00 Byte.x00 Byte.x80) (constant_map Byte.x00 Byte.x00 Byte.x80)).
  - apply constant_map_input.
  - apply constant_map_input.
  - apply constant_map_input.
  - apply constant_map_input.
  - lia.
  - lia.
Defined.

(** C3 as stated fails.  With both axis disparities equal to 100.0
    (409600) and both confidences 0 at every pixel, and the default
    parameters (temperature 4, floor 1, cap 4096, eps 1), both weights
    underflow to 0, the blend is [0 / eps], and the sample stored at pixel
    0 decodes to 2048: below the minimum 409600 of the two axis values. *)
Lemma fusion_output_below_both_axes :
  exists out,
    Bit_Manipulation.fuse_disparity_precision
      (constant_map Byte.x00 Byte.x40 Byte.x86) (constant_map Byte.x00 Byte.x40 Byte.x86)
      (constant_map Byte.x00 Byte.x00 Byte.x80) (constant_map Byte.x00 Byte.x00 Byte.x80)
      4 1 4096 1 = Ok (imgb_header 512 512 1 4 ++ out) /\
    decoded (constant_payload Byte.x00 Byte.x40 Byte.x86) 0 409600 /\
    decoded (constant_payload Byte.x00 Byte.x00 Byte.x80) 0 0 /\
    Bit_Manipulation.fuse_weights 409600 409600 0 0 4 1 4096 1 = (0, 1) /\
    decoded out 0 2048 /\
    ~ (Z.min 409600 409600 <= 2048 <= Z.max 409600 409600).
Proof.
  assert (HdZ : decoded (constant_payload Byte.x00 Byte.x40 Byte.x86) 0 409600)
    by (vm_compute; reflexivity).
  assert (HdC : decoded (constant_payload Byte.x00 Byte.x00 Byte.x80) 0 0)
    by (vm_compute; reflexivity).
  destruct (BM_fuse_spec
              (constant_map Byte.x00 Byte.x40 Byte.x86) (constant_map Byte.x00 Byte.x40 Byte.x86)
              (constant_map Byte.x00 Byte.x00 Byte.x80) (constant_map Byte.x00 Byte.x00 Byte.x80)
              _ _ _ _ 4 1 4096 1
              (constant_map_input _ _ _) (constant_map_input _ _ _)
              (constant_map_input _ _ _) (constant_map_input _ _ _))
    as (out & Hrun & _ & Hpix).
  exists out. split; [exact Hrun|]. split; [exact HdZ|]. split; [exact HdC|].
  split; [vm_compute; reflexivity|]. split; [|lia].
  destruct (Hpix 0) as (zh & zv & ch & cv & Hzh & Hzv & Hch & Hcv & Hout); [lia|].
  rewrite (decoded_functional _ _ _ _ Hzh HdZ) in Hout.
  rewrite (decoded_functional _ _ _ _ Hzv HdZ) in Hout.
  rewrite (decoded_functional _ _ _ _ Hch HdC) in Hout.
  rewrite (decoded_functional _ _ _ _ Hcv HdC) in Hout.
  unfold decoded. rewrite Hout. vm_compute. reflexivity.
Qed.

(** ** Fixed-point rounding primitives *)

Lemma shiftr1_div2 (x : Z) : Z.shiftr x 1 = x / 2.
Proof. rewrite Z.shiftr_div_pow2 by lia. reflexivity. Qed.

Lemma round_div2_twice (x : Z) :
  2 * No_Libraries._round_div2 x = x + Z.sgn x * (x mod 2).
Proof.
  unfold No_Libraries._round_div2. rewrite !shiftr1_div2.
  destruct (Z.leb_spec 0 x).
  - pose proof (Z.div_mod (x + 1) 2). pose proof (Z.mod_pos_bound (x + 1) 2).
    pose proof (Z.div_mod x 2). pose proof (Z.mod_pos_bound x 2).
    assert (Z.sgn x = 0 /\ x = 0 \/ Z.sgn x = 1) as [[-> ->]| ->] by lia; [reflexivity| lia].
  - pose proof (Z.div_mod (- x + 1) 2). pose proof (Z.mod_pos_bound (- x + 1) 2).
    pose proof (Z.div_mod x 2). pose proof (Z.mod_pos_bound x 2).
    rewrite (Z.sgn_neg x) by lia. lia.
Qed.

(** X1. [_round_div2], the halving used for the central differences and
    for the confidence average, rounds half away from zero: twice the
    result is [x] for even [x] and [x + sgn x] for odd [x]; hence it is an
    odd function, [_round_div2 (-x) = - _round_div2 x], and the two
    variants agree. *)
Theorem round_div2_half_away_from_zero (x : Z) :
  2 * No_Libraries._round_div2 x = x + Z.sgn x * (x mod 2) /\
  No_Libraries._round_div2 (- x) = - No_Libraries._round_div2 x /\
  Bit_Manipulation._round_div2 x = No_Libraries._round_div2 x.
Proof.
  split; [apply round_div2_twice|]. split; [|reflexivity].
  pose proof (round_div2_twice x). pose proof (round_div2_twice (- x)).
  pose proof (Z.div_mod x 2). pose proof (Z.mod_pos_bound x 2).
  pose proof (Z.div_mod (- x) 2). pose proof (Z.mod_pos_bound (- x) 2).
  rewrite Z.sgn_opp in *. 
  assert (Z.sgn x = 0 /\ x = 0 \/ Z.sgn x = 1 \/ Z.sgn x = -1) as [[Hs ->]|[Hs|Hs]] by lia.
  - reflexivity.
  - rewrite Hs in *. lia.
  - rewrite Hs in *. lia.
Qed.

Lemma mul_q12_div (a b : Z) :
  Bit_Manipulation._mul_q12 a b =
    if 0 <=? a * b then (a * b + 2048) / 4096 else - ((- (a * b) + 2048) / 4096).
Proof.
  unfold Bit_Manipulation._mul_q12. cbv zeta.
  change (Z.shiftl 1 (Bit_Manipulation.Q_FRAC - 1)) with 2048.
  change Bit_Manipulation.Q_FRAC with 12.
  rewrite !Z.shiftr_div_pow2 by lia. reflexivity.
Qed.

Lemma mul_q12_one_r (a : Z) : Bit_Manipulation._mul_q12 a 4096 = a.
Proof.
  rewrite mul_q12_div. destruct (Z.leb_spec 0 (a * 4096)).
  - pose proof (Z.div_mod (a * 4096 + 2048) 4096).
    pose proof (Z.mod_pos_bound (a * 4096 + 2048) 4096). lia.
  - pose proof (Z.div_mod (- (a * 4096) + 2048) 4096).
    pose proof (Z.mod_pos_bound (- (a * 4096) + 2048) 4096). lia.
Qed.

(** X2. [_mul_q12], the Q12.12 product: it is commutative and odd, it has
    [Q_ONE = 4096] as unit, and its result is the exact product divided by
    4096 up to half a unit of the last place. *)
Theorem mul_q12_rounded_product (a b : Z) :
  Bit_Manipulation._mul_q12 a b = Bit_Manipulation._mul_q12 b a /\
  Bit_Manipulation._mul_q12 (- a) b = - Bit_Manipulation._mul_q12 a b /\
  Bit_Manipulation._mul_q12 a Bit_Manipulation.Q_ONE = a /\
  Z.abs (4096 * Bit_Manipulation._mul_q12 a b - a * b) <= 2048.
Proof.
  change Bit_Manipulation.Q_ONE with 4096.
  rewrite !mul_q12_div. repeat apply conj.
  - rewrite (Z.mul_comm b a). reflexivity.
  - replace (- a * b) with (- (a * b)) by lia. set (p := a * b).
    destruct (Z.leb_spec 0 p), (Z.leb_spec 0 (- p)); try lia.
    + assert (p = 0) as -> by lia. reflexivity.
    + rewrite Z.opp_involutive. lia.
  - rewrite <- mul_q12_div. apply mul_q12_one_r.
  - set (p := a * b). destruct (Z.leb_spec 0 p).
    + pose proof (Z.div_mod (p + 2048) 4096). pose proof (Z.mod_pos_bound (p + 2048) 4096). lia.
    + pose proof (Z.div_mod (- p + 2048) 4096). pose proof (Z.mod_pos_bound (- p + 2048) 4096). lia.
Qed.

Lemma div_q12_pos (n d : Z) :
  0 <= n -> 0 < d -> Bit_Manipulation._div_q12 n d = (n * 4096 + d / 2) / d.
Proof.
  intros Hn Hd. unfold Bit_Manipulation._div_q12.
  rewrite (proj2 (Z.eqb_neq d 0)) by lia. rewrite (proj2 (Z.leb_le 0 n)) by lia.
  change Bit_Manipulation.Q_FRAC with 12.
  rewrite Z.shiftl_mul_pow2 by lia. rewrite shiftr1_div2. reflexivity.
Qed.

(** X3. The guarded divisions of the disparity stage: [_div_q12] and
    [_inv_q12] return 0 for a zero denominator instead of failing; for a
    positive denominator [_div_q12 n d] is the integer nearest to
    [4096 * n / d] (for [n >= 0], a tie going up), [_inv_q12 d] is
    [_div_q12 Q_ONE d], and [_inv_q12] is odd. *)
Theorem div_q12_guarded_and_rounded (n d : Z) :
  Bit_Manipulation._div_q12 n 0 = 0 /\
  Bit_Manipulation._inv_q12 0 = 0 /\
  (0 < d ->
   (0 <= n -> is_nearest_quotient (4096 * n) d (Bit_Manipulation._div_q12 n d)) /\
   Bit_Manipulation._div_q12 (- n) d = - Bit_Manipulation._div_q12 n d /\
   Bit_Manipulation._inv_q12 d = Bit_Manipulation._div_q12 Bit_Manipulation.Q_ONE d /\
   Bit_Manipulation._inv_q12 (- d) = - Bit_Manipulation._inv_q12 d).
Proof.
  split; [reflexivity|]. split; [reflexivity|]. intros Hd. repeat apply conj.
  - intros Hn. rewrite div_q12_pos by lia. rewrite (Z.mul_comm n 4096).
    apply round_half_up_nearest. lia.
  - unfold Bit_Manipulation._div_q12.
    rewrite (proj2 (Z.eqb_neq d 0)) by lia.
    destruct (Z.leb_spec 0 n), (Z.leb_spec 0 (- n)); try lia.
    + assert (n = 0) as -> by lia. change (- 0) with 0.
      change (Z.shiftl 0 Bit_Manipulation.Q_FRAC) with 0.
      rewrite shiftr1_div2, Z.add_0_l. rewrite Z.div_small; [reflexivity|].
      pose proof (Z.div_mod d 2). pose proof (Z.mod_pos_bound d 2). lia.
    + rewrite Z.opp_involutive. lia.
  - change Bit_Manipulation.Q_ONE with 4096. rewrite div_q12_pos by lia.
    unfold Bit_Manipulation._inv_q12.
    rewrite (proj2 (Z.eqb_neq d 0)) by lia. cbv zeta.
    rewrite (proj2 (Z.ltb_lt 0 d)) by lia. rewrite shiftr1_div2. reflexivity.
  - unfold Bit_Manipulation._inv_q12.
    rewrite (proj2 (Z.eqb_neq d 0)) by lia.
    rewrite (proj2 (Z.eqb_neq (- d) 0)) by lia. cbv zeta.
    rewrite (proj2 (Z.ltb_lt 0 d)) by lia.
    rewrite (proj2 (Z.ltb_ge 0 (- d))) by lia.
    rewrite !Z.opp_involutive. reflexivity.
Qed.

Lemma div_q12_guarded_and_rounded_witness :
  Bit_Manipulation._div_q12 3 0 = 0 /\
  Bit_Manipulation._inv_q12 0 = 0 /\
  is_nearest_quotient (4096 * 3) 8192 (Bit_Manipulation._div_q12 3 8192) /\
  Bit_Manipulation._div_q12 (- 3) 8192 = - Bit_Manipulation._div_q12 3 8192 /\
  Bit_Manipulation._inv_q12 8192 = Bit_Manipulation._div_q12 Bit_Manipulation.Q_ONE 8192 /\
  Bit_Manipulation._inv_q12 (- 8192) = - Bit_Manipulation._inv_q12 8192.
Proof.
  destruct (div_q12_guarded_and_rounded 3 8192) as (H0 & H1 & H2).
  destruct H2 as (H2 & H3 & H4 & H5); [lia|].
  refine (conj H0 (conj H1 (conj (H2 _) (conj H3 (conj H4 H5))))). lia.
Defined.

Lemma mul_q12_unit_interval (a b : Z) :
  0 <= a <= 4096 -> 0 <= b <= 4096 -> 0 <= Bit_Manipulation._mul_q12 a b <= 4096.
Proof.
  intros Ha Hb. rewrite mul_q12_div.
  assert (0 <= a * b <= 4096 * 4096) by nia.
  rewrite (proj2 (Z.leb_le 0 (a * b))) by lia.
  pose proof (Z.div_mod (a * b + 2048) 4096).
  pose proof (Z.mod_pos_bound (a * b + 2048) 4096). lia.
Qed.

Lemma pow_loop_unit_interval (e : positive) : forall r b,
  0 <= r <= 4096 -> 0 <= b <= 4096 -> 0 <= Bit_Manipulation.pow_loop e r b <= 4096.
Proof.
  induction e as [e IH|e IH|]; intros r b Hr Hb; cbn [Bit_Manipulation.pow_loop].
  - apply IH; apply mul_q12_unit_interval; assumption.
  - apply IH; [assumption|apply mul_q12_unit_interval; assumption].
  - apply mul_q12_unit_interval; assumption.
Qed.

Lemma pow_loop_one (e : positive) : Bit_Manipulation.pow_loop e 4096 4096 = 4096.
Proof.
  induction e as [e IH|e IH|]; cbn [Bit_Manipulation.pow_loop];
    rewrite ?mul_q12_one_r; auto.
Qed.

(** X4. [_pow_q12_int], the integer power used for the fusion weights: an
    exponent [<= 0] gives [Q_ONE] whatever the base, exponent 1 gives the
    base, [Q_ONE] to any power is [Q_ONE], and a base in [[0, Q_ONE]] (a
    confidence clamped to at most 1.0) gives a power in [[0, Q_ONE]]. *)
Theorem pow_q12_int_unit_interval (base exp : Z) :
  (exp <= 0 -> Bit_Manipulation._pow_q12_int base exp = Bit_Manipulation.Q_ONE) /\
  Bit_Manipulation._pow_q12_int base 1 = base /\
  Bit_Manipulation._pow_q12_int Bit_Manipulation.Q_ONE exp = Bit_Manipulation.Q_ONE /\
  (0 <= base <= Bit_Manipulation.Q_ONE ->
   0 <= Bit_Manipulation._pow_q12_int base exp <= Bit_Manipulation.Q_ONE).
Proof.
  change Bit_Manipulation.Q_ONE with 4096. repeat apply conj.
  - intros He. unfold Bit_Manipulation._pow_q12_int.
    rewrite (proj2 (Z.leb_le exp 0)) by lia. reflexivity.
  - reflexivity.
  - unfold Bit_Manipulation._pow_q12_int.
    destruct (Z.leb_spec exp 0); [reflexivity|].
    destruct (Z.eqb_spec exp 1); [reflexivity|].
    destruct exp; try reflexivity. change Bit_Manipulation.Q_ONE with 4096.
    apply pow_loop_one.
  - intros Hb. unfold Bit_Manipulation._pow_q12_int.
    change Bit_Manipulation.Q_ONE with 4096.
    destruct (Z.leb_spec exp 0); [lia|].
    destruct (Z.eqb_spec exp 1); [lia|].
    destruct exp; try lia. apply pow_loop_unit_interval; lia.
Qed.

Lemma pow_q12_int_unit_interval_witness :
  Bit_Manipulation._pow_q12_int 2048 (- 3) = Bit_Manipulation.Q_ONE /\
  0 <= Bit_Manipulation._pow_q12_int 2048 4 <= Bit_Manipulation.Q_ONE.
Proof.
  destruct (pow_q12_int_unit_interval 2048 (- 3)) as (H0 & _).
  destruct (pow_q12_int_unit_interval 2048 4) as (_ & _ & _ & H3).
  split; [apply H0; lia|apply H3; vm_compute; split; discriminate].
Defined.

(** ** Fusion: the value of one pixel *)

(** X5. One pixel of [fuse_disparity_precision] with a positive
    denominator: the rounding term [den << 11] is a whole multiple of the
    denominator, so the result is the truncated quotient [|num| / den]
    plus 2048 (0.5 in Q12.12), with the sign of [num]; with [cap >= 0] and
    [eps >= 0] its magnitude is at most the larger input magnitude plus
    2048. *)
Theorem fuse_pixel_quotient_plus_half (zh zv ch cv T fl cap eps num den : Z) :
  Bit_Manipulation.fuse_weights zh zv ch cv T fl cap eps = (num, den) ->
  0 < den ->
  Bit_Manipulation.fuse_pixel zh zv ch cv T fl cap eps =
    (if 0 <=? num then num / den + 2048 else - ((- num) / den + 2048)) /\
  (0 <= cap -> 0 <= eps ->
   Z.abs (Bit_Manipulation.fuse_pixel zh zv ch cv T fl cap eps)
     <= Z.max (Z.abs zh) (Z.abs zv) + 2048).
Proof.
  intros Hw Hden.
  assert (Hpix : Bit_Manipulation.fuse_pixel zh zv ch cv T fl cap eps =
    (if 0 <=? num then num / den + 2048 else - ((- num) / den + 2048))).
  { unfold Bit_Manipulation.fuse_pixel. rewrite Hw.
    rewrite (proj2 (Z.leb_gt den 0)) by lia.
    change (Bit_Manipulation.Q_FRAC - 1) with 11.
    rewrite Z.shiftl_mul_pow2 by lia. change (2 ^ 11) with 2048.
    rewrite (Z.mul_comm den 2048), !Z.div_add by lia. reflexivity. }
  split; [exact Hpix|]. intros Hcap Heps. rewrite Hpix.
  destruct (fuse_weights_hull zh zv ch cv T fl cap eps Hcap Heps num den Hw) as (_ & Hlo & Hhi).
  set (M := Z.max (Z.abs zh) (Z.abs zv)).
  assert (HM : - M <= Z.min (Z.min zh zv) 0 /\ Z.max (Z.max zh zv) 0 <= M) by (subst M; lia).
  assert (Hnum : - (den * M) <= num <= den * M) by nia.
  destruct (Z.leb_spec 0 num).
  - assert (0 <= num / den <= M).
    { split; [apply Z.div_pos; lia|]. apply Z.div_le_upper_bound; lia. }
    lia.
  - assert (0 <= (- num) / den <= M).
    { split; [apply Z.div_pos; lia|]. apply Z.div_le_upper_bound; lia. }
    lia.
Qed.

Lemma fuse_pixel_quotient_plus_half_witness :
  Bit_Manipulation.fuse_pixel 409600 (- 4096) 4096 2048 2 0 4096 1 =
    (if 0 <=? 1673527296 then 1673527296 / 5121 + 2048
     else - ((- 1673527296) / 5121 + 2048)) /\
  Z.abs (Bit_Manipulation.fuse_pixel 409600 (- 4096) 4096 2048 2 0 4096 1)
    <= Z.max (Z.abs 409600) (Z.abs (- 4096)) + 2048.
Proof.
  destruct (fuse_pixel_quotient_plus_half 409600 (- 4096) 4096 2048 2 0 4096 1
              1673527296 5121) as (H1 & H2); [vm_compute; reflexivity|lia|].
  split; [exact H1|apply H2; lia].
Defined.

(** ** Packed 24-bit samples and container assembly *)

Lemma byte_at_beyond (b : list byte) (i : Z) :
  len b <= i -> byte_at b i = Raise IndexError.
Proof.
  intros Hi. pose proof (len_nonneg b). unfold byte_at, getitem. cbv zeta.
  zbool.
  rewrite (proj2 (lookup_ge_None b (Z.to_nat i))); [reflexivity|].
  unfold len in Hi. lia.
Qed.

Lemma bytearray_set_beyond (out : list byte) (i v : Z) :
  len out <= i -> bytearray_set out i v = Raise IndexError.
Proof.
  intros Hi. pose proof (len_nonneg out). unfold bytearray_set. cbv zeta.
  zbool. reflexivity.
Qed.

Lemma len_insert {A} (l : list A) (i : nat) (x : A) : len (<[i := x]> l) = len l.
Proof. unfold len. rewrite length_insert. reflexivity. Qed.

Lemma u24_write_beyond (out : list byte) (o v : Z) :
  0 <= o -> len out < o + 3 -> No_Libraries._u24_write out o v = Raise IndexError.
Proof.
  intros Ho Hlen. unfold No_Libraries._u24_write. cbv zeta.
  destruct (Z_lt_le_dec o (len out)) as [Hin|Hout].
  - rewrite bytearray_set_in_range by (lia || apply land_255_range).
    cbn [bind].
    destruct (Z_lt_le_dec (o + 1) (len out)) as [Hin1|Hout1].
    + rewrite bytearray_set_in_range
        by (rewrite ?len_insert; lia || apply land_255_range).
      cbn [bind]. apply bytearray_set_beyond. rewrite !len_insert. lia.
    + rewrite bytearray_set_beyond by (rewrite len_insert; lia). reflexivity.
  - rewrite bytearray_set_beyond by lia. reflexivity.
Qed.

Lemma u24_read_beyond (payload : list byte) (o : Z) :
  0 <= o -> len payload < o + 3 -> No_Libraries._u24_read payload o = Raise IndexError.
Proof.
  intros Ho Hlen. unfold No_Libraries._u24_read.
  destruct (Z_lt_le_dec o (len payload)) as [Hin|Hout].
  - destruct (getitem_in_range payload o) as (b0 & Hb0 & _); [lia|].
    rewrite (byte_at_lookup _ _ _ Ho Hb0). cbn [bind].
    destruct (Z_lt_le_dec (o + 1) (len payload)) as [Hin1|Hout1].
    + destruct (getitem_in_range payload (o + 1)) as (b1 & Hb1 & _); [lia|].
      rewrite (byte_at_lookup _ (o + 1) _ ltac:(lia) Hb1). cbn [bind].
      rewrite byte_at_beyond by lia. reflexivity.
    + rewrite byte_at_beyond by lia. reflexivity.
  - rewrite byte_at_beyond by lia. reflexivity.
Qed.

(** X6. Packed little-endian 24-bit samples, in both variants: writing [v]
    at a byte offset whose three bytes lie in the buffer keeps the length,
    changes no other byte, and a read at that offset returns [v] masked to
    24 bits (so [v] itself when [0 <= v < 2^24]); at an offset whose three
    bytes do not all lie in the buffer, the write and the read raise
    IndexError. *)
Theorem u24_write_read_roundtrip (out : list byte) (o v : Z) :
  0 <= o ->
  (o + 3 <= len out ->
   exists out',
     No_Libraries._u24_write out o v = Ok out' /\
     Bit_Manipulation._u24_write out o v = Ok out' /\
     len out' = len out /\
     No_Libraries._u24_read out' o = Ok (Z.land v 16777215) /\
     Bit_Manipulation._u24_read out' o = Ok (Z.land v 16777215) /\
     (0 <= v < 2 ^ 24 -> No_Libraries._u24_read out' o = Ok v) /\
     (forall i, 0 <= i -> i < o \/ o + 3 <= i ->
        out' !! Z.to_nat i = out !! Z.to_nat i)) /\
  (len out < o + 3 ->
   No_Libraries._u24_write out o v = Raise IndexError /\
   Bit_Manipulation._u24_write out o v = Raise IndexError /\
   No_Libraries._u24_read out o = Raise IndexError /\
   Bit_Manipulation._u24_read out o = Raise IndexError).
Proof.
  intros Ho. split.
  - intros Hlen.
    destruct (u24_write_spec out o v Ho Hlen) as (out' & Hw & Hl & Hr & Hframe).
    exists out'. repeat apply conj; try assumption.
    intros Hv. rewrite Hr, land_u24_small by lia. reflexivity.
  - intros Hlen.
    pose proof (u24_write_beyond out o v Ho Hlen).
    pose proof (u24_read_beyond out o Ho Hlen).
    repeat apply conj; assumption.
Qed.

Lemma u24_write_read_roundtrip_witness :
  (exists out',
     No_Libraries._u24_write (replicate 6 Byte.x11) 3 8384512 = Ok out' /\
     Bit_Manipulation._u24_write (replicate 6 Byte.x11) 3 8384512 = Ok out' /\
     len out' = len (replicate 6 Byte.x11) /\
     No_Libraries._u24_read out' 3 = Ok (Z.land 8384512 16777215) /\
     Bit_Manipulation._u24_read out' 3 = Ok (Z.land 8384512 16777215) /\
     (0 <= 8384512 < 2 ^ 24 -> No_Libraries._u24_read out' 3 = Ok 8384512) /\
     (forall i, 0 <= i -> i < 3 \/ 3 + 3 <= i ->
        out' !! Z.to_nat i = replicate 6 Byte.x11 !! Z.to_nat i)) /\
  No_Libraries._u24_write (replicate 6 Byte.x11) 4 8384512 = Raise IndexError /\
  Bit_Manipulation._u24_write (replicate 6 Byte.x11) 4 8384512 = Raise IndexError /\
  No_Libraries._u24_read (replicate 6 Byte.x11) 4 = Raise IndexError /\
  Bit_Manipulation._u24_read (replicate 6 Byte.x11) 4 = Raise IndexError.
Proof.
  split.
  - apply (u24_write_read_roundtrip (replicate 6 Byte.x11) 3 8384512); [lia|].
    vm_compute. discriminate.
  - apply (u24_write_read_roundtrip (replicate 6 Byte.x11) 4 8384512); [lia|].
    vm_compute. reflexivity.
Defined.

Lemma bytes_per_sample_cases (d : Z) :
  (exists bps, No_Libraries._bytes_per_sample d = Ok bps /\ 1 <= d <= 4 /\ 1 <= bps <= 4) \/
  (exists msg, No_Libraries._bytes_per_sample d = Raise (ValueError msg) /\ ~ 1 <= d <= 4).
Proof.
  unfold No_Libraries._bytes_per_sample.
  destruct (Z.eqb_spec d 1); [left; eexists; split; [reflexivity|lia]|].
  destruct (Z.eqb_spec d 2); [left; eexists; split; [reflexivity|lia]|].
  destruct (Z.eqb_spec d 3); [left; eexists; split; [reflexivity|lia]|].
  destruct (Z.eqb_spec d 4); [left; eexists; split; [reflexivity|lia]|].
  right. eexists. split; [reflexivity|lia].
Qed.

Lemma to_bytes_le_overflow (n : nat) (v : Z) :
  ~ 0 <= v < 2 ^ (8 * Z.of_nat n) -> to_bytes_le n v = Raise OverflowError.
Proof.
  intros Hv. unfold to_bytes_le.
  destruct (Z.ltb_spec v 0); [reflexivity|].
  rewrite (proj2 (Z.leb_le (2 ^ (8 * Z.of_nat n)) v)) by lia. reflexivity.
Qed.

(** X7. Error behaviour of [imgb_make] in the validating codec: an
    encoding outside 1..4 and a payload whose length is not
    [W * H * C * bytes_per_sample] raise ValueError; with a matching
    payload, a width or height that does not fit 32 unsigned bits raises
    OverflowError.  In none of these cases is a container returned. *)
Theorem imgb_make_rejects (W H C dtype_code : Z) (payload : list byte) :
  (~ 1 <= dtype_code <= 4 ->
   exists msg, No_Libraries.imgb_make W H C dtype_code payload = Raise (ValueError msg)) /\
  (forall bps, No_Libraries._bytes_per_sample dtype_code = Ok bps ->
   len payload <> W * H * C * bps ->
   exists msg, No_Libraries.imgb_make W H C dtype_code payload = Raise (ValueError msg)) /\
  (forall bps, No_Libraries._bytes_per_sample dtype_code = Ok bps ->
   len payload = W * H * C * bps ->
   ~ (0 <= W < 2 ^ 32 /\ 0 <= H < 2 ^ 32) ->
   No_Libraries.imgb_make W H C dtype_code payload = Raise OverflowError).
Proof.
  repeat apply conj.
  - intros Hd. unfold No_Libraries.imgb_make.
    destruct (bytes_per_sample_cases dtype_code) as [(bps & _ & Hr & _)|(msg & -> & _)];
      [lia|]. exists msg. reflexivity.
  - intros bps Hbps Hlen. unfold No_Libraries.imgb_make. rewrite Hbps. cbn [bind].
    cbv zeta. rewrite (proj2 (Z.eqb_neq _ _) Hlen). cbn [negb].
    eexists. reflexivity.
  - intros bps Hbps Hlen Hwh. unfold No_Libraries.imgb_make. rewrite Hbps. cbn [bind].
    cbv zeta. rewrite (proj2 (Z.eqb_eq _ _) Hlen). cbn [negb].
    rewrite bytearray_ok by lia. cbn [bind].
    destruct (Z_lt_le_dec W 0) as [HW|HW];
      [rewrite (to_bytes_le_overflow 4 W) by (change (2 ^ (8 * Z.of_nat 4)) with (2 ^ 32); lia);
       reflexivity|].
    destruct (Z_lt_le_dec W (2 ^ 32)) as [HW2|HW2];
      [|rewrite (to_bytes_le_overflow 4 W) by (change (2 ^ (8 * Z.of_nat 4)) with (2 ^ 32); lia);
        reflexivity].
    rewrite (to_bytes_le_ok 4 W) by (change (2 ^ (8 * Z.of_nat 4)) with (2 ^ 32); lia).
    cbn [bind].
    rewrite (to_bytes_le_overflow 4 H) by (change (2 ^ (8 * Z.of_nat 4)) with (2 ^ 32); lia).
    reflexivity.
Qed.

Lemma imgb_make_rejects_witness :
  (exists msg, No_Libraries.imgb_make 1 1 1 5 [Byte.x00] = Raise (ValueError msg)) /\
  (exists msg, No_Libraries.imgb_make 2 1 3 4 [Byte.x00] = Raise (ValueError msg)) /\
  No_Libraries.imgb_make (2 ^ 32) 0 1 1 [] = Raise OverflowError.
Proof.
  destruct (imgb_make_rejects 1 1 1 5 [Byte.x00]) as (H1 & _ & _).
  destruct (imgb_make_rejects 2 1 3 4 [Byte.x00]) as (_ & H2 & _).
  destruct (imgb_make_rejects (2 ^ 32) 0 1 1 []) as (_ & _ & H3).
  split; [apply H1; lia|]. split.
  - apply (H2 3); [reflexivity|vm_compute; discriminate].
  - apply (H3 1); [reflexivity|reflexivity|lia].
Defined.

(** X8. The Bit_Manipulation codec without validation: for a width and a
    height that fit 32 bits, [imgb_make] accepts a payload of any length
    and any channel count and encoding, storing the latter two masked to
    one byte; [imgb_parse], [imgb_parse_wh_payload] and
    [imbg_parse_payload] read back exactly what was stored. *)
Theorem imgb_make_parse_unvalidated (W H C dtype_code : Z) (payload : list byte) :
  0 <= W < 2 ^ 32 -> 0 <= H < 2 ^ 32 ->
  exists buf,
    Bit_Manipulation.imgb_make W H C dtype_code payload = Ok buf /\
    len buf = 16 + len payload /\
    Bit_Manipulation.imgb_parse buf =
      Ok (W, H, Z.land C 255, Z.land dtype_code 255, payload) /\
    Bit_Manipulation.imgb_parse_wh_payload buf = (W, H, payload) /\
    Bit_Manipulation.imbg_parse_payload buf = payload /\
    No_Libraries.imbg_parse_payload buf = payload.
Proof.
  intros HW HH. exists (imgb_header W H C dtype_code ++ payload).
  split; [apply BM_imgb_make_ok; assumption|].
  destruct (header_fields W H C dtype_code payload HW HH)
    as (Hlen & _ & Hw & Hh & Hc & Hd & Hp).
  split; [exact Hlen|].
  unfold Bit_Manipulation.imgb_parse, Bit_Manipulation.imgb_parse_wh_payload,
    Bit_Manipulation.imbg_parse_payload, No_Libraries.imbg_parse_payload.
  change Bit_Manipulation._u32_le with No_Libraries._u32_le.
  cbv zeta. rewrite Hw, Hh, Hc, Hd, Hp. cbn [bind]. repeat split.
Qed.

Lemma imgb_make_parse_unvalidated_witness :
  exists buf,
    Bit_Manipulation.imgb_make 512 512 259 4 [Byte.x07] = Ok buf /\
    len buf = 16 + len [Byte.x07] /\
    Bit_Manipulation.imgb_parse buf =
      Ok (512, 512, Z.land 259 255, Z.land 4 255, [Byte.x07]) /\
    Bit_Manipulation.imgb_parse_wh_payload buf = (512, 512, [Byte.x07]) /\
    Bit_Manipulation.imbg_parse_payload buf = [Byte.x07] /\
    No_Libraries.imbg_parse_payload buf = [Byte.x07].
Proof.
  apply (imgb_make_parse_unvalidated 512 512 259 4 [Byte.x07]); lia.
Defined.

(** ** Low-pass stage: conversion to fixed point, and the two variants *)

Lemma for_each_ext {I St} (l : list I) (f g : I -> St -> result St) :
  (forall i s, f i s = g i s) -> forall s, for_each l f s = for_each l g s.
Proof.
  intros Hfg. induction l as [|i l IH]; intros s; cbn [for_each]; [reflexivity|].
  rewrite Hfg. destruct (g i s); cbn [bind]; auto.
Qed.

Lemma u24_write_in_range (out : list byte) (o u : Z) :
  0 <= u < 2 ^ 24 ->
  (out1 <- bytearray_set out o (Z.land u 255) ;
   out2 <- bytearray_set out1 (o + 1) (Z.land (Z.shiftr u 8) 255) ;
   bytearray_set out2 (o + 2) (Z.land (Z.shiftr u 16) 255)) =
  No_Libraries._u24_write out o u.
Proof.
  intros Hu. unfold No_Libraries._u24_write. cbv zeta.
  change No_Libraries.U24_MAX with 16777215.
  rewrite land_u24_small by lia. reflexivity.
Qed.

Lemma u8_payload_loop (raw : list byte) (L : Z) (out0 : list byte)
    (body : byte -> list byte * Z -> result (list byte * Z)) :
  len out0 = L -> len raw * 3 <= L ->
  (forall b out o,
     body b (out, o) =
       (out' <- No_Libraries._u24_write out o (byte.unsigned b * 4096 + 8388608) ;
        Ok (out', o + 3))) ->
  exists out,
    for_each raw body (out0, 0) = Ok (out, len raw * 3) /\
    len out = L /\
    (forall i b, raw !! i = Some b ->
       decoded out (Z.of_nat i) (byte.unsigned b * 4096)) /\
    (forall j, len raw * 3 <= j -> out !! Z.to_nat j = out0 !! Z.to_nat j).
Proof.
  intros Hlen Hfit Hbody.
  destruct (for_each_inv raw body
    (fun k '(out, o) =>
       o = Z.of_nat k * 3 /\ len out = L /\
       (forall i b, (i < k)%nat -> raw !! i = Some b ->
          decoded out (Z.of_nat i) (byte.unsigned b * 4096)) /\
       (forall j, Z.of_nat k * 3 <= j -> out !! Z.to_nat j = out0 !! Z.to_nat j))
    (out0, 0)) as ([out o] & Hrun & Ho & Hl & Hdec & Hframe).
  - split; [lia|]. split; [exact Hlen|]. split; [intros i b Hi; lia|]. intros; reflexivity.
  - intros k b [out o] Hk (Ho & Hl & Hdec & Hframe). subst o.
    pose proof (lookup_lt_Some _ _ _ Hk) as Hklt. unfold len in Hfit.
    rewrite Hbody.
    destruct (u24_write_spec out (Z.of_nat k * 3) (byte.unsigned b * 4096 + 8388608))
      as (out' & Hw & Hl' & Hnew & Hold); [lia|lia|].
    rewrite Hw. cbn [bind]. eexists. split; [reflexivity|].
    split; [lia|]. split; [lia|]. split.
    + intros i b' Hi Hib'. destruct (decide (i = k)) as [->|Hne].
      * assert (b' = b) as -> by congruence. unfold decoded. rewrite Hnew.
        pose proof (byte.unsigned_range b).
        rewrite land_u24_small by lia. reflexivity.
      * unfold decoded.
        rewrite (u24_read_frame out out') by (lia || (intros j Hj; apply Hold; lia)).
        apply Hdec; [lia|exact Hib'].
    + intros j Hj. rewrite Hold by lia. apply Hframe. lia.
  - exists out. subst o. split; [exact Hrun|]. split; [exact Hl|]. split.
    + intros i b Hib. apply Hdec; [|exact Hib]. apply (lookup_lt_Some _ _ _ Hib).
    + intros j Hj. apply Hframe. exact Hj.
Qed.

Lemma NL_u8_body (b : byte) (out : list byte) (o : Z) :
  (let v_q := byte.unsigned b * No_Libraries.Q_SCALE in
   let u := v_q + No_Libraries.BIAS_INT in
   let u := if u <? 0 then 0 else if No_Libraries.U24_MAX <? u then No_Libraries.U24_MAX else u in
   out1 <- bytearray_set out o (Z.land u 255) ;
   out2 <- bytearray_set out1 (o + 1) (Z.land (Z.shiftr u 8) 255) ;
   out3 <- bytearray_set out2 (o + 2) (Z.land (Z.shiftr u 16) 255) ;
   Ok (out3, o + 3)) =
  (out' <- No_Libraries._u24_write out o (byte.unsigned b * 4096 + 8388608) ;
   Ok (out', o + 3)).
Proof.
  change No_Libraries.Q_SCALE with 4096. change No_Libraries.BIAS_INT with 8388608.
  change No_Libraries.U24_MAX with 16777215. cbv zeta.
  pose proof (byte.unsigned_range b).
  zbool. rewrite <- u24_write_in_range by lia.
  destruct (bytearray_set out o _); cbn [bind]; [|reflexivity|reflexivity].
  destruct (bytearray_set a (o + 1) _); cbn [bind]; reflexivity.
Qed.

Lemma BM_u8_payload_eq (raw : list byte) (W H : Z) :
  Bit_Manipulation._u8_rgb_to_q12_12_u24_payload raw W H =
  No_Libraries._u8_rgb_to_q12_12_u24_payload raw 512 512.
Proof.
  unfold Bit_Manipulation._u8_rgb_to_q12_12_u24_payload,
    No_Libraries._u8_rgb_to_q12_12_u24_payload.
  change (512 * 512 * 3 * 3) with Bit_Manipulation.WH_X9.
  destruct (bytearray Bit_Manipulation.WH_X9) as [out| |]; cbn [bind]; try reflexivity.
  f_equal. apply for_each_ext. intros b [out' o].
  change Bit_Manipulation.Q_FRAC with 12. rewrite Z.shiftl_mul_pow2 by lia.
  reflexivity.
Qed.

Lemma NL_u8_payload_ok (raw : list byte) (W H : Z) :
  0 <= W -> 0 <= H -> len raw = W * H * 3 ->
  exists out,
    No_Libraries._u8_rgb_to_q12_12_u24_payload raw W H = Ok out /\
    len out = W * H * 9 /\
    forall i b, raw !! i = Some b -> decoded out (Z.of_nat i) (byte.unsigned b * 4096).
Proof.
  intros HW HH Hraw. unfold No_Libraries._u8_rgb_to_q12_12_u24_payload.
  rewrite bytearray_ok by nia. cbn [bind].
  match goal with
  | |- context [for_each raw ?body ?s0] =>
      destruct (u8_payload_loop raw (W * H * 9) (fst s0) body)
        as (out & Hrun & Hl & Hdec & _)
  end.
  - cbn [fst]. rewrite len_replicate. nia.
  - lia.
  - intros b out o. apply NL_u8_body.
  - cbn [fst] in Hrun. rewrite Hrun. cbn [bind]. exists out. auto.
Qed.

Lemma NL_u8_payload_overflow (raw : list byte) (W H : Z) :
  0 <= W -> 0 <= H -> W * H * 3 < len raw ->
  No_Libraries._u8_rgb_to_q12_12_u24_payload raw W H = Raise IndexError.
Proof.
  intros HW HH Hraw. unfold No_Libraries._u8_rgb_to_q12_12_u24_payload.
  rewrite bytearray_ok by nia. cbn [bind].
  set (n := Z.to_nat (W * H * 3)).
  assert (Hn : (n < length raw)%nat) by (unfold len in Hraw; lia).
  rewrite <- (take_drop n raw).
  destruct (drop n raw) as [|b rest] eqn:Hdrop.
  { apply (f_equal length) in Hdrop. rewrite length_drop in Hdrop. cbn in Hdrop. lia. }
  rewrite for_each_app.
  match goal with
  | |- context [for_each (take n raw) ?body ?s0] =>
      destruct (u8_payload_loop (take n raw) (W * H * 9) (fst s0) body)
        as (out & Hrun & Hl & _ & _)
  end.
  - cbn [fst]. rewrite len_replicate. nia.
  - unfold len. rewrite length_take. lia.
  - intros b' out o. apply NL_u8_body.
  - cbn [fst] in Hrun. rewrite Hrun. cbn [bind for_each].
    assert (Hlt : len (take n raw) * 3 = W * H * 9).
    { unfold len. rewrite length_take. lia. }
    rewrite Hlt. rewrite NL_u8_body.
    rewrite u24_write_beyond by nia. reflexivity.
Qed.

(** X9. [_u8_rgb_to_q12_12_u24_payload], the conversion of the blurred
    8-bit samples to the 3-byte fixed-point encoding: for an image of
    [W * H] RGB pixels the result has three bytes per input byte, and
    sample [i] decodes to [4096 * raw[i]] (the integer value as Q12.12, no
    saturation); an input longer than [W * H * 3] bytes raises IndexError;
    the Bit_Manipulation variant is the same function at 512 x 512,
    whatever [W] and [H] it is passed. *)
Theorem u8_to_q12_payload_samples (raw : list byte) (W H : Z) :
  0 <= W -> 0 <= H ->
  (len raw = W * H * 3 ->
   exists out,
     No_Libraries._u8_rgb_to_q12_12_u24_payload raw W H = Ok out /\
     len out = W * H * 9 /\
     forall i b, raw !! i = Some b -> decoded out (Z.of_nat i) (byte.unsigned b * 4096)) /\
  (W * H * 3 < len raw ->
   No_Libraries._u8_rgb_to_q12_12_u24_payload raw W H = Raise IndexError) /\
  Bit_Manipulation._u8_rgb_to_q12_12_u24_payload raw W H =
    No_Libraries._u8_rgb_to_q12_12_u24_payload raw 512 512.
Proof.
  intros HW HH. split; [apply NL_u8_payload_ok; assumption|].
  split; [apply NL_u8_payload_overflow; assumption|apply BM_u8_payload_eq].
Qed.

Lemma u8_to_q12_payload_samples_witness :
  (exists out,
     No_Libraries._u8_rgb_to_q12_12_u24_payload
       [Byte.x00; Byte.x01; Byte.xff; Byte.x10; Byte.x20; Byte.x30] 2 1 = Ok out /\
     len out = 2 * 1 * 9 /\
     forall i b,
       [Byte.x00; Byte.x01; Byte.xff; Byte.x10; Byte.x20; Byte.x30] !! i = Some b ->
       decoded out (Z.of_nat i) (byte.unsigned b * 4096)) /\
  No_Libraries._u8_rgb_to_q12_12_u24_payload
    [Byte.x00; Byte.x01; Byte.xff; Byte.x10] 1 1 = Raise IndexError.
Proof.
  destruct (u8_to_q12_payload_samples
              [Byte.x00; Byte.x01; Byte.xff; Byte.x10; Byte.x20; Byte.x30] 2 1)
    as (Hok & _ & _); [lia|lia|].
  destruct (u8_to_q12_payload_samples [Byte.x00; Byte.x01; Byte.xff; Byte.x10] 1 1)
    as (_ & Hbad & _); [lia|lia|].
  split; [apply Hok; reflexivity|apply Hbad; vm_compute; reflexivity].
Defined.

Lemma constant_image_len (n : Z) (r g b : byte) :
  0 <= n -> len (constant_image n r g b) = n * 3.
Proof.
  intros Hn. unfold constant_image, len.
  assert (H : forall k : nat, length (concat (replicate k [r; g; b])) = (k * 3)%nat).
  { induction k as [|k IH]; [reflexivity|]. cbn [replicate concat].
    rewrite length_app, IH. cbn [length]. lia. }
  rewrite H. lia.
Qed.

Lemma constant_image_lookup (n p : Z) (r g b : byte) :
  0 <= p < n ->
  constant_image n r g b !! Z.to_nat (p * 3) = Some r /\
  constant_image n r g b !! Z.to_nat (p * 3 + 1) = Some g /\
  constant_image n r g b !! Z.to_nat (p * 3 + 2) = Some b.
Proof.
  intros Hp. unfold constant_image.
  assert (H : forall (k q : nat), (q < k)%nat ->
            concat (replicate k [r; g; b]) !! (q * 3)%nat = Some r /\
            concat (replicate k [r; g; b]) !! (q * 3 + 1)%nat = Some g /\
            concat (replicate k [r; g; b]) !! (q * 3 + 2)%nat = Some b).
  { induction k as [|k IH]; intros q Hq; [lia|].
    cbn [replicate concat]. destruct q as [|q].
    - repeat split.
    - specialize (IH q ltac:(lia)). destruct IH as (I0 & I1 & I2).
      replace (S q * 3)%nat with (3 + q * 3)%nat by lia.
      replace (3 + q * 3 + 1)%nat with (3 + (q * 3 + 1))%nat by lia.
      replace (3 + q * 3 + 2)%nat with (3 + (q * 3 + 2))%nat by lia.
      change ([r; g; b] ++ ?l) with (r :: g :: b :: l).
      repeat split; assumption. }
  destruct (H (Z.to_nat n) (Z.to_nat p) ltac:(lia)) as (H0 & H1 & H2).
  replace (Z.to_nat (p * 3)) with (Z.to_nat p * 3)%nat by lia.
  replace (Z.to_nat (p * 3 + 1)) with (Z.to_nat p * 3 + 1)%nat by lia.
  replace (Z.to_nat (p * 3 + 2)) with (Z.to_nat p * 3 + 2)%nat by lia.
  auto.
Qed.

Lemma pixel_index_decompose (W H i : Z) :
  0 < W -> 0 <= i < H * W * 3 ->
  exists y x c, 0 <= y < H /\ 0 <= x < W /\ 0 <= c < 3 /\ i = (y * W + x) * 3 + c.
Proof.
  intros HW Hi.
  exists (i / 3 / W), ((i / 3) mod W), (i mod 3).
  pose proof (Z.div_mod i 3 ltac:(lia)). pose proof (Z.mod_pos_bound i 3 ltac:(lia)).
  pose proof (Z.div_mod (i / 3) W ltac:(lia)). pose proof (Z.mod_pos_bound (i / 3) W ltac:(lia)).
  assert (0 <= i / 3 < H * W) by lia.
  assert (0 <= i / 3 / W).
  { apply Z.div_pos; lia. }
  assert (i / 3 / W < H).
  { apply Z.div_lt_upper_bound; lia. }
  repeat split; try lia.
Qed.

Lemma tap_weight_sum_cons (dy dx w : Z) (taps : list (Z * Z * Z)) :
  tap_weight_sum ((dy, dx, w) :: taps) = w + tap_weight_sum taps.
Proof. reflexivity. Qed.

Lemma NL_accumulate_const (fuel : nat) (raw : list byte) (W H k : Z)
    (taps : list (Z * Z * Z)) (y x : Z) (r g b : byte) :
  2 <= W -> 2 <= H -> 0 <= k -> 0 <= y < H -> 0 <= x < W ->
  (forall p, 0 <= p < H * W ->
     raw !! Z.to_nat (p * 3) = Some r /\
     raw !! Z.to_nat (p * 3 + 1) = Some g /\
     raw !! Z.to_nat (p * 3 + 2) = Some b) ->
  Forall (fun '(dy, dx, w) => - k <= dy <= k /\ - k <= dx <= k /\ True) taps ->
  (Z.to_nat (Z.max H W + k) + 2 <= fuel)%nat ->
  No_Libraries.accumulate fuel raw W H taps y x =
    Ok (byte.unsigned r * tap_weight_sum taps,
        byte.unsigned g * tap_weight_sum taps,
        byte.unsigned b * tap_weight_sum taps).
Proof.
  intros HW HH Hk Hy Hx Hraw Htaps Hfuel.
  unfold No_Libraries.accumulate.
  assert (Hgen : forall a0 a1 a2,
    for_each taps
      (fun '(dy, dx, w) '(acc0, acc1, acc2) =>
         yy <- No_Libraries._reflect_index fuel (y + dy) H ;
         xx <- No_Libraries._reflect_index fuel (x + dx) W ;
         let base := (yy * W + xx) * 3 in
         px0 <- byte_at raw (base + 0) ;
         px1 <- byte_at raw (base + 1) ;
         px2 <- byte_at raw (base + 2) ;
         Ok (acc0 + px0 * w, acc1 + px1 * w, acc2 + px2 * w)) (a0, a1, a2) =
    Ok (a0 + byte.unsigned r * tap_weight_sum taps,
        a1 + byte.unsigned g * tap_weight_sum taps,
        a2 + byte.unsigned b * tap_weight_sum taps)).
  { induction Htaps as [|[[dy dx] w] taps (Hdy & Hdx & _) _ IH]; intros a0 a1 a2.
    - cbn [for_each]. unfold tap_weight_sum. cbn. f_equal. f_equal; [f_equal|]; lia.
    - cbn [for_each].
      destruct (reflect_index_enough fuel (y + dy) H (Z.max H W + k)) as (yy & Hyy & Hry);
        [lia|lia|lia|].
      destruct (reflect_index_enough fuel (x + dx) W (Z.max H W + k)) as (xx & Hxx & Hrx);
        [lia|lia|lia|].
      rewrite Hry, Hrx. cbn [bind]. cbv zeta.
      destruct (Hraw (yy * W + xx) ltac:(nia)) as (H0 & H1 & H2).
      rewrite Z.add_0_r.
      assert (Hbase : 0 <= (yy * W + xx) * 3) by nia.
      rewrite (byte_at_lookup raw ((yy * W + xx) * 3) r Hbase H0).
      rewrite (byte_at_lookup raw ((yy * W + xx) * 3 + 1) g ltac:(lia) H1).
      rewrite (byte_at_lookup raw ((yy * W + xx) * 3 + 2) b ltac:(lia) H2). cbn [bind].
      rewrite IH. rewrite tap_weight_sum_cons. f_equal. f_equal; [f_equal|]; lia. }
  rewrite Hgen. f_equal.
Qed.

Lemma pow2_taps_cons (dy dx e : Z) (taps : list (Z * Z * Z)) :
  pow2_taps ((dy, dx, e) :: taps) = (dy, dx, 2 ^ e) :: pow2_taps taps.
Proof. reflexivity. Qed.

Lemma BM_accumulate_eq (fuel : nat) (raw : list byte) (taps : list (Z * Z * Z))
    (y x : Z) :
  Forall (fun '(dy, dx, e) => 0 <= e) taps ->
  Bit_Manipulation.accumulate fuel raw 512 512 taps y x =
  No_Libraries.accumulate fuel raw 512 512 (pow2_taps taps) y x.
Proof.
  intros Htaps.
  unfold Bit_Manipulation.accumulate, No_Libraries.accumulate.
  generalize (0, 0, 0). 
  induction Htaps as [|[[dy dx] e] taps He _ IH]; intros [[a0 a1] a2].
  - reflexivity.
  - rewrite pow2_taps_cons. cbn [for_each].
    change (Bit_Manipulation._reflect_index fuel (y + dy) 512)
      with (No_Libraries._reflect_index fuel (y + dy) 512).
    change (Bit_Manipulation._reflect_index fuel (x + dx) 512)
      with (No_Libraries._reflect_index fuel (x + dx) 512).
    destruct (No_Libraries._reflect_index fuel (y + dy) 512) as [yy| |];
      cbn [bind]; try reflexivity.
    destruct (No_Libraries._reflect_index fuel (x + dx) 512) as [xx| |];
      cbn [bind]; try reflexivity.
    cbv zeta. rewrite BM_pixel_base.
    destruct (byte_at raw ((yy * 512 + xx) * 3 + 0)) as [p0| |]; cbn [bind]; try reflexivity.
    rewrite lshift_ok by lia. cbn [bind].
    destruct (byte_at raw ((yy * 512 + xx) * 3 + 1)) as [p1| |]; cbn [bind]; try reflexivity.
    rewrite lshift_ok by lia. cbn [bind].
    destruct (byte_at raw ((yy * 512 + xx) * 3 + 2)) as [p2| |]; cbn [bind]; try reflexivity.
    rewrite lshift_ok by lia. cbn [bind].
    rewrite !Z.shiftl_mul_pow2 by lia. apply IH.
Qed.

Lemma channel_triple (a0 a1 a2 c : Z) :
  0 <= c < 3 ->
  (c = 0 /\ channel (a0, a1, a2) c = a0) \/
  (c = 1 /\ channel (a0, a1, a2) c = a1) \/
  (c = 2 /\ channel (a0, a1, a2) c = a2).
Proof.
  intros Hc. unfold channel.
  destruct (Z.eqb_spec c 0); [auto|]. destruct (Z.eqb_spec c 1); [auto|].
  right. right. split; [lia|reflexivity].
Qed.

Lemma constant_image_channel (n p c : Z) (r g b : byte) :
  0 <= p < n -> 0 <= c < 3 ->
  exists col,
    constant_image n r g b !! Z.to_nat (p * 3 + c) = Some col /\
    forall S, channel (byte.unsigned r * S, byte.unsigned g * S, byte.unsigned b * S) c
              = byte.unsigned col * S.
Proof.
  intros Hp Hc. destruct (constant_image_lookup n p r g b Hp) as (H0 & H1 & H2).
  destruct (Z.eq_dec c 0) as [->|]; [exists r; rewrite Z.add_0_r; split; [exact H0|reflexivity]|].
  destruct (Z.eq_dec c 1) as [->|]; [exists g; split; [exact H1|reflexivity]|].
  assert (c = 2) as -> by lia. exists b. split; [exact H2|reflexivity].
Qed.

Lemma nearest_quotient_exact (v ks q : Z) :
  0 < ks -> is_nearest_quotient (v * ks) ks q -> q = v.
Proof. unfold is_nearest_quotient. intros Hks Hq. nia. Qed.

Lemma kernel_taps_bounds (K : list (list Z)) (taps : list (Z * Z * Z)) (P : Z -> Prop) :
  square_kernel K -> Forall (Forall P) K -> No_Libraries.kernel_taps K = Ok taps ->
  Forall (fun '(dy, dx, w) => - len K <= dy <= len K /\ - len K <= dx <= len K /\ P w) taps.
Proof.
  intros Hsq HP Htaps. destruct (kernel_taps_ok K P Hsq HP) as (taps' & Htaps' & Hb).
  rewrite Htaps in Htaps'. injection Htaps' as <-. exact Hb.
Qed.

Lemma Forall_Forall_True (K : list (list Z)) : Forall (Forall (fun _ => True)) K.
Proof.
  apply Forall_forall. intros row _. apply Forall_forall. intros w _. exact I.
Qed.

Lemma NL_convolve_const (fuel : nat) (W H : Z) (K : list (list Z)) (kernel_sum : Z)
    (r g b : byte) :
  2 <= W -> 2 <= H -> square_kernel K -> 0 < kernel_sum ->
  (forall taps, No_Libraries.kernel_taps K = Ok taps -> tap_weight_sum taps = kernel_sum) ->
  (Z.to_nat (Z.max H W + len K) + 2 <= fuel)%nat ->
  No_Libraries._convolve_u8_rgb fuel (constant_image (H * W) r g b) W H K kernel_sum =
    Ok (constant_image (H * W) r g b).
Proof.
  intros HW HH Hsq Hks Hsum Hfuel.
  pose proof (constant_image_len (H * W) r g b ltac:(nia)) as Hlen.
  destruct (NL_convolve_rounds fuel _ W H K kernel_sum HW HH Hlen Hsq Hks Hfuel)
    as (taps & out & Htaps & Hrun & Hlo & Hpix).
  rewrite Hrun. f_equal. apply list_eq. intros i.
  destruct (decide (i < length out)%nat) as [Hi|Hi].
  - destruct (pixel_index_decompose W H (Z.of_nat i)) as (y & x & c & Hy & Hx & Hc & Hidx);
      [lia|unfold len in Hlo; lia|].
    replace i with (Z.to_nat ((y * W + x) * 3 + c)) by lia.
    destruct (Hpix y x c Hy Hx Hc) as (acc & q & Hacc & Hq & Hout).
    rewrite (NL_accumulate_const fuel _ W H (len K) taps y x r g b) in Hacc;
      try assumption; try apply len_nonneg.
    + injection Hacc as <-.
      destruct (constant_image_channel (H * W) (y * W + x) c r g b) as (col & Hcol & Hch);
        [nia|lia|].
      rewrite Hch, (Hsum taps Htaps) in Hq.
      apply nearest_quotient_exact in Hq; [|lia]. subst q.
      rewrite Hout, Hcol. pose proof (byte.unsigned_range col).
      unfold clamp_0_255. rewrite Z.min_r, Z.max_r by lia.
      rewrite byte.of_Z_unsigned. reflexivity.
    + intros p Hp. apply constant_image_lookup. lia.
    + apply (kernel_taps_bounds K taps (fun _ => True) Hsq (Forall_Forall_True K) Htaps).
  - rewrite !(proj2 (lookup_ge_None _ _)); [reflexivity| |lia].
    unfold len in Hlen, Hlo. lia.
Qed.

Lemma pow2_taps_bounds (k : Z) (taps : list (Z * Z * Z)) :
  Forall (fun '(dy, dx, e) => - k <= dy <= k /\ - k <= dx <= k /\ 0 <= e) taps ->
  Forall (fun '(dy, dx, w) => - k <= dy <= k /\ - k <= dx <= k /\ True) (pow2_taps taps) /\
  Forall (fun '(dy, dx, e) => 0 <= e) taps.
Proof.
  intros Ht. split.
  - unfold pow2_taps. apply Forall_fmap. eapply Forall_impl; [exact Ht|].
    intros [[dy dx] e] (? & ? & ?). cbn. auto.
  - eapply Forall_impl; [exact Ht|]. intros [[dy dx] e] (? & ? & ?). assumption.
Qed.

Lemma BM_convolve_const (fuel : nat) (E : list (list Z)) (norm_shift n : Z)
    (r g b : byte) :
  n = 262144 ->
  square_kernel E -> Forall (Forall (fun e => 0 <= e)) E -> 0 <= norm_shift ->
  (forall taps, Bit_Manipulation.kernel_taps E = Ok taps ->
     tap_weight_sum (pow2_taps taps) = 2 ^ norm_shift) ->
  (Z.to_nat (512 + len E) + 2 <= fuel)%nat ->
  Bit_Manipulation._convolve_u8_rgb fuel (constant_image n r g b) 512 512 E norm_shift =
    Ok (constant_image n r g b).
Proof.
  intros Hn Hsq Hpos Hs Hsum Hfuel.
  assert (Hlen : len (constant_image n r g b) = 786432).
  { rewrite constant_image_len by lia. lia. }
  destruct (BM_convolve_truncates fuel _ E norm_shift Hlen Hsq Hpos Hs Hfuel)
    as (taps & out & Htaps & Hrun & Hlo & Hpix).
  rewrite Hrun. f_equal. apply list_eq. intros i.
  destruct (decide (i < length out)%nat) as [Hi|Hi].
  - destruct (pixel_index_decompose 512 512 (Z.of_nat i)) as (y & x & c & Hy & Hx & Hc & Hidx);
      [lia|unfold len in Hlo; lia|].
    replace i with (Z.to_nat ((y * 512 + x) * 3 + c)) by lia.
    destruct (Hpix y x c Hy Hx Hc) as (acc & Hacc & Hout).
    pose proof Htaps as Htaps'. rewrite BM_kernel_taps_eq in Htaps'.
    destruct (pow2_taps_bounds (len E) taps
                (kernel_taps_bounds E taps _ Hsq Hpos Htaps')) as (Hb & Hnn).
    rewrite (BM_accumulate_eq fuel _ taps y x Hnn) in Hacc.
    rewrite (NL_accumulate_const fuel _ 512 512 (len E) (pow2_taps taps) y x r g b) in Hacc;
      try assumption; try lia; try apply len_nonneg.
    + injection Hacc as <-.
      destruct (constant_image_channel n (y * 512 + x) c r g b) as (col & Hcol & Hch);
        [lia|lia|].
      rewrite Hout, Hcol, Hch, (Hsum taps Htaps).
      pose proof (byte.unsigned_range col).
      rewrite Z.shiftr_div_pow2 by lia. rewrite Z.div_mul by lia.
      rewrite Z.min_r by lia. rewrite byte.of_Z_unsigned. reflexivity.
    + intros p Hp. apply constant_image_lookup. lia.
  - rewrite !(proj2 (lookup_ge_None _ _)); [reflexivity| |lia].
    unfold len in Hlen, Hlo. lia.
Qed.

Ltac builtin_kernel HK :=
  unfold No_Libraries._KERNELS, Bit_Manipulation._KERNELS in HK;
  match type of HK with
  | context [?ks =? 3] =>
      destruct (ks =? 3);
      [|destruct (ks =? 5); [|destruct (ks =? 7); [|discriminate HK]]];
      injection HK as <- <-
  end.

(** X10. The binomial low-pass leaves a constant-colour image unchanged,
    for each of the three built-in kernels and in both variants: the
    weights of a built-in kernel sum to its normaliser, so every
    accumulator is the colour times the normaliser, and rounding
    (No_Libraries) and truncation (Bit_Manipulation) both return the
    colour. *)
Theorem low_pass_preserves_constant_image
    (fuel : nat) (kernel_size W H : Z) (r g b : byte) :
  2 <= W -> 2 <= H -> (Z.to_nat (Z.max (Z.max H W) 512 + 7) + 2 <= fuel)%nat ->
  (forall K kernel_sum,
     No_Libraries._KERNELS kernel_size = Some (K, kernel_sum) ->
     No_Libraries._convolve_u8_rgb fuel (constant_image (H * W) r g b) W H K kernel_sum =
       Ok (constant_image (H * W) r g b)) /\
  (forall E norm_shift,
     Bit_Manipulation._KERNELS kernel_size = Some (E, norm_shift) ->
     Bit_Manipulation._convolve_u8_rgb fuel (constant_image 262144 r g b) 512 512
       E norm_shift = Ok (constant_image 262144 r g b)).
Proof.
  intros HW HH Hfuel. split.
  - intros K kernel_sum HK.
    builtin_kernel HK;
      (apply NL_convolve_const;
       [exact HW|exact HH|repeat constructor|lia
       |intros taps Ht; vm_compute in Ht; injection Ht as <-; reflexivity
       |match goal with |- context [len ?K] => let n := eval vm_compute in (len K) in
          change (len K) with n end; lia]).
  - intros E norm_shift HE.
    builtin_kernel HE;
      (apply BM_convolve_const;
       [reflexivity|repeat constructor|repeat constructor; lia|lia
       |intros taps Ht; vm_compute in Ht; injection Ht as <-; reflexivity
       |match goal with |- context [len ?K] => let n := eval vm_compute in (len K) in
          change (len K) with n end; lia]).
Qed.

Lemma low_pass_preserves_constant_image_witness :
  No_Libraries._convolve_u8_rgb 600 (constant_image (4 * 6) Byte.x0a Byte.x80 Byte.xff)
    6 4 [[1; 2; 1]; [2; 4; 2]; [1; 2; 1]] 16 =
    Ok (constant_image (4 * 6) Byte.x0a Byte.x80 Byte.xff).
Proof.
  destruct (low_pass_preserves_constant_image 600 3 6 4 Byte.x0a Byte.x80 Byte.xff)
    as (HNL & _); [lia|lia|lia|].
  apply HNL. reflexivity.
Defined.

Lemma convolve_variants_close (fuel : nat) (raw : list byte)
    (K : list (list Z)) (kernel_sum : Z) (E : list (list Z)) (norm_shift : Z) :
  len raw = 786432 -> square_kernel K -> square_kernel E -> len K = len E ->
  Forall (Forall (fun e => 0 <= e)) E -> 0 <= norm_shift -> kernel_sum = 2 ^ norm_shift ->
  (forall taps, Bit_Manipulation.kernel_taps E = Ok taps ->
     No_Libraries.kernel_taps K = Ok (pow2_taps taps)) ->
  (Z.to_nat (512 + len E) + 2 <= fuel)%nat ->
  exists out_nl out_bm,
    No_Libraries._convolve_u8_rgb fuel raw 512 512 K kernel_sum = Ok out_nl /\
    Bit_Manipulation._convolve_u8_rgb fuel raw 512 512 E norm_shift = Ok out_bm /\
    len out_nl = 786432 /\ len out_bm = 786432 /\
    forall i, 0 <= i < 786432 ->
      exists b_nl b_bm,
        out_nl !! Z.to_nat i = Some b_nl /\ out_bm !! Z.to_nat i = Some b_bm /\
        byte.unsigned b_bm <= byte.unsigned b_nl <= byte.unsigned b_bm + 1.
Proof.
  intros Hraw HsqK HsqE HlenK Hpos Hs Hks Hcorr Hfuel.
  assert (Hks0 : 0 < kernel_sum) by (subst kernel_sum; apply Z.pow_pos_nonneg; lia).
  destruct (NL_convolve_rounds fuel raw 512 512 K kernel_sum)
    as (tapsK & out_nl & HtK & Hrun_nl & Hl_nl & Hpix_nl);
    [lia|lia|lia|exact HsqK|exact Hks0|rewrite HlenK; lia|].
  destruct (BM_convolve_truncates fuel raw E norm_shift Hraw HsqE Hpos Hs Hfuel)
    as (tapsE & out_bm & HtE & Hrun_bm & Hl_bm & Hpix_bm).
  pose proof (Hcorr tapsE HtE) as HtK'. rewrite HtK in HtK'. injection HtK' as ->.
  pose proof HtE as HtE'. rewrite BM_kernel_taps_eq in HtE'.
  destruct (pow2_taps_bounds (len E) tapsE
              (kernel_taps_bounds E tapsE _ HsqE Hpos HtE')) as (_ & Hnn).
  exists out_nl, out_bm. split; [exact Hrun_nl|]. split; [exact Hrun_bm|].
  split; [lia|]. split; [exact Hl_bm|].
  intros i Hi.
  destruct (pixel_index_decompose 512 512 i) as (y & x & c & Hy & Hx & Hc & ->); [lia|lia|].
  destruct (Hpix_nl y x c Hy Hx Hc) as (acc & q & Hacc & Hq & Hout).
  destruct (Hpix_bm y x c Hy Hx Hc) as (acc' & Hacc' & Hout').
  destruct (BM_accumulate_ok fuel raw (len E) tapsE y x Hraw (len_nonneg E) Hy Hx
              (kernel_taps_bounds E tapsE _ HsqE Hpos HtE') Hfuel) as (acc'' & Hacc'' & Hnonneg).
  rewrite Hacc' in Hacc''. injection Hacc'' as <-.
  rewrite (BM_accumulate_eq fuel raw tapsE y x Hnn), Hacc in Hacc'. injection Hacc' as <-.
  exists (byte.of_Z (clamp_0_255 q)),
         (byte.of_Z (Z.min 255 (Z.shiftr (channel acc c) norm_shift))).
  split; [exact Hout|]. split; [exact Hout'|].
  specialize (Hnonneg c). set (a := channel acc c) in *.
  rewrite Z.shiftr_div_pow2 by lia. rewrite <- Hks.
  pose proof (Z.div_mod a kernel_sum ltac:(lia)) as Hdm.
  pose proof (Z.mod_pos_bound a kernel_sum Hks0) as Hmb.
  assert (Ht0 : 0 <= a / kernel_sum) by (apply Z.div_pos; lia).
  unfold is_nearest_quotient in Hq.
  assert (Hqt : a / kernel_sum <= q <= a / kernel_sum + 1) by nia.
  rewrite !unsigned_of_Z_small by (unfold clamp_0_255; lia).
  unfold clamp_0_255. lia.
Qed.

(** X11. The two variants of the low-pass differ only by rounding: on a
    512 x 512 RGB image and for each built-in kernel size, both convolutions
    succeed and every output byte of Bit_Manipulation (truncating shift) is
    the byte of No_Libraries (round to nearest) or one less. *)
Theorem low_pass_variants_differ_by_rounding
    (fuel : nat) (raw : list byte) (kernel_size : Z)
    (K : list (list Z)) (kernel_sum : Z) (E : list (list Z)) (norm_shift : Z) :
  No_Libraries._KERNELS kernel_size = Some (K, kernel_sum) ->
  Bit_Manipulation._KERNELS kernel_size = Some (E, norm_shift) ->
  len raw = 786432 -> (Z.to_nat 519 + 2 <= fuel)%nat ->
  exists out_nl out_bm,
    No_Libraries._convolve_u8_rgb fuel raw 512 512 K kernel_sum = Ok out_nl /\
    Bit_Manipulation._convolve_u8_rgb fuel raw 512 512 E norm_shift = Ok out_bm /\
    len out_nl = 786432 /\ len out_bm = 786432 /\
    forall i, 0 <= i < 786432 ->
      exists b_nl b_bm,
        out_nl !! Z.to_nat i = Some b_nl /\ out_bm !! Z.to_nat i = Some b_bm /\
        byte.unsigned b_bm <= byte.unsigned b_nl <= byte.unsigned b_bm + 1.
Proof.
  intros HK HE Hraw Hfuel.
  unfold No_Libraries._KERNELS in HK. unfold Bit_Manipulation._KERNELS in HE.
  destruct (kernel_size =? 3);
    [|destruct (kernel_size =? 5); [|destruct (kernel_size =? 7); [|discriminate HK]]];
    injection HK as <- <-; injection HE as <- <-;
    (apply convolve_variants_close;
     [exact Hraw|repeat constructor|repeat constructor|reflexivity
     |repeat constructor; lia|lia|reflexivity
     |intros taps Ht; vm_compute in Ht; injection Ht as <-; reflexivity
     |match goal with |- context [len ?K] => let n := eval vm_compute in (len K) in
        change (len K) with n end; lia]).
Qed.

Lemma low_pass_variants_differ_by_rounding_witness :
  exists out_nl out_bm,
    No_Libraries._convolve_u8_rgb 600 impulse_image 512 512
      [[1; 2; 1]; [2; 4; 2]; [1; 2; 1]] 16 = Ok out_nl /\
    Bit_Manipulation._convolve_u8_rgb 600 impulse_image 512 512
      [[0; 1; 0]; [1; 2; 1]; [0; 1; 0]] 4 = Ok out_bm /\
    len out_nl = 786432 /\ len out_bm = 786432 /\
    forall i, 0 <= i < 786432 ->
      exists b_nl b_bm,
        out_nl !! Z.to_nat i = Some b_nl /\ out_bm !! Z.to_nat i = Some b_bm /\
        byte.unsigned b_bm <= byte.unsigned b_nl <= byte.unsigned b_bm + 1.
Proof.
  apply (low_pass_variants_differ_by_rounding 600 impulse_image 3);
    [reflexivity|reflexivity|apply impulse_image_len|lia].
Defined.

Lemma decoded_of_byte (out : list byte) (raw : list byte) (i v : Z) :
  0 <= i -> 0 <= v < 256 ->
  (forall k b, raw !! k = Some b -> decoded out (Z.of_nat k) (byte.unsigned b * 4096)) ->
  raw !! Z.to_nat i = Some (byte.of_Z v) ->
  decoded out i (4096 * v).
Proof.
  intros Hi Hv Hdec Hraw. specialize (Hdec _ _ Hraw).
  rewrite unsigned_of_Z_small in Hdec by lia.
  rewrite Z2Nat.id in Hdec by lia. rewrite (Z.mul_comm 4096 v). exact Hdec.
Qed.

(** X12. One file of the No_Libraries low-pass stage, from the blob read
    to the blob saved (parse, convolve, convert, make): a container that
    parses to anything but an 8-bit RGB image is rejected with ValueError;
    for an 8-bit RGB container of [W x H] pixels the result is the
    [W x H] three-channel fixed-point container in which sample [c] of
    pixel [(y, x)] decodes to 4096 times the kernel-weighted sum of the
    reflected neighbourhood, divided by [kernel_sum], rounded to nearest
    and clamped to [0, 255]. *)
Theorem low_pass_blob_composition (fuel : nat) (W H : Z) (payload : list byte)
    (K : list (list Z)) (kernel_sum : Z) :
  (forall blob W' H' C dtype_code payload',
     No_Libraries.imgb_parse blob = Ok (W', H', C, dtype_code, payload') ->
     dtype_code <> 1 \/ C <> 3 ->
     exists msg, No_Libraries.low_pass_blob fuel blob K kernel_sum = Raise (ValueError msg)) /\
  (2 <= W < 2 ^ 32 -> 2 <= H < 2 ^ 32 -> len payload = W * H * 3 ->
   square_kernel K -> 0 < kernel_sum ->
   (Z.to_nat (Z.max H W + len K) + 2 <= fuel)%nat ->
   exists taps out,
     No_Libraries.kernel_taps K = Ok taps /\
     No_Libraries.low_pass_blob fuel (imgb_header W H 3 1 ++ payload) K kernel_sum =
       Ok (imgb_header W H 3 4 ++ out) /\
     len out = W * H * 9 /\
     forall y x c, 0 <= y < H -> 0 <= x < W -> 0 <= c < 3 ->
       exists acc q,
         No_Libraries.accumulate fuel payload W H taps y x = Ok acc /\
         is_nearest_quotient (channel acc c) kernel_sum q /\
         decoded out ((y * W + x) * 3 + c) (4096 * clamp_0_255 q)).
Proof.
  split.
  - intros blob W' H' C d payload' Hparse Hbad. unfold No_Libraries.low_pass_blob.
    rewrite Hparse. cbn [bind].
    destruct Hbad as [Hd|HC].
    + rewrite (proj2 (Z.eqb_neq d 1) Hd). cbn [negb orb]. eexists. reflexivity.
    + rewrite (proj2 (Z.eqb_neq C 3) HC). cbn [negb]. rewrite orb_true_r.
      eexists. reflexivity.
  - intros HW HH Hlen Hsq Hks Hfuel.
    destruct (NL_convolve_rounds fuel payload W H K kernel_sum)
      as (taps & blurred & Htaps & Hrun & Hlb & Hpix);
      [lia|lia|lia|exact Hsq|exact Hks|exact Hfuel|].
    destruct (NL_u8_payload_ok blurred W H) as (out & Hconv & Hlo & Hdec); [lia|lia|lia|].
    exists taps, out. split; [exact Htaps|].
    unfold No_Libraries.low_pass_blob.
    rewrite (NL_imgb_parse_header W H 3 1 1 payload) by (lia || reflexivity).
    cbn [bind]. change (negb (1 =? 1) || negb (3 =? 3)) with false. cbv iota.
    rewrite Hrun. cbn [bind]. rewrite Hconv. cbn [bind].
    rewrite (NL_imgb_make_ok W H 3 4 3) by (lia || reflexivity).
    split; [reflexivity|]. split; [exact Hlo|].
    intros y x c Hy Hx Hc.
    destruct (Hpix y x c Hy Hx Hc) as (acc & q & Hacc & Hq & Hout).
    exists acc, q. split; [exact Hacc|]. split; [exact Hq|].
    apply (decoded_of_byte out blurred); [nia|apply clamp_0_255_range|exact Hdec|exact Hout].
Qed.

Lemma low_pass_blob_composition_witness :
  (exists msg,
     No_Libraries.low_pass_blob 20 (imgb_header 1 1 1 1 ++ [Byte.x07])
       [[1; 2; 1]; [2; 4; 2]; [1; 2; 1]] 16 = Raise (ValueError msg)) /\
  (exists taps out,
     No_Libraries.kernel_taps [[1; 2; 1]; [2; 4; 2]; [1; 2; 1]] = Ok taps /\
     No_Libraries.low_pass_blob 20 (imgb_header 3 2 3 1 ++ replicate 18 Byte.x64)
       [[1; 2; 1]; [2; 4; 2]; [1; 2; 1]] 16 = Ok (imgb_header 3 2 3 4 ++ out) /\
     len out = 3 * 2 * 9 /\
     forall y x c, 0 <= y < 2 -> 0 <= x < 3 -> 0 <= c < 3 ->
       exists acc q,
         No_Libraries.accumulate 20 (replicate 18 Byte.x64) 3 2 taps y x = Ok acc /\
         is_nearest_quotient (channel acc c) 16 q /\
         decoded out ((y * 3 + x) * 3 + c) (4096 * clamp_0_255 q)).
Proof.
  destruct (low_pass_blob_composition 20 3 2 (replicate 18 Byte.x64)
              [[1; 2; 1]; [2; 4; 2]; [1; 2; 1]] 16) as (Hrej & Hok).
  split.
  - apply (Hrej _ 1 1 1 1 [Byte.x07]); [reflexivity|right; lia].
  - apply Hok; [lia|lia|reflexivity|repeat constructor|lia|].
    vm_compute. lia.
Defined.

Lemma BM_header_wh_payload (W H C d : Z) (payload : list byte) :
  0 <= W < 2 ^ 32 -> 0 <= H < 2 ^ 32 ->
  Bit_Manipulation.imgb_parse_wh_payload (imgb_header W H C d ++ payload) = (W, H, payload).
Proof.
  intros HW HH.
  destruct (header_fields W H C d payload HW HH) as (_ & _ & Hw & Hh & _ & _ & Hp).
  unfold Bit_Manipulation.imgb_parse_wh_payload.
  change Bit_Manipulation._u32_le with No_Libraries._u32_le.
  cbv zeta. rewrite Hw, Hh, Hp. reflexivity.
Qed.

(** X13. One file of the Bit_Manipulation low-pass stage: for a container
    whose header says 512 x 512 and whose payload has 786432 bytes, whatever
    channel count and encoding its header names (they are not read), the
    result is the 512 x 512 three-channel fixed-point container in which
    sample [c] of pixel [(y, x)] decodes to 4096 times the shifted sum of
    the reflected neighbourhood, shifted right by [norm_shift] (truncating)
    and capped at 255. *)
Theorem low_pass_blob_shift_composition (fuel : nat) (C dtype_code : Z)
    (payload : list byte) (E : list (list Z)) (norm_shift : Z) :
  len payload = 786432 ->
  square_kernel E -> Forall (Forall (fun e => 0 <= e)) E -> 0 <= norm_shift ->
  (Z.to_nat (512 + len E) + 2 <= fuel)%nat ->
  exists taps out,
    Bit_Manipulation.kernel_taps E = Ok taps /\
    Bit_Manipulation.low_pass_blob fuel (imgb_header 512 512 C dtype_code ++ payload)
      E norm_shift = Ok (imgb_header 512 512 3 4 ++ out) /\
    len out = 2359296 /\
    forall y x c, 0 <= y < 512 -> 0 <= x < 512 -> 0 <= c < 3 ->
      exists acc,
        Bit_Manipulation.accumulate fuel payload 512 512 taps y x = Ok acc /\
        decoded out ((y * 512 + x) * 3 + c)
          (4096 * Z.min 255 (Z.shiftr (channel acc c) norm_shift)).
Proof.
  intros Hlen Hsq Hpos Hs Hfuel.
  destruct (BM_convolve_truncates fuel payload E norm_shift Hlen Hsq Hpos Hs Hfuel)
    as (taps & blurred & Htaps & Hrun & Hlb & Hpix).
  destruct (NL_u8_payload_ok blurred 512 512) as (out & Hconv & Hlo & Hdec); [lia|lia|lia|].
  exists taps, out. split; [exact Htaps|].
  unfold Bit_Manipulation.low_pass_blob.
  rewrite BM_header_wh_payload by lia.
  rewrite Hrun. cbn [bind]. rewrite BM_u8_payload_eq, Hconv. cbn [bind].
  rewrite BM_imgb_make_ok by lia.
  split; [reflexivity|]. split; [lia|].
  intros y x c Hy Hx Hc.
  destruct (Hpix y x c Hy Hx Hc) as (acc & Hacc & Hout).
  exists acc. split; [exact Hacc|].
  pose proof Htaps as Htaps'. rewrite BM_kernel_taps_eq in Htaps'.
  destruct (BM_accumulate_ok fuel payload (len E) taps y x Hlen (len_nonneg E) Hy Hx
              (kernel_taps_bounds E taps _ Hsq Hpos Htaps') Hfuel) as (acc' & Hacc' & Hnonneg).
  rewrite Hacc in Hacc'. injection Hacc' as <-. specialize (Hnonneg c).
  apply (decoded_of_byte out blurred); [lia| |exact Hdec|exact Hout].
  assert (0 <= Z.shiftr (channel acc c) norm_shift) by (apply Z.shiftr_nonneg; lia).
  lia.
Qed.

Lemma low_pass_blob_shift_composition_witness :
  exists taps out,
    Bit_Manipulation.kernel_taps [[0; 1; 0]; [1; 2; 1]; [0; 1; 0]] = Ok taps /\
    Bit_Manipulation.low_pass_blob 600 (imgb_header 512 512 1 7 ++ impulse_image)
      [[0; 1; 0]; [1; 2; 1]; [0; 1; 0]] 4 = Ok (imgb_header 512 512 3 4 ++ out) /\
    len out = 2359296 /\
    forall y x c, 0 <= y < 512 -> 0 <= x < 512 -> 0 <= c < 3 ->
      exists acc,
        Bit_Manipulation.accumulate 600 impulse_image 512 512 taps y x = Ok acc /\
        decoded out ((y * 512 + x) * 3 + c)
          (4096 * Z.min 255 (Z.shiftr (channel acc c) 4)).
Proof.
  apply (low_pass_blob_shift_composition 600 1 7 impulse_image);
    [apply impulse_image_len|repeat constructor|repeat constructor; lia|lia|].
  vm_compute. lia.
Defined.

(** ** Vertical EPIs *)

Lemma gather_cols (v_stack : list (list byte)) (V Hn rb col_off : Z)
    (out0 : list byte) :
  0 <= Hn -> 0 <= rb -> 0 <= col_off -> col_off + 9 <= rb ->
  V = len v_stack -> len out0 = V * Hn * 9 ->
  (forall v frame, v_stack !! v = Some frame -> Hn * rb <= len frame) ->
  exists out,
    for_each (range V) (fun v '(out, out_i) =>
      frame <- getitem v_stack v ;
      '(out, out_i, src) <- for_each (range Hn) (fun _ '(out, out_i, src) =>
        Ok (slice_assign out out_i (out_i + 9) (slice frame src (src + 9)),
            out_i + 9, src + rb)) (out, out_i, col_off) ;
      Ok (out, out_i)) (out0, 0) = Ok (out, V * Hn * 9) /\
    len out = V * Hn * 9 /\
    forall v y c frame, 0 <= v < V -> 0 <= y < Hn -> 0 <= c < 9 ->
      v_stack !! Z.to_nat v = Some frame ->
      out !! Z.to_nat ((v * Hn + y) * 9 + c) = frame !! Z.to_nat (col_off + y * rb + c).
Proof.
  intros HHn Hrb Hcol Hfit HV Hlen Hframes.
  assert (HV0 : 0 <= V) by (rewrite HV; apply len_nonneg).
  match goal with
  | |- exists out, for_each _ ?body ?s0 = _ /\ _ =>
      destruct (for_range_inv V body
        (fun v '(out, out_i) => out_i = v * Hn * 9 /\ len out = V * Hn * 9 /\
           forall v' y c frame, 0 <= v' < v -> 0 <= y < Hn -> 0 <= c < 9 ->
             v_stack !! Z.to_nat v' = Some frame ->
             out !! Z.to_nat ((v' * Hn + y) * 9 + c) =
               frame !! Z.to_nat (col_off + y * rb + c)) s0)
        as ([out out_i] & Hrun & Hi & Hl & Hc)
  end.
  - split; [lia|]. split; [exact Hlen|]. intros v' y c frame Hv'. lia.
  - intros v [out out_i] Hv (Hi & Hl & Hc). subst out_i.
    destruct (getitem_in_range v_stack v) as (frame & Hframe & Hget); [lia|].
    rewrite Hget. cbn [bind]. pose proof (Hframes _ _ Hframe) as Hfl.
    match goal with
    | |- exists s', bind (for_each _ ?body ?s0) _ = _ /\ _ =>
        destruct (for_range_inv Hn body
          (fun k '(out', out_i, src) => out_i = v * Hn * 9 + k * 9 /\
             src = col_off + k * rb /\ len out' = V * Hn * 9 /\
             (forall v' y c frame', 0 <= v' < v -> 0 <= y < Hn -> 0 <= c < 9 ->
                v_stack !! Z.to_nat v' = Some frame' ->
                out' !! Z.to_nat ((v' * Hn + y) * 9 + c) =
                  frame' !! Z.to_nat (col_off + y * rb + c)) /\
             (forall y c, 0 <= y < k -> 0 <= c < 9 ->
                out' !! Z.to_nat ((v * Hn + y) * 9 + c) =
                  frame !! Z.to_nat (col_off + y * rb + c))) s0)
          as ([[out' out_i'] src'] & Hrun' & Hi' & Hs' & Hl' & Hold' & Hnew')
    end.
    + split; [lia|]. split; [lia|]. split; [exact Hl|]. split; [exact Hc|].
      intros y c Hy. lia.
    + intros k [[out' out_i'] src'] Hk (Hi' & Hs' & Hl' & Hold' & Hnew'). subst out_i' src'.
      eexists. split; [reflexivity|]. cbv beta iota.
      assert (Hsl : len (slice frame (col_off + k * rb) (col_off + k * rb + 9)) =
                    v * Hn * 9 + k * 9 + 9 - (v * Hn * 9 + k * 9)).
      { rewrite slice_len by nia. lia. }
      assert (Hhi : v * Hn * 9 + k * 9 + 9 <= len out') by nia.
      split; [lia|]. split; [lia|]. split.
      { rewrite slice_assign_len by (assumption || nia). exact Hl'. }
      split.
      * intros v' y c frame' Hv' Hy Hcc Hframe'.
        rewrite slice_assign_lookup_out by (assumption || nia).
        apply Hold'; assumption.
      * intros y c Hy Hcc. destruct (Z.eq_dec y k) as [->|Hne].
        -- rewrite slice_assign_lookup_in by (assumption || nia).
           replace ((v * Hn + k) * 9 + c - (v * Hn * 9 + k * 9)) with c by lia.
           rewrite slice_lookup by nia. f_equal.
        -- rewrite slice_assign_lookup_out by (assumption || nia).
           apply Hnew'; lia.
    + rewrite Hrun'. cbn [bind]. eexists. split; [reflexivity|]. cbv beta iota.
      rewrite Z.max_r in Hi', Hnew' by lia. split; [lia|]. split; [exact Hl'|].
      intros v' y c frame' Hv' Hy Hcc Hframe'.
      destruct (Z.eq_dec v' v) as [->|Hne].
      * assert (frame' = frame) as -> by congruence. apply Hnew'; assumption.
      * apply Hold'; (assumption || lia).
  - rewrite Z.max_r in Hi, Hc by lia. subst out_i.
    exists out. split; [exact Hrun|]. split; [exact Hl|exact Hc].
Qed.

Lemma col_epi_of_gather (v_stack : list (list byte)) (H W V x : Z) (out : list byte) :
  frame_stack v_stack H W -> 0 <= H -> 0 <= x < W ->
  len out = V * H * 9 ->
  (forall v y c frame, 0 <= v < V -> 0 <= y < H -> 0 <= c < 9 ->
     v_stack !! Z.to_nat v = Some frame ->
     out !! Z.to_nat ((v * H + y) * 9 + c) = frame !! Z.to_nat (x * 9 + y * (W * 9) + c)) ->
  is_col_epi v_stack H W V x out.
Proof.
  intros Hstack HH Hx Hlen Hc. split; [exact Hlen|].
  intros v y c frame Hv Hy Hcc Hframe.
  pose proof (frame_stack_lookup _ _ _ _ _ Hstack Hframe) as Hfl.
  destruct (lookup_lt_is_Some_2 frame (Z.to_nat ((y * W + x) * 9 + c))) as [b Hb].
  { unfold len in Hfl. nia. }
  exists b. split; [exact Hb|].
  rewrite (Hc v y c frame) by assumption.
  rewrite <- Hb. f_equal. lia.
Qed.

Lemma NL_build_epis_vertical (h_stack v_stack : list (list byte)) (H W : Z)
    (y_rows x_cols : list Z) :
  0 <= H < 2 ^ 32 -> 0 <= W < 2 ^ 32 ->
  len h_stack < 2 ^ 32 -> len v_stack < 2 ^ 32 ->
  frame_stack h_stack H W -> frame_stack v_stack H W ->
  Forall (fun y => 0 <= y < H) y_rows -> Forall (fun x => 0 <= x < W) x_cols ->
  exists epi_h epi_v,
    No_Libraries.build_epis_imgb_in_memory h_stack v_stack
      (H, W, len h_stack, len v_stack) y_rows x_cols = Ok (epi_h, epi_v) /\
    vertical_epis No_Libraries.imgb_parse v_stack H W (len v_stack) x_cols epi_v.
Proof.
  intros HH HW HU HV Hhs Hvs Hys Hxs.
  destruct (NL_build_epis h_stack v_stack H W y_rows x_cols HH HW HU HV Hhs Hvs Hys Hxs)
    as (epi_h0 & epi_v0 & Hbuild & _).
  pose proof (len_nonneg v_stack) as HV0.
  rewrite Forall_forall in Hxs.
  unfold No_Libraries.build_epis_imgb_in_memory in Hbuild |- *.
  cbv beta iota zeta in Hbuild |- *.
  change (3 * 3) with 9 in Hbuild |- *.
  match type of Hbuild with
  | bind ?m _ = _ => destruct m as [epi_h| |]; cbn [bind] in Hbuild |- *; try discriminate Hbuild
  end.
  clear Hbuild.
  match goal with
  | |- exists epi_h epi_v, bind (for_each x_cols ?body []) _ = _ /\ _ =>
      destruct (for_each_inv x_cols body
        (fun k epi => length epi = k /\
           forall k' x, (k' < k)%nat -> x_cols !! k' = Some x ->
             exists payload,
               epi !! k' = Some (imgb_header H (len v_stack) 3 4 ++ payload) /\
               is_col_epi v_stack H W (len v_stack) x payload) [])
        as (epi_v & Hrun & Hlen & Hcols)
  end.
  - split; [reflexivity|]. intros k' x Hk'. lia.
  - intros k x epi Hx [Hl Hr].
    assert (Hxr : 0 <= x < W) by (apply Hxs; apply (list_elem_of_lookup_2 _ _ _ Hx)).
    rewrite bytearray_ok by nia. cbn [bind].
    destruct (gather_cols v_stack (len v_stack) H (W * 9) (x * 9)
                (replicate (Z.to_nat (len v_stack * H * 9)) Byte.x00))
      as (out & Hg & Hol & Hoc); [lia|lia|lia|lia|reflexivity|rewrite len_replicate; nia| |].
    { intros v frame Hframe. rewrite (frame_stack_lookup _ _ _ _ _ Hvs Hframe). nia. }
    rewrite Hg. cbn [bind].
    rewrite (NL_imgb_make_ok H (len v_stack) 3 4 3 out) by (reflexivity || lia).
    cbn [bind]. eexists. split; [reflexivity|]. split.
    + rewrite length_app. cbn [length]. lia.
    + intros k' x' Hk' Hx'. destruct (decide (k' = k)) as [->|Hne].
      * assert (x' = x) as -> by congruence. exists out. split.
        -- rewrite lookup_app_r by lia. rewrite Hl, Nat.sub_diag. reflexivity.
        -- apply (col_epi_of_gather v_stack H W (len v_stack) x out); (assumption || lia).
      * destruct (Hr k' x') as (payload & Hp & Hepi); [lia|assumption|].
        exists payload. split; [|exact Hepi].
        rewrite lookup_app_l by lia. exact Hp.
  - rewrite Hrun. cbn [bind]. exists epi_h, epi_v. split; [reflexivity|].
    split; [exact Hlen|]. intros k x Hx.
    destruct (Hcols k x) as (payload & Hp & Hepi);
      [apply lookup_lt_Some in Hx; lia|assumption|].
    exists (imgb_header H (len v_stack) 3 4 ++ payload), payload.
    split; [exact Hp|]. split; [|exact Hepi].
    apply (NL_imgb_parse_header H (len v_stack) 3 4 3);
      try (reflexivity || lia). destruct Hepi as [Hpl _]. lia.
Qed.

Lemma BM_build_epis_vertical (h_stack v_stack : list (list byte))
    (y_rows x_cols : list Z) :
  len h_stack = 9 -> len v_stack = 9 ->
  frame_stack h_stack 512 512 -> frame_stack v_stack 512 512 ->
  Forall (fun y => 0 <= y < 512) y_rows -> Forall (fun x => 0 <= x < 512) x_cols ->
  exists epi_h epi_v,
    Bit_Manipulation.build_epis_imgb_in_memory h_stack v_stack
      (512, 512, 9, 9) y_rows x_cols = Ok (epi_h, epi_v) /\
    vertical_epis Bit_Manipulation.imgb_parse v_stack 512 512 9 x_cols epi_v.
Proof.
  intros HU HV Hhs Hvs Hys Hxs.
  destruct (BM_build_epis h_stack v_stack y_rows x_cols HU HV Hhs Hvs Hys Hxs)
    as (epi_h0 & epi_v0 & Hbuild & _).
  rewrite Forall_forall in Hxs.
  unfold Bit_Manipulation.build_epis_imgb_in_memory in Hbuild |- *.
  cbv beta iota zeta in Hbuild |- *.
  change Bit_Manipulation.BYTES_PER_PIXEL_RGB with 9 in Hbuild |- *.
  change Bit_Manipulation.ROW_BYTES_X9 with 41472 in Hbuild |- *.
  change Bit_Manipulation.EPI_ROW_BYTES with (512 * 9) in Hbuild |- *.
  match type of Hbuild with
  | bind ?m _ = _ => destruct m as [epi_h| |]; cbn [bind] in Hbuild |- *; try discriminate Hbuild
  end.
  clear Hbuild.
  match goal with
  | |- exists epi_h epi_v, bind (for_each x_cols ?body []) _ = _ /\ _ =>
      destruct (for_each_inv x_cols body
        (fun k epi => length epi = k /\
           forall k' x, (k' < k)%nat -> x_cols !! k' = Some x ->
             exists payload,
               epi !! k' = Some (imgb_header 512 9 3 4 ++ payload) /\
               is_col_epi v_stack 512 512 9 x payload) [])
        as (epi_v & Hrun & Hlen & Hcols)
  end.
  - split; [reflexivity|]. intros k' x Hk'. lia.
  - intros k x epi Hx [Hl Hr].
    assert (Hxr : 0 <= x < 512) by (apply Hxs; apply (list_elem_of_lookup_2 _ _ _ Hx)).
    rewrite bytearray_ok by lia. cbn [bind].
    assert (Hcol : Z.shiftl x 3 + x = x * 9).
    { rewrite Z.shiftl_mul_pow2 by lia. change (2 ^ 3) with 8. lia. }
    rewrite Hcol.
    destruct (gather_cols v_stack 9 512 (512 * 9) (x * 9)
                (replicate (Z.to_nat 41472) Byte.x00))
      as (out & Hg & Hol & Hoc); [lia|lia|lia|lia|lia|rewrite len_replicate; lia| |].
    { intros v frame Hframe. rewrite (frame_stack_lookup _ _ _ _ _ Hvs Hframe). lia. }
    rewrite Hg. cbn [bind].
    rewrite (BM_imgb_make_ok 512 9 3 4 out) by lia.
    cbn [bind]. eexists. split; [reflexivity|]. split.
    + rewrite length_app. cbn [length]. lia.
    + intros k' x' Hk' Hx'. destruct (decide (k' = k)) as [->|Hne].
      * assert (x' = x) as -> by congruence. exists out. split.
        -- rewrite lookup_app_r by lia. rewrite Hl, Nat.sub_diag. reflexivity.
        -- apply (col_epi_of_gather v_stack 512 512 9 x out); (assumption || lia).
      * destruct (Hr k' x') as (payload & Hp & Hepi); [lia|assumption|].
        exists payload. split; [|exact Hepi].
        rewrite lookup_app_l by lia. exact Hp.
  - rewrite Hrun. cbn [bind]. exists epi_h, epi_v. split; [reflexivity|].
    split; [exact Hlen|]. intros k x Hx.
    destruct (Hcols k x) as (payload & Hp & Hepi);
      [apply lookup_lt_Some in Hx; lia|assumption|].
    exists (imgb_header 512 9 3 4 ++ payload), payload.
    split; [exact Hp|]. split; [|exact Hepi].
    apply (BM_imgb_parse_header 512 9 3 4); lia.
Qed.

(** X14. Vertical EPIs.  For a vertical stack of [V] frames of [H] rows by
    [W] pixels and every requested image column [x], the EPI builder
    returns, at the position of [x], a container of width [H] and height
    [V] with 3 channels and encoding 4 whose payload satisfies
    [epi_v[x][v][y] = v_stack[v][y][x]] on each of the 9 bytes of the
    pixel, for every [v] in [0, V) and [y] in [0, H): No_Libraries at
    every geometry, Bit_Manipulation at 512 x 512 with 9 frames. *)
Theorem build_epis_vertical_gathers_columns
    (h_stack v_stack : list (list byte)) (y_rows x_cols : list Z) :
  (forall H W : Z,
     0 <= H < 2 ^ 32 -> 0 <= W < 2 ^ 32 ->
     len h_stack < 2 ^ 32 -> len v_stack < 2 ^ 32 ->
     frame_stack h_stack H W -> frame_stack v_stack H W ->
     Forall (fun y => 0 <= y < H) y_rows -> Forall (fun x => 0 <= x < W) x_cols ->
     exists epi_h epi_v,
       No_Libraries.build_epis_imgb_in_memory h_stack v_stack
         (H, W, len h_stack, len v_stack) y_rows x_cols = Ok (epi_h, epi_v) /\
       vertical_epis No_Libraries.imgb_parse v_stack H W (len v_stack) x_cols epi_v) /\
  (len h_stack = 9 -> len v_stack = 9 ->
   frame_stack h_stack 512 512 -> frame_stack v_stack 512 512 ->
   Forall (fun y => 0 <= y < 512) y_rows -> Forall (fun x => 0 <= x < 512) x_cols ->
   exists epi_h epi_v,
     Bit_Manipulation.build_epis_imgb_in_memory h_stack v_stack
       (512, 512, 9, 9) y_rows x_cols = Ok (epi_h, epi_v) /\
     vertical_epis Bit_Manipulation.imgb_parse v_stack 512 512 9 x_cols epi_v).
Proof.
  split.
  - intros H W. apply NL_build_epis_vertical.
  - apply BM_build_epis_vertical.
Qed.

Lemma build_epis_vertical_gathers_columns_witness :
  (exists epi_h epi_v,
     No_Libraries.build_epis_imgb_in_memory
       [replicate 36 Byte.x01] [replicate 36 Byte.x02; replicate 36 Byte.x03]
       (2, 2, 1, 2) [0; 1] [1] = Ok (epi_h, epi_v) /\
     vertical_epis No_Libraries.imgb_parse
       [replicate 36 Byte.x02; replicate 36 Byte.x03] 2 2 2 [1] epi_v) /\
  (exists epi_h epi_v,
     Bit_Manipulation.build_epis_imgb_in_memory
       (replicate 9 (replicate (Z.to_nat 2359296) Byte.x07))
       (replicate 9 (replicate (Z.to_nat 2359296) Byte.x08))
       (512, 512, 9, 9) [0] [0; 511] = Ok (epi_h, epi_v) /\
     vertical_epis Bit_Manipulation.imgb_parse
       (replicate 9 (replicate (Z.to_nat 2359296) Byte.x08)) 512 512 9 [0; 511] epi_v).
Proof.
  split.
  - apply (proj1 (build_epis_vertical_gathers_columns
                    [replicate 36 Byte.x01]
                    [replicate 36 Byte.x02; replicate 36 Byte.x03] [0; 1] [1]) 2 2).
    + lia.
    + lia.
    + reflexivity.
    + reflexivity.
    + repeat constructor.
    + repeat constructor.
    + repeat constructor; lia.
    + repeat constructor; lia.
  - apply (proj2 (build_epis_vertical_gathers_columns
                    (replicate 9 (replicate (Z.to_nat 2359296) Byte.x07))
                    (replicate 9 (replicate (Z.to_nat 2359296) Byte.x08))
                    [0] [0; 511])).
    + reflexivity.
    + reflexivity.
    + apply Forall_replicate. rewrite len_replicate. lia.
    + apply Forall_replicate. rewrite len_replicate. lia.
    + repeat constructor; lia.
    + repeat constructor; lia.
Defined.

(** ** Confidence: the interior differences and their mean *)

Lemma u24_at_read (payload : list byte) (off u : Z) :
  No_Libraries._u24_read payload off = Ok u -> u24_at payload off = u.
Proof. intros H. unfold u24_at. rewrite H. reflexivity. Qed.

Lemma abs_i32_abs (x : Z) : No_Libraries._abs_i32 x = Z.abs x.
Proof. unfold No_Libraries._abs_i32. destruct (Z.ltb_spec x 0); lia. Qed.

Lemma NL_diff_interior_row_full (pay : list byte) (A n ch a : Z)
    (out0 : list byte) (sum0 : list Z) :
  0 <= n -> 0 < a < A - 1 -> 0 <= ch < 3 ->
  len pay = A * n * 9 -> len out0 = A * n * 3 -> len sum0 = n ->
  exists out sum_abs,
    for_each (range n) (fun x '(out_diff, sum_abs) =>
      um <- No_Libraries._u24_read pay (((a - 1) * n + x) * 9 + ch * 3) ;
      up <- No_Libraries._u24_read pay (((a + 1) * n + x) * 9 + ch * 3) ;
      out_diff <- No_Libraries._u24_write out_diff (a * n * 3 + x * 3)
        (No_Libraries._bias_from_q12_12
           (No_Libraries._round_div2
              (up - No_Libraries.BIAS_INT - (um - No_Libraries.BIAS_INT)))) ;
      s <- getitem sum_abs x ;
      sum_abs <- setitem sum_abs x
        (s + No_Libraries._abs_i32
               (No_Libraries._round_div2
                  (up - No_Libraries.BIAS_INT - (um - No_Libraries.BIAS_INT)))) ;
      Ok (out_diff, sum_abs)) (out0, sum0) = Ok (out, sum_abs) /\
    len out = A * n * 3 /\ len sum_abs = n /\
    (forall j, 0 <= j -> j < a * n * 3 \/ (a + 1) * n * 3 <= j ->
       out !! Z.to_nat j = out0 !! Z.to_nat j) /\
    (forall x, 0 <= x < n ->
       No_Libraries._u24_read out ((a * n + x) * 3) =
         Ok (No_Libraries._bias_from_q12_12 (central_diff pay n ch a x))) /\
    (forall x s, 0 <= x < n -> sum0 !! Z.to_nat x = Some s ->
       sum_abs !! Z.to_nat x = Some (s + Z.abs (central_diff pay n ch a x))).
Proof.
  intros Hn Ha Hch Hpay Hout Hsum.
  match goal with
  | |- exists out sum_abs, for_each _ ?body ?s0 = _ /\ _ =>
      destruct (for_range_inv n body
        (fun x '(out, sum_abs) => len out = A * n * 3 /\ len sum_abs = n /\
           (forall j, 0 <= j -> j < a * n * 3 \/ a * n * 3 + x * 3 <= j ->
              out !! Z.to_nat j = out0 !! Z.to_nat j) /\
           (forall x', 0 <= x' < x ->
              No_Libraries._u24_read out ((a * n + x') * 3) =
                Ok (No_Libraries._bias_from_q12_12 (central_diff pay n ch a x'))) /\
           (forall x' s, 0 <= x' < n -> sum0 !! Z.to_nat x' = Some s ->
              sum_abs !! Z.to_nat x' =
                Some (if x' <? x then s + Z.abs (central_diff pay n ch a x') else s))) s0)
        as ([out sum_abs] & Hrun & Hl & Hs & Hframe & Hcont & Hsums)
  end.
  - split; [exact Hout|]. split; [exact Hsum|]. split; [intros j _ _; reflexivity|].
    split; [intros x' Hx'; lia|].
    intros x' s Hx' Hs. rewrite (proj2 (Z.ltb_ge x' 0)) by lia. exact Hs.
  - intros x [out sum_abs] Hx (Hl & Hs & Hframe & Hcont & Hsums).
    destruct (u24_read_in_range pay (((a - 1) * n + x) * 9 + ch * 3)) as (um & Hum & _);
      [nia|nia|].
    destruct (u24_read_in_range pay (((a + 1) * n + x) * 9 + ch * 3)) as (up & Hup & _);
      [nia|nia|].
    rewrite Hum. cbn [bind]. rewrite Hup. cbn [bind].
    assert (Hd : No_Libraries._round_div2
                   (up - No_Libraries.BIAS_INT - (um - No_Libraries.BIAS_INT)) =
                 central_diff pay n ch a x).
    { unfold central_diff, epi_value.
      rewrite (u24_at_read _ _ _ Hum), (u24_at_read _ _ _ Hup). reflexivity. }
    rewrite Hd.
    destruct (u24_write_spec out (a * n * 3 + x * 3)
                (No_Libraries._bias_from_q12_12 (central_diff pay n ch a x)))
      as (out' & Hw & Hl' & Hnew & Hold); [nia|nia|].
    rewrite Hw. cbn [bind].
    destruct (getitem_in_range sum_abs x) as (s & Hsx & Hgs); [lia|].
    rewrite Hgs. cbn [bind]. rewrite setitem_in_range by lia. cbn [bind].
    eexists. split; [reflexivity|]. cbv beta iota.
    split; [lia|]. split; [unfold len; rewrite length_insert; exact Hs|].
    split; [|split].
    + intros j Hj0 Hj. rewrite Hold by nia. apply Hframe; [assumption|lia].
    + intros x' Hx'. destruct (Z.eq_dec x' x) as [->|Hne].
      * replace ((a * n + x) * 3) with (a * n * 3 + x * 3) by lia.
        rewrite Hnew. rewrite land_u24_small by apply NL_bias_range. reflexivity.
      * rewrite (u24_read_frame out out') by (nia || (intros j Hj; apply Hold; nia)).
        apply Hcont. lia.
    + intros x' s' Hx' Hs'. destruct (Z.eq_dec x' x) as [->|Hne].
      * rewrite list_lookup_insert_eq by (unfold len in Hs; lia).
        rewrite (proj2 (Z.ltb_lt x (x + 1))) by lia.
        pose proof (Hsums x s' Hx' Hs') as Hprev.
        rewrite (proj2 (Z.ltb_ge x x)) in Hprev by lia.
        rewrite Hsx in Hprev. injection Hprev as ->.
        rewrite abs_i32_abs. reflexivity.
      * rewrite list_lookup_insert_ne by lia.
        rewrite (Hsums x' s' Hx' Hs').
        destruct (Z.ltb_spec x' x), (Z.ltb_spec x' (x + 1)); (reflexivity || lia).
  - rewrite Z.max_r in Hframe, Hcont, Hsums by lia.
    exists out, sum_abs. split; [exact Hrun|]. split; [exact Hl|]. split; [exact Hs|].
    split; [|split].
    + intros j Hj0 Hj. apply Hframe; [assumption|nia].
    + exact Hcont.
    + intros x s Hx Hsx. rewrite (Hsums x s Hx Hsx).
      rewrite (proj2 (Z.ltb_lt x n)) by lia. reflexivity.
Qed.

Lemma abs_diff_sum_nil (pay : list byte) (n ch k x : Z) :
  k <= 0 -> abs_diff_sum pay n ch k x = 0.
Proof.
  intros Hk. unfold abs_diff_sum, seqZ.
  replace (Z.to_nat k) with 0%nat by lia. reflexivity.
Qed.

Lemma abs_diff_sum_succ (pay : list byte) (n ch k x : Z) :
  0 <= k ->
  abs_diff_sum pay n ch (k + 1) x =
    abs_diff_sum pay n ch k x + Z.abs (central_diff pay n ch (k + 1) x).
Proof.
  intros Hk. unfold abs_diff_sum.
  rewrite seqZ_app by lia. rewrite fmap_app, sum_list_app.
  change (seqZ (1 + k) 1) with [1 + k]. cbn [fmap list_fmap sum_list foldr].
  replace (1 + k) with (k + 1) by lia. lia.
Qed.

Lemma abs_diff_sum_nonneg (pay : list byte) (n ch k x : Z) :
  0 <= abs_diff_sum pay n ch k x.
Proof.
  unfold abs_diff_sum. induction (seqZ 1 k) as [|a l IH]; cbn; [lia|].
  unfold sum_list in IH. lia.
Qed.

Lemma NL_diff_volume_full (pay : list byte) (A n ch : Z) :
  3 <= A -> 0 <= n -> 0 <= ch < 3 -> len pay = A * n * 9 ->
  exists out sum_abs,
    No_Libraries.diff_volume pay A n ch = Ok (out, sum_abs) /\
    len out = A * n * 3 /\ len sum_abs = n /\
    borders_zero n A out /\
    interior_diffs pay n A ch out /\
    forall x, 0 <= x < n ->
      sum_abs !! Z.to_nat x = Some (abs_diff_sum pay n ch (A - 2) x).
Proof.
  intros HA Hn Hch Hpay. unfold No_Libraries.diff_volume. cbv zeta.
  rewrite bytearray_ok by nia. cbn [bind].
  match goal with
  | |- exists out sum_abs, for_each _ ?body ?s0 = _ /\ _ =>
      destruct (for_range_inv A body
        (fun a '(out, sum_abs) => len out = A * n * 3 /\ len sum_abs = n /\
           (forall a' x, 0 <= a' < a -> a' = 0 \/ a' = A - 1 -> 0 <= x < n ->
              No_Libraries._u24_read out ((a' * n + x) * 3) = Ok 8388608) /\
           (forall a' x, 0 <= a' < a -> 0 < a' < A - 1 -> 0 <= x < n ->
              No_Libraries._u24_read out ((a' * n + x) * 3) =
                Ok (No_Libraries._bias_from_q12_12 (central_diff pay n ch a' x))) /\
           (forall x, 0 <= x < n ->
              sum_abs !! Z.to_nat x =
                Some (abs_diff_sum pay n ch (Z.min (a - 1) (A - 2)) x))) s0)
        as ([out sum_abs] & Hrun & Hl & Hs & Hb & Hint & Hsum)
  end.
  - split; [rewrite len_replicate; nia|]. split; [apply len_list_repeat; lia|].
    split; [intros a' x Ha'; lia|]. split; [intros a' x Ha'; lia|].
    intros x Hx. rewrite list_repeat_lookup by lia.
    rewrite abs_diff_sum_nil by lia. reflexivity.
  - intros a [out sum_abs] Ha (Hl & Hs & Hb & Hint & Hsum).
    destruct ((a =? 0) || (a =? A - 1)) eqn:Hborder.
    + assert (Hbd : a = 0 \/ a = A - 1).
      { apply orb_true_iff in Hborder as [H0|H1];
          [left; apply Z.eqb_eq; exact H0|right; apply Z.eqb_eq; exact H1]. }
      match goal with
      | |- exists s', bind (for_each _ ?body ?s0) _ = _ /\ _ =>
          destruct (u24_fill n (a * n * 3) (A * n * 3)
                      (fun _ => No_Libraries.BIAS_INT) body s0)
            as (out' & Hrun' & Hl' & Hread & Hframe)
      end.
      * nia.
      * lia.
      * nia.
      * exact Hl.
      * intros i o Hi Hlo. reflexivity.
      * rewrite Hrun'. cbn [bind]. eexists. split; [reflexivity|]. cbv beta iota.
        split; [exact Hl'|]. split; [exact Hs|]. split; [|split].
        -- intros a' x Ha' Hbd' Hx. destruct (Z.eq_dec a' a) as [->|Hne].
           ++ replace ((a * n + x) * 3) with (a * n * 3 + x * 3) by lia.
              apply (Hread x Hx).
           ++ rewrite (u24_read_frame out out'); [apply Hb; (lia || assumption)|nia|nia|].
              intros j Hj. apply Hframe; nia.
        -- intros a' x Ha' Hin Hx.
           rewrite (u24_read_frame out out'); [apply Hint; (lia || assumption)|nia|nia|].
           intros j Hj. apply Hframe; nia.
        -- intros x Hx. rewrite (Hsum x Hx). f_equal.
           destruct Hbd as [->| ->].
           ++ rewrite !abs_diff_sum_nil by lia. reflexivity.
           ++ f_equal. lia.
    + apply orb_false_iff in Hborder as [H0 H1].
      apply Z.eqb_neq in H0. apply Z.eqb_neq in H1.
      destruct (NL_diff_interior_row_full pay A n ch a out sum_abs)
        as (out' & sum' & Hrun' & Hl' & Hs' & Hframe & Hnew & Hsums);
        try assumption; [lia|].
      rewrite Hrun'. eexists. split; [reflexivity|]. cbv beta iota.
      split; [exact Hl'|]. split; [exact Hs'|]. split; [|split].
      * intros a' x Ha' Hbd Hx.
        rewrite (u24_read_frame out out'); [apply Hb; (lia || assumption)|nia|nia|].
        intros j Hj. apply Hframe; nia.
      * intros a' x Ha' Hin Hx. destruct (Z.eq_dec a' a) as [->|Hne].
        -- apply Hnew. exact Hx.
        -- rewrite (u24_read_frame out out'); [apply Hint; (lia || assumption)|nia|nia|].
           intros j Hj. apply Hframe; nia.
      * intros x Hx. rewrite (Hsums x _ Hx (Hsum x Hx)). f_equal.
        replace (Z.min (a - 1) (A - 2)) with (a - 1) by lia.
        replace (Z.min (a + 1 - 1) (A - 2)) with (a - 1 + 1) by lia.
        rewrite abs_diff_sum_succ by lia.
        replace (a - 1 + 1) with a by lia. reflexivity.
  - rewrite Z.max_r in Hb, Hint, Hsum by lia.
    exists out, sum_abs. split; [exact Hrun|]. split; [exact Hl|]. split; [exact Hs|].
    split; [|split].
    + intros a x Ha Hx. apply Hb; [lia|exact Ha|exact Hx].
    + intros a x Ha Hx. apply Hint; [lia|exact Ha|exact Hx].
    + intros x Hx. rewrite (Hsum x Hx). f_equal. f_equal. lia.
Qed.

(** The loop that turns the per-pixel sums of one EPI into rounded means,
    writing them at the positions [idx j] of the confidence map. *)
Lemma mean_loop (sum_abs : list Z) (n denom : Z) (idx : Z -> Z) (C0 : list Z) :
  0 <= n -> len sum_abs = n -> denom <> 0 ->
  (forall j, 0 <= j < n -> 0 <= idx j < len C0) ->
  (forall j j', 0 <= j < n -> 0 <= j' < n -> idx j = idx j' -> j = j') ->
  exists C,
    for_each (range n) (fun j C_q =>
      s <- getitem sum_abs j ;
      m <- floordiv (s + denom / 2) denom ;
      setitem C_q (idx j) m) C0 = Ok C /\
    len C = len C0 /\
    (forall j s, 0 <= j < n -> sum_abs !! Z.to_nat j = Some s ->
       C !! Z.to_nat (idx j) = Some ((s + denom / 2) / denom)) /\
    (forall i, 0 <= i -> (forall j, 0 <= j < n -> i <> idx j) ->
       C !! Z.to_nat i = C0 !! Z.to_nat i).
Proof.
  intros Hn Hlen Hden Hidx Hinj.
  match goal with
  | |- exists C, for_each _ ?body ?s0 = _ /\ _ =>
      destruct (for_range_inv n body
        (fun j C => len C = len C0 /\
           (forall j' s, 0 <= j' < j -> sum_abs !! Z.to_nat j' = Some s ->
              C !! Z.to_nat (idx j') = Some ((s + denom / 2) / denom)) /\
           (forall i, 0 <= i -> (forall j', 0 <= j' < j -> i <> idx j') ->
              C !! Z.to_nat i = C0 !! Z.to_nat i)) s0)
        as (C & Hrun & Hl & Hnew & Hold)
  end.
  - split; [reflexivity|]. split; [intros j' s Hj'; lia|]. intros; reflexivity.
  - intros j C Hj (Hl & Hnew & Hold).
    destruct (getitem_in_range sum_abs j) as (s & Hs & Hgs); [lia|].
    rewrite Hgs. cbn [bind]. rewrite floordiv_ok by exact Hden. cbn [bind].
    pose proof (Hidx j Hj) as Hij.
    rewrite setitem_in_range by lia.
    eexists. split; [reflexivity|]. split; [|split].
    + unfold len. rewrite length_insert. exact Hl.
    + intros j' s' Hj' Hs'. destruct (Z.eq_dec j' j) as [->|Hne].
      * rewrite list_lookup_insert_eq by (unfold len in Hl, Hij; lia).
        congruence.
      * rewrite list_lookup_insert_ne.
        -- apply Hnew; [lia|exact Hs'].
        -- intros Heq. apply Hne. symmetry. apply Hinj; [lia|lia|].
           pose proof (Hidx j' ltac:(lia)). lia.
    + intros i Hi Hfree. rewrite list_lookup_insert_ne.
      * apply Hold; [exact Hi|]. intros j' Hj'. apply Hfree. lia.
      * intros Heq. apply (Hfree j ltac:(lia)). lia.
  - rewrite Z.max_r in Hnew, Hold by lia.
    exists C. split; [exact Hrun|]. split; [exact Hl|]. split; [exact Hnew|exact Hold].
Qed.

Lemma NL_axis_loop_full (epis : list (list byte)) (count n A ch : Z)
    (idx : Z -> Z -> Z) (C_q0 : list Z) :
  3 <= A < 2 ^ 32 -> 0 <= n < 2 ^ 32 -> 0 <= ch < 3 ->
  len epis = count -> epi_volumes epis n A ->
  (forall k j, 0 <= k < count -> 0 <= j < n -> 0 <= idx k j < len C_q0) ->
  (forall k j k' j', 0 <= k < count -> 0 <= j < n -> 0 <= k' < count -> 0 <= j' < n ->
     idx k j = idx k' j' -> k = k' /\ j = j') ->
  exists dL C_q,
    for_each (range count) (fun k '(dL, C_q) =>
      epi <- getitem epis k ;
      '(out_diff, sum_abs) <-
        No_Libraries.diff_volume (No_Libraries.imbg_parse_payload epi) A n ch ;
      C_q <- for_each (range n) (fun j C_q =>
        s <- getitem sum_abs j ;
        m <- floordiv (s + (A - 2) / 2) (A - 2) ;
        setitem C_q (idx k j) m) C_q ;
      blob <- No_Libraries.imgb_make n A 1 4 out_diff ;
      Ok (dL ++ [blob], C_q)) ([], C_q0) = Ok (dL, C_q) /\
    len C_q = len C_q0 /\
    axis_differences No_Libraries.imgb_parse epis dL n A ch /\
    (forall k j epi, 0 <= k -> 0 <= j < n -> epis !! Z.to_nat k = Some epi ->
       C_q !! Z.to_nat (idx k j) =
         Some ((abs_diff_sum (No_Libraries.imbg_parse_payload epi) n ch (A - 2) j
                + (A - 2) / 2) / (A - 2))).
Proof.
  intros HA Hn Hch Hcount Hepis Hidx Hinj.
  assert (Hc0 : 0 <= count) by (rewrite <- Hcount; apply len_nonneg).
  match goal with
  | |- exists dL C_q, for_each _ ?body ?s0 = _ /\ _ =>
      destruct (for_range_inv count body
        (fun k '(dL, C_q) => len C_q = len C_q0 /\ len dL = k /\
           (forall k' epi, (Z.of_nat k' < k) -> epis !! k' = Some epi ->
              exists blob payload,
                dL !! k' = Some blob /\
                No_Libraries.imgb_parse blob = Ok (n, A, 1, 4, payload) /\
                borders_zero n A payload /\
                interior_diffs (No_Libraries.imbg_parse_payload epi) n A ch payload) /\
           (forall k' j epi, 0 <= k' < k -> 0 <= j < n ->
              epis !! Z.to_nat k' = Some epi ->
              C_q !! Z.to_nat (idx k' j) =
                Some ((abs_diff_sum (No_Libraries.imbg_parse_payload epi) n ch (A - 2) j
                       + (A - 2) / 2) / (A - 2)))) s0)
        as ([dL C_q] & Hrun & Hl & Hdl & Hd & Hc)
  end.
  - split; [reflexivity|]. split; [reflexivity|].
    split; [intros k' epi Hk'; lia|]. intros k' j epi Hk'. lia.
  - intros k [dL C_q] Hk (Hl & Hdl & Hd & Hc).
    destruct (epi_volume_payload epis n A k Hepis) as (epi & pay & Hget & _ & Hpl & Hpay);
      [lia|lia|lia|].
    pose proof (getitem_Ok_inv epis k epi ltac:(lia) Hget) as [Hepik _].
    rewrite Hget. cbn [bind]. rewrite Hpay.
    destruct (NL_diff_volume_full pay A n ch)
      as (out & sum_abs & Hdv & Hol & Hsl & Hb & Hint & Hsum); [lia|lia|lia|lia|].
    rewrite Hdv. cbn [bind].
    destruct (mean_loop sum_abs n (A - 2) (idx k) C_q)
      as (C_q' & Hrun' & Hl' & Hnew & Hold); [lia|exact Hsl|lia| |
        |].
    { intros j Hj. rewrite Hl. apply Hidx; lia. }
    { intros j j' Hj Hj' Heq. apply (Hinj k j k j'); (lia || assumption). }
    rewrite Hrun'. cbn [bind].
    rewrite (NL_imgb_make_ok n A 1 4 3 out) by (reflexivity || lia).
    cbn [bind]. eexists. split; [reflexivity|]. cbv beta iota.
    split; [lia|]. split; [|split].
    + rewrite len_app. unfold len at 2. cbn [length]. lia.
    + intros k' epi' Hk' Hepi'.
      destruct (decide (k' = length dL)) as [->|Hne].
      * assert (epi' = epi) as ->.
        { unfold len in Hdl. replace (Z.to_nat k) with (length dL) in Hepik by lia.
          congruence. }
        exists (imgb_header n A 1 4 ++ out), out.
        split; [rewrite lookup_app_r by lia; rewrite Nat.sub_diag; reflexivity|].
        split; [apply (NL_imgb_parse_header n A 1 4 3); try (reflexivity || lia)|].
        rewrite Hpay. split; [exact Hb|exact Hint].
      * destruct (Hd k' epi') as (blob & payload & Hblob & Hrest);
          [unfold len in Hdl; lia|exact Hepi'|].
        exists blob, payload. split; [|exact Hrest].
        rewrite lookup_app_l; [exact Hblob|]. unfold len in Hdl. lia.
    + intros k' j epi' Hk' Hj Hepi'.
      destruct (Z.eq_dec k' k) as [->|Hne].
      * assert (epi' = epi) as -> by congruence. rewrite Hpay.
        apply Hnew; [exact Hj|apply Hsum; exact Hj].
      * rewrite Hold.
        -- apply Hc; (lia || assumption).
        -- pose proof (Hidx k' j ltac:(lia) Hj). lia.
        -- intros j' Hj' Heq.
           destruct (Hinj k' j k j') as [Hkk _]; (lia || assumption).
  - rewrite Z.max_r in Hdl, Hd, Hc by lia.
    exists dL, C_q. split; [exact Hrun|]. split; [exact Hl|]. split.
    + split; [lia|]. intros k epi Hepi. apply Hd; [|exact Hepi].
      apply lookup_lt_Some in Hepi. unfold len in Hcount. lia.
    + intros k j epi Hk Hj Hepi. apply Hc; [|exact Hj|exact Hepi].
      apply lookup_lt_Some in Hepi. unfold len in Hcount. lia.
Qed.

Lemma row_major_inj (W y x y' x' : Z) :
  0 <= x < W -> 0 <= x' < W -> y * W + x = y' * W + x' -> y = y' /\ x = x'.
Proof.
  intros Hx Hx' Heq.
  assert (Hy : y = y').
  { destruct (Z.lt_trichotomy y y') as [Hlt|[Heq'|Hgt]]; [|exact Heq'|].
    - assert (y * W + W <= y' * W) by nia. lia.
    - assert (y' * W + W <= y * W) by nia. lia. }
  subst y'. split; [reflexivity|lia].
Qed.

Lemma axis_confidence_of_map (epis : list (list byte)) (count n A ch : Z)
    (idx : Z -> Z -> Z) (C_q : list Z) (N : Z) (payload : list byte) :
  3 <= A -> len epis = count ->
  (forall k j, 0 <= k < count -> 0 <= j < n -> 0 <= idx k j < N) ->
  (forall k j epi, 0 <= k -> 0 <= j < n -> epis !! Z.to_nat k = Some epi ->
     C_q !! Z.to_nat (idx k j) =
       Some ((abs_diff_sum (No_Libraries.imbg_parse_payload epi) n ch (A - 2) j
              + (A - 2) / 2) / (A - 2))) ->
  (forall i q, 0 <= i < N -> C_q !! Z.to_nat i = Some q ->
     No_Libraries._u24_read payload (i * 3) = Ok (No_Libraries._bias_from_q12_12 q)) ->
  axis_confidence epis n A ch idx payload.
Proof.
  intros HA Hcount Hidx Hmap Hpack k j epi Hk Hj Hepi.
  eexists. split; [apply round_half_up_nearest; lia|].
  apply Hpack; [|apply (Hmap k j epi Hk Hj Hepi)].
  apply Hidx; [|exact Hj]. apply lookup_lt_Some in Hepi. unfold len in Hcount. lia.
Qed.

Lemma NL_confidence_full (epi_h_imgb epi_v_imgb : list (list byte))
    (channel : option Z) (W H A ch : Z) :
  0 < H < 2 ^ 32 -> 0 < W < 2 ^ 32 -> 3 <= A < 2 ^ 32 ->
  len epi_h_imgb = H -> len epi_v_imgb = W ->
  epi_volumes epi_h_imgb W A -> epi_volumes epi_v_imgb H A ->
  channel_ok channel -> ch = match channel with None => 0 | Some c => c end ->
  exists C_h C_v dL_du_h dL_dv_v,
    No_Libraries.compute_from_epis_with_diffs epi_h_imgb epi_v_imgb channel =
      Ok (C_h, C_v, dL_du_h, dL_dv_v) /\
    axis_differences No_Libraries.imgb_parse epi_h_imgb dL_du_h W A ch /\
    axis_differences No_Libraries.imgb_parse epi_v_imgb dL_dv_v H A ch /\
    scalar_map No_Libraries.imgb_parse C_h W H
      (axis_confidence epi_h_imgb W A ch (fun y x => y * W + x)) /\
    scalar_map No_Libraries.imgb_parse C_v W H
      (axis_confidence epi_v_imgb H A ch (fun x y => y * W + x)).
Proof.
  intros HH HW HA HlenH HlenW Hepih Hepiv Hchan Hchv. subst H.
  assert (Hch : 0 <= ch < 3).
  { subst ch. destruct channel as [c|]; [exact Hchan|lia]. }
  unfold No_Libraries.compute_from_epis_with_diffs. cbv zeta. rewrite <- Hchv.
  rewrite HlenW. zbool.
  destruct (epi_volume_payload epi_h_imgb W A 0 Hepih)
    as (eh0 & ph0 & Hgeth & -> & Hplh & _); [lia|lia|lia|].
  destruct (epi_volume_payload epi_v_imgb (len epi_h_imgb) A 0 Hepiv)
    as (ev0 & pv0 & Hgetv & -> & Hplv & _); [lia|lia|lia|].
  rewrite Hgeth. cbn [bind].
  rewrite (NL_imgb_parse_header W A 3 4 3 ph0) by (reflexivity || lia).
  cbn [bind]. rewrite Hgetv. cbn [bind].
  rewrite (NL_imgb_parse_header (len epi_h_imgb) A 3 4 3 pv0) by (reflexivity || lia).
  cbn [bind]. zbool.
  destruct (NL_axis_loop_full epi_h_imgb (len epi_h_imgb) W A ch
              (fun y x => y * W + x) (list_repeat 0 (len epi_h_imgb * W)))
    as (dLh & Chq & Hrunh & Hlh & Hdh & Hmh); [lia|lia|lia|reflexivity|exact Hepih| | |].
  { intros k j Hk Hj. rewrite len_list_repeat by nia. nia. }
  { intros k j k' j' Hk Hj Hk' Hj' Heq. apply (row_major_inj W k j k' j'); assumption. }
  destruct (NL_axis_loop_full epi_v_imgb W (len epi_h_imgb) A ch
              (fun x y => y * W + x) (list_repeat 0 (len epi_h_imgb * W)))
    as (dLv & Cvq & Hrunv & Hlv & Hdv & Hmv); [lia|lia|lia|exact HlenW|exact Hepiv| | |].
  { intros k j Hk Hj. rewrite len_list_repeat by nia. nia. }
  { intros k j k' j' Hk Hj Hk' Hj' Heq.
    destruct (row_major_inj W j k j' k') as [-> ->]; auto. }
  cbv beta in Hrunh, Hrunv.
  rewrite len_list_repeat in Hlh, Hlv by nia.
  destruct (NL_pack_q Chq (len epi_h_imgb * W)) as (ph & Hpackh & Hphl & Hreadh);
    [nia|exact Hlh|].
  destruct (NL_pack_q Cvq (len epi_h_imgb * W)) as (pv & Hpackv & Hpvl & Hreadv);
    [nia|exact Hlv|].
  rewrite Hrunh. cbn [bind]. rewrite Hpackh. cbn [bind].
  rewrite (NL_imgb_make_ok W (len epi_h_imgb) 1 4 3 ph) by (reflexivity || lia).
  cbn [bind]. rewrite Hrunv. cbn [bind]. rewrite Hpackv. cbn [bind].
  rewrite (NL_imgb_make_ok W (len epi_h_imgb) 1 4 3 pv) by (reflexivity || lia).
  cbn [bind].
  eexists _, _, dLh, dLv. split; [reflexivity|].
  split; [exact Hdh|]. split; [exact Hdv|]. split.
  - exists ph. split.
    + apply (NL_imgb_parse_header W (len epi_h_imgb) 1 4 3); try (reflexivity || lia).
    + apply (axis_confidence_of_map epi_h_imgb (len epi_h_imgb) W A ch _ Chq
               (len epi_h_imgb * W)); try assumption; [lia|reflexivity|].
      intros k j Hk Hj. nia.
  - exists pv. split.
    + apply (NL_imgb_parse_header W (len epi_h_imgb) 1 4 3); try (reflexivity || lia).
    + apply (axis_confidence_of_map epi_v_imgb W (len epi_h_imgb) A ch _ Cvq
               (len epi_h_imgb * W)); try assumption; [lia|].
      intros k j Hk Hj. nia.
Qed.

(** X15. The confidence stage of No_Libraries for [A >= 3] angular
    samples, on EPI containers as the EPI builder makes them: it returns,
    per axis, one difference container per EPI whose border rows are zero
    and whose interior rows hold
    [d = round_half_div2(L[a+1][x] - L[a-1][x])] of the selected channel
    (stored biased, saturating), and a confidence map in which the sample
    of pixel [(y, x)] is the sum of [|d|] over the [A - 2] interior rows,
    divided by [A - 2] and rounded to nearest: for [C_h] from pixel [x] of
    horizontal EPI [y], for [C_v] from pixel [y] of vertical EPI [x]. *)
Theorem confidence_mean_abs_central_difference
    (epi_h_imgb epi_v_imgb : list (list byte)) (channel : option Z) (W H A ch : Z) :
  0 < H < 2 ^ 32 -> 0 < W < 2 ^ 32 -> 3 <= A < 2 ^ 32 ->
  len epi_h_imgb = H -> len epi_v_imgb = W ->
  epi_volumes epi_h_imgb W A -> epi_volumes epi_v_imgb H A ->
  channel_ok channel -> ch = match channel with None => 0 | Some c => c end ->
  exists C_h C_v dL_du_h dL_dv_v,
    No_Libraries.compute_from_epis_with_diffs epi_h_imgb epi_v_imgb channel =
      Ok (C_h, C_v, dL_du_h, dL_dv_v) /\
    axis_differences No_Libraries.imgb_parse epi_h_imgb dL_du_h W A ch /\
    axis_differences No_Libraries.imgb_parse epi_v_imgb dL_dv_v H A ch /\
    scalar_map No_Libraries.imgb_parse C_h W H
      (axis_confidence epi_h_imgb W A ch (fun y x => y * W + x)) /\
    scalar_map No_Libraries.imgb_parse C_v W H
      (axis_confidence epi_v_imgb H A ch (fun x y => y * W + x)).
Proof. apply NL_confidence_full. Qed.

Lemma confidence_mean_abs_central_difference_witness :
  exists C_h C_v dL_du_h dL_dv_v,
    No_Libraries.compute_from_epis_with_diffs
      [imgb_header 2 3 3 4 ++ replicate 54 Byte.x2a]
      [imgb_header 1 3 3 4 ++ replicate 27 Byte.x2a;
       imgb_header 1 3 3 4 ++ replicate 27 Byte.x2a] (Some 2) =
      Ok (C_h, C_v, dL_du_h, dL_dv_v) /\
    axis_differences No_Libraries.imgb_parse
      [imgb_header 2 3 3 4 ++ replicate 54 Byte.x2a] dL_du_h 2 3 2 /\
    axis_differences No_Libraries.imgb_parse
      [imgb_header 1 3 3 4 ++ replicate 27 Byte.x2a;
       imgb_header 1 3 3 4 ++ replicate 27 Byte.x2a] dL_dv_v 1 3 2 /\
    scalar_map No_Libraries.imgb_parse C_h 2 1
      (axis_confidence [imgb_header 2 3 3 4 ++ replicate 54 Byte.x2a] 2 3 2
         (fun y x => y * 2 + x)) /\
    scalar_map No_Libraries.imgb_parse C_v 2 1
      (axis_confidence
         [imgb_header 1 3 3 4 ++ replicate 27 Byte.x2a;
          imgb_header 1 3 3 4 ++ replicate 27 Byte.x2a] 1 3 2
         (fun x y => y * 2 + x)).
Proof.
  apply (confidence_mean_abs_central_difference
           [imgb_header 2 3 3 4 ++ replicate 54 Byte.x2a]
           [imgb_header 1 3 3 4 ++ replicate 27 Byte.x2a;
            imgb_header 1 3 3 4 ++ replicate 27 Byte.x2a] (Some 2) 2 1 3 2).
  - lia.
  - lia.
  - lia.
  - reflexivity.
  - reflexivity.
  - repeat constructor. exists (replicate 54 Byte.x2a). split; reflexivity.
  - repeat constructor; exists (replicate 27 Byte.x2a); split; reflexivity.
  - cbn. lia.
  - reflexivity.
Defined.

Lemma cell_index_decompose (W H i : Z) :
  0 < W -> 0 <= i < H * W -> exists y x, 0 <= y < H /\ 0 <= x < W /\ i = y * W + x.
Proof.
  intros HW Hi. exists (i / W), (i mod W).
  pose proof (Z.div_mod i W ltac:(lia)). pose proof (Z.mod_pos_bound i W ltac:(lia)).
  assert (0 <= i / W) by (apply Z.div_pos; lia).
  assert (i / W < H) by (apply Z.div_lt_upper_bound; lia).
  repeat split; lia.
Qed.

Lemma nearest_quotient_nonneg (acc ks q : Z) :
  0 < ks -> 0 <= acc -> is_nearest_quotient acc ks q -> 0 <= q.
Proof. unfold is_nearest_quotient. intros Hks Hacc Hq. nia. Qed.

Lemma axis_confidence_nonneg (epis : list (list byte)) (count n A ch : Z)
    (idx : Z -> Z -> Z) (C : list byte) (N : Z) :
  3 <= A -> len epis = count ->
  (forall i, 0 <= i < N -> exists k j, 0 <= k < count /\ 0 <= j < n /\ i = idx k j) ->
  axis_confidence epis n A ch idx C -> all_nonneg N C.
Proof.
  intros HA Hcount Hcover Hconf i Hi.
  destruct (Hcover i Hi) as (k & j & Hk & Hj & ->).
  destruct (lookup_lt_is_Some_2 epis (Z.to_nat k)) as [epi Hepi];
    [unfold len in Hcount; lia|].
  destruct (Hconf k j epi ltac:(lia) Hj Hepi) as (q & Hq & Hread).
  eexists. split; [exact Hread|].
  apply nearest_quotient_nonneg in Hq; [|lia|apply abs_diff_sum_nonneg].
  destruct (NL_bias_from_q12_12_saturating q) as (_ & Hhi & Hmid & _).
  destruct (Z_le_gt_dec q (16777215 - 8388608)); [rewrite Hmid; lia|rewrite Hhi; lia].
Qed.

(** X16. The confidence maps of No_Libraries never hold a negative value:
    for [A >= 3], every sample of [C_h] and of [C_v] is stored as at least
    the bias 8388608, that is, decodes to a value [>= 0]. *)
Theorem confidence_never_negative
    (epi_h_imgb epi_v_imgb : list (list byte)) (channel : option Z) (W H A : Z) :
  0 < H < 2 ^ 32 -> 0 < W < 2 ^ 32 -> 3 <= A < 2 ^ 32 ->
  len epi_h_imgb = H -> len epi_v_imgb = W ->
  epi_volumes epi_h_imgb W A -> epi_volumes epi_v_imgb H A ->
  channel_ok channel ->
  exists C_h C_v dL_du_h dL_dv_v,
    No_Libraries.compute_from_epis_with_diffs epi_h_imgb epi_v_imgb channel =
      Ok (C_h, C_v, dL_du_h, dL_dv_v) /\
    scalar_map No_Libraries.imgb_parse C_h W H (all_nonneg (H * W)) /\
    scalar_map No_Libraries.imgb_parse C_v W H (all_nonneg (H * W)).
Proof.
  intros HH HW HA HlenH HlenW Hepih Hepiv Hchan.
  destruct (NL_confidence_full epi_h_imgb epi_v_imgb channel W H A _
              HH HW HA HlenH HlenW Hepih Hepiv Hchan eq_refl)
    as (C_h & C_v & dLh & dLv & Hrun & _ & _ & (ph & Hph & Hch) & (pv & Hpv & Hcv)).
  exists C_h, C_v, dLh, dLv. split; [exact Hrun|]. split.
  - exists ph. split; [exact Hph|].
    apply (axis_confidence_nonneg epi_h_imgb H W A
             (match channel with None => 0 | Some c => c end)
             (fun y x => y * W + x) ph (H * W)); [lia|exact HlenH| |exact Hch].
    intros i Hi. destruct (cell_index_decompose W H i) as (y & x & Hy & Hx & ->);
      [lia|lia|]. exists y, x. auto.
  - exists pv. split; [exact Hpv|].
    apply (axis_confidence_nonneg epi_v_imgb W H A
             (match channel with None => 0 | Some c => c end)
             (fun x y => y * W + x) pv (H * W)); [lia|exact HlenW| |exact Hcv].
    intros i Hi. destruct (cell_index_decompose W H i) as (y & x & Hy & Hx & ->);
      [lia|lia|]. exists x, y. auto.
Qed.

Lemma confidence_never_negative_witness :
  exists C_h C_v dL_du_h dL_dv_v,
    No_Libraries.compute_from_epis_with_diffs
      [imgb_header 2 3 3 4 ++ replicate 54 Byte.x2a]
      [imgb_header 1 3 3 4 ++ replicate 27 Byte.x2a;
       imgb_header 1 3 3 4 ++ replicate 27 Byte.x2a] None =
      Ok (C_h, C_v, dL_du_h, dL_dv_v) /\
    scalar_map No_Libraries.imgb_parse C_h 2 1 (all_nonneg (1 * 2)) /\
    scalar_map No_Libraries.imgb_parse C_v 2 1 (all_nonneg (1 * 2)).
Proof.
  apply (confidence_never_negative
           [imgb_header 2 3 3 4 ++ replicate 54 Byte.x2a]
           [imgb_header 1 3 3 4 ++ replicate 27 Byte.x2a;
            imgb_header 1 3 3 4 ++ replicate 27 Byte.x2a] None 2 1 3).
  - lia.
  - lia.
  - lia.
  - reflexivity.
  - reflexivity.
  - repeat constructor. exists (replicate 54 Byte.x2a). split; reflexivity.
  - repeat constructor; exists (replicate 27 Byte.x2a); split; reflexivity.
  - exact I.
Defined.

Lemma central_diff_constant (pay : list byte) (n A ch a x : Z) :
  (forall a', 0 <= a' < A -> epi_value pay n ch a' x = epi_value pay n ch 0 x) ->
  0 < a < A - 1 -> central_diff pay n ch a x = 0.
Proof.
  intros Hconst Ha. unfold central_diff.
  rewrite (Hconst (a + 1)), (Hconst (a - 1)) by lia.
  rewrite Z.sub_diag. reflexivity.
Qed.

Lemma abs_diff_sum_constant (pay : list byte) (n A ch x : Z) :
  (forall a', 0 <= a' < A -> epi_value pay n ch a' x = epi_value pay n ch 0 x) ->
  abs_diff_sum pay n ch (A - 2) x = 0.
Proof.
  intros Hconst.
  assert (Hgen : forall k, 0 <= k -> k <= A - 2 -> abs_diff_sum pay n ch k x = 0).
  { intros k Hk. pattern k. apply natlike_ind; [| |exact Hk].
    - intros _. apply abs_diff_sum_nil. lia.
    - intros k' Hk' IH Hle. change (Z.succ k') with (k' + 1) in *.
      rewrite abs_diff_sum_succ by lia. rewrite IH by lia.
      rewrite (central_diff_constant pay n A ch (k' + 1) x Hconst) by lia. reflexivity. }
  destruct (Z_le_gt_dec 0 (A - 2)); [apply Hgen; lia|apply abs_diff_sum_nil; lia].
Qed.

Lemma axis_zero_of_constant (parse : list byte -> result (Z * Z * Z * Z * list byte))
    (epis dL : list (list byte)) (count n A ch : Z) (idx : Z -> Z -> Z)
    (C : list byte) (N : Z) :
  3 <= A -> 0 <= n -> len epis = count ->
  (forall i, 0 <= i < N -> exists k j, 0 <= k < count /\ 0 <= j < n /\ i = idx k j) ->
  angularly_constant epis n A ch ->
  axis_differences parse epis dL n A ch ->
  axis_confidence epis n A ch idx C ->
  diff_volumes parse dL count n A (all_zero (A * n)) /\ all_zero N C.
Proof.
  intros HA Hn Hcount Hcover Hconst [Hlen Hdiff] Hconf. split.
  - split; [lia|]. intros k blob Hblob.
    destruct (lookup_lt_is_Some_2 epis k) as [epi Hepi].
    { apply lookup_lt_Some in Hblob. unfold len in Hlen. lia. }
    destruct (Hdiff k epi Hepi) as (blob' & payload & Hblob' & Hparse & Hb & Hint).
    assert (blob' = blob) as -> by congruence.
    exists payload. split; [exact Hparse|].
    intros i Hi.
    destruct (cell_index_decompose n A i) as (a & x & Ha & Hx & ->); [lia|lia|].
    destruct (Z.eq_dec a 0) as [->|Ha0]; [apply Hb; [left; reflexivity|exact Hx]|].
    destruct (Z.eq_dec a (A - 1)) as [->|Ha1]; [apply Hb; [right; reflexivity|exact Hx]|].
    unfold sample_is_zero. rewrite (Hint a x) by lia.
    rewrite (central_diff_constant _ n A ch a x) by (lia || (intros a' Ha'; apply (Hconst k epi a' x Hepi Ha' Hx))).
    reflexivity.
  - intros i Hi. destruct (Hcover i Hi) as (k & j & Hk & Hj & ->).
    destruct (lookup_lt_is_Some_2 epis (Z.to_nat k)) as [epi Hepi];
      [unfold len in Hcount; lia|].
    destruct (Hconf k j epi ltac:(lia) Hj Hepi) as (q & Hq & Hread).
    rewrite (abs_diff_sum_constant _ n A ch j) in Hq
      by (intros a' Ha'; apply (Hconst _ epi a' j Hepi Ha' Hj)).
    assert (q = 0) as -> by (unfold is_nearest_quotient in Hq; nia).
    exact Hread.
Qed.

(** X17. No angular variation, no confidence: when the selected channel of
    every horizontal and vertical EPI is constant along the angular axis
    ([A >= 3]), the No_Libraries confidence stage returns only zeros, in
    every sample of every difference volume and in every sample of [C_h]
    and [C_v]. *)
Theorem confidence_zero_without_angular_variation
    (epi_h_imgb epi_v_imgb : list (list byte)) (channel : option Z) (W H A ch : Z) :
  0 < H < 2 ^ 32 -> 0 < W < 2 ^ 32 -> 3 <= A < 2 ^ 32 ->
  len epi_h_imgb = H -> len epi_v_imgb = W ->
  epi_volumes epi_h_imgb W A -> epi_volumes epi_v_imgb H A ->
  channel_ok channel -> ch = match channel with None => 0 | Some c => c end ->
  angularly_constant epi_h_imgb W A ch -> angularly_constant epi_v_imgb H A ch ->
  exists C_h C_v dL_du_h dL_dv_v,
    No_Libraries.compute_from_epis_with_diffs epi_h_imgb epi_v_imgb channel =
      Ok (C_h, C_v, dL_du_h, dL_dv_v) /\
    scalar_map No_Libraries.imgb_parse C_h W H (all_zero (H * W)) /\
    scalar_map No_Libraries.imgb_parse C_v W H (all_zero (H * W)) /\
    diff_volumes No_Libraries.imgb_parse dL_du_h H W A (all_zero (A * W)) /\
    diff_volumes No_Libraries.imgb_parse dL_dv_v W H A (all_zero (A * H)).
Proof.
  intros HH HW HA HlenH HlenW Hepih Hepiv Hchan Hch Hconsth Hconstv.
  destruct (NL_confidence_full epi_h_imgb epi_v_imgb channel W H A ch
              HH HW HA HlenH HlenW Hepih Hepiv Hchan Hch)
    as (C_h & C_v & dLh & dLv & Hrun & Hdh & Hdv & (ph & Hph & Hcfh) & (pv & Hpv & Hcfv)).
  destruct (axis_zero_of_constant No_Libraries.imgb_parse epi_h_imgb dLh H W A ch
              (fun y x => y * W + x) ph (H * W)) as (Hzdh & Hzch);
    try assumption; [lia|lia| |].
  { intros i Hi. destruct (cell_index_decompose W H i) as (y & x & Hy & Hx & ->);
      [lia|lia|]. exists y, x. auto. }
  destruct (axis_zero_of_constant No_Libraries.imgb_parse epi_v_imgb dLv W H A ch
              (fun x y => y * W + x) pv (H * W)) as (Hzdv & Hzcv);
    try assumption; [lia|lia| |].
  { intros i Hi. destruct (cell_index_decompose W H i) as (y & x & Hy & Hx & ->);
      [lia|lia|]. exists x, y. auto. }
  exists C_h, C_v, dLh, dLv. split; [exact Hrun|].
  split; [exists ph; auto|]. split; [exists pv; auto|]. split; assumption.
Qed.

Lemma confidence_zero_without_angular_variation_witness :
  exists C_h C_v dL_du_h dL_dv_v,
    No_Libraries.compute_from_epis_with_diffs
      [imgb_header 2 3 3 4 ++ replicate 54 Byte.x2a]
      [imgb_header 1 3 3 4 ++ replicate 27 Byte.x2a;
       imgb_header 1 3 3 4 ++ replicate 27 Byte.x2a] None =
      Ok (C_h, C_v, dL_du_h, dL_dv_v) /\
    scalar_map No_Libraries.imgb_parse C_h 2 1 (all_zero (1 * 2)) /\
    scalar_map No_Libraries.imgb_parse C_v 2 1 (all_zero (1 * 2)) /\
    diff_volumes No_Libraries.imgb_parse dL_du_h 1 2 3 (all_zero (3 * 2)) /\
    diff_volumes No_Libraries.imgb_parse dL_dv_v 2 1 3 (all_zero (3 * 1)).
Proof.
  apply (confidence_zero_without_angular_variation
           [imgb_header 2 3 3 4 ++ replicate 54 Byte.x2a]
           [imgb_header 1 3 3 4 ++ replicate 27 Byte.x2a;
            imgb_header 1 3 3 4 ++ replicate 27 Byte.x2a] None 2 1 3 0).
  - lia.
  - lia.
  - lia.
  - reflexivity.
  - reflexivity.
  - repeat constructor. exists (replicate 54 Byte.x2a). split; reflexivity.
  - repeat constructor; exists (replicate 27 Byte.x2a); split; reflexivity.
  - exact I.
  - reflexivity.
  - intros k epi a x Hk Ha Hx.
    destruct k as [|k]; [injection Hk as <-|destruct k; discriminate Hk].
    assert (Hcases : (a = 0 \/ a = 1 \/ a = 2) /\ (x = 0 \/ x = 1)) by lia.
    destruct Hcases as [[-> |[-> | ->]] [-> | ->]]; vm_compute; reflexivity.
  - intros k epi a x Hk Ha Hx.
    destruct k as [|[|k]];
      [injection Hk as <-|injection Hk as <-|destruct k; discriminate Hk];
      (assert (Hcases : (a = 0 \/ a = 1 \/ a = 2) /\ x = 0) by lia;
       destruct Hcases as [[-> |[-> | ->]] ->]; vm_compute; reflexivity).
Defined.

(** ** Fusion of the two confidence maps *)

Lemma u24_read_at (payload : list byte) (o : Z) :
  0 <= o -> o + 3 <= len payload ->
  No_Libraries._u24_read payload o = Ok (u24_at payload o) /\
  0 <= u24_at payload o < 2 ^ 24.
Proof.
  intros Ho Hlen. destruct (u24_read_in_range payload o Ho Hlen) as (u & Hu & Hr).
  rewrite (u24_at_read _ _ _ Hu). auto.
Qed.

Lemma round_div2_between (a b : Z) :
  Z.min a b <= No_Libraries._round_div2 (a + b) <= Z.max a b.
Proof.
  pose proof (round_div2_twice (a + b)) as H2.
  pose proof (Z.mod_pos_bound (a + b) 2 ltac:(lia)).
  assert (Hs : -1 <= Z.sgn (a + b) <= 1) by lia.
  assert (Hodd : a = b -> (a + b) mod 2 = 0).
  { intros ->. replace (b + b) with (b * 2) by lia. apply Z.mod_mul. lia. }
  destruct (Z.eq_dec a b) as [Heq|Hne].
  - rewrite (Hodd Heq) in H2. lia.
  - nia.
Qed.

Lemma mean_sample (p1 p2 out : list byte) (i : Z) :
  0 <= i -> i * 3 + 3 <= len p1 -> i * 3 + 3 <= len p2 ->
  No_Libraries._u24_read out (i * 3) =
    Ok (Z.land (No_Libraries._bias_from_q12_12
                  (No_Libraries._round_div2
                     (u24_at p1 (i * 3) - 8388608 + (u24_at p2 (i * 3) - 8388608))))
          16777215) ->
  mean_of_samples p1 p2 out i.
Proof.
  intros Hi H1 H2 Hread.
  destruct (u24_read_at p1 (i * 3)) as (Hr1 & Hb1); [lia|lia|].
  destruct (u24_read_at p2 (i * 3)) as (Hr2 & Hb2); [lia|lia|].
  exists (u24_at p1 (i * 3) - 8388608), (u24_at p2 (i * 3) - 8388608).
  unfold decoded. rewrite Hr1, Hr2.
  split; [f_equal; lia|]. split; [f_equal; lia|].
  pose proof (round_div2_between (u24_at p1 (i * 3) - 8388608)
                (u24_at p2 (i * 3) - 8388608)) as Hbt.
  split; [|exact Hbt].
  rewrite Hread. rewrite land_u24_small by apply NL_bias_range.
  destruct (NL_bias_from_q12_12_saturating
              (No_Libraries._round_div2
                 (u24_at p1 (i * 3) - 8388608 + (u24_at p2 (i * 3) - 8388608))))
    as (_ & _ & Hmid & _).
  rewrite Hmid by lia. reflexivity.
Qed.

Lemma NL_fuse_avg_ok (W H : Z) (p1 p2 : list byte) :
  0 <= W < 2 ^ 32 -> 0 <= H < 2 ^ 32 ->
  len p1 = W * H * 3 -> len p2 = W * H * 3 ->
  exists out,
    No_Libraries.fuse_avg (imgb_header W H 1 4 ++ p1) (imgb_header W H 1 4 ++ p2) =
      Ok (imgb_header W H 1 4 ++ out) /\
    len out = W * H * 3 /\
    forall i, 0 <= i < W * H -> mean_of_samples p1 p2 out i.
Proof.
  intros HW HH Hl1 Hl2. unfold No_Libraries.fuse_avg.
  rewrite (NL_imgb_parse_header W H 1 4 3 p1) by (reflexivity || lia). cbn [bind].
  rewrite (NL_imgb_parse_header W H 1 4 3 p2) by (reflexivity || lia). cbn [bind].
  rewrite !Z.eqb_refl. cbn [negb orb]. cbv zeta.
  change (1 =? 1) with true. change (4 =? 4) with true. cbn [negb orb].
  rewrite bytearray_ok by nia. cbn [bind].
  match goal with
  | |- exists out, bind (for_each _ ?body ?s0) _ = _ /\ _ =>
      destruct (u24_fill (W * H) 0 (W * H * 3)
        (fun i => No_Libraries._bias_from_q12_12
                    (No_Libraries._round_div2
                       (u24_at p1 (i * 3) - 8388608 + (u24_at p2 (i * 3) - 8388608))))
        body s0) as (out & Hrun & Hl & Hread & _)
  end.
  - lia.
  - nia.
  - lia.
  - rewrite len_replicate. nia.
  - intros i out Hi Hlo. cbv beta.
    destruct (u24_read_at p1 (i * 3)) as (Hr1 & _); [lia|lia|].
    destruct (u24_read_at p2 (i * 3)) as (Hr2 & _); [lia|lia|].
    rewrite Hr1. cbn [bind]. rewrite Hr2. cbn [bind]. reflexivity.
  - rewrite Hrun. cbn [bind].
    rewrite (NL_imgb_make_ok W H 1 4 3 out) by (reflexivity || lia).
    exists out. split; [reflexivity|]. split; [exact Hl|].
    intros i Hi. apply mean_sample; [lia|lia|lia|].
    apply (Hread i Hi).
Qed.

Lemma BM_fuse_avg_ok (C_h_imgb C_v_imgb p1 p2 : list byte) :
  fusion_input C_h_imgb p1 -> fusion_input C_v_imgb p2 ->
  exists out,
    Bit_Manipulation.fuse_avg C_h_imgb C_v_imgb = Ok (imgb_header 512 512 1 4 ++ out) /\
    len out = 786432 /\
    forall i, 0 <= i < 262144 -> mean_of_samples p1 p2 out i.
Proof.
  intros H1 H2. unfold Bit_Manipulation.fuse_avg. cbv zeta.
  rewrite (fusion_input_payload _ _ H1), (fusion_input_payload _ _ H2).
  destruct H1 as [_ Hl1]. destruct H2 as [_ Hl2].
  change Bit_Manipulation.OUT_IMG_BYTES with 786432.
  change Bit_Manipulation.N_IMG with 262144.
  change Bit_Manipulation.WH_SIZE with 512.
  change Bit_Manipulation.BIAS_INT with 8388608.
  change Bit_Manipulation._u24_write with No_Libraries._u24_write.
  change Bit_Manipulation._u24_read with No_Libraries._u24_read.
  change Bit_Manipulation._round_div2 with No_Libraries._round_div2.
  change Bit_Manipulation._bias_from_q12_12 with No_Libraries._bias_from_q12_12.
  rewrite bytearray_ok by lia. cbn [bind].
  match goal with
  | |- exists out, bind (for_each _ ?body ?s0) _ = _ /\ _ =>
      destruct (u24_fill_st 262144 0 786432
        (fun i => No_Libraries._bias_from_q12_12
                    (No_Libraries._round_div2
                       (u24_at p1 (i * 3) - 8388608 + (u24_at p2 (i * 3) - 8388608))))
        (fun st => fst (fst st))
        (fun k '(_, o, i3) => o = k * 3 /\ i3 = k * 3) body s0)
        as ([[out o] i3] & Hrun & _ & Hl & Hread & _)
  end.
  - lia.
  - lia.
  - lia.
  - cbn [fst]. rewrite len_replicate. lia.
  - split; reflexivity.
  - intros k [[o_p o] i3] Hk Hlo [Ho Hi3]. cbn [fst] in *. subst o i3.
    destruct (u24_read_at p1 (k * 3)) as (Hr1 & _); [lia|lia|].
    destruct (u24_read_at p2 (k * 3)) as (Hr2 & _); [lia|lia|].
    rewrite Hr1. cbn [bind]. rewrite Hr2. cbn [bind].
    destruct (u24_write_spec o_p (k * 3)
                (No_Libraries._bias_from_q12_12
                   (No_Libraries._round_div2
                      (u24_at p1 (k * 3) - 8388608 + (u24_at p2 (k * 3) - 8388608)))))
      as (o_p' & Hw & _); [lia|lia|].
    rewrite Hw. cbn [bind]. eexists. split; [reflexivity|].
    cbn [fst]. split; [split; lia|exact Hw].
  - cbn [fst] in *. rewrite Hrun. cbn [bind].
    rewrite BM_imgb_make_ok by lia.
    exists out. split; [reflexivity|]. split; [exact Hl|].
    intros i Hi. apply mean_sample; [lia|lia|lia|].
    apply (Hread i Hi).
Qed.

(** X18. [fuse_avg], the fusion of the two confidence maps.  No_Libraries
    rejects with ValueError two containers that are not both single
    channel, encoding 4 and of the same dimensions; on two such [W x H]
    maps it returns a [W x H] map.  Bit_Manipulation does the same on
    512 x 512 maps without any check.  In both, sample [i] of the result
    is [round_half_div2(a + b)] of the two input samples, never saturated,
    and lies between them. *)
Theorem fuse_avg_rounded_mean (W H : Z) (p1 p2 : list byte) :
  (forall blob1 blob2 W1 H1 C1 d1 q1 W2 H2 C2 d2 q2,
     No_Libraries.imgb_parse blob1 = Ok (W1, H1, C1, d1, q1) ->
     No_Libraries.imgb_parse blob2 = Ok (W2, H2, C2, d2, q2) ->
     W1 <> W2 \/ H1 <> H2 \/ C1 <> 1 \/ C2 <> 1 \/ d1 <> 4 \/ d2 <> 4 ->
     exists msg, No_Libraries.fuse_avg blob1 blob2 = Raise (ValueError msg)) /\
  (0 <= W < 2 ^ 32 -> 0 <= H < 2 ^ 32 ->
   len p1 = W * H * 3 -> len p2 = W * H * 3 ->
   exists out,
     No_Libraries.fuse_avg (imgb_header W H 1 4 ++ p1) (imgb_header W H 1 4 ++ p2) =
       Ok (imgb_header W H 1 4 ++ out) /\
     len out = W * H * 3 /\
     forall i, 0 <= i < W * H -> mean_of_samples p1 p2 out i) /\
  (forall C_h_imgb C_v_imgb,
     fusion_input C_h_imgb p1 -> fusion_input C_v_imgb p2 ->
     exists out,
       Bit_Manipulation.fuse_avg C_h_imgb C_v_imgb = Ok (imgb_header 512 512 1 4 ++ out) /\
       len out = 786432 /\
       forall i, 0 <= i < 262144 -> mean_of_samples p1 p2 out i).
Proof.
  split; [|split].
  - intros blob1 blob2 W1 H1 C1 d1 q1 W2 H2 C2 d2 q2 Hp1 Hp2 Hbad.
    unfold No_Libraries.fuse_avg. rewrite Hp1. cbn [bind]. rewrite Hp2. cbn [bind].
    assert (Hcond : negb (W1 =? W2) || negb (H1 =? H2) || negb (C1 =? 1) || negb (C2 =? 1)
                    || negb (d1 =? 4) || negb (d2 =? 4) = true).
    { destruct (Z.eqb_spec W1 W2), (Z.eqb_spec H1 H2), (Z.eqb_spec C1 1),
        (Z.eqb_spec C2 1), (Z.eqb_spec d1 4), (Z.eqb_spec d2 4);
        cbn [negb orb]; try reflexivity. lia. }
    rewrite Hcond. eexists. reflexivity.
  - apply NL_fuse_avg_ok.
  - intros C_h_imgb C_v_imgb. apply BM_fuse_avg_ok.
Qed.

Lemma fuse_avg_rounded_mean_witness :
  (exists msg,
     No_Libraries.fuse_avg (imgb_header 1 1 1 4 ++ [Byte.x00; Byte.x00; Byte.x80])
       (imgb_header 1 1 3 1 ++ [Byte.x01; Byte.x02; Byte.x03]) = Raise (ValueError msg)) /\
  (exists out,
     No_Libraries.fuse_avg
       (imgb_header 2 1 1 4 ++ [Byte.x00; Byte.x10; Byte.x80; Byte.x03; Byte.x00; Byte.x80])
       (imgb_header 2 1 1 4 ++ [Byte.x00; Byte.x20; Byte.x80; Byte.x00; Byte.xf0; Byte.x7f]) =
       Ok (imgb_header 2 1 1 4 ++ out) /\
     len out = 2 * 1 * 3 /\
     forall i, 0 <= i < 2 * 1 ->
       mean_of_samples [Byte.x00; Byte.x10; Byte.x80; Byte.x03; Byte.x00; Byte.x80]
         [Byte.x00; Byte.x20; Byte.x80; Byte.x00; Byte.xf0; Byte.x7f] out i) /\
  (exists out,
     Bit_Manipulation.fuse_avg (constant_map Byte.x00 Byte.x10 Byte.x80)
       (constant_map Byte.x00 Byte.x20 Byte.x80) = Ok (imgb_header 512 512 1 4 ++ out) /\
     len out = 786432 /\
     forall i, 0 <= i < 262144 ->
       mean_of_samples (constant_payload Byte.x00 Byte.x10 Byte.x80)
         (constant_payload Byte.x00 Byte.x20 Byte.x80) out i).
Proof.
  destruct (fuse_avg_rounded_mean 2 1
              [Byte.x00; Byte.x10; Byte.x80; Byte.x03; Byte.x00; Byte.x80]
              [Byte.x00; Byte.x20; Byte.x80; Byte.x00; Byte.xf0; Byte.x7f])
    as (Hrej & Hok & _).
  destruct (fuse_avg_rounded_mean 512 512
              (constant_payload Byte.x00 Byte.x10 Byte.x80)
              (constant_payload Byte.x00 Byte.x20 Byte.x80)) as (_ & _ & Hbm).
  split; [|split].
  - apply (Hrej _ _ 1 1 1 4 [Byte.x00; Byte.x00; Byte.x80]
             1 1 3 1 [Byte.x01; Byte.x02; Byte.x03]);
      [reflexivity|reflexivity|right; right; right; left; lia].
  - apply Hok; [lia|lia|reflexivity|reflexivity].
  - apply Hbm; apply constant_map_input.
Defined.

(** ** Input validation of the confidence stage *)

(** X19. Input validation of the No_Libraries confidence stage: it raises
    ValueError, and returns nothing, when either EPI list is empty, when
    the first container of a list does not parse, and when the first
    containers are not both encoding 4 with 3 channels or their geometry is
    inconsistent (number of vertical EPIs different from the EPI width,
    vertical EPI width different from the number of horizontal EPIs, or
    different angular counts). *)
Theorem confidence_input_validation
    (epi_h_imgb epi_v_imgb : list (list byte)) (channel : option Z) :
  (epi_h_imgb = [] \/ epi_v_imgb = [] ->
   exists msg,
     No_Libraries.compute_from_epis_with_diffs epi_h_imgb epi_v_imgb channel =
       Raise (ValueError msg)) /\
  (forall eh rh ev rv msg,
     epi_h_imgb = eh :: rh -> epi_v_imgb = ev :: rv ->
     No_Libraries.imgb_parse eh = Raise (ValueError msg) \/
     (is_ok (No_Libraries.imgb_parse eh) /\
      No_Libraries.imgb_parse ev = Raise (ValueError msg)) ->
     No_Libraries.compute_from_epis_with_diffs epi_h_imgb epi_v_imgb channel =
       Raise (ValueError msg)) /\
  (forall eh rh ev rv W_h A_h C_h dt_h p_h W_v A_v C_v dt_v p_v,
     epi_h_imgb = eh :: rh -> epi_v_imgb = ev :: rv ->
     No_Libraries.imgb_parse eh = Ok (W_h, A_h, C_h, dt_h, p_h) ->
     No_Libraries.imgb_parse ev = Ok (W_v, A_v, C_v, dt_v, p_v) ->
     dt_h <> 4 \/ dt_v <> 4 \/ C_h <> 3 \/ C_v <> 3 \/
     len epi_v_imgb <> W_h \/ W_v <> len epi_h_imgb \/ A_v <> A_h ->
     exists msg,
       No_Libraries.compute_from_epis_with_diffs epi_h_imgb epi_v_imgb channel =
         Raise (ValueError msg)).
Proof.
  split; [|split].
  - intros Hempty. unfold No_Libraries.compute_from_epis_with_diffs. cbv zeta.
    destruct Hempty as [-> | ->].
    + eexists. reflexivity.
    + change (len (@nil (list byte))) with 0. rewrite orb_true_r. eexists. reflexivity.
  - intros eh rh ev rv msg -> -> Hbad.
    unfold No_Libraries.compute_from_epis_with_diffs. cbv zeta.
    assert (Hh : (len (eh :: rh) =? 0) = false).
    { apply Z.eqb_neq. unfold len. cbn [length]. lia. }
    assert (Hv : (len (ev :: rv) =? 0) = false).
    { apply Z.eqb_neq. unfold len. cbn [length]. lia. }
    rewrite Hh, Hv. cbn [orb].
    change (getitem (eh :: rh) 0) with (Ok eh). cbn [bind].
    change (getitem (ev :: rv) 0) with (Ok ev).
    destruct Hbad as [Hbad|[[r Hok] Hbad]].
    + rewrite Hbad. reflexivity.
    + rewrite Hok. destruct r as [[[[? ?] ?] ?] ?]. cbn [bind]. rewrite Hbad. reflexivity.
  - intros eh rh ev rv W_h A_h C_h dt_h p_h W_v A_v C_v dt_v p_v -> -> Hph Hpv Hbad.
    unfold No_Libraries.compute_from_epis_with_diffs. cbv zeta.
    assert (Hh : (len (eh :: rh) =? 0) = false).
    { apply Z.eqb_neq. unfold len. cbn [length]. lia. }
    assert (Hv : (len (ev :: rv) =? 0) = false).
    { apply Z.eqb_neq. unfold len. cbn [length]. lia. }
    rewrite Hh, Hv. cbn [orb].
    change (getitem (eh :: rh) 0) with (Ok eh). cbn [bind].
    change (getitem (ev :: rv) 0) with (Ok ev).
    rewrite Hph. cbn [bind]. rewrite Hpv. cbn [bind].
    destruct (Z.eqb_spec dt_h 4); cbn [negb orb]; [|eexists; reflexivity].
    destruct (Z.eqb_spec dt_v 4); cbn [negb orb]; [|eexists; reflexivity].
    destruct (Z.eqb_spec C_h 3); cbn [negb orb]; [|eexists; reflexivity].
    destruct (Z.eqb_spec C_v 3); cbn [negb orb]; [|eexists; reflexivity].
    destruct (Z.eqb_spec (len (ev :: rv)) W_h); cbn [negb]; [|eexists; reflexivity].
    destruct (Z.eqb_spec W_v (len (eh :: rh))); cbn [negb]; [|eexists; reflexivity].
    destruct (Z.eqb_spec A_v A_h); cbn [negb]; [|eexists; reflexivity].
    lia.
Qed.

Lemma confidence_input_validation_witness :
  (exists msg,
     No_Libraries.compute_from_epis_with_diffs []
       [imgb_header 1 3 3 4 ++ replicate 27 Byte.x2a] None = Raise (ValueError msg)) /\
  No_Libraries.compute_from_epis_with_diffs
    [[Byte.x00]] [imgb_header 1 3 3 4 ++ replicate 27 Byte.x2a] None =
    Raise (ValueError "IMGB buffer too small") /\
  (exists msg,
     No_Libraries.compute_from_epis_with_diffs
       [imgb_header 2 3 3 4 ++ replicate 54 Byte.x2a]
       [imgb_header 1 3 3 4 ++ replicate 27 Byte.x2a] None = Raise (ValueError msg)).
Proof.
  destruct (confidence_input_validation []
              [imgb_header 1 3 3 4 ++ replicate 27 Byte.x2a] None) as (H1 & _ & _).
  destruct (confidence_input_validation [[Byte.x00]]
              [imgb_header 1 3 3 4 ++ replicate 27 Byte.x2a] None) as (_ & H2 & _).
  destruct (confidence_input_validation
              [imgb_header 2 3 3 4 ++ replicate 54 Byte.x2a]
              [imgb_header 1 3 3 4 ++ replicate 27 Byte.x2a] None) as (_ & _ & H3).
  split; [apply H1; left; reflexivity|]. split.
  - apply (H2 [Byte.x00] [] (imgb_header 1 3 3 4 ++ replicate 27 Byte.x2a) []);
      [reflexivity|reflexivity|left; reflexivity].
  - apply (H3 (imgb_header 2 3 3 4 ++ replicate 54 Byte.x2a) []
             (imgb_header 1 3 3 4 ++ replicate 27 Byte.x2a) []
             2 3 3 4 (replicate 54 Byte.x2a) 1 3 3 4 (replicate 27 Byte.x2a));
      [reflexivity|reflexivity|reflexivity|reflexivity|].
    right. right. right. right. left. vm_compute. discriminate.
Defined.

(** ** Box sums as sums over the clamped window *)

Lemma sum_list_take_slice (l : list Z) (lo hi : Z) :
  0 <= lo <= hi -> hi <= len l ->
  sum_list (take (Z.to_nat hi) l) - sum_list (take (Z.to_nat lo) l) =
  sum_list (slice l lo hi).
Proof.
  intros Hlo Hhi. rewrite slice_in_range by assumption.
  replace (Z.to_nat hi) with (Z.to_nat lo + Z.to_nat (hi - lo))%nat by lia.
  rewrite <- take_take_drop, sum_list_app. lia.
Qed.

Lemma sum_list_fmap_take_slice {A} (f : A -> Z) (l : list A) (lo hi : Z) :
  0 <= lo <= hi -> hi <= len l ->
  sum_list (f <$> take (Z.to_nat hi) l) - sum_list (f <$> take (Z.to_nat lo) l) =
  sum_list (f <$> slice l lo hi).
Proof.
  intros Hlo Hhi. rewrite slice_in_range by assumption.
  replace (Z.to_nat hi) with (Z.to_nat lo + Z.to_nat (hi - lo))%nat by lia.
  rewrite <- take_take_drop, fmap_app, sum_list_app. lia.
Qed.

Lemma sum_list_fmap_sub {A} (f g h : A -> Z) (l : list A) :
  Forall (fun x => f x - g x = h x) l ->
  sum_list (f <$> l) - sum_list (g <$> l) = sum_list (h <$> l).
Proof.
  induction 1 as [|x l Hx _ IH]; [reflexivity|].
  cbn [fmap list_fmap sum_list foldr] in *. unfold sum_list in IH. lia.
Qed.

Lemma slice_Forall {A} (P : A -> Prop) (l : list A) (lo hi : Z) :
  Forall P l -> Forall P (slice l lo hi).
Proof.
  intros H. unfold slice. cbv zeta. apply Forall_take, Forall_drop, H.
Qed.

Lemma window_sum_direct (plane : list (list Z)) (A W r a x : Z) :
  grid_shape plane A W -> 0 <= a < A -> 0 <= x < W -> 0 <= r ->
  window_sum plane A W r a x = window_direct_sum plane A W r a x.
Proof.
  intros [HA HW] Ha Hx Hr. unfold window_sum, window_direct_sum, prefix_sum. cbv zeta.
  set (a0 := Z.max 0 (a - r)). set (a1 := Z.min (A - 1) (a + r)).
  set (x0 := Z.max 0 (x - r)). set (x1 := Z.min (W - 1) (x + r)).
  assert (Ha01 : 0 <= a0 <= a1 + 1) by lia. assert (Ha1 : a1 + 1 <= len plane) by lia.
  assert (Hx01 : 0 <= x0 <= x1 + 1) by lia. assert (Hx1 : x1 + 1 <= W) by lia.
  pose proof (sum_list_fmap_take_slice
                (fun row => sum_list (take (Z.to_nat (x1 + 1)) row)) plane a0 (a1 + 1)
                Ha01 Ha1) as H1.
  pose proof (sum_list_fmap_take_slice
                (fun row => sum_list (take (Z.to_nat x0) row)) plane a0 (a1 + 1)
                Ha01 Ha1) as H2.
  pose proof (sum_list_fmap_sub
                (fun row => sum_list (take (Z.to_nat (x1 + 1)) row))
                (fun row => sum_list (take (Z.to_nat x0) row))
                (fun row => sum_list (slice row x0 (x1 + 1)))
                (slice plane a0 (a1 + 1))) as H3.
  rewrite <- H3; [lia|].
  apply slice_Forall. apply Forall_forall. intros row Hrow.
  apply list_elem_of_lookup_1 in Hrow as [i Hi].
  apply sum_list_take_slice; [lia|]. rewrite (HW i row Hi). lia.
Qed.

Lemma box_sum_windows (plane : list (list Z)) (A W win : Z) :
  grid_shape plane A W -> 0 <= W -> (A = 0 -> W = 0) -> 1 < win ->
  exists out,
    No_Libraries._box_sum_2d_int plane win = Ok out /\
    Bit_Manipulation._box_sum_2d_int plane win = Ok out /\
    grid_shape out A W /\
    forall a x, 0 <= a < A -> 0 <= x < W ->
      cell out a x = Some (window_direct_sum plane A W (win / 2) a x).
Proof.
  intros Hplane HW HA0 Hwin.
  destruct (NL_box_sum_spec plane A W win Hplane HW HA0 Hwin) as (out & Hrun & Hshape & Hval).
  exists out. split; [exact Hrun|]. split; [rewrite BM_box_sum_eq; exact Hrun|].
  split; [exact Hshape|]. intros a x Ha Hx. rewrite (Hval a x Ha Hx). f_equal.
  apply window_sum_direct; try assumption. apply Z.div_pos; lia.
Qed.

(** X20. [_box_sum_2d_int] through its integral image is the plain sum
    over the window: for a rectangular plane of [A] rows by [W] columns and
    [win > 1], both variants return a plane of the same shape whose entry
    [(a, x)] is the sum of the plane's entries with row in
    [[max 0 (a - r), min (A - 1) (a + r)]] and column in
    [[max 0 (x - r), min (W - 1) (x + r)]], [r = win / 2]: out-of-range
    neighbours count as zero. *)
Theorem box_sum_is_clamped_window_sum (plane : list (list Z)) (A W win : Z) :
  grid_shape plane A W -> 0 <= W -> (A = 0 -> W = 0) -> 1 < win ->
  exists out,
    No_Libraries._box_sum_2d_int plane win = Ok out /\
    Bit_Manipulation._box_sum_2d_int plane win = Ok out /\
    grid_shape out A W /\
    forall a x, 0 <= a < A -> 0 <= x < W ->
      cell out a x = Some (window_direct_sum plane A W (win / 2) a x).
Proof. apply box_sum_windows. Qed.

Lemma box_sum_is_clamped_window_sum_witness :
  exists out,
    No_Libraries._box_sum_2d_int [[1; 2; 3; 4]; [5; 6; 7; 8]; [9; 10; 11; 12]] 3 = Ok out /\
    Bit_Manipulation._box_sum_2d_int [[1; 2; 3; 4]; [5; 6; 7; 8]; [9; 10; 11; 12]] 3 = Ok out /\
    grid_shape out 3 4 /\
    forall a x, 0 <= a < 3 -> 0 <= x < 4 ->
      cell out a x =
        Some (window_direct_sum [[1; 2; 3; 4]; [5; 6; 7; 8]; [9; 10; 11; 12]] 3 4 (3 / 2) a x).
Proof.
  apply (box_sum_is_clamped_window_sum [[1; 2; 3; 4]; [5; 6; 7; 8]; [9; 10; 11; 12]] 3 4 3).
  - split; [reflexivity|]. intros i row Hi.
    destruct i as [|[|[|i]]]; try discriminate Hi; injection Hi as <-; reflexivity.
  - lia.
  - lia.
  - lia.
Defined.

(** ** Disparity: the structure sums of one EPI *)

Lemma for_seqZ_inv {St} (lo n : Z) (body : Z -> St -> result St)
    (Inv : Z -> St -> Prop) (s0 : St) :
  Inv lo s0 ->
  (forall k s, lo <= k < lo + n -> Inv k s ->
     exists s', body k s = Ok s' /\ Inv (k + 1) s') ->
  exists s', for_each (seqZ lo n) body s0 = Ok s' /\ Inv (lo + Z.max 0 n) s'.
Proof.
  intros H0 Hstep.
  destruct (for_each_inv (seqZ lo n) body (fun k => Inv (lo + Z.of_nat k)) s0)
    as (s' & Hrun & Hend).
  - rewrite Z.add_0_r. exact H0.
  - intros k i s Hk Hs. apply lookup_seqZ in Hk as [-> Hlt].
    destruct (Hstep (lo + Z.of_nat k) s) as (s' & Hb & Hs'); [lia|exact Hs|].
    exists s'. split; [exact Hb|].
    replace (lo + Z.of_nat (S k)) with (lo + Z.of_nat k + 1) by lia. exact Hs'.
  - exists s'. split; [exact Hrun|].
    rewrite length_seqZ in Hend.
    replace (lo + Z.max 0 n) with (lo + Z.of_nat (Z.to_nat n)) by lia. exact Hend.
Qed.

Lemma lookup_fmap_range {E} (f : Z -> E) (n i : Z) :
  0 <= i < n -> (f <$> range n) !! Z.to_nat i = Some (f i).
Proof.
  intros Hi. rewrite list_lookup_fmap. unfold range.
  rewrite (lookup_seqZ_lt 0 n (Z.to_nat i)) by lia. cbn. f_equal. f_equal. lia.
Qed.

Lemma len_fmap_range {E} (f : Z -> E) (n : Z) : 0 <= n -> len (f <$> range n) = n.
Proof. intros Hn. unfold len, range. rewrite length_fmap, length_seqZ. lia. Qed.

Lemma fmap_range_ext {E} (f g : Z -> E) (n : Z) :
  (forall i, 0 <= i < n -> f i = g i) -> f <$> range n = g <$> range n.
Proof.
  intros Hfg. apply list_fmap_ext. intros k i Hk. unfold range in Hk.
  apply lookup_seqZ in Hk as [-> Hlt]. apply Hfg. lia.
Qed.

Lemma list_repeat_fmap_range {E} (v : E) (n : Z) :
  list_repeat v n = (fun _ => v) <$> range n.
Proof.
  unfold list_repeat, range. apply list_eq. intros k.
  rewrite list_lookup_fmap.
  destruct (decide (k < Z.to_nat n)%nat) as [Hk|Hk].
  - rewrite lookup_replicate_2 by lia. rewrite (lookup_seqZ_lt 0 n k) by lia. reflexivity.
  - rewrite (proj2 (lookup_ge_None _ _)) by (rewrite length_replicate; lia).
    rewrite lookup_seqZ_ge by lia. reflexivity.
Qed.

Lemma filled_start {E} (n lo : Z) (F G : Z -> E) : filled n lo lo F G = G <$> range n.
Proof.
  unfold filled. apply fmap_range_ext. intros i Hi.
  destruct (Z.leb_spec lo i), (Z.ltb_spec i lo); cbn [andb]; (reflexivity || lia).
Qed.

Lemma filled_end {E} (n : Z) (F G : Z -> E) : filled n 0 n F G = F <$> range n.
Proof.
  unfold filled. apply fmap_range_ext. intros i Hi.
  rewrite (proj2 (Z.leb_le 0 i)), (proj2 (Z.ltb_lt i n)) by lia. reflexivity.
Qed.

Lemma len_filled {E} (n lo k : Z) (F G : Z -> E) : 0 <= n -> len (filled n lo k F G) = n.
Proof. intros Hn. unfold filled. apply len_fmap_range. exact Hn. Qed.

Lemma getitem_fmap_range {E} (f : Z -> E) (n i : Z) :
  0 <= i < n -> getitem (f <$> range n) i = Ok (f i).
Proof.
  intros Hi. apply getitem_lookup; [lia|]. apply lookup_fmap_range. exact Hi.
Qed.

Lemma getitem_filled_next {E} (n lo k : Z) (F G : Z -> E) :
  0 <= k < n -> getitem (filled n lo k F G) k = Ok (G k).
Proof.
  intros Hk. unfold filled. rewrite getitem_fmap_range by exact Hk.
  rewrite (proj2 (Z.ltb_ge k k)) by lia. rewrite andb_false_r. reflexivity.
Qed.

Lemma insert_filled {E} (n lo k : Z) (F G : Z -> E) :
  0 <= lo <= k -> k < n ->
  <[Z.to_nat k := F k]> (filled n lo k F G) = filled n lo (k + 1) F G.
Proof.
  intros Hlo Hk. unfold filled. apply list_eq. intros j.
  destruct (decide (j = Z.to_nat k)) as [->|Hne].
  - rewrite list_lookup_insert_eq
      by (pose proof (len_fmap_range (fun i => if (lo <=? i) && (i <? k) then F i else G i) n);
          unfold len in *; lia).
    rewrite lookup_fmap_range by lia.
    rewrite (proj2 (Z.leb_le lo k)), (proj2 (Z.ltb_lt k (k + 1))) by lia. reflexivity.
  - rewrite list_lookup_insert_ne by lia.
    rewrite !list_lookup_fmap. unfold range.
    destruct (seqZ 0 n !! j) as [i|] eqn:Hj; [|reflexivity].
    apply lookup_seqZ in Hj as [-> Hlt]. cbn. f_equal.
    destruct (Z.leb_spec lo (0 + Z.of_nat j)); cbn [andb]; [|reflexivity].
    destruct (Z.ltb_spec (0 + Z.of_nat j) k), (Z.ltb_spec (0 + Z.of_nat j) (k + 1));
      (reflexivity || lia).
Qed.

Lemma setitem_filled {E} (n lo k : Z) (F G : Z -> E) :
  0 <= lo <= k -> k < n ->
  setitem (filled n lo k F G) k (F k) = Ok (filled n lo (k + 1) F G).
Proof.
  intros Hlo Hk. rewrite setitem_in_range by (rewrite len_filled; lia).
  rewrite insert_filled by assumption. reflexivity.
Qed.

Lemma setitem_same {E} (f : Z -> E) (n i : Z) :
  0 <= i < n -> setitem (f <$> range n) i (f i) = Ok (f <$> range n).
Proof.
  intros Hi. rewrite setitem_in_range by (rewrite len_fmap_range; lia).
  rewrite list_insert_id; [reflexivity|]. apply lookup_fmap_range. exact Hi.
Qed.

Lemma setitem_filled_eq {E} (n lo k : Z) (F G : Z -> E) (v : E) :
  v = F k -> 0 <= lo <= k -> k < n ->
  setitem (filled n lo k F G) k v = Ok (filled n lo (k + 1) F G).
Proof. intros ->. apply setitem_filled. Qed.

Lemma BM_abs_i_abs (x : Z) : Bit_Manipulation._abs_i x = Z.abs x.
Proof. unfold Bit_Manipulation._abs_i. destruct (Z.ltb_spec x 0); lia. Qed.

Lemma BM_structure_sums_eq (epi_pay d_pay : list byte) (win : Z) :
  len epi_pay = 41472 -> len d_pay = 13824 ->
  Bit_Manipulation.structure_sums epi_pay d_pay win = epi_structure_sums epi_pay d_pay win.
Proof.
  intros Hepi Hd. unfold Bit_Manipulation.structure_sums. cbv zeta.
  change Bit_Manipulation.WH_SIZE with 512. change Bit_Manipulation.EPI_UV with 9.
  change Bit_Manipulation.BYTES_PER_SAMPLE with 3.
  change Bit_Manipulation.DIFF_ROW_BYTES with 1536.
  change Bit_Manipulation.BYTES_PER_PIXEL_RGB with 9.
  change (Z.shiftl 9 1) with 18.
  change Bit_Manipulation.EPI_ROW_BYTES with 4608.
  change Bit_Manipulation.BIAS_INT with 8388608.
  change Bit_Manipulation._u24_read with No_Libraries._u24_read.
  change Bit_Manipulation._round_div2 with No_Libraries._round_div2.
  change (512 - 1) with 511. change (512 - 2) with 510.
  rewrite !list_repeat_fmap_range.
  set (zrow := (fun _ : Z => 0) <$> range 512).
  (* dL_du *)
  match goal with
  | |- bind (for_each _ ?body ?s0) _ = _ =>
      destruct (for_range_inv 9 body
        (fun a '(g, base) => base = a * 1536 /\
           g = filled 9 0 a (fun a' => (fun x => diff_value d_pay a' x) <$> range 512)
                 (fun _ => zrow)) s0)
        as ([dL_du base] & Hrun & Hbase & Hdu)
  end.
  { split; [reflexivity|]. rewrite filled_start. reflexivity. }
  { intros a [g base] Ha (-> & ->).
    rewrite getitem_filled_next by lia. cbn [bind].
    match goal with
    | |- exists s', bind (for_each _ ?body ?s0) _ = _ /\ _ =>
        destruct (for_range_inv 512 body
          (fun x '(row, o) => o = a * 1536 + x * 3 /\
             row = filled 512 0 x (fun x' => diff_value d_pay a x') (fun _ => 0)) s0)
          as ([row o] & Hrun' & Ho & Hrow)
    end.
    - split; [lia|]. rewrite filled_start. reflexivity.
    - intros x [row o] Hx (-> & ->).
      destruct (u24_read_at d_pay (a * 1536 + x * 3)) as (Hr & _); [lia|lia|].
      rewrite Hr. cbn [bind].
      rewrite setitem_filled_eq; [| |lia|lia].
      + cbn [bind]. eexists. split; [reflexivity|]. split; [lia|reflexivity].
      + unfold diff_value. do 2 f_equal. lia.
    - rewrite Hrun'. cbn [bind]. change (Z.max 0 512) with 512 in Hrow.
      rewrite filled_end in Hrow. subst row.
      rewrite (setitem_filled 9 0 a
                 (fun a' => (fun x => diff_value d_pay a' x) <$> range 512)
                 (fun _ => zrow)) by lia.
      cbn [bind]. eexists. split; [reflexivity|]. split; [lia|reflexivity]. }
  rewrite Hrun. cbn [bind]. change (Z.max 0 9) with 9 in Hdu.
  rewrite filled_end in Hdu. subst dL_du. clear Hrun Hbase base.
  (* dL_ds *)
  match goal with
  | |- bind (for_each _ ?body ?s0) _ = _ =>
      destruct (for_range_inv 9 body
        (fun a '(g, base) => base = a * 4608 /\
           g = filled 9 0 a (fun a' => (fun x => spatial_diff epi_pay a' x) <$> range 512)
                 (fun _ => zrow)) s0)
        as ([dL_ds base] & Hrun & Hbase & Hds)
  end.
  { split; [reflexivity|]. rewrite filled_start. reflexivity. }
  { intros a [g base] Ha (-> & ->).
    rewrite getitem_filled_next by lia. cbn [bind].
    unfold zrow at 1. rewrite (setitem_same (fun _ : Z => 0) 512 0) by lia. cbn [bind].
    rewrite (setitem_same (fun _ : Z => 0) 512 511) by lia. cbn [bind].
    match goal with
    | |- exists s', bind (for_each _ ?body ?s0) _ = _ /\ _ =>
        destruct (for_seqZ_inv 1 510 body
          (fun x '(row, o_m, o_p) =>
             o_m = a * 4608 + (x - 1) * 9 /\ o_p = a * 4608 + (x + 1) * 9 /\
             row = filled 512 1 x
                     (fun x' => No_Libraries._round_div2
                                  (epi_value epi_pay 512 0 a (x' + 1)
                                   - epi_value epi_pay 512 0 a (x' - 1)))
                     (fun _ => 0)) s0)
          as ([[row o_m] o_p] & Hrun' & Hom & Hop & Hrow)
    end.
    - split; [lia|]. split; [lia|]. rewrite filled_start. reflexivity.
    - intros x [[row o_m] o_p] Hx (-> & -> & ->).
      destruct (u24_read_at epi_pay (a * 4608 + (x - 1) * 9)) as (Hrm & _); [lia|lia|].
      destruct (u24_read_at epi_pay (a * 4608 + (x + 1) * 9)) as (Hrp & _); [lia|lia|].
      rewrite Hrm. cbn [bind]. rewrite Hrp. cbn [bind].
      rewrite setitem_filled_eq; [| |lia|lia].
      + cbn [bind]. eexists. split; [reflexivity|].
        split; [lia|]. split; [lia|reflexivity].
      + unfold epi_value. f_equal. f_equal; f_equal; f_equal; lia.
    - rewrite Hrun'. cbn [bind]. change (1 + Z.max 0 510) with 511 in Hrow.
      assert (Hrow' : row = (fun x => spatial_diff epi_pay a x) <$> range 512).
      { subst row. reflexivity. }
      rewrite Hrow'.
      rewrite (setitem_filled 9 0 a
                 (fun a' => (fun x => spatial_diff epi_pay a' x) <$> range 512)
                 (fun _ => zrow)) by lia.
      cbn [bind]. eexists. split; [reflexivity|]. split; [lia|reflexivity]. }
  rewrite Hrun. cbn [bind]. change (Z.max 0 9) with 9 in Hds.
  rewrite filled_end in Hds. subst dL_ds. clear Hrun Hbase base.
  (* planes *)
  match goal with
  | |- bind (for_each _ ?body ?s0) _ = _ =>
      destruct (for_range_inv 9 body
        (fun a '(P_uv, P_uu, W_u) =>
           P_uv = filled 9 0 a
                    (fun a' => (fun x => diff_value d_pay a' x * spatial_diff epi_pay a' x)
                                 <$> range 512) (fun _ => zrow) /\
           P_uu = filled 9 0 a
                    (fun a' => (fun x => diff_value d_pay a' x * diff_value d_pay a' x)
                                 <$> range 512) (fun _ => zrow) /\
           W_u = filled 9 0 a
                   (fun a' => (fun x => Z.abs (diff_value d_pay a' x)) <$> range 512)
                   (fun _ => zrow)) s0)
        as ([[P_uv P_uu] W_u] & Hrun & Huv & Huu & Hw)
  end.
  { rewrite !filled_start. auto. }
  { intros a [[P_uv P_uu] W_u] Ha (-> & -> & ->).
    rewrite !getitem_fmap_range by lia. cbn [bind].
    rewrite !getitem_filled_next by lia. cbn [bind].
    match goal with
    | |- exists s', bind (for_each _ ?body ?s0) _ = _ /\ _ =>
        destruct (for_range_inv 512 body
          (fun x '(row_uv, row_uu, row_w) =>
             row_uv = filled 512 0 x
                        (fun x' => diff_value d_pay a x' * spatial_diff epi_pay a x')
                        (fun _ => 0) /\
             row_uu = filled 512 0 x
                        (fun x' => diff_value d_pay a x' * diff_value d_pay a x')
                        (fun _ => 0) /\
             row_w = filled 512 0 x (fun x' => Z.abs (diff_value d_pay a x'))
                       (fun _ => 0)) s0)
          as ([[row_uv row_uu] row_w] & Hrun' & Hruv & Hruu & Hrw)
    end.
    - rewrite !filled_start. auto.
    - intros x [[row_uv row_uu] row_w] Hx (-> & -> & ->).
      rewrite !getitem_fmap_range by lia. cbn [bind].
      rewrite (setitem_filled 512 0 x
                 (fun x' => diff_value d_pay a x' * spatial_diff epi_pay a x')) by lia.
      cbn [bind].
      rewrite (setitem_filled 512 0 x
                 (fun x' => diff_value d_pay a x' * diff_value d_pay a x')) by lia.
      cbn [bind].
      rewrite (setitem_filled_eq 512 0 x (fun x' => Z.abs (diff_value d_pay a x')))
        by (lia || apply BM_abs_i_abs).
      cbn [bind]. eexists. split; [reflexivity|]. split; [reflexivity|split; reflexivity].
    - rewrite Hrun'. cbn [bind]. change (Z.max 0 512) with 512 in Hruv, Hruu, Hrw.
      rewrite filled_end in Hruv, Hruu, Hrw. subst row_uv row_uu row_w.
      rewrite (setitem_filled 9 0 a
                 (fun a' => (fun x => diff_value d_pay a' x * spatial_diff epi_pay a' x)
                              <$> range 512) (fun _ => zrow)) by lia.
      cbn [bind].
      rewrite (setitem_filled 9 0 a
                 (fun a' => (fun x => diff_value d_pay a' x * diff_value d_pay a' x)
                              <$> range 512) (fun _ => zrow)) by lia.
      cbn [bind].
      rewrite (setitem_filled 9 0 a
                 (fun a' => (fun x => Z.abs (diff_value d_pay a' x)) <$> range 512)
                 (fun _ => zrow)) by lia.
      cbn [bind]. eexists. split; [reflexivity|]. split; [reflexivity|split; reflexivity]. }
  rewrite Hrun. cbn [bind]. change (Z.max 0 9) with 9 in Huv, Huu, Hw.
  rewrite filled_end in Huv, Huu, Hw. subst P_uv P_uu W_u.
  reflexivity.
Qed.

Lemma grid_of_shape (A W : Z) (val : Z -> Z -> Z) :
  0 <= A -> 0 <= W ->
  grid_shape (grid_of A W val) A W /\
  forall a x, 0 <= a < A -> 0 <= x < W -> cell (grid_of A W val) a x = Some (val a x).
Proof.
  intros HA HW. unfold grid_of. split; [split|].
  - apply len_fmap_range. exact HA.
  - intros i row Hi. rewrite list_lookup_fmap in Hi.
    destruct (range A !! i) as [a|]; [|discriminate Hi]. injection Hi as <-.
    apply len_fmap_range. exact HW.
  - intros a x Ha Hx. unfold cell. rewrite lookup_fmap_range by exact Ha.
    apply lookup_fmap_range. exact Hx.
Qed.

Lemma BM_box_sum_grid (val : Z -> Z -> Z) (win : Z) :
  exists out,
    Bit_Manipulation._box_sum_2d_int (grid_of 9 512 val) win = Ok out /\
    grid_shape out 9 512 /\
    forall a x, 0 <= a < 9 -> 0 <= x < 512 -> cell out a x = Some (box_value val win a x).
Proof.
  destruct (grid_of_shape 9 512 val) as (Hshape & Hcell); [lia|lia|].
  unfold box_value. destruct (Z.leb_spec win 1) as [Hw|Hw].
  - exists (grid_of 9 512 val). split; [|split; [exact Hshape|exact Hcell]].
    unfold Bit_Manipulation._box_sum_2d_int. rewrite (proj2 (Z.leb_le win 1)) by lia.
    reflexivity.
  - destruct (box_sum_windows (grid_of 9 512 val) 9 512 win Hshape) as (out & _ & Hrun & Hs & Hv);
      [lia|lia|lia|].
    exists out. split; [exact Hrun|]. split; [exact Hs|exact Hv].
Qed.

Lemma epi_structure_sums_ok (epi_pay d_pay : list byte) (win : Z) :
  exists S_uv S_uu W_b,
    epi_structure_sums epi_pay d_pay win = Ok (S_uv, S_uu, W_b) /\
    grid_shape S_uv 9 512 /\ grid_shape S_uu 9 512 /\ grid_shape W_b 9 512 /\
    forall a x, 0 <= a < 9 -> 0 <= x < 512 ->
      cell W_b a x = Some (box_value (fun a x => Z.abs (diff_value d_pay a x)) win a x).
Proof.
  unfold epi_structure_sums.
  destruct (BM_box_sum_grid
              (fun a x => diff_value d_pay a x * spatial_diff epi_pay a x) win)
    as (S_uv & Huv & Hsuv & _).
  destruct (BM_box_sum_grid
              (fun a x => diff_value d_pay a x * diff_value d_pay a x) win)
    as (S_uu & Huu & Hsuu & _).
  destruct (BM_box_sum_grid (fun a x => Z.abs (diff_value d_pay a x)) win)
    as (W_b & Hw & Hsw & Hcw).
  exists S_uv, S_uu, W_b. rewrite Huv. cbn [bind]. rewrite Huu. cbn [bind].
  rewrite Hw. cbn [bind]. auto.
Qed.

Lemma getitem_cell_ok (g : list (list Z)) (R C i j v : Z) :
  grid_shape g R C -> 0 <= i < R -> 0 <= j < C -> cell g i j = Some v ->
  (row <- getitem g i ; getitem row j) = Ok v.
Proof.
  intros Hg Hi Hj Hv.
  destruct (getitem_cell g R C i j Hg Hi Hj) as (row & v' & Hrow & Hget & Hcell).
  rewrite Hrow. cbn [bind]. rewrite Hget. congruence.
Qed.

Lemma disparity_pixel_ok (S_uv S_uu W_b : list (list Z)) (x ratio inv_d : Z) :
  grid_shape S_uv 9 512 -> grid_shape S_uu 9 512 -> grid_shape W_b 9 512 ->
  0 <= x < 512 ->
  exists D, Bit_Manipulation.disparity_pixel S_uv S_uu W_b x ratio inv_d = Ok D /\
            (inv_d = 0 -> D = 0) /\
            ((forall a w, 0 <= a < 9 -> cell W_b a x = Some w -> w <= 0) -> D = 0).
Proof.
  intros Huv Huu Hw Hx. unfold Bit_Manipulation.disparity_pixel.
  change Bit_Manipulation.EPI_UV with 9.
  match goal with
  | |- exists D, bind (for_each _ ?body ?s0) _ = _ /\ _ =>
      destruct (for_range_inv 9 body
        (fun a '(num, den) =>
           (forall a' w, 0 <= a' < 9 -> cell W_b a' x = Some w -> w <= 0) ->
           num = 0 /\ den = 0) s0) as ([num den] & Hrun & Hzero)
  end.
  - intros _. auto.
  - intros a [num den] Ha Hinv.
    destruct (getitem_cell W_b 9 512 a x Hw Ha Hx) as (wrow & w & Hwrow & Hgw & Hcw).
    destruct (getitem_cell S_uu 9 512 a x Huu Ha Hx) as (urow & suu & Hurow & Hgu & _).
    destruct (getitem_cell S_uv 9 512 a x Huv Ha Hx) as (vrow & suv & Hvrow & Hgv & _).
    rewrite Hwrow. cbn [bind]. rewrite Hgw. cbn [bind].
    destruct (Z.ltb_spec 0 w) as [Hwpos|Hwle].
    + rewrite Hurow. cbn [bind]. rewrite Hgu. cbn [bind].
      destruct (Z.ltb_spec 0 suu).
      * rewrite Hvrow. cbn [bind]. rewrite Hgv. cbn [bind].
        eexists. split; [reflexivity|]. intros Hall.
        specialize (Hall a w Ha Hcw). lia.
      * eexists. split; [reflexivity|]. exact Hinv.
    + eexists. split; [reflexivity|]. exact Hinv.
  - rewrite Hrun. cbn [bind].
    destruct (Z.leb_spec den 0) as [Hden|Hden].
    + exists 0. auto.
    + eexists. split; [reflexivity|]. split.
      * intros ->. rewrite Z.mul_0_r. apply Z.shiftr_0_l.
      * intros Hall. destruct (Hzero Hall) as [_ ->]. lia.
Qed.

(** ** Disparity: the loop over the EPIs of one axis, and the packing *)

Lemma scatter_loop (n : Z) (val : Z -> Z) (idx : Z -> Z)
    (body : Z -> list Z -> result (list Z)) (C0 : list Z) :
  0 <= n ->
  (forall j, 0 <= j < n -> 0 <= idx j < len C0) ->
  (forall j j', 0 <= j < n -> 0 <= j' < n -> idx j = idx j' -> j = j') ->
  (forall j C, 0 <= j < n -> body j C = setitem C (idx j) (val j)) ->
  exists C,
    for_each (range n) body C0 = Ok C /\
    len C = len C0 /\
    (forall j, 0 <= j < n -> C !! Z.to_nat (idx j) = Some (val j)) /\
    (forall i, 0 <= i -> (forall j, 0 <= j < n -> i <> idx j) ->
       C !! Z.to_nat i = C0 !! Z.to_nat i).
Proof.
  intros Hn Hidx Hinj Hbody.
  destruct (for_range_inv n body
    (fun j C => len C = len C0 /\
       (forall j', 0 <= j' < j -> C !! Z.to_nat (idx j') = Some (val j')) /\
       (forall i, 0 <= i -> (forall j', 0 <= j' < j -> i <> idx j') ->
          C !! Z.to_nat i = C0 !! Z.to_nat i)) C0)
    as (C & Hrun & Hl & Hnew & Hold).
  - split; [reflexivity|]. split; [intros j' Hj'; lia|]. intros; reflexivity.
  - intros j C Hj (Hl & Hnew & Hold).
    rewrite (Hbody j C Hj). pose proof (Hidx j Hj) as Hij.
    rewrite setitem_in_range by lia.
    eexists. split; [reflexivity|]. split; [|split].
    + unfold len. rewrite length_insert. exact Hl.
    + intros j' Hj'. destruct (Z.eq_dec j' j) as [->|Hne].
      * rewrite list_lookup_insert_eq by (unfold len in Hl, Hij; lia). reflexivity.
      * rewrite list_lookup_insert_ne.
        -- apply Hnew. lia.
        -- intros Heq. apply Hne. symmetry. apply Hinj; [lia|lia|].
           pose proof (Hidx j' ltac:(lia)). lia.
    + intros i Hi Hfree. rewrite list_lookup_insert_ne.
      * apply Hold; [exact Hi|]. intros j' Hj'. apply Hfree. lia.
      * intros Heq. apply (Hfree j ltac:(lia)). lia.
  - rewrite Z.max_r in Hnew, Hold by lia.
    exists C. split; [exact Hrun|]. split; [exact Hl|]. split; [exact Hnew|exact Hold].
Qed.

Lemma diff_container_payload (dLs : list (list byte)) (n A k : Z) :
  diff_containers dLs n A -> 0 <= n < 2 ^ 32 -> 0 <= A < 2 ^ 32 -> 0 <= k < len dLs ->
  exists dl payload,
    getitem dLs k = Ok dl /\ dLs !! Z.to_nat k = Some dl /\
    len payload = n * A * 3 /\
    Bit_Manipulation.imbg_parse_payload dl = payload.
Proof.
  intros Hd Hn HA Hk.
  destruct (getitem_in_range dLs k Hk) as (dl & Hdl & Hget).
  unfold diff_containers in Hd. rewrite Forall_forall in Hd.
  destruct (Hd dl (list_elem_of_lookup_2 _ _ _ Hdl)) as (payload & -> & Hlen).
  exists (imgb_header n A 1 4 ++ payload), payload.
  split; [exact Hget|]. split; [exact Hdl|]. split; [exact Hlen|].
  unfold Bit_Manipulation.imbg_parse_payload.
  apply (header_fields n A 1 4 payload Hn HA).
Qed.

Lemma BM_disparity_axis_loop (epis dLs : list (list byte)) (ratio inv_d win : Z)
    (idx : Z -> Z -> Z) (out0 : list Z) :
  len epis = 512 -> len dLs = 512 ->
  epi_volumes epis 512 9 -> diff_containers dLs 512 9 ->
  (forall k j, 0 <= k < 512 -> 0 <= j < 512 -> 0 <= idx k j < len out0) ->
  (forall k j k' j', 0 <= k < 512 -> 0 <= j < 512 -> 0 <= k' < 512 -> 0 <= j' < 512 ->
     idx k j = idx k' j' -> k = k' /\ j = j') ->
  exists out_q,
    for_each (range 512) (fun k out_q =>
      e <- getitem epis k ;
      dl <- getitem dLs k ;
      '(S_uv, S_uu, W_b) <-
        Bit_Manipulation.structure_sums (Bit_Manipulation.imbg_parse_payload e)
          (Bit_Manipulation.imbg_parse_payload dl) win ;
      for_each (range 512) (fun j out_q =>
        D_q12 <- Bit_Manipulation.disparity_pixel S_uv S_uu W_b j ratio inv_d ;
        setitem out_q (idx k j) D_q12) out_q) out0 = Ok out_q /\
    len out_q = len out0 /\
    forall k j, 0 <= k < 512 -> 0 <= j < 512 ->
      exists epi dl S_uv S_uu W_b D,
        epis !! Z.to_nat k = Some epi /\ dLs !! Z.to_nat k = Some dl /\
        epi_structure_sums (Bit_Manipulation.imbg_parse_payload epi)
          (Bit_Manipulation.imbg_parse_payload dl) win = Ok (S_uv, S_uu, W_b) /\
        Bit_Manipulation.disparity_pixel S_uv S_uu W_b j ratio inv_d = Ok D /\
        out_q !! Z.to_nat (idx k j) = Some D.
Proof.
  intros Hle Hld Hepis Hdls Hidx Hinj.
  match goal with
  | |- exists out_q, for_each _ ?body ?s0 = _ /\ _ =>
      destruct (for_range_inv 512 body
        (fun k out_q => len out_q = len out0 /\
           forall k' j, 0 <= k' < k -> 0 <= j < 512 ->
             exists epi dl S_uv S_uu W_b D,
               epis !! Z.to_nat k' = Some epi /\ dLs !! Z.to_nat k' = Some dl /\
               epi_structure_sums (Bit_Manipulation.imbg_parse_payload epi)
                 (Bit_Manipulation.imbg_parse_payload dl) win = Ok (S_uv, S_uu, W_b) /\
               Bit_Manipulation.disparity_pixel S_uv S_uu W_b j ratio inv_d = Ok D /\
               out_q !! Z.to_nat (idx k' j) = Some D) s0)
        as (out_q & Hrun & Hl & Hc)
  end.
  - split; [reflexivity|]. intros k' j Hk'. lia.
  - intros k out_q Hk (Hl & Hc).
    destruct (epi_volume_payload epis 512 9 k Hepis) as (epi & pay & Hget & _ & Hpl & Hpay);
      [lia|lia|lia|].
    pose proof (getitem_Ok_inv epis k epi ltac:(lia) Hget) as [Hepik _].
    destruct (diff_container_payload dLs 512 9 k Hdls) as (dl & dpay & Hgetd & Hdlk & Hdl & Hdpay);
      [lia|lia|lia|].
    rewrite Hget. cbn [bind]. rewrite Hgetd. cbn [bind].
    change (Bit_Manipulation.imbg_parse_payload epi)
      with (No_Libraries.imbg_parse_payload epi).
    rewrite Hpay, Hdpay.
    rewrite BM_structure_sums_eq by lia.
    destruct (epi_structure_sums_ok pay dpay win)
      as (S_uv & S_uu & W_b & Hsums & Hsuv & Hsuu & Hsw & _).
    rewrite Hsums. cbn [bind].
    match goal with
    | |- exists s', for_each _ ?body ?s0 = _ /\ _ =>
        destruct (scatter_loop 512
          (fun j => match Bit_Manipulation.disparity_pixel S_uv S_uu W_b j ratio inv_d with
                    | Ok D => D
                    | _ => 0
                    end) (idx k) body s0)
          as (out_q' & Hrun' & Hl' & Hnew & Hold)
    end.
    + lia.
    + intros j Hj. rewrite Hl. apply Hidx; lia.
    + intros j j' Hj Hj' Heq. apply (Hinj k j k j'); (lia || assumption).
    + intros j C Hj.
      destruct (disparity_pixel_ok S_uv S_uu W_b j ratio inv_d Hsuv Hsuu Hsw Hj)
        as (D & HD & _).
      rewrite HD. reflexivity.
    + exists out_q'. split; [exact Hrun'|]. split; [lia|].
      intros k' j Hk' Hj. destruct (Z.eq_dec k' k) as [->|Hne].
      * destruct (disparity_pixel_ok S_uv S_uu W_b j ratio inv_d Hsuv Hsuu Hsw Hj)
          as (D & HD & _).
        exists epi, dl, S_uv, S_uu, W_b, D.
        split; [exact Hepik|]. split; [exact Hdlk|].
        change (Bit_Manipulation.imbg_parse_payload epi)
          with (No_Libraries.imbg_parse_payload epi).
        rewrite Hpay, Hdpay. split; [exact Hsums|]. split; [exact HD|].
        rewrite (Hnew j Hj), HD. reflexivity.
      * destruct (Hc k' j ltac:(lia) Hj) as (epi' & dl' & S1 & S2 & S3 & D & H1 & H2 & H3 & H4 & H5).
        exists epi', dl', S1, S2, S3, D. repeat (split; [assumption|]).
        rewrite Hold; [exact H5| |].
        -- pose proof (Hidx k' j ltac:(lia) Hj). lia.
        -- intros j' Hj' Heq.
           destruct (Hinj k' j k j') as [Hkk _]; (lia || assumption).
  - exists out_q. split; [exact Hrun|]. split; [exact Hl|]. exact Hc.
Qed.

Lemma BM_pack_disparity_ok (out_q : list Z) :
  len out_q = 262144 ->
  exists out,
    Bit_Manipulation.pack_disparity out_q = Ok (imgb_header 512 512 1 4 ++ out) /\
    len out = 786432 /\
    forall i q, 0 <= i < 262144 -> out_q !! Z.to_nat i = Some q ->
      No_Libraries._u24_read out (i * 3) = Ok (Bit_Manipulation._bias_q q).
Proof.
  intros Hlen. unfold Bit_Manipulation.pack_disparity.
  change Bit_Manipulation.OUT_IMG_BYTES with 786432.
  change Bit_Manipulation.N_IMG with 262144.
  change Bit_Manipulation.BYTES_PER_SAMPLE with 3.
  change Bit_Manipulation.WH_SIZE with 512.
  change Bit_Manipulation._u24_write with No_Libraries._u24_write.
  rewrite bytearray_ok by lia. cbn [bind].
  match goal with
  | |- exists payload, bind (for_each _ ?body ?s0) _ = _ /\ _ =>
      destruct (u24_fill_st 262144 0 786432
        (fun i => match out_q !! Z.to_nat i with
                  | Some q => Bit_Manipulation._bias_q q
                  | None => 0
                  end) fst (fun i st => snd st = i * 3) body s0)
        as ([pl o] & Hrun & _ & Hl & Hread & _)
  end.
  - lia.
  - lia.
  - lia.
  - cbn [fst]. rewrite len_replicate. lia.
  - reflexivity.
  - intros i [pl o] Hi Hlp Haux. cbn [fst snd] in *. subst o.
    destruct (getitem_in_range out_q i) as (q & Hq & Hget); [lia|].
    rewrite Hget, Hq. cbn [bind].
    destruct (u24_write_spec pl (i * 3) (Bit_Manipulation._bias_q q))
      as (pl' & Hw & _); [lia|lia|].
    rewrite Hw. cbn [bind]. eexists. split; [reflexivity|]. cbn [fst snd].
    split; [lia|]. exact Hw.
  - cbn [fst] in *. rewrite Hrun. cbn [bind]. rewrite BM_imgb_make_ok by lia.
    exists pl. split; [reflexivity|]. split; [exact Hl|].
    intros i q Hi Hq. pose proof (Hread i Hi) as Hr. rewrite Z.add_0_l, Hq in Hr.
    rewrite Hr. rewrite land_u24_small by apply BM_bias_q_range. reflexivity.
Qed.

Lemma shiftl9 (y : Z) : Z.shiftl y Bit_Manipulation.WH_SHIFT = y * 512.
Proof.
  unfold Bit_Manipulation.WH_SHIFT. rewrite Z.shiftl_mul_pow2 by lia. reflexivity.
Qed.

Lemma BM_horizontal_spec (epi_h_imgb dL_du_h : list (list byte)) (d ds du win : Z) :
  len epi_h_imgb = 512 -> len dL_du_h = 512 ->
  epi_volumes epi_h_imgb 512 9 -> diff_containers dL_du_h 512 9 ->
  exists out,
    Bit_Manipulation.compute_horizontal_from_epis epi_h_imgb dL_du_h d ds du win =
      Ok (imgb_header 512 512 1 4 ++ out) /\
    len out = 786432 /\
    forall y x, 0 <= y < 512 -> 0 <= x < 512 ->
      disparity_sample epi_h_imgb dL_du_h win
        (Bit_Manipulation._div_q12 du ds) (Bit_Manipulation._inv_q12 d) y x out (y * 512 + x).
Proof.
  intros Hle Hld Hepis Hdls.
  unfold Bit_Manipulation.compute_horizontal_from_epis. cbv zeta.
  change Bit_Manipulation.WH_SIZE with 512. change Bit_Manipulation.N_IMG with 262144.
  destruct (BM_disparity_axis_loop epi_h_imgb dL_du_h
              (Bit_Manipulation._div_q12 du ds) (Bit_Manipulation._inv_q12 d) win
              (fun y x => Z.shiftl y Bit_Manipulation.WH_SHIFT + x)
              ((fun _ => 0) <$> range 262144) Hle Hld Hepis Hdls)
    as (out_q & Hrun & Hl & Hc).
  { intros k j Hk Hj. rewrite shiftl9, len_fmap_range by lia. lia. }
  { intros k j k' j' Hk Hj Hk' Hj' Heq. rewrite !shiftl9 in Heq.
    apply (row_major_inj 512 k j k' j'); assumption. }
  cbv beta in Hrun. rewrite Hrun. cbn [bind].
  rewrite len_fmap_range in Hl by lia.
  destruct (BM_pack_disparity_ok out_q Hl) as (out & Hpack & Hlo & Hread).
  exists out. split; [exact Hpack|]. split; [exact Hlo|].
  intros y x Hy Hx.
  destruct (Hc y x Hy Hx) as (epi & dl & S1 & S2 & S3 & D & H1 & H2 & H3 & H4 & H5).
  exists epi, dl, S1, S2, S3, D. repeat (split; [assumption|]).
  cbv beta in H5. rewrite shiftl9 in H5. apply Hread; [lia|exact H5].
Qed.

Lemma BM_vertical_spec (epi_v_imgb dL_dv_v : list (list byte)) (d dt dv win : Z) :
  len epi_v_imgb = 512 -> len dL_dv_v = 512 ->
  epi_volumes epi_v_imgb 512 9 -> diff_containers dL_dv_v 512 9 ->
  exists out,
    Bit_Manipulation.compute_vertical_from_epis epi_v_imgb dL_dv_v d dt dv win =
      Ok (imgb_header 512 512 1 4 ++ out) /\
    len out = 786432 /\
    forall y x, 0 <= y < 512 -> 0 <= x < 512 ->
      disparity_sample epi_v_imgb dL_dv_v win
        (Bit_Manipulation._div_q12 dv dt) (Bit_Manipulation._inv_q12 d) x y out (y * 512 + x).
Proof.
  intros Hle Hld Hepis Hdls.
  unfold Bit_Manipulation.compute_vertical_from_epis. cbv zeta.
  change Bit_Manipulation.WH_SIZE with 512. change Bit_Manipulation.N_IMG with 262144.
  destruct (BM_disparity_axis_loop epi_v_imgb dL_dv_v
              (Bit_Manipulation._div_q12 dv dt) (Bit_Manipulation._inv_q12 d) win
              (fun x y => Z.shiftl y Bit_Manipulation.WH_SHIFT + x)
              ((fun _ => 0) <$> range 262144) Hle Hld Hepis Hdls)
    as (out_q & Hrun & Hl & Hc).
  { intros k j Hk Hj. rewrite shiftl9, len_fmap_range by lia. lia. }
  { intros k j k' j' Hk Hj Hk' Hj' Heq. rewrite !shiftl9 in Heq.
    destruct (row_major_inj 512 j k j' k') as [-> ->]; auto. }
  cbv beta in Hrun. rewrite Hrun. cbn [bind].
  rewrite len_fmap_range in Hl by lia.
  destruct (BM_pack_disparity_ok out_q Hl) as (out & Hpack & Hlo & Hread).
  exists out. split; [exact Hpack|]. split; [exact Hlo|].
  intros y x Hy Hx.
  destruct (Hc x y Hx Hy) as (epi & dl & S1 & S2 & S3 & D & H1 & H2 & H3 & H4 & H5).
  exists epi, dl, S1, S2, S3, D. repeat (split; [assumption|]).
  cbv beta in H5. rewrite shiftl9 in H5. apply Hread; [lia|exact H5].
Qed.

(** X21. The disparity stage of Bit_Manipulation on well-formed 512 x 512,
    9-sample inputs, whatever the parameters [d], [ds], [du] and [win]: it
    returns a 512 x 512 single-channel container, and the sample of pixel
    [(y, x)] is the biased [D_q12] that the per-pixel loop computes from
    the box sums over the window of [du * ds], [du * du] and [|du|], where
    [du] is the decoded angular difference and [ds] the rounded central
    difference of channel 0 along the EPI row (zero in the first and last
    column): for the horizontal map from pixel [x] of EPI [y], for the
    vertical map from pixel [y] of EPI [x]. *)
Theorem disparity_from_structure_sums (epis dLs : list (list byte)) (d ds du win : Z) :
  len epis = 512 -> len dLs = 512 ->
  epi_volumes epis 512 9 -> diff_containers dLs 512 9 ->
  (exists out,
     Bit_Manipulation.compute_horizontal_from_epis epis dLs d ds du win =
       Ok (imgb_header 512 512 1 4 ++ out) /\
     len out = 786432 /\
     forall y x, 0 <= y < 512 -> 0 <= x < 512 ->
       disparity_sample epis dLs win
         (Bit_Manipulation._div_q12 du ds) (Bit_Manipulation._inv_q12 d) y x out (y * 512 + x)) /\
  (exists out,
     Bit_Manipulation.compute_vertical_from_epis epis dLs d ds du win =
       Ok (imgb_header 512 512 1 4 ++ out) /\
     len out = 786432 /\
     forall y x, 0 <= y < 512 -> 0 <= x < 512 ->
       disparity_sample epis dLs win
         (Bit_Manipulation._div_q12 du ds) (Bit_Manipulation._inv_q12 d) x y out (y * 512 + x)).
Proof.
  intros Hle Hld Hepis Hdls. split.
  - apply BM_horizontal_spec; assumption.
  - apply BM_vertical_spec; assumption.
Qed.

Lemma uniform_epi_volumes :
  epi_volumes (replicate 512 (imgb_header 512 9 3 4 ++ replicate (Z.to_nat 41472) Byte.x2a))
    512 9.
Proof.
  apply Forall_replicate. exists (replicate (Z.to_nat 41472) Byte.x2a).
  split; [reflexivity|]. rewrite len_replicate. lia.
Qed.

Lemma constant_diff_containers (b0 b1 b2 : byte) :
  diff_containers (replicate 512 (imgb_header 512 9 1 4 ++ constant_image 4608 b0 b1 b2))
    512 9.
Proof.
  apply Forall_replicate. exists (constant_image 4608 b0 b1 b2).
  split; [reflexivity|]. rewrite constant_image_len by lia. lia.
Qed.

Lemma disparity_from_structure_sums_witness :
  (exists out,
     Bit_Manipulation.compute_horizontal_from_epis
       (replicate 512 (imgb_header 512 9 3 4 ++ replicate (Z.to_nat 41472) Byte.x2a))
       (replicate 512 (imgb_header 512 9 1 4 ++ constant_image 4608 Byte.x00 Byte.x10 Byte.x80))
       4096 4096 4096 5 = Ok (imgb_header 512 512 1 4 ++ out) /\
     len out = 786432 /\
     forall y x, 0 <= y < 512 -> 0 <= x < 512 ->
       disparity_sample
         (replicate 512 (imgb_header 512 9 3 4 ++ replicate (Z.to_nat 41472) Byte.x2a))
         (replicate 512 (imgb_header 512 9 1 4 ++ constant_image 4608 Byte.x00 Byte.x10 Byte.x80))
         5 (Bit_Manipulation._div_q12 4096 4096) (Bit_Manipulation._inv_q12 4096)
         y x out (y * 512 + x)) /\
  (exists out,
     Bit_Manipulation.compute_vertical_from_epis
       (replicate 512 (imgb_header 512 9 3 4 ++ replicate (Z.to_nat 41472) Byte.x2a))
       (replicate 512 (imgb_header 512 9 1 4 ++ constant_image 4608 Byte.x00 Byte.x10 Byte.x80))
       4096 4096 4096 5 = Ok (imgb_header 512 512 1 4 ++ out) /\
     len out = 786432 /\
     forall y x, 0 <= y < 512 -> 0 <= x < 512 ->
       disparity_sample
         (replicate 512 (imgb_header 512 9 3 4 ++ replicate (Z.to_nat 41472) Byte.x2a))
         (replicate 512 (imgb_header 512 9 1 4 ++ constant_image 4608 Byte.x00 Byte.x10 Byte.x80))
         5 (Bit_Manipulation._div_q12 4096 4096) (Bit_Manipulation._inv_q12 4096)
         x y out (y * 512 + x)).
Proof.
  exact (disparity_from_structure_sums
           (replicate 512 (imgb_header 512 9 3 4 ++ replicate (Z.to_nat 41472) Byte.x2a))
           (replicate 512 (imgb_header 512 9 1 4 ++ constant_image 4608 Byte.x00 Byte.x10 Byte.x80))
           4096 4096 4096 5 eq_refl eq_refl uniform_epi_volumes
           (constant_diff_containers Byte.x00 Byte.x10 Byte.x80)).
Defined.

Lemma sum_list_zero (l : list Z) : Forall (fun v => v = 0) l -> sum_list l = 0.
Proof.
  induction 1 as [|v l -> _ IH]; [reflexivity|].
  cbn [sum_list foldr]. unfold sum_list in IH. lia.
Qed.

Lemma box_value_zero (val : Z -> Z -> Z) (win a x : Z) :
  (forall a' x', 0 <= a' < 9 -> 0 <= x' < 512 -> val a' x' = 0) ->
  0 <= a < 9 -> 0 <= x < 512 -> box_value val win a x = 0.
Proof.
  intros Hval Ha Hx. unfold box_value.
  destruct (Z.leb_spec win 1); [apply Hval; assumption|].
  unfold window_direct_sum. cbv zeta.
  apply sum_list_zero. apply Forall_fmap.
  apply slice_Forall. unfold grid_of. apply Forall_fmap.
  apply Forall_forall. intros a' Ha'.
  apply list_elem_of_lookup_1 in Ha' as [i Hi]. unfold range in Hi.
  apply lookup_seqZ in Hi as [-> Hlt]. cbn.
  apply sum_list_zero. apply slice_Forall. apply Forall_fmap.
  apply Forall_forall. intros x' Hx'.
  apply list_elem_of_lookup_1 in Hx' as [j Hj]. unfold range in Hj.
  apply lookup_seqZ in Hj as [-> Hlt']. cbn. apply Hval; lia.
Qed.

Lemma diff_value_zero (d_pay : list byte) (a x : Z) :
  all_zero 4608 d_pay -> 0 <= a < 9 -> 0 <= x < 512 -> diff_value d_pay a x = 0.
Proof.
  intros Hz Ha Hx. unfold diff_value.
  rewrite (u24_at_read _ _ _ (Hz (a * 512 + x) ltac:(lia))). reflexivity.
Qed.

Lemma disparity_sample_zero (epis dLs : list (list byte)) (win ratio inv_d k j : Z)
    (out : list byte) (i : Z) :
  0 <= k < 512 -> 0 <= j < 512 ->
  inv_d = 0 \/
  (forall dl, dLs !! Z.to_nat k = Some dl ->
     all_zero 4608 (Bit_Manipulation.imbg_parse_payload dl)) ->
  disparity_sample epis dLs win ratio inv_d k j out i -> sample_is_zero out i.
Proof.
  intros Hk Hj Hcase (epi & dl & S_uv & S_uu & W_b & D & Hepi & Hdl & Hsums & HD & Hread).
  destruct (epi_structure_sums_ok (Bit_Manipulation.imbg_parse_payload epi)
              (Bit_Manipulation.imbg_parse_payload dl) win)
    as (S1 & S2 & S3 & Hsums' & Hs1 & Hs2 & Hs3 & Hcw).
  rewrite Hsums in Hsums'. injection Hsums' as <- <- <-.
  destruct (disparity_pixel_ok S_uv S_uu W_b j ratio inv_d Hs1 Hs2 Hs3 Hj)
    as (D' & HD' & Hinv & Hnow).
  rewrite HD in HD'. injection HD' as <-.
  assert (D = 0) as ->.
  { destruct Hcase as [Hzero|Hzero]; [apply Hinv; exact Hzero|].
    apply Hnow. intros a w Ha Hw. rewrite (Hcw a j Ha Hj) in Hw. injection Hw as <-.
    rewrite box_value_zero; [lia| |exact Ha|exact Hj].
    intros a' x' Ha' Hx'. rewrite (diff_value_zero _ a' x' (Hzero dl Hdl) Ha' Hx').
    reflexivity. }
  unfold sample_is_zero. rewrite Hread. reflexivity.
Qed.

(** X22. No angular difference, no disparity: when every sample of every
    difference volume decodes to zero, both disparity maps of
    Bit_Manipulation are zero everywhere, for every window and whatever the
    EPIs hold (all weights [|du|] vanish, so no row contributes and the
    guarded quotient returns 0). *)
Theorem disparity_zero_without_angular_difference
    (epis dLs : list (list byte)) (d ds du win : Z) :
  len epis = 512 -> len dLs = 512 ->
  epi_volumes epis 512 9 -> diff_containers dLs 512 9 ->
  (forall k dl, dLs !! k = Some dl ->
     all_zero 4608 (Bit_Manipulation.imbg_parse_payload dl)) ->
  (exists out,
     Bit_Manipulation.compute_horizontal_from_epis epis dLs d ds du win =
       Ok (imgb_header 512 512 1 4 ++ out) /\
     len out = 786432 /\ all_zero 262144 out) /\
  (exists out,
     Bit_Manipulation.compute_vertical_from_epis epis dLs d ds du win =
       Ok (imgb_header 512 512 1 4 ++ out) /\
     len out = 786432 /\ all_zero 262144 out).
Proof.
  intros Hle Hld Hepis Hdls Hzero. split.
  - destruct (BM_horizontal_spec epis dLs d ds du win Hle Hld Hepis Hdls)
      as (out & Hrun & Hl & Hs).
    exists out. split; [exact Hrun|]. split; [exact Hl|]. intros i Hi.
    destruct (cell_index_decompose 512 512 i) as (y & x & Hy & Hx & ->); [lia|lia|].
    pose proof (Hs y x Hy Hx) as Hsample.
    refine (disparity_sample_zero epis dLs win _ _ y x out _ Hy Hx _ Hsample).
    right. intros dl Hdl. apply (Hzero _ _ Hdl).
  - destruct (BM_vertical_spec epis dLs d ds du win Hle Hld Hepis Hdls)
      as (out & Hrun & Hl & Hs).
    exists out. split; [exact Hrun|]. split; [exact Hl|]. intros i Hi.
    destruct (cell_index_decompose 512 512 i) as (y & x & Hy & Hx & ->); [lia|lia|].
    pose proof (Hs y x Hy Hx) as Hsample.
    refine (disparity_sample_zero epis dLs win _ _ x y out _ Hx Hy _ Hsample).
    right. intros dl Hdl. apply (Hzero _ _ Hdl).
Qed.

Lemma constant_image_zero_samples (n : Z) :
  0 <= n -> all_zero n (constant_image n Byte.x00 Byte.x00 Byte.x80).
Proof.
  intros Hn i Hi. unfold sample_is_zero.
  destruct (constant_image_lookup n i Byte.x00 Byte.x00 Byte.x80 Hi) as (H0 & H1 & H2).
  rewrite (u24_read_bytes _ (i * 3) _ _ _ ltac:(lia) H0 H1 H2). reflexivity.
Qed.

Lemma zero_diff_payloads (k : nat) (dl : list byte) :
  replicate 512 (imgb_header 512 9 1 4 ++ constant_image 4608 Byte.x00 Byte.x00 Byte.x80)
    !! k = Some dl ->
  all_zero 4608 (Bit_Manipulation.imbg_parse_payload dl).
Proof.
  intros Hk. apply lookup_replicate in Hk as [-> _].
  unfold Bit_Manipulation.imbg_parse_payload.
  pose proof (header_fields 512 9 1 4
                (constant_image 4608 Byte.x00 Byte.x00 Byte.x80)) as Hf.
  cbv zeta in Hf. rewrite (proj2 (proj2 (proj2 (proj2 (proj2 (proj2 (Hf ltac:(lia) ltac:(lia)))))))).
  apply constant_image_zero_samples. lia.
Qed.

Lemma disparity_zero_without_angular_difference_witness :
  (exists out,
     Bit_Manipulation.compute_horizontal_from_epis
       (replicate 512 (imgb_header 512 9 3 4 ++ replicate (Z.to_nat 41472) Byte.x2a))
       (replicate 512 (imgb_header 512 9 1 4 ++ constant_image 4608 Byte.x00 Byte.x00 Byte.x80))
       4096 4096 4096 5 = Ok (imgb_header 512 512 1 4 ++ out) /\
     len out = 786432 /\ all_zero 262144 out) /\
  (exists out,
     Bit_Manipulation.compute_vertical_from_epis
       (replicate 512 (imgb_header 512 9 3 4 ++ replicate (Z.to_nat 41472) Byte.x2a))
       (replicate 512 (imgb_header 512 9 1 4 ++ constant_image 4608 Byte.x00 Byte.x00 Byte.x80))
       4096 4096 4096 5 = Ok (imgb_header 512 512 1 4 ++ out) /\
     len out = 786432 /\ all_zero 262144 out).
Proof.
  exact (disparity_zero_without_angular_difference
           (replicate 512 (imgb_header 512 9 3 4 ++ replicate (Z.to_nat 41472) Byte.x2a))
           (replicate 512 (imgb_header 512 9 1 4 ++ constant_image 4608 Byte.x00 Byte.x00 Byte.x80))
           4096 4096 4096 5 eq_refl eq_refl uniform_epi_volumes
           (constant_diff_containers Byte.x00 Byte.x00 Byte.x80) zero_diff_payloads).
Defined.

(** X23. A zero baseline parameter [d] does not divide by zero: [_inv_q12]
    returns 0 for it, and both disparity maps of Bit_Manipulation are then
    zero everywhere, on every well-formed input. *)
Theorem disparity_zero_for_zero_d (epis dLs : list (list byte)) (ds du win : Z) :
  len epis = 512 -> len dLs = 512 ->
  epi_volumes epis 512 9 -> diff_containers dLs 512 9 ->
  (exists out,
     Bit_Manipulation.compute_horizontal_from_epis epis dLs 0 ds du win =
       Ok (imgb_header 512 512 1 4 ++ out) /\
     len out = 786432 /\ all_zero 262144 out) /\
  (exists out,
     Bit_Manipulation.compute_vertical_from_epis epis dLs 0 ds du win =
       Ok (imgb_header 512 512 1 4 ++ out) /\
     len out = 786432 /\ all_zero 262144 out).
Proof.
  intros Hle Hld Hepis Hdls. split.
  - destruct (BM_horizontal_spec epis dLs 0 ds du win Hle Hld Hepis Hdls)
      as (out & Hrun & Hl & Hs).
    exists out. split; [exact Hrun|]. split; [exact Hl|]. intros i Hi.
    destruct (cell_index_decompose 512 512 i) as (y & x & Hy & Hx & ->); [lia|lia|].
    pose proof (Hs y x Hy Hx) as Hsample.
    refine (disparity_sample_zero epis dLs win _ _ y x out _ Hy Hx _ Hsample).
    left. reflexivity.
  - destruct (BM_vertical_spec epis dLs 0 ds du win Hle Hld Hepis Hdls)
      as (out & Hrun & Hl & Hs).
    exists out. split; [exact Hrun|]. split; [exact Hl|]. intros i Hi.
    destruct (cell_index_decompose 512 512 i) as (y & x & Hy & Hx & ->); [lia|lia|].
    pose proof (Hs y x Hy Hx) as Hsample.
    refine (disparity_sample_zero epis dLs win _ _ x y out _ Hx Hy _ Hsample).
    left. reflexivity.
Qed.

Lemma disparity_zero_for_zero_d_witness :
  (exists out,
     Bit_Manipulation.compute_horizontal_from_epis
       (replicate 512 (imgb_header 512 9 3 4 ++ replicate (Z.to_nat 41472) Byte.x2a))
       (replicate 512 (imgb_header 512 9 1 4 ++ constant_image 4608 Byte.x00 Byte.x10 Byte.x80))
       0 4096 4096 5 = Ok (imgb_header 512 512 1 4 ++ out) /\
     len out = 786432 /\ all_zero 262144 out) /\
  (exists out,
     Bit_Manipulation.compute_vertical_from_epis
       (replicate 512 (imgb_header 512 9 3 4 ++ replicate (Z.to_nat 41472) Byte.x2a))
       (replicate 512 (imgb_header 512 9 1 4 ++ constant_image 4608 Byte.x00 Byte.x10 Byte.x80))
       0 4096 4096 5 = Ok (imgb_header 512 512 1 4 ++ out) /\
     len out = 786432 /\ all_zero 262144 out).
Proof.
  exact (disparity_zero_for_zero_d
           (replicate 512 (imgb_header 512 9 3 4 ++ replicate (Z.to_nat 41472) Byte.x2a))
           (replicate 512 (imgb_header 512 9 1 4 ++ constant_image 4608 Byte.x00 Byte.x10 Byte.x80))
           4096 4096 5 eq_refl eq_refl uniform_epi_volumes
           (constant_diff_containers Byte.x00 Byte.x10 Byte.x80)).
Defined.

(** ** Bit_Manipulation outside its fixed geometry

    The byte constants of Bit_Manipulation ([ROW_BYTES_X9], [EPI_UV], ...)
    are those of 512 x 512 images with 9 angular samples.  The functions
    take the geometry as an argument or read it from nothing at all, so
    other inputs reach them; what they do then is not what the 9-sample
    theorems state. *)

Lemma for_each_raise_first {I St} (l : list I) (body : I -> St -> result St)
    (s : St) (e : exn) (i : I) (l' : list I) :
  l = i :: l' -> body i s = Raise e -> for_each l body s = Raise e.
Proof. intros -> Hb. cbn [for_each]. rewrite Hb. reflexivity. Qed.

Lemma range_cons (n : Z) : 0 < n -> range n = 0 :: seqZ 1 (n - 1).
Proof.
  intros Hn. unfold range. rewrite seqZ_cons by lia.
  replace (Z.succ 0) with 1 by lia. replace (Z.pred n) with (n - 1) by lia.
  reflexivity.
Qed.




(** On an EPI payload of [A] angular rows, [3 <= A < 9], the difference
    volume of Bit_Manipulation is never produced: rows [0 .. A - 2] are
    written, and at row [A - 1], an interior row for the fixed [EPI_UV = 9],
    the read of row [A] at byte [A * 4608] is past the payload. *)
Lemma BM_diff_volume_short (pay : list byte) (CH_OFF A : Z) :
  0 <= CH_OFF <= 6 -> 3 <= A < 9 -> len pay = A * 4608 ->
  Bit_Manipulation.diff_volume pay CH_OFF = Raise IndexError.
Proof.
  intros Hch HA Hpay. unfold Bit_Manipulation.diff_volume. cbv zeta.
  change Bit_Manipulation.DIFF_PAY_BYTES with 13824.
  change Bit_Manipulation.WH_SIZE with 512.
  change Bit_Manipulation.EPI_UV with 9.
  change Bit_Manipulation.BYTES_PER_SAMPLE with 3.
  change Bit_Manipulation.BYTES_PER_PIXEL_RGB with 9.
  change Bit_Manipulation.EPI_ROW_BYTES with 4608.
  change Bit_Manipulation.DIFF_ROW_BYTES with 1536.
  change Bit_Manipulation._u24_write with No_Libraries._u24_write.
  change Bit_Manipulation._u24_read with No_Libraries._u24_read.
  rewrite bytearray_ok by lia. cbn [bind].
  assert (Hsplit : range 9 = seqZ 0 (A - 1) ++ (A - 1) :: seqZ A (9 - A)).
  { unfold range. replace 9 with ((A - 1) + (10 - A)) at 1 by lia.
    rewrite seqZ_app by lia. f_equal.
    rewrite seqZ_cons by lia. f_equal. f_equal; lia. }
  rewrite Hsplit, for_each_app.
  match goal with
  | |- bind (bind (for_each _ ?body ?s0) _) _ = _ =>
      destruct (for_seqZ_inv 0 (A - 1) body
        (fun a '(out, sum_abs, orb) => orb = a * 1536 /\
           len out = 13824 /\ len sum_abs = 512) s0)
        as ([[out sum_abs] orb] & Hrun & Horb & Hl & Hs)
  end.
  - split; [reflexivity|]. split; [rewrite len_replicate; lia|].
    apply len_list_repeat; lia.
  - intros a [[out sum_abs] orb] Ha (Horb & Hl & Hs). subst orb.
    destruct ((a =? 0) || (a =? 9 - 1)) eqn:Hborder.
    + match goal with
      | |- exists s', bind (bind (for_each _ ?body ?s0) _) _ = _ /\ _ =>
          destruct (u24_fill_st 512 (a * 1536) 13824
                      (fun _ => Bit_Manipulation.BIAS_INT) fst
                      (fun i st => snd st = a * 1536 + i * 3) body s0)
            as ([out' o'] & Hrun' & _ & Hl' & _ & _)
      end.
      * lia.
      * lia.
      * lia.
      * exact Hl.
      * cbn [snd]. lia.
      * intros i [o_d o] Hi Hlo Haux. cbn [fst snd] in *. subst o.
        destruct (u24_write_spec o_d (a * 1536 + i * 3) Bit_Manipulation.BIAS_INT)
          as (o_d' & Hw & _); [lia|lia|].
        rewrite Hw. cbn [bind]. eexists. split; [reflexivity|].
        cbn [fst snd]. split; [lia|reflexivity].
      * cbn [fst] in *. rewrite Hrun'. cbn [bind].
        eexists. split; [reflexivity|]. cbv beta iota.
        split; [lia|]. split; [exact Hl'|exact Hs].
    + apply orb_false_iff in Hborder as [H0 H1].
      apply Z.eqb_neq in H0. apply Z.eqb_neq in H1.
      match goal with
      | |- exists s', bind (bind (for_each _ ?body ?s0) _) _ = _ /\ _ =>
          destruct (u24_fill_st 512 (a * 1536) 13824
            (fun i =>
               match No_Libraries._u24_read pay ((a - 1) * 4608 + i * 9 + CH_OFF),
                     No_Libraries._u24_read pay ((a + 1) * 4608 + i * 9 + CH_OFF) with
               | Ok um, Ok up =>
                   Bit_Manipulation._bias_from_q12_12
                     (Bit_Manipulation._round_div2
                        (up - Bit_Manipulation.BIAS_INT - (um - Bit_Manipulation.BIAS_INT)))
               | _, _ => 0
               end)
            (fun st => fst (fst (fst st)))
            (fun i '(_, sum, x9, o) => len sum = 512 /\ x9 = i * 9 /\ o = a * 1536 + i * 3)
            body s0)
            as ([[[out' sum'] x9'] o'] & Hrun' & (Hs' & _) & Hl' & _ & _)
      end.
      * lia.
      * lia.
      * lia.
      * exact Hl.
      * split; [exact Hs|]. lia.
      * intros i [[[o_d sum] x9] o] Hi Hlo (Hsum & Hx9 & Ho). cbn [fst] in *.
        subst x9 o.
        destruct (u24_read_in_range pay ((a - 1) * 4608 + i * 9 + CH_OFF))
          as (um & Hum & _); [lia|lia|].
        destruct (u24_read_in_range pay ((a + 1) * 4608 + i * 9 + CH_OFF))
          as (up & Hup & _); [lia|lia|].
        rewrite Hum, Hup. cbn [bind].
        destruct (u24_write_spec o_d (a * 1536 + i * 3)
                    (Bit_Manipulation._bias_from_q12_12
                       (Bit_Manipulation._round_div2
                          (up - Bit_Manipulation.BIAS_INT - (um - Bit_Manipulation.BIAS_INT)))))
          as (o_d' & Hw & _); [lia|lia|].
        rewrite Hw. cbn [bind].
        destruct (getitem_in_range sum i) as (sv & _ & Hgs); [lia|].
        rewrite Hgs. cbn [bind]. rewrite setitem_in_range by lia. cbn [bind].
        eexists. split; [reflexivity|]. cbn [fst].
        split; [|reflexivity].
        split; [unfold len; rewrite length_insert; exact Hsum|]. lia.
      * cbn [fst] in *. rewrite Hrun'. cbn [bind].
        eexists. split; [reflexivity|]. cbv beta iota.
        split; [lia|]. split; [exact Hl'|exact Hs'].
  - rewrite Hrun. cbn [bind for_each].
    assert (Hb : (A - 1 =? 0) || (A - 1 =? 9 - 1) = false).
    { apply orb_false_iff. split; apply Z.eqb_neq; lia. }
    rewrite Hb. rewrite (range_cons 512) by lia. cbn [for_each].
    destruct (u24_read_in_range pay ((A - 1 - 1) * 4608 + 0 + CH_OFF))
      as (um & Hum & _); [lia|lia|].
    rewrite Hum. cbn [bind].
    rewrite (u24_read_beyond pay ((A - 1 + 1) * 4608 + 0 + CH_OFF)) by lia.
    reflexivity.
Qed.

(** The confidence stage of Bit_Manipulation on 512 EPIs of 512 pixels by
    [A] angular rows, [3 <= A < 9]: IndexError, on the first EPI. *)
Lemma BM_confidence_short (epi_h_imgb epi_v_imgb : list (list byte))
    (channel : option Z) (A : Z) :
  channel_ok channel -> 3 <= A < 9 ->
  len epi_h_imgb = 512 -> epi_volumes epi_h_imgb 512 A ->
  Bit_Manipulation.compute_from_epis_with_diffs epi_h_imgb epi_v_imgb channel =
    Raise IndexError.
Proof.
  intros Hc HA Hlen Hepis.
  unfold Bit_Manipulation.compute_from_epis_with_diffs. cbv zeta.
  change Bit_Manipulation.WH_SIZE with 512.
  assert (Hoff : 0 <= Z.shiftl (match channel with None => 0 | Some c => c end) 1
                      + match channel with None => 0 | Some c => c end <= 6).
  { unfold channel_ok in Hc. destruct channel as [c|]; [|change (Z.shiftl 0 1) with 0; lia].
    rewrite Z.shiftl_mul_pow2 by lia. change (2 ^ 1) with 2. lia. }
  destruct (epi_volume_payload epi_h_imgb 512 A 0 Hepis)
    as (epi & payload & Hget & -> & Hpl & Hpay); [lia|lia|rewrite Hlen; lia|].
  match goal with
  | |- bind (for_each _ ?body ?s0) _ = _ =>
      rewrite (for_each_raise_first (range 512) body s0 IndexError 0 (seqZ 1 511))
  end.
  - reflexivity.
  - apply (range_cons 512). lia.
  - cbv beta iota. rewrite Hget. cbn [bind].
    change (Bit_Manipulation.imbg_parse_payload (imgb_header 512 A 3 4 ++ payload))
      with (No_Libraries.imbg_parse_payload (imgb_header 512 A 3 4 ++ payload)).
    rewrite Hpay.
    rewrite (BM_diff_volume_short payload _ A Hoff HA) by lia.
    reflexivity.
Qed.

(** C7 as stated fails on Bit_Manipulation/confidence.py: the claim is for
    every angular count [A >= 3], but the loop over the angular rows runs to
    the fixed [EPI_UV = 9].  On 512 horizontal and 512 vertical EPIs of 512
    pixels by 3 angular rows, well formed containers as the EPI stage
    defines them, it produces no difference volume: row 2 is treated as an
    interior row, the read of row 3 at byte 13824 is past the payload, and
    the stage raises IndexError. *)
Lemma confidence_bit_manipulation_three_samples :
  len (replicate 512 (imgb_header 512 3 3 4 ++ replicate (Z.to_nat 13824) Byte.x2a)) = 512 /\
  epi_volumes
    (replicate 512 (imgb_header 512 3 3 4 ++ replicate (Z.to_nat 13824) Byte.x2a)) 512 3 /\
  Bit_Manipulation.compute_from_epis_with_diffs
    (replicate 512 (imgb_header 512 3 3 4 ++ replicate (Z.to_nat 13824) Byte.x2a))
    (replicate 512 (imgb_header 512 3 3 4 ++ replicate (Z.to_nat 13824) Byte.x2a))
    None = Raise IndexError.
Proof.
  assert (Hepis : epi_volumes
            (replicate 512 (imgb_header 512 3 3 4 ++ replicate (Z.to_nat 13824) Byte.x2a))
            512 3).
  { apply Forall_replicate. exists (replicate (Z.to_nat 13824) Byte.x2a).
    split; [reflexivity|]. rewrite len_replicate. lia. }
  split; [reflexivity|]. split; [exact Hepis|].
  apply (BM_confidence_short _ _ None 3); [|lia|reflexivity|exact Hepis].
  exact I.
Qed.
